(** * Langfuse filter pipeline: a shallow embedding of the two adapter variants

    The repository holds two versions of one Open WebUI filter:
    - [pipelines-1.py], the strict variant (module [Strict]): validation and
      backend errors are re-raised to the caller;
    - [pipelines-3.py], the defensive variant (module [Defensive]): errors are
      caught at the call that produced them.

    Both are embedded over one model of the Python data they handle.

    Data.  A request or response body is JSON-decoded data.  Dictionaries and
    lists are objects in a store ([heap]), named by their location, because
    the handlers mutate them through several names ([metadata] and
    [body["metadata"]] are one object).  Scalars are [None], booleans,
    integers and strings; floating-point numbers are outside the model.
    Dictionaries keep insertion order and have string keys.

    Effects.  A handler is a function from the adapter state to an outcome
    (a value or a raised exception) and the state it leaves; mutations made
    before an exception stay.  The state holds the object store, the two
    registries of [self], the calls attempted on the Langfuse client, the
    printed lines and the count of uuids drawn.  What the surroundings decide
    is read from an environment [env]: the valves, the uuid source, which
    backend calls raise, and the imported helper
    [utils.pipelines.main.get_last_assistant_message].

    Debug rendering.  [json.dumps] and f-string rendering inside log lines
    cannot fail on JSON-decoded data and are not modelled; a printed line is
    recorded by the literal part of its format string. *)

From Stdlib Require Import ZArith String List Bool Lia DecimalString.
From stdpp Require Import base option list gmap strings countable.

Open Scope string_scope.
Open Scope list_scope.

(** ** Python values *)

Definition loc := nat.

Inductive val :=
| VNone
| VBool (b : bool)
| VInt (z : Z)
| VStr (s : string)
| VRef (l : loc).

(** A [dict] object: insertion-ordered, string keys. *)
Definition dict := list (string * val).

Inductive obj :=
| ODict (d : dict)
| OList (xs : list val).

#[global] Instance val_eq_dec : EqDecision val.
Proof. solve_decision. Defined.

#[global] Instance obj_eq_dec : EqDecision obj.
Proof. solve_decision. Defined.

Fixpoint dict_get (d : dict) (k : string) : option val :=
  match d with
  | [] => None
  | (k', v) :: d' => if String.eqb k k' then Some v else dict_get d' k
  end.

(** [d[k] = v]: an existing key keeps its position, a new key goes last. *)
Fixpoint dict_set (d : dict) (k : string) (v : val) : dict :=
  match d with
  | [] => [(k, v)]
  | (k', v') :: d' =>
      if String.eqb k k' then (k', v) :: d' else (k', v') :: dict_set d' k v
  end.

Definition dict_has (d : dict) (k : string) : bool :=
  match dict_get d k with Some _ => true | None => false end.

(** Hashable values as dictionary keys. [True == 1] and [False == 0] in
    Python, with equal hashes, so a boolean names the same entry as its
    integer. *)
Inductive key :=
| KNone
| KInt (z : Z)
| KStr (s : string).

#[global] Instance key_eq_dec : EqDecision key.
Proof. solve_decision. Defined.

#[global] Instance key_countable : Countable key.
Proof.
  refine (inj_countable'
    (λ k, match k with
          | KNone => inl ()
          | KInt z => inr (inl z)
          | KStr s => inr (inr s)
          end)
    (λ x, match x with
          | inl _ => KNone
          | inr (inl z) => KInt z
          | inr (inr s) => KStr s
          end) _).
  by intros [].
Defined.

Definition to_key (v : val) : option key :=
  match v with
  | VNone => Some KNone
  | VBool b => Some (KInt (if b then 1 else 0))
  | VInt z => Some (KInt z)
  | VStr s => Some (KStr s)
  | VRef _ => None
  end.

(** [v == "s"] for a string literal [s]. *)
Definition str_is (v : val) (s : string) : bool :=
  match v with
  | VStr s' => String.eqb s' s
  | _ => false
  end.

Definition deref (h : list obj) (v : val) : option obj :=
  match v with
  | VRef l => h !! l
  | _ => None
  end.

Definition as_dict (h : list obj) (v : val) : option dict :=
  match deref h v with
  | Some (ODict d) => Some d
  | _ => None
  end.

(** [isinstance(v, dict)] and [isinstance(v, str)]. *)
Definition is_dict (h : list obj) (v : val) : bool :=
  match as_dict h v with Some _ => true | None => false end.

Definition is_str (v : val) : bool :=
  match v with VStr _ => true | _ => false end.

(** Truth value of a Python object. *)
Definition truthy (h : list obj) (v : val) : bool :=
  match v with
  | VNone => false
  | VBool b => b
  | VInt z => negb (Z.eqb z 0)
  | VStr s => negb (String.eqb s "")
  | VRef l =>
      match h !! l with
      | Some (ODict []) => false
      | Some (OList []) => false
      | _ => true
      end
  end.

(** [a or b] on already evaluated operands. *)
Definition py_or (h : list obj) (a b : val) : val :=
  if truthy h a then a else b.

Definition str_of_Z (z : Z) : string := NilZero.string_of_int (Z.to_int z).

Fixpoint is_prefix (p s : string) : bool :=
  match p, s with
  | EmptyString, _ => true
  | String a p', String b s' => Ascii.eqb a b && is_prefix p' s'
  | String _ _, EmptyString => false
  end.

Fixpoint is_substring (p s : string) : bool :=
  is_prefix p s ||
  match s with
  | EmptyString => false
  | String _ s' => is_substring p s'
  end.

Fixpoint chars (s : string) : list val :=
  match s with
  | EmptyString => []
  | String a s' => VStr (String a EmptyString) :: chars s'
  end.

(** ** Exceptions and outcomes *)

Inductive exn :=
| AttributeError
| KeyError
| TypeError
| ValueError
| BackendError
| HelperError.

Inductive result (A : Type) :=
| Ok (a : A)
| Raise (e : exn).
Arguments Ok {A} a.
Arguments Raise {A} e.

(** ** The Langfuse client as seen by the adapter *)

(** A keyword argument is a value or the freshly built tag list. *)
Inductive arg :=
| AVal (v : val)
| ATags (ts : list val).

Definition kwargs := list (string * arg).

(** A trace handle is the position of the call that opened it. *)
Definition handle := nat.

Inductive call :=
| CTrace (p : kwargs)                    (* self.langfuse.trace( **p ) *)
| CUpdate (t : handle) (p : kwargs)      (* trace.update( **p ) *)
| CGeneration (t : handle) (p : kwargs)  (* trace.generation( **p ) *)
| CEnd (t : handle) (p : kwargs)         (* <generation>.end( **p ) *)
| CEvent (t : handle) (p : kwargs)       (* trace.event( **p ) *)
| CFlush.                                (* self.langfuse.flush() *)

Record valves := {
  insert_tags : bool;
  use_model_name_instead_of_id_for_generation : bool;
  debug : bool;
}.

Class env := {
  cfg : valves;
  (** the n-th string returned by [str(uuid.uuid4())] *)
  uuid4 : nat -> string;
  (** whether the n-th call made on the client raises *)
  faulty : nat -> bool;
  (** [utils.pipelines.main.get_last_assistant_message], imported *)
  get_last_assistant_message : list obj -> val -> result val;
  (** [str()] of a list or dict object *)
  str_obj : list obj -> loc -> string;
}.

(** ** Adapter state *)

Record state := {
  heap : list obj;
  (** [self.model_names]; each record is a dict owned by the registry alone *)
  model_names : gmap key dict;
  (** [self.chat_traces] *)
  chat_traces : gmap key handle;
  (** [self.langfuse is not None] *)
  langfuse : bool;
  (** calls attempted on the client, oldest first, with [true] for success *)
  backend : list (call * bool);
  (** printed lines, oldest first *)
  out : list string;
  (** uuids drawn so far *)
  uuids : nat;
}.

Definition set_heap (h : list obj) (st : state) : state :=
  {| heap := h; model_names := model_names st; chat_traces := chat_traces st;
     langfuse := langfuse st; backend := backend st; out := out st;
     uuids := uuids st |}.

Definition set_model_names (m : gmap key dict) (st : state) : state :=
  {| heap := heap st; model_names := m; chat_traces := chat_traces st;
     langfuse := langfuse st; backend := backend st; out := out st;
     uuids := uuids st |}.

Definition set_chat_traces (m : gmap key handle) (st : state) : state :=
  {| heap := heap st; model_names := model_names st; chat_traces := m;
     langfuse := langfuse st; backend := backend st; out := out st;
     uuids := uuids st |}.

Definition set_backend (b : list (call * bool)) (st : state) : state :=
  {| heap := heap st; model_names := model_names st;
     chat_traces := chat_traces st; langfuse := langfuse st; backend := b;
     out := out st; uuids := uuids st |}.

Definition set_out (o : list string) (st : state) : state :=
  {| heap := heap st; model_names := model_names st;
     chat_traces := chat_traces st; langfuse := langfuse st;
     backend := backend st; out := o; uuids := uuids st |}.

Definition set_uuids (n : nat) (st : state) : state :=
  {| heap := heap st; model_names := model_names st;
     chat_traces := chat_traces st; langfuse := langfuse st;
     backend := backend st; out := out st; uuids := n |}.

(** The state of a fresh [Pipeline()] after [on_startup], over a store. *)
Definition init (h : list obj) (client : bool) : state :=
  {| heap := h; model_names := ∅; chat_traces := ∅; langfuse := client;
     backend := []; out := []; uuids := 0 |}.

(** ** The monad of handler code *)

Definition M (A : Type) : Type := state -> result A * state.

Definition ret {A} (a : A) : M A := fun st => (Ok a, st).

Definition raise {A} (e : exn) : M A := fun st => (Raise e, st).

Definition bind {A B} (m : M A) (f : A -> M B) : M B :=
  fun st =>
    match m st with
    | (Ok a, st') => f a st'
    | (Raise e, st') => (Raise e, st')
    end.

(** [try: m  except Exception as e: h e] *)
Definition try_except {A} (m : M A) (h : exn -> M A) : M A :=
  fun st =>
    match m st with
    | (Ok a, st') => (Ok a, st')
    | (Raise e, st') => h e st'
    end.

(** [try: m  finally: fin]; an exception of [fin] replaces the outcome. *)
Definition try_finally {A} (m : M A) (fin : M unit) : M A :=
  fun st =>
    match m st with
    | (r, st1) =>
        match fin st1 with
        | (Ok _, st2) => (r, st2)
        | (Raise e, st2) => (Raise e, st2)
        end
    end.

Declare Scope py_scope.
Delimit Scope py_scope with py.
Notation "x <- m ;; k" := (bind m (fun x => k))
  (at level 100, m at next level, right associativity) : py_scope.
Notation "m ;; k" := (bind m (fun _ => k))
  (at level 100, right associativity) : py_scope.
Open Scope py_scope.

Definition when (b : bool) (m : M unit) : M unit :=
  if b then m else ret tt.

Definition of_result {A} (r : result A) : M A := fun st => (r, st).

Definition get_heap : M (list obj) := fun st => (Ok (heap st), st).

(** A new object; its location is the next free one. *)
Definition alloc (o : obj) : M val :=
  fun st => (Ok (VRef (length (heap st))), set_heap (heap st ++ [o]) st).

(** [v.get(k)], as the optional entry; only dicts have [get]. *)
Definition attr_get (v : val) (k : string) : M (option val) :=
  fun st =>
    match as_dict (heap st) v with
    | Some d => (Ok (dict_get d k), st)
    | None => (Raise AttributeError, st)
    end.

(** [v.get(k, dflt)] with [dflt] already evaluated. *)
Definition get_or (v : val) (k : string) (dflt : val) : M val :=
  r <- attr_get v k ;; ret (default dflt r).

(** [v[k]] for a string [k]. *)
Definition getitem (v : val) (k : string) : M val :=
  fun st =>
    match as_dict (heap st) v with
    | Some d =>
        match dict_get d k with
        | Some x => (Ok x, st)
        | None => (Raise KeyError, st)
        end
    | None => (Raise TypeError, st)
    end.

(** [v[k] = x] for a string [k]. *)
Definition setitem (v : val) (k : string) (x : val) : M unit :=
  fun st =>
    match v with
    | VRef l =>
        match heap st !! l with
        | Some (ODict d) =>
            (Ok tt, set_heap (<[l := ODict (dict_set d k x)]> (heap st)) st)
        | _ => (Raise TypeError, st)
        end
    | _ => (Raise TypeError, st)
    end.

(** [k in v] for a string [k]. *)
Definition contains (v : val) (k : string) : M bool :=
  fun st =>
    match v with
    | VStr s => (Ok (is_substring k s), st)
    | VRef l =>
        match heap st !! l with
        | Some (ODict d) => (Ok (dict_has d k), st)
        | Some (OList xs) => (Ok (existsb (fun x => str_is x k) xs), st)
        | None => (Raise TypeError, st)
        end
    | _ => (Raise TypeError, st)
    end.

(** Hashing a value to use it as a key of a dict or set. *)
Definition hash_key (v : val) : M key :=
  match to_key v with
  | Some k => ret k
  | None => raise TypeError
  end.

(** [reversed(v)], as the list of items it yields. *)
Definition reversed (v : val) : M (list val) :=
  fun st =>
    match v with
    | VStr s => (Ok (rev (chars s)), st)
    | VRef l =>
        match heap st !! l with
        | Some (OList xs) => (Ok (rev xs), st)
        | Some (ODict d) => (Ok (rev (map (fun kv => VStr (fst kv)) d)), st)
        | None => (Raise TypeError, st)
        end
    | _ => (Raise TypeError, st)
    end.

Definition print (s : string) : M unit :=
  fun st => (Ok tt, set_out (out st ++ [s]) st).

(** [self.model_names.get(k)] and [self.model_names[k] = r] *)
Definition registry_get (k : key) : M (option dict) :=
  fun st => (Ok (model_names st !! k), st).

Definition registry_set (k : key) (r : dict) : M unit :=
  fun st => (Ok tt, set_model_names (<[k := r]> (model_names st)) st).

(** [self.chat_traces.get(k)] and [self.chat_traces[k] = trace] *)
Definition traces_get (k : key) : M (option handle) :=
  fun st => (Ok (chat_traces st !! k), st).

Definition traces_set (k : key) (trace : handle) : M unit :=
  fun st => (Ok tt, set_chat_traces (<[k := trace]> (chat_traces st)) st).

(** [self.langfuse is not None] *)
Definition has_client : M bool := fun st => (Ok (langfuse st), st).

Section Adapter.

Context {E : env}.

(** [str(uuid.uuid4())] *)
Definition uuid : M string :=
  fun st => (Ok (uuid4 (uuids st)), set_uuids (S (uuids st)) st).

(** [str(v)], as an f-string renders it. *)
Definition py_str (h : list obj) (v : val) : string :=
  match v with
  | VNone => "None"
  | VBool true => "True"
  | VBool false => "False"
  | VInt z => str_of_Z z
  | VStr s => s
  | VRef l => str_obj h l
  end.

(** [Pipeline.log] *)
Definition log (s : string) : M unit :=
  when (debug cfg) (print s).

(** A call on the client or on one of its trace objects. *)
Definition backend_call (c : call) : M handle :=
  fun st =>
    let n := length (backend st) in
    if faulty n
    then (Raise BackendError, set_backend (backend st ++ [(c, false)]) st)
    else (Ok n, set_backend (backend st ++ [(c, true)]) st).

(** A method call on [self.langfuse], which may be [None]. *)
Definition client_call (c : call) : M handle :=
  fun st => if langfuse st then backend_call c st else (Raise AttributeError, st).

(** [get_last_assistant_message_obj] (identical in both files) *)
Fixpoint scan_assistant (ms : list val) : M val :=
  match ms with
  | [] => alloc (ODict [])
  | message :: rest =>
      role <- getitem message "role" ;;
      if str_is role "assistant" then ret message else scan_assistant rest
  end.

Definition get_last_assistant_message_obj (messages : val) : M val :=
  ms <- reversed messages ;;
  scan_assistant ms.

(** [Pipeline._build_tags] (identical in both files, the strict one logs) *)
Definition untagged (task_name : val) : bool :=
  str_is task_name "user_response" || str_is task_name "llm_response".

Definition build_tags (task_name : val) : list val :=
  if insert_tags cfg
  then VStr "open-webui" :: (if untagged task_name then [] else [task_name])
  else [].

(** [task_name in self.GENERATION_TASKS]: membership in a set hashes. *)
Definition in_generation_tasks (task_name : val) : M bool :=
  _ <- hash_key task_name ;;
  ret (str_is task_name "llm_response").

Definition with_tags (tags_list : list val) (p : kwargs) : kwargs :=
  match tags_list with
  | [] => p
  | _ => p ++ [("tags", ATags tags_list)]
  end.

(** [v.get(k, str(uuid.uuid4()))]: the attribute is looked up, then the
    default is evaluated, then the call is made. *)
Definition get_or_uuid (v : val) (k : string) : M val :=
  r <- attr_get v k ;;
  u <- uuid ;;
  ret (default (VStr u) r).

(** [f"temporary-session-{session_id}"] *)
Definition temporary_session (h : list obj) (session_id : val) : val :=
  VStr ("temporary-session-" +:+ py_str h session_id).

(** [self.model_names.get(chat_id, {}).get(field, dflt)] *)
Definition registry_field (k : key) (field : string) (dflt : val) : M val :=
  r <- registry_get k ;;
  match r with
  | Some r => ret (default dflt (dict_get r field))
  | None => ret dflt
  end.

(** [user.get("email") if user else <other>] *)
Definition user_email_or (user other : val) : M val :=
  h <- get_heap ;;
  if truthy h user then get_or user "email" VNone else ret other.

(** The token counts of a usage dict (lines 244-246 of the strict file,
    327-329 of the defensive one): each count is [first or second], and
    both must differ from [None]. *)
Definition usage_counts (h : list obj) (info : dict) : option (val * val) :=
  let input_tokens :=
    py_or h (default VNone (dict_get info "prompt_eval_count"))
            (default VNone (dict_get info "prompt_tokens")) in
  let output_tokens :=
    py_or h (default VNone (dict_get info "eval_count"))
            (default VNone (dict_get info "completion_tokens")) in
  match input_tokens, output_tokens with
  | VNone, _ => None
  | _, VNone => None
  | i, o => Some (i, o)
  end.

(** Usage extraction off the last assistant message (lines 240-252 of the
    strict file, 323-335 of the defensive one); [None] or a new dict. *)
Definition extract_usage (assistant_message_obj : val) : M val :=
  h <- get_heap ;;
  if truthy h assistant_message_obj then
    info <- attr_get assistant_message_obj "usage" ;;
    match (match info with
           | Some v => as_dict h v
           | None => Some []
           end) with
    | Some d =>
        match usage_counts h d with
        | Some (i, o) =>
            usage <- alloc (ODict [("input", i); ("output", o);
                                   ("unit", VStr "TOKENS")]) ;;
            log "Usage data extracted" ;;
            ret usage
        | None => ret VNone
        end
    | None => ret VNone
    end
  else ret VNone.

End Adapter.

(** ** The strict variant: [pipelines-1.py] *)

Module Strict.
Section Handlers.

Context {E : env}.

(** [inlet], lines 109-119: the metadata object and the conversation id. *)
Definition resolve (body : val) : M (val * val) :=
  m <- attr_get body "metadata" ;;
  metadata <- match m with
              | Some v => ret v
              | None => alloc (ODict [])
              end ;;
  chat_id <- get_or_uuid metadata "chat_id" ;;
  chat_id <- (if str_is chat_id "local" then
                session_id <- get_or_uuid metadata "session_id" ;;
                h <- get_heap ;;
                log "Generated temporary chat_id" ;;
                ret (temporary_session h session_id)
              else ret chat_id) ;;
  setitem metadata "chat_id" chat_id ;;
  setitem body "metadata" metadata ;;
  ret (metadata, chat_id).

(** [inlet], lines 121-130: the model registry. *)
Definition store_model (body metadata chat_id : val) : M key :=
  model_info <- attr_get metadata "model" ;;
  model_id <- get_or body "model" VNone ;;
  k <- hash_key chat_id ;;
  r <- registry_get k ;;
  match r with
  | None => registry_set k [("id", model_id)]
  | Some r => registry_set k (dict_set r "id" model_id)
  end ;;
  h <- get_heap ;;
  match (match model_info with
         | Some mi => match as_dict h mi with
                      | Some d => dict_get d "name"
                      | None => None
                      end
         | None => None
         end) with
  | Some name =>
      r <- registry_get k ;;
      match r with
      | Some r => registry_set k (dict_set r "name" name)
      | None => raise KeyError
      end ;;
      log "Stored model info" ;;
      ret k
  | None => ret k
  end.

(** [inlet], lines 132-137: the required keys. *)
Definition validate (body : val) : M unit :=
  has_model <- contains body "model" ;;
  has_messages <- contains body "messages" ;;
  if has_model && has_messages then ret tt
  else (log "Error: Missing keys in request body" ;; raise ValueError).

(** [inlet], lines 145-168: open the conversation's trace or reuse it. *)
Definition open_or_reuse (body metadata chat_id user_email : val) (k : key)
    (tags_list : list val) : M handle :=
  t <- traces_get k ;;
  match t with
  | None =>
      log "Creating new trace for chat_id" ;;
      h <- get_heap ;;
      let trace_payload := with_tags tags_list
        [("name", AVal (VStr ("chat:" +:+ py_str h chat_id)));
         ("input", AVal body);
         ("user_id", AVal user_email);
         ("metadata", AVal metadata);
         ("session_id", AVal chat_id)] in
      log "Langfuse trace request" ;;
      try_except
        (trace <- client_call (CTrace trace_payload) ;;
         traces_set k trace ;;
         ret trace)
        (fun e => log "Failed to create Langfuse trace" ;; raise e)
  | Some trace =>
      log "Reusing existing trace for chat_id" ;;
      match tags_list with
      | [] => ret trace
      | _ => backend_call (CUpdate trace [("tags", ATags tags_list)]) ;;
             ret trace
      end
  end.

(** [inlet], lines 170-210: the start record. *)
Definition record_start (body metadata task_name : val) (k : key)
    (trace : handle) (tags_list : list val) : M unit :=
  setitem metadata "type" task_name ;;
  setitem metadata "interface" (VStr "open-webui") ;;
  generation <- in_generation_tasks task_name ;;
  if generation then
    dflt <- getitem body "model" ;;
    model_id <- registry_field k "id" dflt ;;
    model_name <- registry_field k "name" (VStr "unknown") ;;
    let model_value :=
      if use_model_name_instead_of_id_for_generation cfg
      then model_name else model_id in
    setitem metadata "model_id" model_id ;;
    setitem metadata "model_name" model_name ;;
    h <- get_heap ;;
    u <- uuid ;;
    input <- getitem body "messages" ;;
    let generation_payload := with_tags tags_list
      [("name", AVal (VStr (py_str h task_name +:+ ":" +:+ u)));
       ("model", AVal model_value);
       ("input", AVal input);
       ("metadata", AVal metadata)] in
    log "Langfuse generation request" ;;
    try_except
      (backend_call (CGeneration trace generation_payload) ;; ret tt)
      (fun e => log "Failed to create Langfuse generation" ;; raise e)
  else
    h <- get_heap ;;
    u <- uuid ;;
    input <- getitem body "messages" ;;
    let event_payload := with_tags tags_list
      [("name", AVal (VStr (py_str h task_name +:+ ":" +:+ u)));
       ("metadata", AVal metadata);
       ("input", AVal input)] in
    log "Langfuse event request" ;;
    try_except
      (backend_call (CEvent trace event_payload) ;; ret tt)
      (fun e => log "Failed to create Langfuse event" ;; raise e).

(** [inlet], lines 121-213: what is done with the metadata object and the
    conversation id. *)
Definition inlet_rest (body user metadata chat_id : val) : M val :=
  k <- store_model body metadata chat_id ;;
  validate body ;;
  user_email <- user_email_or user VNone ;;
  task_name <- get_or metadata "task" (VStr "user_response") ;;
  log "Task name" ;;
  let tags_list := build_tags task_name in
  log "Built tags" ;;
  trace <- open_or_reuse body metadata chat_id user_email k tags_list ;;
  record_start body metadata task_name k trace tags_list ;;
  log "Inlet processing completed" ;;
  ret body.

Definition inlet (body user : val) : M val :=
  log "Inlet called with body" ;;
  log "User" ;;
  mc <- resolve body ;;
  inlet_rest body user (fst mc) (snd mc).

(** [outlet], lines 216-229: the conversation id, the metadata object, the
    task name and the tags. *)
Definition outlet_resolve (body : val) : M (val * val * val) :=
  log "Outlet called with body" ;;
  log "User" ;;
  chat_id <- get_or body "chat_id" VNone ;;
  chat_id <- (if str_is chat_id "local" then
                session_id <- get_or_uuid body "session_id" ;;
                h <- get_heap ;;
                log "Generated temporary chat_id" ;;
                ret (temporary_session h session_id)
              else ret chat_id) ;;
  m <- attr_get body "metadata" ;;
  metadata <- match m with
              | Some v => ret v
              | None => alloc (ODict [])
              end ;;
  task_name <- get_or metadata "task" (VStr "llm_response") ;;
  log "Task name" ;;
  log "Built tags" ;;
  ret (chat_id, metadata, task_name).

(** [outlet], lines 235-303: the end record on an open trace. *)
Definition record_end (body metadata chat_id task_name : val) (k : key)
    (trace : handle) (tags_list : list val) : M val :=
  messages <- getitem body "messages" ;;
  h <- get_heap ;;
  assistant_message <- of_result (get_last_assistant_message h messages) ;;
  messages <- getitem body "messages" ;;
  assistant_message_obj <- get_last_assistant_message_obj messages ;;
  usage <- extract_usage assistant_message_obj ;;
  backend_call (CUpdate trace [("output", AVal assistant_message)]) ;;
  setitem metadata "type" task_name ;;
  setitem metadata "interface" (VStr "open-webui") ;;
  generation <- in_generation_tasks task_name ;;
  if generation then
    dflt <- get_or body "model" VNone ;;
    model_id <- registry_field k "id" dflt ;;
    model_name <- registry_field k "name" (VStr "unknown") ;;
    let model_value :=
      if use_model_name_instead_of_id_for_generation cfg
      then model_name else model_id in
    setitem metadata "model_id" model_id ;;
    setitem metadata "model_name" model_name ;;
    h <- get_heap ;;
    u <- uuid ;;
    input <- getitem body "messages" ;;
    let generation_payload := with_tags tags_list
      [("name", AVal (VStr (py_str h task_name +:+ ":" +:+ u)));
       ("model", AVal model_value);
       ("input", AVal input);
       ("metadata", AVal metadata);
       ("usage", AVal usage)] in
    log "Langfuse generation end request" ;;
    try_except
      (g <- backend_call (CGeneration trace []) ;;
       backend_call (CEnd g generation_payload) ;;
       log "Generation ended for chat_id")
      (fun e => log "Failed to end Langfuse generation" ;; raise e) ;;
    log "Outlet processing completed" ;;
    ret body
  else
    h <- get_heap ;;
    u <- uuid ;;
    input <- getitem body "messages" ;;
    let event_payload := with_tags tags_list
      [("name", AVal (VStr (py_str h task_name +:+ ":" +:+ u)));
       ("metadata", AVal metadata);
       ("input", AVal input)] in
    h <- get_heap ;;
    when (truthy h usage) (setitem metadata "usage" usage) ;;
    log "Langfuse event end request" ;;
    try_except
      (backend_call (CEvent trace event_payload) ;;
       log "Event logged for chat_id")
      (fun e => log "Failed to log Langfuse event" ;; raise e) ;;
    log "Outlet processing completed" ;;
    ret body.

Definition outlet (body user : val) : M val :=
  r <- outlet_resolve body ;;
  let '(chat_id, metadata, task_name) := r in
  let tags_list := build_tags task_name in
  k <- hash_key chat_id ;;
  t <- traces_get k ;;
  match t with
  | None =>
      log "[WARNING] No matching trace for chat_id, re-running inlet" ;;
      inlet body user
  | Some trace =>
      record_end body metadata chat_id task_name k trace tags_list
  end.

End Handlers.
End Strict.

(** ** The defensive variant: [pipelines-3.py] *)

Module Defensive.
Section Handlers.

Context {E : env}.

(** [list(body.keys())] inside a log line: only a dict has [keys]. *)
Definition keys_of (body : val) : M unit :=
  _ <- attr_get body "" ;; ret tt.

(** [body.get("metadata", {}).get(k)] *)
Definition nested_get (body : val) (k : string) : M val :=
  m <- attr_get body "metadata" ;;
  match m with
  | Some v => get_or v k VNone
  | None => ret VNone
  end.

(** [a or <m>], the right operand evaluated only when [a] is false. *)
Definition or_else (a : val) (m : M val) : M val :=
  h <- get_heap ;;
  if truthy h a then ret a else m.

(** The "local" rewrite of lines 131-134 and 297-300. *)
Definition rewrite_local (body chat_id : val) : M val :=
  if str_is chat_id "local" then
    a <- get_or body "session_id" VNone ;;
    session_id <- or_else a (nested_get body "session_id") ;;
    h <- get_heap ;;
    if truthy h session_id then ret (temporary_session h session_id)
    else ret chat_id
  else ret chat_id.

(** [if k in body: metadata[k] = body[k]] *)
Definition copy_field (body metadata : val) (k : string) : M unit :=
  has <- contains body k ;;
  if has then (v <- getitem body k ;; setitem metadata k v) else ret tt.

(** [Pipeline._extract_metadata] *)
Definition extract_metadata (body : val) : M val :=
  has <- contains body "metadata" ;;
  if has then getitem body "metadata"
  else
    metadata <- alloc (ODict []) ;;
    a <- get_or body "chat_id" VNone ;;
    chat_id <- or_else a
      (b <- nested_get body "chat_id" ;;
       or_else b (u <- uuid ;; ret (VStr u))) ;;
    chat_id <- rewrite_local body chat_id ;;
    setitem metadata "chat_id" chat_id ;;
    copy_field body metadata "user_id" ;;
    copy_field body metadata "message_id" ;;
    copy_field body metadata "session_id" ;;
    copy_field body metadata "interface" ;;
    copy_field body metadata "type" ;;
    has_model <- contains body "model" ;;
    (if has_model then
       model <- getitem body "model" ;;
       h <- get_heap ;;
       if is_dict h model then setitem metadata "model" model
       else if is_str model then
         d <- alloc (ODict [("id", model)]) ;;
         setitem metadata "model" d
       else ret tt
     else ret tt) ;;
    ret metadata.

(** [inlet], lines 172-193: the model registry; returns the key, the model
    id and the model name. *)
Definition store_model (body metadata chat_id : val)
    : M (key * val * val) :=
  model_info <- attr_get metadata "model" ;;
  model_id <- get_or body "model" VNone ;;
  h <- get_heap ;;
  im <- (if is_dict h model_id then
           actual_model_id <- get_or model_id "id" (VStr "unknown") ;;
           model_name <- get_or model_id "name" (VStr "unknown") ;;
           ret (actual_model_id, model_name)
         else if is_str model_id then
           ret (model_id,
                match model_info with
                | Some mi =>
                    match as_dict h mi with
                    | Some d => default (VStr "unknown") (dict_get d "name")
                    | None => VStr "unknown"
                    end
                | None => VStr "unknown"
                end)
         else ret (VStr "unknown", VStr "unknown")) ;;
  let actual_model_id := fst im in
  let model_name := snd im in
  k <- hash_key chat_id ;;
  r <- registry_get k ;;
  match r with
  | None => registry_set k [("id", actual_model_id); ("name", model_name)]
  | Some r =>
      registry_set k
        (dict_set (dict_set r "id" actual_model_id) "name" model_name)
  end ;;
  log "Stored model info" ;;
  ret (k, actual_model_id, model_name).

(** [inlet], lines 195-202: a message list is made up when none is there. *)
Definition ensure_messages (body : val) : M unit :=
  has_messages <- contains body "messages" ;;
  has_input <- contains body "input" ;;
  if negb has_messages && negb has_input then
    has_prompt <- contains body "prompt" ;;
    if has_prompt then
      prompt <- getitem body "prompt" ;;
      message <- alloc (ODict [("role", VStr "user"); ("content", prompt)]) ;;
      messages <- alloc (OList [message]) ;;
      setitem body "messages" messages
    else
      log "Warning: No messages or input found in body" ;;
      messages <- alloc (OList []) ;;
      setitem body "messages" messages
  else ret tt.

(** [inlet], lines 210-241: open the conversation's trace or reuse it;
    [None] when the open call failed and [inlet] returns at once. *)
Definition open_or_reuse (body metadata chat_id user_email : val) (k : key)
    (tags_list : list val) : M (option handle) :=
  t <- traces_get k ;;
  match t with
  | None =>
      log "Creating new trace for chat_id" ;;
      h <- get_heap ;;
      input <- get_or body "messages" body ;;
      let trace_payload := with_tags tags_list
        [("name", AVal (VStr ("chat:" +:+ py_str h chat_id)));
         ("input", AVal input);
         ("user_id", AVal user_email);
         ("metadata", AVal metadata);
         ("session_id", AVal chat_id)] in
      when (debug cfg) (print "[DEBUG] Langfuse trace request") ;;
      try_except
        (trace <- client_call (CTrace trace_payload) ;;
         traces_set k trace ;;
         ret (Some trace))
        (fun e => log "Error creating trace" ;; ret None)
  | Some trace =>
      log "Reusing existing trace for chat_id" ;;
      match tags_list with
      | [] => ret (Some trace)
      | _ =>
          try_except
            (backend_call (CUpdate trace [("tags", ATags tags_list)]) ;;
             ret tt)
            (fun e => log "Error updating trace tags") ;;
          ret (Some trace)
      end
  end.

(** [inlet], lines 242-283: the start record. *)
Definition record_start (body metadata task_name actual_model_id model_name
    : val) (trace : handle) (tags_list : list val) : M unit :=
  setitem metadata "type" task_name ;;
  interface <- get_or metadata "interface" (VStr "open-webui") ;;
  setitem metadata "interface" interface ;;
  try_except
    (generation <- in_generation_tasks task_name ;;
     if generation then
       let model_value :=
         if use_model_name_instead_of_id_for_generation cfg
         then model_name else actual_model_id in
       setitem metadata "model_id" actual_model_id ;;
       setitem metadata "model_name" model_name ;;
       h <- get_heap ;;
       u <- uuid ;;
       m <- attr_get body "messages" ;;
       input <- match m with
                | Some v => ret v
                | None => alloc (OList [])
                end ;;
       let generation_payload := with_tags tags_list
         [("name", AVal (VStr (py_str h task_name +:+ ":" +:+ u)));
          ("model", AVal model_value);
          ("input", AVal input);
          ("metadata", AVal metadata)] in
       when (debug cfg) (print "[DEBUG] Langfuse generation request") ;;
       backend_call (CGeneration trace generation_payload) ;;
       ret tt
     else
       h <- get_heap ;;
       u <- uuid ;;
       input <- get_or body "messages" body ;;
       let event_payload := with_tags tags_list
         [("name", AVal (VStr (py_str h task_name +:+ ":" +:+ u)));
          ("metadata", AVal metadata);
          ("input", AVal input)] in
       when (debug cfg) (print "[DEBUG] Langfuse event request") ;;
       backend_call (CEvent trace event_payload) ;;
       ret tt)
    (fun e => log "Error logging to Langfuse").

(** [inlet], lines 167-285: what is done with the metadata object. *)
Definition inlet_rest (body user metadata : val) : M val :=
  chat_id <- get_or metadata "chat_id" VNone ;;
  setitem body "metadata" metadata ;;
  kmn <- store_model body metadata chat_id ;;
  let '(k, actual_model_id, model_name) := kmn in
  ensure_messages body ;;
  other <- get_or metadata "user_id" VNone ;;
  user_email <- user_email_or user other ;;
  dflt <- get_or metadata "type" (VStr "user_response") ;;
  task_name <- get_or metadata "task" dflt ;;
  let tags_list := build_tags task_name in
  trace <- open_or_reuse body metadata chat_id user_email k tags_list ;;
  match trace with
  | None => ret body
  | Some trace =>
      record_start body metadata task_name actual_model_id model_name
        trace tags_list ;;
      ret body
  end.

Definition inlet (body user : val) : M val :=
  when (debug cfg) (print "[DEBUG] Received request") ;;
  keys_of body ;;
  log "Inlet function called with body keys" ;;
  metadata <- extract_metadata body ;;
  inlet_rest body user metadata.

(** [outlet], lines 290-300: the conversation id of a response. *)
Definition outlet_chat_id (body : val) : M val :=
  a <- get_or body "chat_id" VNone ;;
  chat_id <- or_else a (nested_get body "chat_id") ;;
  rewrite_local body chat_id.

(** [outlet], lines 318-335: the messages, the last assistant message and
    the usage record. *)
Definition gather (body : val) : M (val * val * val) :=
  m <- attr_get body "messages" ;;
  messages <- match m with
              | Some v => ret v
              | None => alloc (OList [])
              end ;;
  h <- get_heap ;;
  assistant_message <-
    (if truthy h messages
     then of_result (get_last_assistant_message h messages)
     else ret (VStr "")) ;;
  assistant_message_obj <-
    (if truthy h messages
     then get_last_assistant_message_obj messages
     else alloc (ODict [])) ;;
  usage <- extract_usage assistant_message_obj ;;
  ret (messages, assistant_message, usage).

(** [outlet], lines 337-396: the output update and the end record. *)
Definition emit_end (body metadata task_name : val) (k : key)
    (trace : handle) (tags_list : list val)
    (messages assistant_message usage : val) : M val :=
  h <- get_heap ;;
  try_except
    (backend_call (CUpdate trace
       [("output", AVal (py_or h assistant_message body))]) ;;
     ret tt)
    (fun e => log "Error updating trace output") ;;
  setitem metadata "type" task_name ;;
  interface <- get_or metadata "interface" (VStr "open-webui") ;;
  setitem metadata "interface" interface ;;
  try_except
    (generation <- in_generation_tasks task_name ;;
     if generation then
       model_id <- registry_field k "id" (VStr "unknown") ;;
       model_name <- registry_field k "name" (VStr "unknown") ;;
       let model_value :=
         if use_model_name_instead_of_id_for_generation cfg
         then model_name else model_id in
       setitem metadata "model_id" model_id ;;
       setitem metadata "model_name" model_name ;;
       h <- get_heap ;;
       u <- uuid ;;
       let generation_payload := with_tags tags_list
         ([("name", AVal (VStr (py_str h task_name +:+ ":" +:+ u)));
           ("model", AVal model_value);
           ("input", AVal messages);
           ("output", AVal assistant_message);
           ("metadata", AVal metadata)] ++
          (if truthy h usage then [("usage", AVal usage)] else [])) in
       when (debug cfg) (print "[DEBUG] Langfuse generation end request") ;;
       g <- backend_call (CGeneration trace []) ;;
       backend_call (CEnd g generation_payload) ;;
       log "Generation ended for chat_id"
     else
       h <- get_heap ;;
       u <- uuid ;;
       let event_payload := with_tags tags_list
         [("name", AVal (VStr (py_str h task_name +:+ ":" +:+ u)));
          ("metadata", AVal metadata);
          ("input", AVal messages);
          ("output", AVal assistant_message)] in
       when (truthy h usage) (setitem metadata "usage" usage) ;;
       when (debug cfg) (print "[DEBUG] Langfuse event end request") ;;
       backend_call (CEvent trace event_payload) ;;
       log "Event logged for chat_id")
    (fun e => log "Error completing Langfuse logging") ;;
  ret body.

(** [outlet], lines 316-396: the end record on an open trace. *)
Definition record_end (body metadata task_name : val) (k : key)
    (trace : handle) (tags_list : list val) : M val :=
  g <- gather body ;;
  let '(messages, assistant_message, usage) := g in
  emit_end body metadata task_name k trace tags_list
    messages assistant_message usage.

(** [outlet], lines 302-396: what is done with the conversation id. *)
Definition outlet_rest (body chat_id : val) : M val :=
  h <- get_heap ;;
  if negb (truthy h chat_id) then
    log "Warning: No chat_id found in outlet" ;;
    ret body
  else
    m <- attr_get body "metadata" ;;
    metadata <- match m with
                | Some v => ret v
                | None => alloc (ODict [])
                end ;;
    dflt <- get_or metadata "type" (VStr "llm_response") ;;
    task_name <- get_or metadata "task" dflt ;;
    let tags_list := build_tags task_name in
    k <- hash_key chat_id ;;
    t <- traces_get k ;;
    match t with
    | None =>
        log "[WARNING] No matching trace found for chat_id" ;;
        ret body
    | Some trace =>
        record_end body metadata task_name k trace tags_list
    end.

(** [outlet], the statements of the outer [try] (lines 290-396). *)
Definition outlet_try (body user : val) : M val :=
  chat_id <- outlet_chat_id body ;;
  outlet_rest body chat_id.

(** [outlet], the [finally] block (lines 400-406). *)
Definition flush : M unit :=
  try_except
    (client <- has_client ;;
     if client then
       log "Forcing Langfuse flush in finally block." ;;
       backend_call CFlush ;;
       ret tt
     else ret tt)
    (fun e => print "[ERROR] Failed to flush Langfuse").

Definition outlet (body user : val) : M val :=
  keys_of body ;;
  log "Outlet function called with body keys" ;;
  try_finally
    (try_except (outlet_try body user)
       (fun e => log "Error in outlet" ;; ret body))
    flush.

End Handlers.
End Defensive.

(** * Reasoning about handler code *)

(** ** Running [bind] and the exception combinators *)

Lemma bind_run {A B} (m : M A) (f : A -> M B) st r st' :
  bind m f st = (r, st') ->
  (exists a st1, m st = (Ok a, st1) /\ f a st1 = (r, st')) \/
  (exists e, m st = (Raise e, st') /\ r = Raise e).
Proof.
  unfold bind. destruct (m st) as [[a | e] st1]; intros H.
  - left. eauto.
  - right. inversion H; subst. eauto.
Qed.

Lemma bind_ok {A B} (m : M A) (f : A -> M B) st b st' :
  bind m f st = (Ok b, st') ->
  exists a st1, m st = (Ok a, st1) /\ f a st1 = (Ok b, st').
Proof.
  intros H. apply bind_run in H as [H | (e & _ & H)]; [done | discriminate].
Qed.

Lemma bind_step {A B} (m : M A) (f : A -> M B) st a st1 :
  m st = (Ok a, st1) -> bind m f st = f a st1.
Proof. unfold bind. by intros ->. Qed.

Lemma bind_assoc {A B C} (m : M A) (f : A -> M B) (g : B -> M C) st :
  bind (bind m f) g st = bind m (fun x => bind (f x) g) st.
Proof. unfold bind. by destruct (m st) as [[a | e] st1]. Qed.

Lemma bind_raise {A B} (m : M A) (f : A -> M B) st e st1 :
  m st = (Raise e, st1) -> bind m f st = (Raise e, st1).
Proof. unfold bind. by intros ->. Qed.

(** ** Relations kept by every step of a piece of code *)

Definition preserves {A} (R : relation state) (m : M A) : Prop :=
  forall st r st', m st = (r, st') -> R st st'.

(** What a relation tolerates: a change of one component of the state. *)
Class TolHeap (R : relation state) :=
  tol_heap : forall st h, R st (set_heap h st).
Class TolAlloc (R : relation state) :=
  tol_alloc : forall st o, R st (set_heap (heap st ++ [o]) st).
Class TolSet (R : relation state) (v : val) (k : string) :=
  tol_set : forall st l d x,
    v = VRef l -> heap st !! l = Some (ODict d) ->
    R st (set_heap (<[l := ODict (dict_set d k x)]> (heap st)) st).
Class TolOut (R : relation state) :=
  tol_out : forall st s, R st (set_out (out st ++ [s]) st).
Class TolUuids (R : relation state) :=
  tol_uuids : forall st n, R st (set_uuids n st).
Class TolModels (R : relation state) :=
  tol_models : forall st m, R st (set_model_names m st).
Class TolTraces (R : relation state) :=
  tol_traces : forall st m, R st (set_chat_traces m st).
Class TolModelsAt (R : relation state) (k : key) :=
  tol_models_at : forall st r,
    R st (set_model_names (<[k := r]> (model_names st)) st).
Class TolTracesAt (R : relation state) (k : key) :=
  tol_traces_at : forall st t,
    R st (set_chat_traces (<[k := t]> (chat_traces st)) st).

#[global] Instance tol_heap_alloc R `{!TolHeap R} : TolAlloc R.
Proof. intros st o. apply tol_heap. Qed.
#[global] Instance tol_heap_set R `{!TolHeap R} v k : TolSet R v k.
Proof. intros st l d x _ _. apply tol_heap. Qed.
#[global] Instance tol_models_any R `{!TolModels R} k : TolModelsAt R k.
Proof. intros st r. apply tol_models. Qed.
#[global] Instance tol_traces_any R `{!TolTraces R} k : TolTracesAt R k.
Proof. intros st t. apply tol_traces. Qed.
Class TolCall (R : relation state) (c : call) :=
  tol_call : forall st ok, R st (set_backend (backend st ++ [(c, ok)]) st).

Section Preserves.

Context {E : env} (R : relation state) `{!PreOrder R}.

Lemma preserves_ret {A} (a : A) : preserves R (ret a).
Proof. intros st r st' H. inversion H; subst. reflexivity. Qed.

Lemma preserves_raise {A} e : preserves R (@raise A e).
Proof. intros st r st' H. inversion H; subst. reflexivity. Qed.

Lemma preserves_of_result {A} (x : result A) : preserves R (of_result x).
Proof. intros st r st' H. inversion H; subst. reflexivity. Qed.

Lemma preserves_bind {A B} (m : M A) (f : A -> M B) :
  preserves R m -> (forall a, preserves R (f a)) -> preserves R (bind m f).
Proof.
  intros Hm Hf st r st' H.
  apply bind_run in H as [(a & st1 & H1 & H2) | (e & H1 & _)].
  - etransitivity; [by eapply Hm | by eapply Hf].
  - by eapply Hm.
Qed.

Lemma preserves_try_except {A} (m : M A) (h : exn -> M A) :
  preserves R m -> (forall e, preserves R (h e)) ->
  preserves R (try_except m h).
Proof.
  intros Hm Hh st r st'. unfold try_except.
  destruct (m st) as [[a | e] st1] eqn:H1; intros H.
  - inversion H; subst. by eapply Hm.
  - etransitivity; [by eapply Hm | by eapply Hh].
Qed.

Lemma preserves_try_finally {A} (m : M A) (fin : M unit) :
  preserves R m -> preserves R fin -> preserves R (try_finally m fin).
Proof.
  intros Hm Hf st r st'. unfold try_finally.
  destruct (m st) as [r1 st1] eqn:H1.
  destruct (fin st1) as [[[] | e] st2] eqn:H2; intros H; inversion H; subst;
    (etransitivity; [by eapply Hm | by eapply Hf]).
Qed.

Lemma preserves_when b (m : M unit) :
  preserves R m -> preserves R (when b m).
Proof. destruct b; [done | intros _; apply preserves_ret]. Qed.

Lemma preserves_get_heap : preserves R get_heap.
Proof. intros st r st' H. inversion H; subst. reflexivity. Qed.

Lemma preserves_has_client : preserves R has_client.
Proof. intros st r st' H. inversion H; subst. reflexivity. Qed.

Lemma preserves_registry_get k : preserves R (registry_get k).
Proof. intros st r st' H. inversion H; subst. reflexivity. Qed.

Lemma preserves_traces_get k : preserves R (traces_get k).
Proof. intros st r st' H. inversion H; subst. reflexivity. Qed.

Lemma preserves_attr_get v k : preserves R (attr_get v k).
Proof.
  intros st r st'. unfold attr_get.
  destruct (as_dict _ _); intros H; inversion H; subst; reflexivity.
Qed.

Lemma preserves_get_or v k d : preserves R (get_or v k d).
Proof.
  apply preserves_bind; [apply preserves_attr_get | intros; apply preserves_ret].
Qed.

Lemma preserves_getitem v k : preserves R (getitem v k).
Proof.
  intros st r st'. unfold getitem.
  destruct (as_dict _ _) as [d |]; [destruct (dict_get d k) |];
    intros H; inversion H; subst; reflexivity.
Qed.

Lemma preserves_contains v k : preserves R (contains v k).
Proof.
  intros st r st'. unfold contains.
  destruct v; try (intros H; inversion H; subst; reflexivity).
  destruct (heap st !! l) as [[] |]; intros H; inversion H; subst; reflexivity.
Qed.

Lemma preserves_hash_key v : preserves R (hash_key v).
Proof.
  unfold hash_key. destruct (to_key v);
    [apply preserves_ret | apply preserves_raise].
Qed.

Lemma preserves_reversed v : preserves R (reversed v).
Proof.
  intros st r st'. unfold reversed.
  destruct v; try (intros H; inversion H; subst; reflexivity).
  destruct (heap st !! l) as [[] |]; intros H; inversion H; subst; reflexivity.
Qed.

Lemma preserves_alloc `{!TolAlloc R} o : preserves R (alloc o).
Proof. intros st r st' H. inversion H; subst. apply tol_alloc. Qed.

Lemma preserves_setitem v k x `{!TolSet R v k} : preserves R (setitem v k x).
Proof.
  intros st r st'. unfold setitem.
  destruct v; try (intros H; inversion H; subst; reflexivity).
  destruct (heap st !! l) as [[] |] eqn:Hl; intros H; inversion H; subst;
    first [by eapply tol_set | reflexivity].
Qed.

Lemma preserves_print `{!TolOut R} s : preserves R (print s).
Proof. intros st r st' H. inversion H; subst. apply tol_out. Qed.

Lemma preserves_log `{!TolOut R} s : preserves R (log s).
Proof. apply preserves_when, preserves_print. Qed.

Lemma preserves_uuid `{!TolUuids R} : preserves R uuid.
Proof. intros st r st' H. inversion H; subst. apply tol_uuids. Qed.

Lemma preserves_get_or_uuid `{!TolUuids R} v k : preserves R (get_or_uuid v k).
Proof.
  apply preserves_bind; [apply preserves_attr_get | intros].
  apply preserves_bind; [apply preserves_uuid | intros; apply preserves_ret].
Qed.

Lemma preserves_registry_set k r `{!TolModelsAt R k} :
  preserves R (registry_set k r).
Proof. intros st r' st' H. inversion H; subst. apply tol_models_at. Qed.

Lemma preserves_traces_set k t `{!TolTracesAt R k} :
  preserves R (traces_set k t).
Proof. intros st r' st' H. inversion H; subst. apply tol_traces_at. Qed.

Lemma preserves_backend_call c `{!TolCall R c} : preserves R (backend_call c).
Proof.
  intros st r st'. unfold backend_call.
  destruct (faulty _); intros H; inversion H; subst; apply tol_call.
Qed.

Lemma preserves_client_call c `{!TolCall R c} : preserves R (client_call c).
Proof.
  intros st r st'. unfold client_call. destruct (langfuse st).
  - apply preserves_backend_call; done.
  - intros H; inversion H; subst; reflexivity.
Qed.

Lemma preserves_registry_field k f d : preserves R (registry_field k f d).
Proof.
  apply preserves_bind; [apply preserves_registry_get | intros [r |]];
    apply preserves_ret.
Qed.

Lemma preserves_scan_assistant `{!TolAlloc R} ms : preserves R (scan_assistant ms).
Proof.
  induction ms as [| m ms IH]; simpl.
  - apply preserves_alloc.
  - apply preserves_bind; [apply preserves_getitem | intros role].
    destruct (str_is role "assistant"); [apply preserves_ret | done].
Qed.

End Preserves.

(** One step of a proof that a piece of code keeps a relation, chosen by the
    head of the code. *)
Ltac pres_step :=
  lazymatch goal with
  | |- preserves _ (bind _ _) => apply preserves_bind
  | |- preserves _ (ret _) => apply preserves_ret
  | |- preserves _ (raise _) => apply preserves_raise
  | |- preserves _ (of_result _) => apply preserves_of_result
  | |- preserves _ get_heap => apply preserves_get_heap
  | |- preserves _ has_client => apply preserves_has_client
  | |- preserves _ (registry_get _) => apply preserves_registry_get
  | |- preserves _ (traces_get _) => apply preserves_traces_get
  | |- preserves _ (attr_get _ _) => apply preserves_attr_get
  | |- preserves _ (get_or _ _ _) => apply preserves_get_or
  | |- preserves _ (getitem _ _) => apply preserves_getitem
  | |- preserves _ (contains _ _) => apply preserves_contains
  | |- preserves _ (hash_key _) => apply preserves_hash_key
  | |- preserves _ (reversed _) => apply preserves_reversed
  | |- preserves _ (registry_field _ _ _) => apply preserves_registry_field
  | |- preserves _ (alloc _) => apply preserves_alloc
  | |- preserves _ (setitem _ _ _) => apply preserves_setitem
  | |- preserves _ (print _) => apply preserves_print
  | |- preserves _ (log _) => apply preserves_log
  | |- preserves _ uuid => apply preserves_uuid
  | |- preserves _ (get_or_uuid _ _) => apply preserves_get_or_uuid
  | |- preserves _ (registry_set _ _) => apply preserves_registry_set
  | |- preserves _ (traces_set _ _) => apply preserves_traces_set
  | |- preserves _ (backend_call _) => apply preserves_backend_call
  | |- preserves _ (client_call _) => apply preserves_client_call
  | |- preserves _ (scan_assistant _) => apply preserves_scan_assistant
  | |- preserves _ (when _ _) => apply preserves_when
  | |- preserves _ (try_except _ _) => apply preserves_try_except
  | |- preserves _ (try_finally _ _) => apply preserves_try_finally
  | |- preserves _ (match ?x with _ => _ end) => destruct x
  | |- forall _, _ => intros
  | |- PreOrder _ => exact _
  | |- TolHeap _ => exact _
  | |- TolAlloc _ => exact _
  | |- TolSet _ _ _ => exact _
  | |- TolModelsAt _ _ => exact _
  | |- TolTracesAt _ _ => exact _
  | |- TolOut _ => exact _
  | |- TolUuids _ => exact _
  | |- TolModels _ => exact _
  | |- TolTraces _ => exact _
  | |- TolCall _ _ => exact _
  end.

Ltac pres := repeat pres_step.

(** * Concrete surroundings for worked runs *)

(** Modelled from the spec: [utils.pipelines.main.get_last_assistant_message]
    is imported by both files and is not among the sources.  The spec says of
    it "Extract last assistant message (may be empty string if none)": the
    content of the last message whose role is "assistant", and the empty
    string when there is none.  Only the worked runs below use it; every
    general theorem holds for any helper. *)
Fixpoint last_content (h : list obj) (ms : list val) : result val :=
  match ms with
  | [] => Ok (VStr "")
  | m :: rest =>
      match as_dict h m with
      | Some d =>
          match dict_get d "role" with
          | Some role =>
              if str_is role "assistant"
              then match dict_get d "content" with
                   | Some c => Ok c
                   | None => Raise HelperError
                   end
              else last_content h rest
          | None => Raise HelperError
          end
      | None => Raise HelperError
      end
  end.

Definition last_assistant_content (h : list obj) (messages : val)
    : result val :=
  match deref h messages with
  | Some (OList ms) => last_content h (rev ms)
  | _ => Raise HelperError
  end.

(** The valves as [__init__] sets them, debug off. *)
Definition default_valves : valves :=
  {| insert_tags := true;
     use_model_name_instead_of_id_for_generation := false;
     debug := false |}.

(** A backend on which every call succeeds. *)
Definition calm : env :=
  {| cfg := default_valves;
     uuid4 := fun n => "uuid-" +:+ str_of_Z (Z.of_nat n);
     faulty := fun _ => false;
     get_last_assistant_message := last_assistant_content;
     str_obj := fun _ _ => "<object>" |}.

(** A backend on which exactly the call number [k] raises. *)
Definition fails_at (k : nat) : env :=
  {| cfg := default_valves;
     uuid4 := fun n => "uuid-" +:+ str_of_Z (Z.of_nat n);
     faulty := fun n => Nat.eqb n k;
     get_last_assistant_message := last_assistant_content;
     str_obj := fun _ _ => "<object>" |}.

(** The same with the debug valve on. *)
Definition noisy (k : nat) : env :=
  {| cfg := {| insert_tags := true;
               use_model_name_instead_of_id_for_generation := false;
               debug := true |};
     uuid4 := fun n => "uuid-" +:+ str_of_Z (Z.of_nat n);
     faulty := fun n => Nat.eqb n k;
     get_last_assistant_message := last_assistant_content;
     str_obj := fun _ _ => "<object>" |}.

(** The request of the spec's first scenario:
    [{"model": "gpt-4", "messages": [{"role": "user", "content": "hi"}],
      "metadata": {"chat_id": "c1", "task": "user_response"}}] at location 0. *)
Definition request_c1 : list obj :=
  [ ODict [("model", VStr "gpt-4"); ("messages", VRef 1); ("metadata", VRef 3)];
    OList [VRef 2];
    ODict [("role", VStr "user"); ("content", VStr "hi")];
    ODict [("chat_id", VStr "c1"); ("task", VStr "user_response")] ].

(** The response of the spec's second scenario, at location 0:
    [{"chat_id": "c1", "messages": [{"role": "user", "content": "hi"},
      {"role": "assistant", "content": "hello",
       "usage": {"prompt_tokens": 5, "completion_tokens": 3}}]}]. *)
Definition response_c1 : list obj :=
  [ ODict [("chat_id", VStr "c1"); ("messages", VRef 1)];
    OList [VRef 2; VRef 3];
    ODict [("role", VStr "user"); ("content", VStr "hi")];
    ODict [("role", VStr "assistant"); ("content", VStr "hello");
           ("usage", VRef 4)];
    ODict [("prompt_tokens", VInt 5); ("completion_tokens", VInt 3)] ].

(** One store with the request at location 0 and the response at 4. *)
Definition exchange_c1 : list obj :=
  request_c1 ++
  [ ODict [("chat_id", VStr "c1"); ("messages", VRef 5)];
    OList [VRef 6; VRef 7];
    ODict [("role", VStr "user"); ("content", VStr "hi")];
    ODict [("role", VStr "assistant"); ("content", VStr "hello");
           ("usage", VRef 8)];
    ODict [("prompt_tokens", VInt 5); ("completion_tokens", VInt 3)] ].

(** * The last assistant message *)

Definition has_role (h : list obj) (m : val) : bool :=
  match as_dict h m with
  | Some d => dict_has d "role"
  | None => false
  end.

Definition is_assistant (h : list obj) (m : val) : bool :=
  match as_dict h m with
  | Some d =>
      match dict_get d "role" with
      | Some role => str_is role "assistant"
      | None => false
      end
  | None => false
  end.

Lemma getitem_role st m :
  has_role (heap st) m = true ->
  exists role, getitem m "role" st = (Ok role, st) /\
               is_assistant (heap st) m = str_is role "assistant".
Proof.
  unfold has_role, is_assistant, getitem, dict_has.
  destruct (as_dict (heap st) m) as [d |]; [| done].
  destruct (dict_get d "role") as [role |]; [| done].
  intros _. by exists role.
Qed.

(** The scan of the reversed list stops at the first assistant message. *)
Lemma scan_assistant_spec st ms :
  Forall (fun m => has_role (heap st) m = true) ms ->
  (exists pre m post,
      ms = pre ++ m :: post /\
      Forall (fun x => is_assistant (heap st) x = false) pre /\
      is_assistant (heap st) m = true /\
      scan_assistant ms st = (Ok m, st)) \/
  (Forall (fun x => is_assistant (heap st) x = false) ms /\
   scan_assistant ms st = alloc (ODict []) st).
Proof.
  induction 1 as [| m ms Hm Hms IH]; simpl.
  - right. by split.
  - destruct (getitem_role st m Hm) as (role & Hget & Hrole).
    rewrite (bind_step _ _ _ _ _ Hget).
    destruct (str_is role "assistant") eqn:Ha.
    + left. exists [], m, ms. by repeat split.
    + destruct IH as [(pre & x & post & -> & Hpre & Hx & Hrun) | [Hnone Hrun]].
      * left. exists (m :: pre), x, post. repeat split; try done.
        by constructor.
      * right. split; [by constructor | done].
Qed.

(** C9.  On a list of messages that all carry a role,
    [get_last_assistant_message_obj] never fails: it returns the message at
    the greatest position whose role is "assistant" (no later message is
    assistant-authored) and leaves the state alone, or, when no message is
    assistant-authored, it returns a new empty dict. *)
Theorem get_last_assistant_message_obj_last st l ms :
  heap st !! l = Some (OList ms) ->
  Forall (fun m => has_role (heap st) m = true) ms ->
  (exists before m after,
      ms = before ++ m :: after /\
      is_assistant (heap st) m = true /\
      Forall (fun x => is_assistant (heap st) x = false) after /\
      get_last_assistant_message_obj (VRef l) st = (Ok m, st)) \/
  (Forall (fun x => is_assistant (heap st) x = false) ms /\
   get_last_assistant_message_obj (VRef l) st =
     (Ok (VRef (length (heap st))), set_heap (heap st ++ [ODict []]) st)).
Proof.
  intros Hl Hms.
  assert (Hrev : reversed (VRef l) st = (Ok (rev ms), st)).
  { unfold reversed. by rewrite Hl. }
  unfold get_last_assistant_message_obj.
  rewrite (bind_step _ _ _ _ _ Hrev).
  destruct (scan_assistant_spec st (rev ms)) as
    [(pre & m & post & Heq & Hpre & Hm & Hrun) | [Hnone Hrun]].
  - by apply Forall_rev.
  - left. exists (rev post), m, (rev pre). repeat split; try done.
    + rewrite <- (rev_involutive ms), Heq, rev_app_distr. simpl.
      by rewrite <- app_assoc.
    + by apply Forall_rev.
  - right. split; [| done].
    rewrite <- (rev_involutive ms). by apply Forall_rev.
Qed.

Lemma get_last_assistant_message_obj_last_witness :
  let st := init response_c1 true in
  (exists before m after,
      [VRef 2; VRef 3] = before ++ m :: after /\
      is_assistant (heap st) m = true /\
      Forall (fun x => is_assistant (heap st) x = false) after /\
      get_last_assistant_message_obj (VRef 1) st = (Ok m, st)) \/
  (Forall (fun x => is_assistant (heap st) x = false) [VRef 2; VRef 3] /\
   get_last_assistant_message_obj (VRef 1) st =
     (Ok (VRef (length (heap st))), set_heap (heap st ++ [ODict []]) st)).
Proof.
  apply (get_last_assistant_message_obj_last (init response_c1 true) 1
           [VRef 2; VRef 3]).
  - reflexivity.
  - repeat constructor.
Defined.

(** * Token usage *)

(** A usage record is produced only from two counts that are not [None]. *)
Lemma usage_counts_sound h info i o :
  usage_counts h info = Some (i, o) ->
  i <> VNone /\ o <> VNone /\
  (dict_get info "prompt_eval_count" = Some i \/
   dict_get info "prompt_tokens" = Some i) /\
  (dict_get info "eval_count" = Some o \/
   dict_get info "completion_tokens" = Some o).
Proof.
  unfold usage_counts, py_or.
  destruct (dict_get info "prompt_eval_count") as [a |],
           (dict_get info "prompt_tokens") as [b |],
           (dict_get info "eval_count") as [c |],
           (dict_get info "completion_tokens") as [d |]; simpl;
    repeat match goal with
           | |- context [truthy h ?x] => destruct (truthy h x) eqn:?
           end;
    repeat match goal with
           | |- context [match ?x with VNone => _ | _ => _ end] =>
               destruct x eqn:?
           end;
    intros H; inversion H; subst; repeat split; auto; discriminate.
Qed.

(** Counts that are non-zero integers are reported under either naming. *)
Lemma usage_counts_nonzero h info i o :
  (dict_get info "prompt_eval_count" = Some (VInt i) \/
   dict_get info "prompt_eval_count" = None /\
   dict_get info "prompt_tokens" = Some (VInt i)) ->
  (dict_get info "eval_count" = Some (VInt o) \/
   dict_get info "eval_count" = None /\
   dict_get info "completion_tokens" = Some (VInt o)) ->
  i <> 0%Z -> o <> 0%Z ->
  usage_counts h info = Some (VInt i, VInt o).
Proof.
  intros Hi Ho Hi0 Ho0. unfold usage_counts, py_or.
  assert (Hti : negb (i =? 0)%Z = true) by by destruct (Z.eqb_spec i 0).
  assert (Hto : negb (o =? 0)%Z = true) by by destruct (Z.eqb_spec o 0).
  destruct Hi as [-> | [-> ->]], Ho as [-> | [-> ->]]; simpl;
    rewrite ?Hti, ?Hto; reflexivity.
Qed.

(** C6.  A usage object whose first input field holds the count 0, with an
    output count beside it, yields no usage record, although both counts are
    present; the same counts under the second naming are reported. *)
Theorem extract_usage_drops_zero_count {E : env} :
  let h := [ ODict [("role", VStr "assistant"); ("usage", VRef 1)];
             ODict [("prompt_eval_count", VInt 0); ("eval_count", VInt 7)] ] in
  extract_usage (VRef 0) (init h true) = (Ok VNone, init h true) /\
  usage_counts h [("prompt_eval_count", VInt 0); ("eval_count", VInt 7)]
    = None /\
  usage_counts h [("prompt_tokens", VInt 0); ("completion_tokens", VInt 7)]
    = Some (VInt 0, VInt 7).
Proof. repeat split. Qed.

(** * Outcomes of the primitive steps *)

Section Steps.

Context {E : env}.

(** The state after [self.log(s)]. *)
Definition logged (s : string) (st : state) : state :=
  if debug cfg then set_out (out st ++ [s]) st else st.

Lemma log_run s st : log s st = (Ok tt, logged s st).
Proof. unfold log, logged, when, print, ret. by destruct (debug cfg). Qed.

Lemma keys_of_run body st :
  is_dict (heap st) body = true -> Defensive.keys_of body st = (Ok tt, st).
Proof.
  unfold Defensive.keys_of, is_dict, bind, attr_get.
  by destruct (as_dict (heap st) body).
Qed.

Lemma keys_of_raise body st :
  is_dict (heap st) body = false ->
  Defensive.keys_of body st = (Raise AttributeError, st).
Proof.
  unfold Defensive.keys_of, is_dict, bind, attr_get.
  by destruct (as_dict (heap st) body).
Qed.

End Steps.

Ltac run H := rewrite (bind_step _ _ _ _ _ H).
Ltac run_log := rewrite (bind_step _ _ _ _ _ (log_run _ _)).

(** ** Code that can only return one value *)

Definition yields {A} (a : A) (m : M A) : Prop :=
  forall st v st', m st = (Ok v, st') -> v = a.

Lemma yields_ret {A} (a : A) : yields a (ret a).
Proof. intros st v st' H. by inversion H. Qed.

Lemma yields_bind {A B} (b : B) (m : M A) (f : A -> M B) :
  (forall a, yields b (f a)) -> yields b (bind m f).
Proof.
  intros Hf st v st' H. apply bind_ok in H as (a & st1 & _ & H).
  by eapply Hf.
Qed.

Ltac yields_step :=
  lazymatch goal with
  | |- yields _ (bind _ _) => apply yields_bind
  | |- yields _ (ret _) => apply yields_ret
  | |- yields _ (match ?x with _ => _ end) => destruct x
  | |- forall _, _ => intros
  end.

(** ** Calls appended to the backend log *)

(** The client stays what it was and the log grows by calls that all
    satisfy [P]. *)
Definition appends (P : call * bool -> Prop) (st st' : state) : Prop :=
  langfuse st' = langfuse st /\
  exists calls, backend st' = backend st ++ calls /\ Forall P calls.

Class Admits (P : call * bool -> Prop) (c : call) :=
  admits : forall ok, P (c, ok).

#[global] Instance appends_preorder P : PreOrder (appends P).
Proof.
  split.
  - intros st. split; [done |]. exists []. by rewrite app_nil_r.
  - intros x y z [Hl1 (c1 & H1 & F1)] [Hl2 (c2 & H2 & F2)].
    split; [congruence |]. exists (c1 ++ c2).
    rewrite H2, H1, app_assoc. split; [done | by apply Forall_app].
Qed.

Lemma appends_same P st st' :
  langfuse st' = langfuse st -> backend st' = backend st -> appends P st st'.
Proof.
  intros Hl Hb. split; [done |]. exists []. by rewrite app_nil_r.
Qed.

#[global] Instance appends_heap P : TolHeap (appends P).
Proof. intros st h. by apply appends_same. Qed.
#[global] Instance appends_out P : TolOut (appends P).
Proof. intros st o. by apply appends_same. Qed.
#[global] Instance appends_uuids P : TolUuids (appends P).
Proof. intros st n. by apply appends_same. Qed.
#[global] Instance appends_models P : TolModels (appends P).
Proof. intros st m. by apply appends_same. Qed.
#[global] Instance appends_traces P : TolTraces (appends P).
Proof. intros st m. by apply appends_same. Qed.
#[global] Instance appends_call P c `{!Admits P c} : TolCall (appends P) c.
Proof.
  intros st ok. split; [done |]. exists [(c, ok)]. split; [done |].
  constructor; [apply admits | constructor].
Qed.

Definition not_flush (c : call * bool) : Prop := c.1 <> CFlush.

#[global] Instance not_flush_trace p : Admits not_flush (CTrace p).
Proof. by intros ok. Qed.
#[global] Instance not_flush_update t p : Admits not_flush (CUpdate t p).
Proof. by intros ok. Qed.
#[global] Instance not_flush_generation t p : Admits not_flush (CGeneration t p).
Proof. by intros ok. Qed.
#[global] Instance not_flush_end t p : Admits not_flush (CEnd t p).
Proof. by intros ok. Qed.
#[global] Instance not_flush_event t p : Admits not_flush (CEvent t p).
Proof. by intros ok. Qed.

(** Unfolding of the blocks the handlers are made of. *)
Ltac unfold_strict :=
  unfold Strict.outlet, Strict.inlet, Strict.inlet_rest,
    Strict.outlet_resolve, Strict.record_end,
    Strict.resolve, Strict.store_model, Strict.validate, Strict.open_or_reuse,
    Strict.record_start, user_email_or, extract_usage, in_generation_tasks,
    get_last_assistant_message_obj.

Ltac unfold_defensive :=
  unfold Defensive.outlet_try, Defensive.outlet_rest, Defensive.inlet,
    Defensive.inlet_rest, Defensive.outlet_chat_id,
    Defensive.record_end, Defensive.gather, Defensive.emit_end, Defensive.extract_metadata, Defensive.copy_field,
    Defensive.store_model, Defensive.ensure_messages, Defensive.open_or_reuse,
    Defensive.record_start, Defensive.rewrite_local, Defensive.or_else,
    Defensive.nested_get, Defensive.keys_of, user_email_or, extract_usage,
    in_generation_tasks, get_last_assistant_message_obj.

Section Outlets.

Context {E : env}.

Lemma strict_inlet_no_flush body user :
  preserves (appends not_flush) (Strict.inlet body user).
Proof. unfold_strict. pres. Qed.

Lemma strict_outlet_no_flush body user :
  preserves (appends not_flush) (Strict.outlet body user).
Proof.
  unfold Strict.outlet.
  repeat (pres_step; try apply strict_inlet_no_flush).
  all: unfold_strict; pres.
Qed.

Lemma defensive_outlet_try_no_flush body user :
  preserves (appends not_flush) (Defensive.outlet_try body user).
Proof. unfold_defensive. pres. Qed.

Lemma defensive_outlet_try_yields body user :
  yields body (Defensive.outlet_try body user).
Proof. unfold_defensive. repeat yields_step. Qed.

(** The [finally] block ends normally whatever the flush does. *)
Lemma flush_run st :
  exists st', Defensive.flush st = (Ok tt, st') /\
    chat_traces st' = chat_traces st /\ model_names st' = model_names st /\
    heap st' = heap st /\
    (langfuse st = false -> backend st' = backend st) /\
    (langfuse st = true ->
     exists ok, backend st' = backend st ++ [(CFlush, ok)] /\
       (ok = false ->
        exists lines, out st' = lines ++ ["[ERROR] Failed to flush Langfuse"])).
Proof.
  unfold Defensive.flush, try_except, bind, has_client.
  destruct (langfuse st) eqn:Hl.
  - rewrite log_run. unfold backend_call, logged.
    destruct (faulty _) eqn:Hf; destruct (debug cfg); simpl;
      eexists; (split; [reflexivity |]); simpl; repeat split; try done;
      intros _; eexists; (split; [reflexivity |]); try done;
      intros _; eexists; reflexivity.
  - eexists. split; [reflexivity |]. repeat split; done.
Qed.

(** The defensive outlet on a dict body: it returns the body; its [try]
    part runs after the first log line, an exception is logged, and the
    [finally] block comes last. *)
Lemma defensive_outlet_run body user st :
  is_dict (heap st) body = true ->
  exists r st1 st',
    Defensive.outlet_try body user
      (logged "Outlet function called with body keys" st) = (r, st1) /\
    Defensive.flush
      (match r with Ok _ => st1 | Raise _ => logged "Error in outlet" st1 end)
      = (Ok tt, st') /\
    Defensive.outlet body user st = (Ok body, st').
Proof.
  intros Hd. unfold Defensive.outlet.
  run (keys_of_run body st Hd). run_log.
  unfold try_finally, try_except.
  destruct (Defensive.outlet_try body user _) as [[v | e] st1] eqn:Htry.
  - pose proof (defensive_outlet_try_yields _ _ _ _ _ Htry) as ->.
    destruct (flush_run st1) as (st' & Hf & _).
    exists (Ok body), st1, st'. by rewrite Hf.
  - run_log. unfold ret.
    destruct (flush_run (logged "Error in outlet" st1)) as (st' & Hf & _).
    exists (Raise e), st1, st'. by rewrite Hf.
Qed.

Lemma defensive_outlet_no_flush body user st :
  is_dict (heap st) body = true ->
  exists st1 st',
    Defensive.outlet body user st = (Ok body, st') /\
    appends not_flush st st1 /\
    Defensive.flush st1 = (Ok tt, st').
Proof.
  intros Hd.
  destruct (defensive_outlet_run body user st Hd) as (r & st1 & st' & Ht & Hf & Hrun).
  eexists _, st'. split; [done |]. split; [| exact Hf].
  etransitivity; [eapply (preserves_log (appends not_flush)), log_run |].
  etransitivity; [by eapply defensive_outlet_try_no_flush |].
  destruct r; [reflexivity |].
  eapply (preserves_log (appends not_flush)), log_run.
Qed.

End Outlets.

(** ** Failed backend calls and the lines that report them *)

Definition failures (b : list (call * bool)) : nat :=
  length (List.filter (fun c => negb c.2) b).

(** The lines the defensive handlers print from an [except] clause. *)
Definition error_line (s : string) : bool :=
  is_prefix "Error" s || is_prefix "[ERROR]" s.

Definition errors (o : list string) : nat :=
  length (List.filter error_line o).

(** Between two states the log and the output only grow, and all but [slack]
    of the new failed calls are matched by a new error line. *)
Definition accounted (slack : nat) (st st' : state) : Prop :=
  exists calls lines,
    backend st' = backend st ++ calls /\
    out st' = out st ++ lines /\
    failures calls <= errors lines + slack.

Lemma failures_app b1 b2 : failures (b1 ++ b2) = failures b1 + failures b2.
Proof. unfold failures. by rewrite List.filter_app, length_app. Qed.

Lemma errors_app o1 o2 : errors (o1 ++ o2) = errors o1 + errors o2.
Proof. unfold errors. by rewrite List.filter_app, length_app. Qed.

Lemma accounted_trans a b st1 st2 st3 :
  accounted a st1 st2 -> accounted b st2 st3 -> accounted (a + b) st1 st3.
Proof.
  intros (c1 & l1 & Hb1 & Ho1 & H1) (c2 & l2 & Hb2 & Ho2 & H2).
  exists (c1 ++ c2), (l1 ++ l2).
  rewrite Hb2, Hb1, Ho2, Ho1, !app_assoc, failures_app, errors_app.
  repeat split; try done. lia.
Qed.

Lemma accounted_same n st st' :
  backend st' = backend st -> out st' = out st -> accounted n st st'.
Proof.
  intros Hb Ho. exists [], []. rewrite Hb, Ho, !app_nil_r.
  repeat split; try done. unfold failures, errors. simpl. lia.
Qed.

Lemma accounted_weaken a b st st' :
  a <= b -> accounted a st st' -> accounted b st st'.
Proof.
  intros Hab (c & l & Hb & Ho & H). exists c, l. repeat split; try done. lia.
Qed.

#[global] Instance accounted_preorder : PreOrder (accounted 0).
Proof.
  split.
  - intros st. by apply accounted_same.
  - intros x y z H1 H2. apply (accounted_trans 0 0 x y z H1 H2).
Qed.

#[global] Instance accounted_heap : TolHeap (accounted 0).
Proof. intros st h. by apply accounted_same. Qed.
#[global] Instance accounted_uuids : TolUuids (accounted 0).
Proof. intros st n. by apply accounted_same. Qed.
#[global] Instance accounted_models : TolModels (accounted 0).
Proof. intros st m. by apply accounted_same. Qed.
#[global] Instance accounted_traces : TolTraces (accounted 0).
Proof. intros st m. by apply accounted_same. Qed.
#[global] Instance accounted_out : TolOut (accounted 0).
Proof.
  intros st s. exists [], [s]. rewrite app_nil_r.
  repeat split; try done. unfold failures. simpl. lia.
Qed.

(** Code whose failed backend calls are all reported when it ends normally,
    and all but one when it raises. *)
Definition attempts {A} (m : M A) : Prop :=
  forall st r st', m st = (r, st') ->
    accounted (match r with Ok _ => 0 | Raise _ => 1 end) st st'.

Section Attempts.

Context {E : env}.

Lemma attempts_pure {A} (m : M A) : preserves (accounted 0) m -> attempts m.
Proof.
  intros Hm st r st' H. apply Hm in H.
  destruct r; [done | by apply (accounted_weaken 0 1); [lia |]].
Qed.

Lemma attempts_bind {A B} (m : M A) (f : A -> M B) :
  attempts m -> (forall a, attempts (f a)) -> attempts (bind m f).
Proof.
  intros Hm Hf st r st' H.
  apply bind_run in H as [(a & st1 & H1 & H2) | (e & H1 & ->)].
  - apply Hm in H1. apply Hf in H2.
    apply (accounted_trans 0 _ _ _ _ H1 H2).
  - by apply Hm in H1.
Qed.

Lemma attempts_backend_call c : attempts (backend_call c).
Proof.
  intros st r st'. unfold backend_call.
  destruct (faulty _); intros H; inversion H; subst;
    eexists [(c, _)], []; rewrite app_nil_r;
    (split; [reflexivity |]); (split; [reflexivity |]);
    unfold failures, errors; simpl; lia.
Qed.

Lemma attempts_client_call c : attempts (client_call c).
Proof.
  intros st r st'. unfold client_call. destruct (langfuse st).
  - apply attempts_backend_call.
  - intros H; inversion H; subst. by apply accounted_same.
Qed.

(** With the debug valve on, an [except] clause that starts by logging an
    error line settles the failure that brought it there. *)
Lemma attempts_try_log {A} (m : M A) (s : string) (k : M A) :
  debug cfg = true -> error_line s = true ->
  attempts m -> preserves (accounted 0) k ->
  preserves (accounted 0) (try_except m (fun _ => log s ;; k)).
Proof.
  intros Hd Hs Hm Hk st r st'. unfold try_except.
  destruct (m st) as [[a | e] st1] eqn:H1; intros H.
  - inversion H; subst. by apply Hm in H1.
  - apply Hm in H1. rewrite (bind_step _ _ _ _ _ (log_run s st1)) in H.
    apply Hk in H.
    destruct H1 as (c1 & l1 & Hb1 & Ho1 & H1).
    destruct H as (c2 & l2 & Hb2 & Ho2 & H2).
    unfold logged in Hb2, Ho2. rewrite Hd in Hb2, Ho2. simpl in Hb2, Ho2.
    exists (c1 ++ c2), (l1 ++ [s] ++ l2).
    rewrite Hb2, Hb1, Ho2, Ho1, !app_assoc, failures_app, !errors_app.
    repeat split; try done.
    unfold errors at 2. simpl. rewrite Hs. simpl. lia.
Qed.

Lemma attempts_try_log0 (m : M unit) (s : string) :
  debug cfg = true -> error_line s = true ->
  attempts m -> preserves (accounted 0) (try_except m (fun _ => log s)).
Proof.
  intros Hd Hs Hm st r st' H.
  apply (attempts_try_log m s (ret tt) Hd Hs Hm (preserves_ret _ tt) st r st').
  rewrite <- H. unfold try_except. destruct (m st) as [[a | e] st1]; [done |].
  rewrite (bind_step _ _ _ _ _ (log_run s st1)). by rewrite log_run.
Qed.

Lemma attempts_try_print (m : M unit) (s : string) :
  error_line s = true ->
  attempts m -> preserves (accounted 0) (try_except m (fun _ => print s)).
Proof.
  intros Hs Hm st r st'. unfold try_except.
  destruct (m st) as [[a | e] st1] eqn:H1; intros H.
  - inversion H; subst. by apply Hm in H1.
  - apply Hm in H1. inversion H; subst.
    destruct H1 as (c1 & l1 & Hb1 & Ho1 & H1).
    exists c1, (l1 ++ [s]). simpl. rewrite Ho1, app_assoc, errors_app.
    repeat split; try done.
    unfold errors at 2. simpl. rewrite Hs. simpl. lia.
Qed.

End Attempts.

(** One step of a proof that failures are accounted for; [Hd] says that the
    debug valve is on. *)
Ltac attempts_step Hd :=
  lazymatch goal with
  | |- attempts (bind _ _) => apply attempts_bind
  | |- attempts (backend_call _) => apply attempts_backend_call
  | |- attempts (client_call _) => apply attempts_client_call
  | |- attempts (match ?x with _ => _ end) => destruct x
  | |- attempts _ => apply attempts_pure
  | |- preserves _ (try_except _ (fun _ => bind (log _) _)) =>
      apply (attempts_try_log _ _ _ Hd); [reflexivity | | ]
  | |- preserves _ (try_except _ (fun _ => log _)) =>
      apply (attempts_try_log0 _ _ Hd); [reflexivity | ]
  | |- preserves _ (try_except _ (fun _ => print _)) =>
      apply attempts_try_print; [reflexivity | ]
  | |- forall _, _ => intros
  | |- _ => pres_step
  end.

Section Reported.

Context {E : env} (Hd : debug cfg = true).

Lemma defensive_outlet_try_attempts body user :
  attempts (Defensive.outlet_try body user).
Proof. unfold_defensive. repeat attempts_step Hd. Qed.

Lemma defensive_outlet_accounted body user :
  preserves (accounted 0) (Defensive.outlet body user).
Proof.
  unfold Defensive.outlet, Defensive.flush, Defensive.keys_of.
  repeat (attempts_step Hd; try apply defensive_outlet_try_attempts).
Qed.

End Reported.

(** * Flush at the end of the outlet *)

(** The strict adapter after the spec's first scenario: the inlet of
    conversation "c1" has run on a calm backend. *)
Definition strict_after_inlet (E : env) : state :=
  (@Strict.inlet E (VRef 0) VNone (init exchange_c1 true)).2.

Definition defensive_after_inlet (E : env) : state :=
  (@Defensive.inlet E (VRef 0) VNone (init exchange_c1 true)).2.

(** The strict outlet of the spec's second scenario returns the body and
    has made three calls on the backend, none of them a flush. *)
Lemma strict_outlet_without_flush :
  let st := strict_after_inlet calm in
  (@Strict.outlet calm (VRef 4) VNone st).1 = Ok (VRef 4) /\
  length (backend (@Strict.outlet calm (VRef 4) VNone st).2) = 5 /\
  Forall not_flush (backend (@Strict.outlet calm (VRef 4) VNone st).2).
Proof.
  split; [vm_compute; reflexivity |].
  split; [vm_compute; reflexivity |].
  vm_compute. repeat constructor; discriminate.
Qed.

(** C7 (amended).  The defensive outlet, on any dict body, returns the body
    after the [finally] block: when a client is set, the last backend call
    is the flush, exactly one flush is attempted whatever the steps before
    it did, and a failed flush prints its error line and is not raised;
    without a client no flush is attempted.  The strict outlet never
    flushes. *)
Theorem outlet_flush {E : env} body user st :
  is_dict (heap st) body = true ->
  (exists st' calls,
      Defensive.outlet body user st = (Ok body, st') /\
      Forall not_flush calls /\
      if langfuse st
      then exists ok,
             backend st' = backend st ++ calls ++ [(CFlush, ok)] /\
             (ok = false ->
              exists lines,
                out st' = lines ++ ["[ERROR] Failed to flush Langfuse"])
      else backend st' = backend st ++ calls) /\
  (exists calls,
      backend (Strict.outlet body user st).2 = backend st ++ calls /\
      Forall not_flush calls).
Proof.
  intros Hd. split.
  - destruct (defensive_outlet_no_flush body user st Hd)
      as (st1 & st' & Hrun & [Hl (calls & Hb & Hc)] & Hf).
    destruct (flush_run st1) as (st2 & Hf2 & _ & _ & _ & Hoff & Hon).
    rewrite Hf in Hf2. inversion Hf2; subst st2.
    exists st', calls. split; [done |]. split; [done |].
    rewrite <- Hl. destruct (langfuse st1).
    + destruct (Hon eq_refl) as (ok & Hb2 & Hline). exists ok.
      rewrite Hb2, Hb, app_assoc. by split.
    + by rewrite (Hoff eq_refl), Hb.
  - destruct (Strict.outlet body user st) as [r st'] eqn:Hrun.
    apply strict_outlet_no_flush in Hrun as [_ H]. exact H.
Qed.

Lemma outlet_flush_witness :
  let st := defensive_after_inlet calm in
  (exists st' calls,
      @Defensive.outlet calm (VRef 4) VNone st = (Ok (VRef 4), st') /\
      Forall not_flush calls /\
      if langfuse st
      then exists ok,
             backend st' = backend st ++ calls ++ [(CFlush, ok)] /\
             (ok = false ->
              exists lines,
                out st' = lines ++ ["[ERROR] Failed to flush Langfuse"])
      else backend st' = backend st ++ calls) /\
  (exists calls,
      backend (@Strict.outlet calm (VRef 4) VNone st).2 = backend st ++ calls /\
      Forall not_flush calls).
Proof.
  apply (@outlet_flush calm (VRef 4) VNone (defensive_after_inlet calm)).
  vm_compute. reflexivity.
Defined.

(** * The outlet's boundary *)

(** The strict outlet raises: on a response without a message list once the
    trace is open, and when the trace update fails on the backend. *)
Lemma strict_outlet_raises :
  (let h := [ODict [("chat_id", VStr "c1")]] in
   let st := set_chat_traces (<[KStr "c1" := 0]> ∅) (init h true) in
   (@Strict.outlet calm (VRef 0) VNone st).1 = Raise KeyError) /\
  (@Strict.outlet (fails_at 2) (VRef 4) VNone
     (strict_after_inlet (fails_at 2))).1 = Raise BackendError.
Proof. split; vm_compute; reflexivity. Qed.

(** C8 (amended).  The defensive outlet, on any dict body and in any state,
    returns that body and raises nothing; with the debug valve on, every
    backend call that failed during the outlet is matched by an error line
    printed from the [except] clause that caught it. *)
Theorem defensive_outlet_returns_body {E : env} body user st :
  is_dict (heap st) body = true ->
  exists st',
    Defensive.outlet body user st = (Ok body, st') /\
    (debug cfg = true -> accounted 0 st st').
Proof.
  intros Hd.
  destruct (defensive_outlet_run body user st Hd) as (r & st1 & st' & _ & _ & Hrun).
  exists st'. split; [done |]. intros Hdebug.
  by apply (defensive_outlet_accounted Hdebug body user st (Ok body) st').
Qed.

Lemma defensive_outlet_returns_body_witness :
  exists st',
    @Defensive.outlet (noisy 2) (VRef 4) VNone
      (defensive_after_inlet (noisy 2)) = (Ok (VRef 4), st') /\
    accounted 0 (defensive_after_inlet (noisy 2)) st'.
Proof.
  destruct (@defensive_outlet_returns_body (noisy 2) (VRef 4) VNone
              (defensive_after_inlet (noisy 2))) as (st' & Hrun & Hacc).
  - vm_compute. reflexivity.
  - exists st'. split; [exact Hrun | by apply Hacc].
Defined.

(** * Dictionaries and the store *)

Lemma dict_get_set_eq d k v : dict_get (dict_set d k v) k = Some v.
Proof.
  induction d as [| [k' v'] d IH]; simpl.
  - by rewrite String.eqb_refl.
  - destruct (String.eqb k k') eqn:Hk; simpl; rewrite Hk; [done | exact IH].
Qed.

Lemma dict_get_set_ne d k k' v :
  k <> k' -> dict_get (dict_set d k v) k' = dict_get d k'.
Proof.
  intros Hne. induction d as [| [k0 v0] d IH]; simpl.
  - destruct (String.eqb_spec k' k); [congruence | done].
  - destruct (String.eqb_spec k k0) as [-> | Hk]; simpl.
    + destruct (String.eqb_spec k' k0); [congruence | done].
    + destruct (String.eqb_spec k' k0); [done | exact IH].
Qed.

Lemma dict_has_set_ne d k k' v :
  k <> k' -> dict_has (dict_set d k v) k' = dict_has d k'.
Proof. intros Hne. unfold dict_has. by rewrite dict_get_set_ne. Qed.

Lemma as_dict_ref h v d :
  as_dict h v = Some d -> exists l, v = VRef l /\ h !! l = Some (ODict d).
Proof.
  unfold as_dict, deref. destruct v; try done.
  destruct (h !! l) as [[d' | xs] |] eqn:Hl; try done.
  intros [= ->]. by exists l.
Qed.

Lemma as_dict_lookup h l d : h !! l = Some (ODict d) -> as_dict h (VRef l) = Some d.
Proof. unfold as_dict, deref. by intros ->. Qed.

Lemma is_dict_as_dict h v :
  is_dict h v = true -> exists d, as_dict h v = Some d.
Proof. unfold is_dict. destruct (as_dict h v) as [d |]; [eauto | done]. Qed.

(** ** Relations on the store *)

(** Every dict stays a dict. *)
Definition shaped (st st' : state) : Prop :=
  forall v, is_dict (heap st) v = true -> is_dict (heap st') v = true.

(** The dict at [l], if there is one, keeps its entry for [K]. *)
Definition keeps (l : loc) (K : string) (st st' : state) : Prop :=
  forall d, heap st !! l = Some (ODict d) ->
    exists d', heap st' !! l = Some (ODict d') /\ dict_get d' K = dict_get d K.

(** Nothing is sent to the backend and no trace is registered. *)
Definition quiet (st st' : state) : Prop :=
  backend st' = backend st /\ chat_traces st' = chat_traces st /\
  langfuse st' = langfuse st.

(** The store is left as it is. *)
Definition same_heap (st st' : state) : Prop := heap st' = heap st.

#[global] Instance shaped_preorder : PreOrder shaped.
Proof. split; [by intros st v | intros x y z H1 H2 v Hv; by apply H2, H1]. Qed.

Lemma shaped_same st st' : heap st' = heap st -> shaped st st'.
Proof. intros H v. by rewrite H. Qed.

#[global] Instance shaped_alloc : TolAlloc shaped.
Proof.
  intros st o v. unfold is_dict, as_dict, deref. destruct v; try done. simpl.
  destruct (heap st !! l) as [[d | xs] |] eqn:Hl; try done.
  by rewrite (lookup_app_l_Some _ _ _ _ Hl).
Qed.

#[global] Instance shaped_set v k : TolSet shaped v k.
Proof.
  intros st l d x -> Hl w. unfold is_dict, as_dict, deref.
  destruct w as [| | | | l']; try done. simpl.
  destruct (decide (l = l')) as [<- | Hne].
  - rewrite list_lookup_insert_eq; [done | by eapply lookup_lt_Some].
  - by rewrite list_lookup_insert_ne.
Qed.

#[global] Instance shaped_out : TolOut shaped.
Proof. intros st s. by apply shaped_same. Qed.
#[global] Instance shaped_uuids : TolUuids shaped.
Proof. intros st n. by apply shaped_same. Qed.
#[global] Instance shaped_models : TolModels shaped.
Proof. intros st m. by apply shaped_same. Qed.
#[global] Instance shaped_traces : TolTraces shaped.
Proof. intros st m. by apply shaped_same. Qed.
#[global] Instance shaped_call c : TolCall shaped c.
Proof. intros st ok. by apply shaped_same. Qed.

#[global] Instance keeps_preorder l K : PreOrder (keeps l K).
Proof.
  split.
  - intros st d Hd. by exists d.
  - intros x y z H1 H2 d Hd.
    destruct (H1 d Hd) as (d1 & Hd1 & E1).
    destruct (H2 d1 Hd1) as (d2 & Hd2 & E2).
    exists d2. split; [done | congruence].
Qed.

Lemma keeps_same l K st st' : heap st' = heap st -> keeps l K st st'.
Proof. intros H d Hd. exists d. by rewrite H. Qed.

#[global] Instance keeps_alloc l K : TolAlloc (keeps l K).
Proof.
  intros st o d Hd. exists d. split; [| done]. simpl.
  by apply lookup_app_l_Some.
Qed.

Lemma keeps_set l K v k :
  v <> VRef l \/ k <> K -> TolSet (keeps l K) v k.
Proof.
  intros Hor st l' d' x -> Hl' d Hd. simpl.
  destruct (decide (l' = l)) as [-> | Hne].
  - rewrite Hd in Hl'. injection Hl' as <-.
    exists (dict_set d k x). split.
    + rewrite list_lookup_insert_eq; [done | by eapply lookup_lt_Some].
    + destruct Hor as [Hv | Hk]; [done | by apply dict_get_set_ne].
  - exists d. by rewrite list_lookup_insert_ne.
Qed.

#[global] Hint Extern 2 (TolSet (keeps _ _) _ _) =>
  apply keeps_set; first [ left; congruence | right; congruence ]
  : typeclass_instances.

#[global] Instance keeps_out l K : TolOut (keeps l K).
Proof. intros st s. by apply keeps_same. Qed.
#[global] Instance keeps_uuids l K : TolUuids (keeps l K).
Proof. intros st n. by apply keeps_same. Qed.
#[global] Instance keeps_models l K : TolModels (keeps l K).
Proof. intros st m. by apply keeps_same. Qed.
#[global] Instance keeps_traces l K : TolTraces (keeps l K).
Proof. intros st m. by apply keeps_same. Qed.
#[global] Instance keeps_call l K c : TolCall (keeps l K) c.
Proof. intros st ok. by apply keeps_same. Qed.

#[global] Instance quiet_preorder : PreOrder quiet.
Proof.
  split; [by intros st | ].
  intros x y z (H1 & H2 & H3) (H4 & H5 & H6). repeat split; congruence.
Qed.

#[global] Instance quiet_heap : TolHeap quiet.
Proof. by intros st h. Qed.
#[global] Instance quiet_out : TolOut quiet.
Proof. by intros st s. Qed.
#[global] Instance quiet_uuids : TolUuids quiet.
Proof. by intros st n. Qed.
#[global] Instance quiet_models : TolModels quiet.
Proof. by intros st m. Qed.

#[global] Instance same_heap_preorder : PreOrder same_heap.
Proof.
  split; [by intros st | ].
  intros x y z H1 H2. unfold same_heap in *. congruence.
Qed.

#[global] Instance same_heap_out : TolOut same_heap.
Proof. by intros st s. Qed.
#[global] Instance same_heap_uuids : TolUuids same_heap.
Proof. by intros st n. Qed.
#[global] Instance same_heap_models : TolModels same_heap.
Proof. by intros st m. Qed.
#[global] Instance same_heap_traces : TolTraces same_heap.
Proof. by intros st m. Qed.
#[global] Instance same_heap_call c : TolCall same_heap c.
Proof. by intros st ok. Qed.

(** ** What a piece of code can return *)

Definition returns {A} (Q : A -> Prop) (m : M A) : Prop :=
  forall st a st', m st = (Ok a, st') -> Q a.

Lemma returns_ret {A} (Q : A -> Prop) a : Q a -> returns Q (ret a).
Proof. intros HQ st a' st' H. by inversion H; subst. Qed.

Lemma returns_bind {A B} (Q : B -> Prop) (m : M A) (f : A -> M B) :
  (forall a, returns Q (f a)) -> returns Q (bind m f).
Proof.
  intros Hf st b st' H. apply bind_ok in H as (a & st1 & _ & H).
  by eapply Hf.
Qed.

Lemma returns_bind_with {A B} (P : A -> Prop) (Q : B -> Prop) (m : M A)
    (f : A -> M B) :
  returns P m -> (forall a, P a -> returns Q (f a)) -> returns Q (bind m f).
Proof.
  intros Hm Hf st b st' H. apply bind_ok in H as (a & st1 & H1 & H).
  eapply Hf; [by eapply Hm | done].
Qed.

Lemma preserves_bind_with {A B} (R : relation state) `{!PreOrder R}
    (P : A -> Prop) (m : M A) (f : A -> M B) :
  preserves R m -> returns P m -> (forall a, P a -> preserves R (f a)) ->
  preserves R (bind m f).
Proof.
  intros Hm HP Hf st r st' H.
  apply bind_run in H as [(a & st1 & H1 & H2) | (e & H1 & _)].
  - etransitivity; [by eapply Hm |]. eapply Hf; [by eapply HP | done].
  - by eapply Hm.
Qed.

Lemma returns_hash_key v : returns (fun k => to_key v = Some k) (hash_key v).
Proof.
  intros st k st'. unfold hash_key. destruct (to_key v); [| done].
  by intros [= ->].
Qed.

(** ** Steps that succeed *)

Section Runs.

Context {E : env}.

Lemma attr_get_run v k d st :
  as_dict (heap st) v = Some d -> attr_get v k st = (Ok (dict_get d k), st).
Proof. unfold attr_get. by intros ->. Qed.

Lemma get_or_run v k dflt d st :
  as_dict (heap st) v = Some d ->
  get_or v k dflt st = (Ok (default dflt (dict_get d k)), st).
Proof.
  intros Hd. unfold get_or. by rewrite (bind_step _ _ _ _ _ (attr_get_run v k d st Hd)).
Qed.

Lemma get_or_uuid_run v k d st :
  as_dict (heap st) v = Some d ->
  get_or_uuid v k st =
    (Ok (default (VStr (uuid4 (uuids st))) (dict_get d k)),
     set_uuids (S (uuids st)) st).
Proof.
  intros Hd. unfold get_or_uuid.
  by rewrite (bind_step _ _ _ _ _ (attr_get_run v k d st Hd)).
Qed.

Lemma setitem_run l k x d st :
  heap st !! l = Some (ODict d) ->
  setitem (VRef l) k x st =
    (Ok tt, set_heap (<[l := ODict (dict_set d k x)]> (heap st)) st).
Proof. unfold setitem. by intros ->. Qed.

Lemma contains_run l k d st :
  heap st !! l = Some (ODict d) ->
  contains (VRef l) k st = (Ok (dict_has d k), st).
Proof. unfold contains. by intros ->. Qed.

Lemma hash_key_run v k st : to_key v = Some k -> hash_key v st = (Ok k, st).
Proof. unfold hash_key. by intros ->. Qed.

Lemma ret_run {A B} (a : A) (f : A -> M B) st : bind (ret a) f st = f a st.
Proof. reflexivity. Qed.

End Runs.

(** * Validation in the strict inlet *)

(** The metadata entry of a body, when present, is a dict whose chat id,
    when present, can be hashed. *)
Definition plain_metadata (h : list obj) (d : dict) : Prop :=
  match dict_get d "metadata" with
  | None => True
  | Some m =>
      exists md, as_dict h m = Some md /\
        forall v, dict_get md "chat_id" = Some v -> is_Some (to_key v)
  end.

Section Validation.

Context {E : env}.

Lemma heap_logged s st : heap (logged s st) = heap st.
Proof. unfold logged. by destruct (debug cfg). Qed.

Lemma backend_logged s st : backend (logged s st) = backend st.
Proof. unfold logged. by destruct (debug cfg). Qed.

Lemma chat_traces_logged s st : chat_traces (logged s st) = chat_traces st.
Proof. unfold logged. by destruct (debug cfg). Qed.

Lemma model_names_logged s st : model_names (logged s st) = model_names st.
Proof. unfold logged. by destruct (debug cfg). Qed.

Lemma langfuse_logged s st : langfuse (logged s st) = langfuse st.
Proof. unfold logged. by destruct (debug cfg). Qed.

Lemma uuids_logged s st : uuids (logged s st) = uuids st.
Proof. unfold logged. by destruct (debug cfg). Qed.

Lemma setitem_ok v k x st :
  is_dict (heap st) v = true ->
  exists st', setitem v k x st = (Ok tt, st') /\ shaped st st'.
Proof.
  intros Hv. destruct (is_dict_as_dict _ _ Hv) as (d & Hd).
  destruct (as_dict_ref _ _ _ Hd) as (l & -> & Hl).
  eexists. split; [by eapply setitem_run |].
  by eapply (shaped_set (VRef l) k).
Qed.

Lemma validate_missing b d st :
  heap st !! b = Some (ODict d) ->
  dict_has d "model" && dict_has d "messages" = false ->
  Strict.validate (VRef b) st =
    (Raise ValueError, logged "Error: Missing keys in request body" st).
Proof.
  intros Hb Hmiss. unfold Strict.validate.
  run (contains_run b "model" d st Hb).
  run (contains_run b "messages" d st Hb).
  rewrite Hmiss. by run_log.
Qed.

Lemma strict_resolve_quiet body : preserves quiet (Strict.resolve body).
Proof. unfold_strict. pres. Qed.

Lemma strict_resolve_shaped body : preserves shaped (Strict.resolve body).
Proof. unfold_strict. pres. Qed.

Lemma strict_resolve_keeps b K body :
  K <> "metadata" -> K <> "chat_id" ->
  preserves (keeps b K) (Strict.resolve body).
Proof. intros H1 H2. unfold_strict. pres. Qed.

Lemma strict_store_model_quiet body metadata chat_id :
  preserves quiet (Strict.store_model body metadata chat_id).
Proof. unfold_strict. pres. Qed.

Lemma strict_store_model_same_heap body metadata chat_id :
  preserves same_heap (Strict.store_model body metadata chat_id).
Proof. unfold_strict. pres. Qed.

(** On a body with plain metadata the conversation id is resolved. *)
Lemma strict_resolve_ok b d st :
  heap st !! b = Some (ODict d) ->
  plain_metadata (heap st) d ->
  exists metadata chat_id st1,
    Strict.resolve (VRef b) st = (Ok (metadata, chat_id), st1) /\
    is_Some (to_key chat_id) /\
    is_dict (heap st1) metadata = true.
Proof.
  intros Hb Hwf.
  destruct (Strict.resolve (VRef b) st) as [r st1] eqn:Hrun.
  revert Hrun. unfold Strict.resolve.
  run (attr_get_run (VRef b) "metadata" d st (as_dict_lookup _ _ _ Hb)).
  assert (exists metadata st0 md,
    (match dict_get d "metadata" with
     | Some v => ret v
     | None => alloc (ODict [])
     end) st = (Ok metadata, st0) /\
    as_dict (heap st0) metadata = Some md /\
    (forall v, dict_get md "chat_id" = Some v -> is_Some (to_key v)) /\
    is_dict (heap st0) (VRef b) = true) as (metadata & st0 & md & Hm & Hmd & Hk & Hbd).
  { unfold plain_metadata in Hwf. destruct (dict_get d "metadata") as [m |].
    - destruct Hwf as (md & Hmd & Hk). exists m, st, md.
      repeat split; try done. unfold is_dict. by rewrite (as_dict_lookup _ _ _ Hb).
    - exists (VRef (length (heap st))), (set_heap (heap st ++ [ODict []]) st), [].
      repeat split; try done.
      + simpl. apply as_dict_lookup. by rewrite list_lookup_middle.
      + simpl. unfold is_dict.
        by rewrite (as_dict_lookup _ _ _ (lookup_app_l_Some _ _ _ _ Hb)). }
  run Hm. run (get_or_uuid_run metadata "chat_id" md st0 Hmd).
  set (c0 := default (VStr (uuid4 (uuids st0))) (dict_get md "chat_id")).
  set (st0' := set_uuids (S (uuids st0)) st0).
  assert (Hc0 : is_Some (to_key c0)).
  { unfold c0. destruct (dict_get md "chat_id") as [v |] eqn:Hv; simpl; eauto. }
  assert (exists chat_id st2,
    (if str_is c0 "local"
     then session_id <- get_or_uuid metadata "session_id" ;;
          h <- get_heap ;;
          log "Generated temporary chat_id" ;;
          ret (temporary_session h session_id)
     else ret c0) st0' = (Ok chat_id, st2) /\
    heap st2 = heap st0 /\ is_Some (to_key chat_id))
    as (chat_id & st2 & Hif & Hh2 & Hc).
  { destruct (str_is c0 "local").
    - run (get_or_uuid_run metadata "session_id" md st0' Hmd).
      unfold get_heap at 1. unfold bind at 1. run_log.
      eexists _, _. split; [reflexivity |]. split; [by rewrite heap_logged |].
      simpl. eauto.
    - by exists c0, st0'. }
  run Hif.
  rewrite <- Hh2 in Hmd, Hbd.
  destruct (as_dict_ref _ _ _ Hmd) as (lm & -> & Hlm).
  run (setitem_run lm "chat_id" chat_id md st2 Hlm).
  match goal with |- context [bind (setitem (VRef b) _ _) _ ?s] =>
    destruct (setitem_ok (VRef b) "metadata" (VRef lm) s) as (st4 & Hset & Hs4)
  end.
  { by eapply (shaped_set (VRef lm) "chat_id"). }
  run Hset. unfold ret. intros [= <- <-].
  exists (VRef lm), chat_id, st4. split; [done |]. split; [done |].
  apply Hs4. eapply (shaped_set (VRef lm) "chat_id"); [done | exact Hlm |].
  unfold is_dict. by rewrite Hmd.
Qed.

(** With a dict for metadata and a hashable id, the registry is written. *)
Lemma strict_store_model_ok body metadata chat_id k db st :
  as_dict (heap st) body = Some db ->
  is_dict (heap st) metadata = true ->
  to_key chat_id = Some k ->
  exists st' r,
    Strict.store_model body metadata chat_id st = (Ok k, st') /\
    model_names st' !! k = Some r /\
    dict_get r "id" = Some (default VNone (dict_get db "model")).
Proof.
  intros Hb Hm Hk.
  destruct (is_dict_as_dict _ _ Hm) as (md & Hmd).
  destruct (Strict.store_model body metadata chat_id st) as [res st'] eqn:Hrun.
  revert Hrun. unfold Strict.store_model.
  run (attr_get_run metadata "model" md st Hmd).
  run (get_or_run body "model" VNone db st Hb).
  run (hash_key_run chat_id k st Hk).
  set (model_id := default VNone (dict_get db "model")).
  unfold registry_get at 1. unfold bind at 1.
  assert (exists r0,
    (match model_names st !! k with
     | Some r => registry_set k (dict_set r "id" model_id)
     | None => registry_set k [("id", model_id)]
     end) st = (Ok tt, set_model_names (<[k := r0]> (model_names st)) st) /\
    dict_get r0 "id" = Some model_id) as (r0 & Hset & Hid).
  { destruct (model_names st !! k) as [r |].
    - exists (dict_set r "id" model_id). split; [done | apply dict_get_set_eq].
    - by exists [("id", model_id)]. }
  run Hset. unfold get_heap at 1. unfold bind at 1. simpl heap.
  match goal with |- context [match ?x with Some name => _ | None => _ end] =>
    destruct x as [name |]
  end.
  - unfold registry_get at 1. unfold bind at 1. simpl model_names.
    rewrite lookup_insert_eq.
    unfold registry_set at 1. unfold bind at 1. run_log. unfold ret.
    intros [= <- <-]. eexists _, _. split; [reflexivity |].
    rewrite model_names_logged. simpl. rewrite lookup_insert_eq.
    split; [reflexivity |]. by rewrite dict_get_set_ne.
  - unfold ret. intros [= <- <-]. eexists _, _. split; [reflexivity |].
    simpl. rewrite lookup_insert_eq. by split.
Qed.

(** Up to the check of the required keys the inlet sends nothing, registers
    no trace and leaves the body's "model" and "messages" entries alone. *)
Lemma strict_inlet_missing_key_run b d user st :
  heap st !! b = Some (ODict d) ->
  dict_has d "model" && dict_has d "messages" = false ->
  exists e st',
    Strict.inlet (VRef b) user st = (Raise e, st') /\
    quiet st st' /\
    (plain_metadata (heap st) d ->
     e = ValueError /\
     exists k r, model_names st' !! k = Some r /\
       dict_get r "id" = Some (default VNone (dict_get d "model"))).
Proof.
  intros Hb Hmiss.
  set (st0 := logged "User" (logged "Inlet called with body" st)).
  assert (Hh0 : heap st0 = heap st) by (unfold st0; by rewrite !heap_logged).
  assert (Hq0 : quiet st st0).
  { unfold st0, quiet.
    by rewrite !backend_logged, !chat_traces_logged, !langfuse_logged. }
  rewrite <- Hh0 in Hb. rewrite <- Hh0.
  destruct (Strict.inlet (VRef b) user st) as [res st'] eqn:Hrun. revert Hrun.
  unfold Strict.inlet. run_log. run_log. fold st0.
  destruct (Strict.resolve (VRef b) st0) as [[[metadata chat_id] | e] st1] eqn:Hres.
  2: { rewrite (bind_raise _ _ _ _ _ Hres). intros [= <- <-]. exists e, st1.
       split; [done |]. split.
       - etransitivity; [exact Hq0 | by eapply strict_resolve_quiet].
       - intros Hplain.
         destruct (strict_resolve_ok b d st0 Hb Hplain) as (? & ? & ? & H & _).
         congruence. }
  run Hres. unfold Strict.inlet_rest. cbn [fst snd].
  assert (Hq1 : quiet st st1).
  { etransitivity; [exact Hq0 | by eapply strict_resolve_quiet]. }
  destruct (strict_resolve_keeps b "model" (VRef b) ltac:(done) ltac:(done)
              _ _ _ Hres d Hb) as (d1 & Hb1 & Hmod).
  destruct (strict_resolve_keeps b "messages" (VRef b) ltac:(done) ltac:(done)
              _ _ _ Hres d Hb) as (d1' & Hb1' & Hmsg).
  rewrite Hb1 in Hb1'. injection Hb1' as <-.
  assert (Hmiss1 : dict_has d1 "model" && dict_has d1 "messages" = false).
  { unfold dict_has in *. by rewrite Hmod, Hmsg. }
  destruct (Strict.store_model (VRef b) metadata chat_id st1)
    as [[k | e] st2] eqn:Hsm.
  2: { rewrite (bind_raise _ _ _ _ _ Hsm). intros [= <- <-]. exists e, st2.
       split; [done |]. split.
       - etransitivity; [exact Hq1 | by eapply strict_store_model_quiet].
       - intros Hplain.
         destruct (strict_resolve_ok b d st0 Hb Hplain)
           as (m' & c' & s' & H & [k Hk] & Hm).
         rewrite Hres in H. injection H as <- <- <-.
         destruct (strict_store_model_ok (VRef b) metadata chat_id k d1 st1
                     (as_dict_lookup _ _ _ Hb1) Hm Hk) as (? & ? & H & _).
         congruence. }
  run Hsm.
  pose proof (strict_store_model_same_heap _ _ _ _ _ _ Hsm) as Hh2.
  rewrite <- Hh2 in Hb1.
  rewrite (bind_raise _ _ _ _ _ (validate_missing b d1 st2 Hb1 Hmiss1)).
  intros [= <- <-]. eexists _, _. split; [reflexivity |]. split.
  - etransitivity; [exact Hq1 |].
    etransitivity; [by eapply strict_store_model_quiet |].
    unfold quiet. by rewrite backend_logged, chat_traces_logged, langfuse_logged.
  - intros Hplain. split; [done |].
    destruct (strict_resolve_ok b d st0 Hb Hplain)
      as (m' & c' & s' & H & [k' Hk] & Hm).
    rewrite Hres in H. injection H as <- <- <-.
    rewrite Hh2 in Hb1.
    destruct (strict_store_model_ok (VRef b) metadata chat_id k' d1 st1
                (as_dict_lookup _ _ _ Hb1) Hm Hk) as (s2 & r & H & Hr & Hid).
    rewrite Hsm in H. injection H as <- <-.
    exists k, r. rewrite model_names_logged. split; [done |].
    by rewrite Hid, Hmod.
Qed.

End Validation.

(** The strict inlet on [{"model": "gpt-4", "metadata": {"chat_id": "c1"}}],
    which has no message list: the validation error is raised, and the
    registry holds a record for "c1" that it did not hold before. *)
Lemma strict_inlet_validation_writes_registry :
  let h := [ ODict [("model", VStr "gpt-4"); ("metadata", VRef 1)];
             ODict [("chat_id", VStr "c1")] ] in
  (@Strict.inlet calm (VRef 0) VNone (init h true)).1 = Raise ValueError /\
  model_names (init h true) !! KStr "c1" = None /\
  model_names (@Strict.inlet calm (VRef 0) VNone (init h true)).2
    !! KStr "c1" = Some [("id", VStr "gpt-4")].
Proof. repeat split; vm_compute; reflexivity. Qed.

(** * An outlet without an open trace *)

(** ** Code that only reads the store *)

Definition heap_only {A} (m : M A) : Prop :=
  forall st st', heap st = heap st' -> m st' = ((m st).1, st').

Lemma heap_only_ret {A} (a : A) : heap_only (ret a).
Proof. by intros st st' _. Qed.

Lemma heap_only_raise {A} e : heap_only (@raise A e).
Proof. by intros st st' _. Qed.

Lemma heap_only_get_heap : heap_only get_heap.
Proof. intros st st' H. unfold get_heap. simpl. by rewrite H. Qed.

Lemma heap_only_attr_get v k : heap_only (attr_get v k).
Proof.
  intros st st' H. unfold attr_get. rewrite <- H.
  by destruct (as_dict (heap st) v).
Qed.

Lemma heap_only_bind {A B} (m : M A) (f : A -> M B) :
  heap_only m -> (forall a, heap_only (f a)) -> heap_only (bind m f).
Proof.
  intros Hm Hf st st' H. unfold bind.
  rewrite (Hm st st' H), (Hm st st eq_refl).
  destruct (m st).1 as [a | e]; simpl; [| done].
  apply (Hf a st st' H).
Qed.

Lemma heap_only_get_or v k d : heap_only (get_or v k d).
Proof.
  apply heap_only_bind; [apply heap_only_attr_get | intros; apply heap_only_ret].
Qed.

Ltac heap_only_step :=
  lazymatch goal with
  | |- heap_only (bind _ _) => apply heap_only_bind
  | |- heap_only (ret _) => apply heap_only_ret
  | |- heap_only (raise _) => apply heap_only_raise
  | |- heap_only get_heap => apply heap_only_get_heap
  | |- heap_only (attr_get _ _) => apply heap_only_attr_get
  | |- heap_only (get_or _ _ _) => apply heap_only_get_or
  | |- heap_only (match ?x with _ => _ end) => destruct x
  | |- forall _, _ => intros
  end.

(** ** No trace, no record *)

Definition idle (st st' : state) : Prop :=
  backend st' = backend st /\
  chat_traces st' = chat_traces st /\
  model_names st' = model_names st.

(** From a state without a trace for [k], nothing is sent or registered. *)
Definition unregistered (k : key) (st st' : state) : Prop :=
  chat_traces st !! k = None -> idle st st'.

#[global] Instance unregistered_preorder k : PreOrder (unregistered k).
Proof.
  split.
  - by intros st _.
  - intros x y z H1 H2 Hk. destruct (H1 Hk) as (Hb & Ht & Hm).
    destruct H2 as (Hb' & Ht' & Hm'); [by rewrite Ht |].
    repeat split; congruence.
Qed.

#[global] Instance unregistered_heap k : TolHeap (unregistered k).
Proof. by intros st h _. Qed.
#[global] Instance unregistered_out k : TolOut (unregistered k).
Proof. by intros st s _. Qed.
#[global] Instance unregistered_uuids k : TolUuids (unregistered k).
Proof. by intros st n _. Qed.

Lemma preserves_unregistered_lookup {A} k (a : M A) (b : handle -> M A) :
  preserves (unregistered k) a ->
  preserves (unregistered k)
    (t <- traces_get k ;;
     match t with
     | None => a
     | Some trace => b trace
     end).
Proof.
  intros Ha st r st'. unfold bind, traces_get.
  destruct (chat_traces st !! k) eqn:Hk; [| apply Ha].
  intros _ Hn. congruence.
Qed.

Section Unmatched.

Context {E : env}.

Lemma defensive_outlet_chat_id_heap_only body :
  heap_only (Defensive.outlet_chat_id body).
Proof. unfold_defensive. repeat heap_only_step. Qed.

Lemma defensive_outlet_rest_unregistered body chat_id k :
  to_key chat_id = Some k ->
  preserves (unregistered k) (Defensive.outlet_rest body chat_id).
Proof.
  intros Hk. unfold Defensive.outlet_rest.
  repeat first
    [ apply (preserves_bind_with _ _ _ _ (preserves_hash_key _ _)
               (returns_hash_key _));
      intros k' Hk'; assert (k' = k) as -> by congruence
    | apply preserves_unregistered_lookup
    | pres_step ].
Qed.

Lemma strict_outlet_resolve_quiet body :
  preserves quiet (Strict.outlet_resolve body).
Proof. unfold_strict. pres. Qed.

End Unmatched.

(** A body that both handlers accept:
    [{"chat_id": "c1", "model": "gpt-4",
      "messages": [{"role": "user", "content": "hi"},
                   {"role": "assistant", "content": "hello"}],
      "metadata": {"chat_id": "c1"}}] at location 0. *)
Definition turn_c1 : list obj :=
  [ ODict [("chat_id", VStr "c1"); ("model", VStr "gpt-4");
           ("messages", VRef 1); ("metadata", VRef 4)];
    OList [VRef 2; VRef 3];
    ODict [("role", VStr "user"); ("content", VStr "hi")];
    ODict [("role", VStr "assistant"); ("content", VStr "hello")];
    ODict [("chat_id", VStr "c1")] ].


(** From a state with no trace for the id that the defensive outlet
    resolves: the outlet returns the body, registers nothing and sends
    nothing but the final flush. *)
Lemma defensive_outlet_unmatched {E : env} body user st k chat_id :
  chat_traces st !! k = None ->
  is_dict (heap st) body = true ->
  (Defensive.outlet_chat_id body st).1 = Ok chat_id ->
  to_key chat_id = Some k ->
  exists st',
    Defensive.outlet body user st = (Ok body, st') /\
    chat_traces st' = chat_traces st /\
    model_names st' = model_names st /\
    if langfuse st
    then exists ok, backend st' = backend st ++ [(CFlush, ok)]
    else backend st' = backend st.
Proof.
  intros Hnone Hd Hcid Hk.
  destruct (defensive_outlet_run body user st Hd)
    as (r & st1 & st' & Htry & Hf & Hrun).
  exists st'. split; [done |].
  set (st0 := logged "Outlet function called with body keys" st) in *.
  assert (Hidle : idle st st1).
  { revert Htry. unfold Defensive.outlet_try.
    assert (Hh : heap st = heap st0) by (unfold st0; by rewrite heap_logged).
    rewrite (bind_step _ _ _ _ _
               (eq_trans (defensive_outlet_chat_id_heap_only body st st0 Hh)
                  (f_equal (fun x => (x, st0)) Hcid))).
    intros Hrest.
    apply (defensive_outlet_rest_unregistered body chat_id k Hk) in Hrest.
    destruct Hrest as (Hb & Ht & Hm).
    - unfold st0. by rewrite chat_traces_logged.
    - unfold st0 in *.
      rewrite backend_logged in Hb. rewrite chat_traces_logged in Ht.
      rewrite model_names_logged in Hm. by repeat split. }
  destruct Hidle as (Hb & Ht & Hm).
  set (st2 := match r with
              | Ok _ => st1
              | Raise _ => logged "Error in outlet" st1
              end) in *.
  assert (H2 : backend st2 = backend st /\ chat_traces st2 = chat_traces st /\
               model_names st2 = model_names st /\ langfuse st2 = langfuse st).
  { assert (Hl : langfuse st1 = langfuse st).
    { apply defensive_outlet_try_no_flush in Htry as [Hl _].
      unfold st0 in Hl. by rewrite langfuse_logged in Hl. }
    unfold st2. destruct r;
      rewrite ?backend_logged, ?chat_traces_logged, ?model_names_logged,
        ?langfuse_logged; by repeat split. }
  destruct H2 as (Hb2 & Ht2 & Hm2 & Hl2).
  destruct (flush_run st2) as (st3 & Hf3 & Ht3 & Hm3 & _ & Hoff & Hon).
  rewrite Hf in Hf3. injection Hf3 as <-.
  split; [congruence |]. split; [congruence |].
  rewrite <- Hl2. destruct (langfuse st2).
  - destruct (Hon eq_refl) as (ok & Hb3 & _). exists ok. by rewrite Hb3, Hb2.
  - by rewrite (Hoff eq_refl).
Qed.

(** * The conversation id in the metadata record *)

(** A request whose metadata carries no chat id, at location 0:
    [{"model": "gpt-4", "messages": [], "metadata": {"user_id": "u1"}}]. *)
Definition request_anonymous : list obj :=
  [ ODict [("model", VStr "gpt-4"); ("messages", VRef 1); ("metadata", VRef 2)];
    OList [];
    ODict [("user_id", VStr "u1")] ].

(** The metadata dict of the body at location [b], read from a state. *)
Definition body_metadata (st : state) (b : loc) : option dict :=
  match as_dict (heap st) (VRef b) with
  | Some d =>
      match dict_get d "metadata" with
      | Some m => as_dict (heap st) m
      | None => None
      end
  | None => None
  end.

(** C5.  On a body that has a metadata object without a chat id,
    [_extract_metadata] of the defensive variant returns that object as it
    is: the record has no "chat_id" key, and the inlet files the trace and
    the model record under the key [None].  The strict inlet, on the same
    body, writes a generated id into the record and uses it as the key. *)
Theorem defensive_metadata_without_chat_id {E : env} :
  Defensive.extract_metadata (VRef 0) (init request_anonymous true)
    = (Ok (VRef 2), init request_anonymous true) /\
  (let st' := (@Defensive.inlet calm (VRef 0) VNone
                 (init request_anonymous true)).2 in
   body_metadata st' 0 =
     Some [("user_id", VStr "u1"); ("type", VStr "user_response");
           ("interface", VStr "open-webui")] /\
   chat_traces st' !! KNone = Some 0 /\
   model_names st' !! KNone
     = Some [("id", VStr "gpt-4"); ("name", VStr "unknown")]) /\
  (let st' := (@Strict.inlet calm (VRef 0) VNone
                 (init request_anonymous true)).2 in
   body_metadata st' 0 =
     Some [("user_id", VStr "u1"); ("chat_id", VStr "uuid-0");
           ("type", VStr "user_response"); ("interface", VStr "open-webui")] /\
   chat_traces st' !! KStr "uuid-0" = Some 0).
Proof. repeat split; vm_compute; reflexivity. Qed.

(** * The "local" placeholder *)

Lemma returns_raise {A} (Q : A -> Prop) e : returns Q (@raise A e).
Proof. by intros st a st'. Qed.

Ltac returns_step :=
  lazymatch goal with
  | |- returns _ (bind _ _) => apply returns_bind
  | |- returns _ (ret _) => apply returns_ret
  | |- returns _ (raise _) => apply returns_raise
  | |- returns _ (match ?x with _ => _ end) => destruct x
  | |- forall _, _ => intros
  end.

(** [self.langfuse] is set by [set_langfuse], outside the handlers. *)
Definition set_langfuse (c : bool) (st : state) : state :=
  {| heap := heap st; model_names := model_names st;
     chat_traces := chat_traces st; langfuse := c; backend := backend st;
     out := out st; uuids := uuids st |}.

(** The states of an adapter during the life of its process: between two
    handler calls the server builds new bodies in the store and may reset
    the client. *)
Inductive reachable (inlet outlet : val -> val -> M val) : state -> Prop :=
| reach_init h c : reachable inlet outlet (init h c)
| reach_store st h :
    reachable inlet outlet st -> reachable inlet outlet (set_heap h st)
| reach_client st c :
    reachable inlet outlet st -> reachable inlet outlet (set_langfuse c st)
| reach_inlet st body user :
    reachable inlet outlet st -> reachable inlet outlet (inlet body user st).2
| reach_outlet st body user :
    reachable inlet outlet st -> reachable inlet outlet (outlet body user st).2.

(** The placeholder is a key of neither registry. *)
Definition no_local (st : state) : Prop :=
  chat_traces st !! KStr "local" = None /\
  model_names st !! KStr "local" = None.

Definition guards (st st' : state) : Prop := no_local st -> no_local st'.

#[global] Instance guards_preorder : PreOrder guards.
Proof.
  split; [intros st H; exact H | intros x y z H1 H2 H; by apply H2, H1].
Qed.

#[global] Instance guards_heap : TolHeap guards.
Proof. intros st h H. exact H. Qed.
#[global] Instance guards_out : TolOut guards.
Proof. intros st s H. exact H. Qed.
#[global] Instance guards_uuids : TolUuids guards.
Proof. intros st n H. exact H. Qed.
#[global] Instance guards_call c : TolCall guards c.
Proof. intros st ok H. exact H. Qed.

Lemma guards_models_at k : k <> KStr "local" -> TolModelsAt guards k.
Proof.
  intros Hk st r [Ht Hm]. split; [done |]. simpl. by rewrite lookup_insert_ne.
Qed.

Lemma guards_traces_at k : k <> KStr "local" -> TolTracesAt guards k.
Proof.
  intros Hk st t [Ht Hm]. split; [| done]. simpl. by rewrite lookup_insert_ne.
Qed.

#[global] Hint Extern 2 (TolModelsAt guards _) =>
  apply guards_models_at; assumption : typeclass_instances.
#[global] Hint Extern 2 (TolTracesAt guards _) =>
  apply guards_traces_at; assumption : typeclass_instances.

Lemma key_not_local c k :
  str_is c "local" = false -> to_key c = Some k -> k <> KStr "local".
Proof.
  destruct c; simpl; intros Hc [= <-]; try done.
  intros [= ->]. by rewrite String.eqb_refl in Hc.
Qed.

Section Placeholder.

Context {E : env}.

Lemma temporary_session_not_local h sid :
  str_is (temporary_session h sid) "local" = false.
Proof. reflexivity. Qed.

Lemma temporary_session_inj h s1 s2 :
  temporary_session h (VStr s1) = temporary_session h (VStr s2) -> s1 = s2.
Proof. unfold temporary_session. cbn. intros H. injection H as H. exact H. Qed.

Lemma temporary_session_prefix h sid c :
  temporary_session h sid = VStr c ->
  is_prefix "temporary-session-" c = true /\ c <> "local".
Proof. unfold temporary_session. intros [= <-]. by split. Qed.

Lemma strict_resolve_not_local body :
  returns (fun mc => str_is mc.2 "local" = false) (Strict.resolve body).
Proof.
  unfold Strict.resolve. do 3 (apply returns_bind; intros).
  apply (returns_bind_with (fun c => str_is c "local" = false)).
  - destruct (str_is a1 "local") eqn:Hl.
    + repeat returns_step. apply temporary_session_not_local.
    + by apply returns_ret.
  - intros c Hc. repeat returns_step. exact Hc.
Qed.

Lemma strict_outlet_resolve_not_local body :
  returns (fun r => str_is r.1.1 "local" = false) (Strict.outlet_resolve body).
Proof.
  unfold Strict.outlet_resolve. do 3 (apply returns_bind; intros).
  apply (returns_bind_with (fun c => str_is c "local" = false)).
  - destruct (str_is a1 "local") eqn:Hl.
    + repeat returns_step. apply temporary_session_not_local.
    + by apply returns_ret.
  - intros c Hc. repeat returns_step. exact Hc.
Qed.

Lemma strict_store_model_key body metadata chat_id :
  returns (fun k => to_key chat_id = Some k)
    (Strict.store_model body metadata chat_id).
Proof.
  unfold Strict.store_model. do 2 (apply returns_bind; intros).
  apply (returns_bind_with _ _ _ _ (returns_hash_key chat_id)).
  intros k Hk. repeat returns_step; exact Hk.
Qed.

Lemma strict_store_model_guards body metadata chat_id :
  str_is chat_id "local" = false ->
  preserves guards (Strict.store_model body metadata chat_id).
Proof.
  intros Hc. unfold Strict.store_model.
  repeat first
    [ apply (preserves_bind_with _ _ _ _ (preserves_hash_key _ _)
               (returns_hash_key _));
      intros k Hk; pose proof (key_not_local _ _ Hc Hk)
    | pres_step ].
Qed.

Lemma strict_resolve_guards body : preserves guards (Strict.resolve body).
Proof. unfold_strict. pres. Qed.

Lemma strict_inlet_guards body user :
  preserves guards (Strict.inlet body user).
Proof.
  unfold Strict.inlet.
  do 2 (apply preserves_bind; try exact _; [pres | intros _]).
  apply (preserves_bind_with _ _ _ _
           (strict_resolve_guards body) (strict_resolve_not_local body)).
  intros [metadata chat_id] Hc. simpl in Hc.
  unfold Strict.inlet_rest. cbn [fst snd].
  apply (preserves_bind_with _ _ _ _
           (strict_store_model_guards _ _ _ Hc)
           (strict_store_model_key _ _ _)).
  intros k Hk. pose proof (key_not_local _ _ Hc Hk).
  unfold_strict. pres.
Qed.

Lemma strict_outlet_guards body user :
  preserves guards (Strict.outlet body user).
Proof.
  unfold Strict.outlet.
  repeat (pres_step; try apply strict_inlet_guards).
  all: unfold_strict; pres.
Qed.

Lemma strict_reachable_no_local st :
  reachable Strict.inlet Strict.outlet st -> no_local st.
Proof.
  induction 1 as [h c | st h _ IH | st c _ IH | st body user _ IH
                 | st body user _ IH]; try done.
  - destruct (Strict.inlet body user st) as [r st'] eqn:Hrun.
    by apply (strict_inlet_guards _ _ _ _ _ Hrun).
  - destruct (Strict.outlet body user st) as [r st'] eqn:Hrun.
    by apply (strict_outlet_guards _ _ _ _ _ Hrun).
Qed.

End Placeholder.

Section Rewriting.

Context {E : env}.

(** The strict inlet on a body whose metadata says "local". *)
Lemma strict_resolve_local b d lm md st :
  heap st !! b = Some (ODict d) ->
  dict_get d "metadata" = Some (VRef lm) ->
  heap st !! lm = Some (ODict md) ->
  dict_get md "chat_id" = Some (VStr "local") ->
  exists st',
    Strict.resolve (VRef b) st =
      (Ok (VRef lm,
           temporary_session (heap st)
             (default (VStr (uuid4 (S (uuids st)))) (dict_get md "session_id"))),
       st').
Proof.
  intros Hb Hm Hlm Hc.
  destruct (Strict.resolve (VRef b) st) as [r st1] eqn:Hrun. revert Hrun.
  unfold Strict.resolve.
  run (attr_get_run (VRef b) "metadata" d st (as_dict_lookup _ _ _ Hb)).
  rewrite Hm. rewrite ret_run.
  run (get_or_uuid_run (VRef lm) "chat_id" md st (as_dict_lookup _ _ _ Hlm)).
  rewrite Hc. cbn [default from_option id].
  change (str_is (VStr "local") "local") with true. cbv iota.
  set (st0 := set_uuids (S (uuids st)) st).
  set (st2 := logged "Generated temporary chat_id" (set_uuids (S (uuids st0)) st0)).
  assert (Hif :
    (session_id <- get_or_uuid (VRef lm) "session_id" ;;
     h <- get_heap ;;
     log "Generated temporary chat_id" ;;
     ret (temporary_session h session_id)) st0 =
    (Ok (temporary_session (heap st)
           (default (VStr (uuid4 (S (uuids st)))) (dict_get md "session_id"))),
     st2)).
  { run (get_or_uuid_run (VRef lm) "session_id" md st0
           (as_dict_lookup _ _ _ Hlm)).
    unfold get_heap at 1. unfold bind at 1. by run_log. }
  run Hif.
  assert (Hh2 : heap st2 = heap st) by (unfold st2; by rewrite heap_logged).
  assert (Hlm' : heap st2 !! lm = Some (ODict md)) by by rewrite Hh2.
  assert (Hb' : is_dict (heap st2) (VRef b) = true).
  { rewrite Hh2. unfold is_dict. by rewrite (as_dict_lookup _ _ _ Hb). }
  run (setitem_run lm "chat_id"
         (temporary_session (heap st)
            (default (VStr (uuid4 (S (uuids st)))) (dict_get md "session_id")))
         md _ Hlm').
  match goal with |- context [bind (setitem (VRef b) _ _) _ ?s] =>
    destruct (setitem_ok (VRef b) "metadata" (VRef lm) s) as (st4 & Hset & _)
  end.
  { by eapply (shaped_set (VRef lm) "chat_id"). }
  run Hset. unfold ret. intros [= <- <-]. by exists st4.
Qed.

(** The strict outlet on a body whose top-level chat id says "local". *)
Lemma strict_outlet_resolve_local b d st c m t st' :
  heap st !! b = Some (ODict d) ->
  dict_get d "chat_id" = Some (VStr "local") ->
  Strict.outlet_resolve (VRef b) st = (Ok (c, m, t), st') ->
  c = temporary_session (heap st)
        (default (VStr (uuid4 (uuids st))) (dict_get d "session_id")).
Proof.
  intros Hb Hc. unfold Strict.outlet_resolve. run_log. run_log.
  set (st0 := logged "User" (logged "Outlet called with body" st)).
  assert (Hb0 : as_dict (heap st0) (VRef b) = Some d).
  { unfold st0. rewrite !heap_logged. by apply as_dict_lookup. }
  run (get_or_run (VRef b) "chat_id" VNone d st0 Hb0).
  rewrite Hc. cbn [default from_option id].
  change (str_is (VStr "local") "local") with true. cbv iota.
  assert (Hif :
    (session_id <- get_or_uuid (VRef b) "session_id" ;;
     h <- get_heap ;;
     log "Generated temporary chat_id" ;;
     ret (temporary_session h session_id)) st0 =
    (Ok (temporary_session (heap st)
           (default (VStr (uuid4 (uuids st))) (dict_get d "session_id"))),
     logged "Generated temporary chat_id" (set_uuids (S (uuids st0)) st0))).
  { run (get_or_uuid_run (VRef b) "session_id" d st0 Hb0).
    unfold get_heap at 1. unfold bind at 1. run_log. unfold ret.
    cbn [heap set_uuids]. unfold st0. by rewrite !heap_logged, !uuids_logged. }
  run Hif.
  intros H. repeat (apply bind_ok in H as (? & ? & _ & H)).
  by injection H as <- _ _ _.
Qed.

(** The defensive rewrite with a non-empty top-level session token. *)
Lemma defensive_rewrite_local b d sid st :
  heap st !! b = Some (ODict d) ->
  dict_get d "session_id" = Some sid ->
  truthy (heap st) sid = true ->
  Defensive.rewrite_local (VRef b) (VStr "local") st =
    (Ok (temporary_session (heap st) sid), st).
Proof.
  intros Hb Hs Ht. unfold Defensive.rewrite_local.
  change (str_is (VStr "local") "local") with true. cbv iota.
  run (get_or_run (VRef b) "session_id" VNone d st (as_dict_lookup _ _ _ Hb)).
  rewrite Hs. cbn [default from_option id]. unfold Defensive.or_else.
  rewrite bind_assoc.
  unfold get_heap at 1. unfold bind at 1. rewrite Ht. rewrite ret_run.
  unfold get_heap at 1. unfold bind at 1. by rewrite Ht.
Qed.

(** Without a session token the defensive rewrite keeps "local". *)
Lemma defensive_rewrite_local_kept b d st :
  heap st !! b = Some (ODict d) ->
  dict_get d "session_id" = None ->
  dict_get d "metadata" = None ->
  Defensive.rewrite_local (VRef b) (VStr "local") st = (Ok (VStr "local"), st).
Proof.
  intros Hb Hs Hm. unfold Defensive.rewrite_local.
  change (str_is (VStr "local") "local") with true. cbv iota.
  run (get_or_run (VRef b) "session_id" VNone d st (as_dict_lookup _ _ _ Hb)).
  rewrite Hs. cbn [default from_option id]. unfold Defensive.or_else.
  rewrite bind_assoc.
  unfold get_heap at 1. unfold bind at 1. cbn [truthy].
  unfold Defensive.nested_get. rewrite bind_assoc.
  run (attr_get_run (VRef b) "metadata" d st (as_dict_lookup _ _ _ Hb)).
  rewrite Hm. rewrite ret_run.
  unfold get_heap at 1. unfold bind at 1. by cbn [truthy].
Qed.

End Rewriting.

(** Two requests in one store: at 0 a chat whose id is the string
    "temporary-session-s1", at 2 a temporary chat ("local") with the session
    token "s1". *)
Definition two_chats : list obj :=
  [ ODict [("model", VStr "gpt-4"); ("messages", VRef 4); ("metadata", VRef 1)];
    ODict [("chat_id", VStr "temporary-session-s1")];
    ODict [("model", VStr "gpt-4"); ("messages", VRef 4); ("metadata", VRef 3)];
    ODict [("chat_id", VStr "local"); ("session_id", VStr "s1")];
    OList [] ].

(** The strict inlet gives the temporary chat the identity of the other
    chat; the defensive inlet files the temporary chat under "local" itself;
    the defensive outlet keeps "local" when there is no session token. *)
Lemma placeholder_collides :
  ((@Strict.resolve calm (VRef 0) (init two_chats true)).1
     = Ok (VRef 1, VStr "temporary-session-s1") /\
   (@Strict.resolve calm (VRef 2) (init two_chats true)).1
     = Ok (VRef 3, VStr "temporary-session-s1")) /\
  chat_traces (@Defensive.inlet calm (VRef 2) VNone (init two_chats true)).2
    !! KStr "local" = Some 0 /\
  (@Defensive.outlet_chat_id calm (VRef 0)
     (init [ODict [("chat_id", VStr "local")]] true)).1 = Ok (VStr "local").
Proof. repeat split; vm_compute; reflexivity. Qed.

Lemma str_is_false_neq c s : str_is c s = false -> c <> VStr s.
Proof. intros H ->. simpl in H. by rewrite String.eqb_refl in H. Qed.

(** * One trace per conversation *)

Fixpoint kw_get (p : kwargs) (k : string) : option arg :=
  match p with
  | [] => None
  | (k', a) :: p' => if String.eqb k k' then Some a else kw_get p' k
  end.

(** A successful open-trace call whose session id is the key [k]. *)
Definition opened (k : key) (c : call * bool) : bool :=
  match c with
  | (CTrace p, true) =>
      match kw_get p "session_id" with
      | Some (AVal v) => bool_decide (to_key v = Some k)
      | _ => false
      end
  | _ => false
  end.

Definition opens (k : key) (b : list (call * bool)) : nat :=
  length (List.filter (opened k) b).

(** Every registered conversation was opened exactly once, and no other
    conversation was opened. *)
Definition once (st : state) : Prop :=
  forall k, opens k (backend st) =
            match chat_traces st !! k with Some _ => 1 | None => 0 end.

Definition once_kept (st st' : state) : Prop := once st -> once st'.

Lemma opens_snoc k b c :
  opens k (b ++ [c]) = opens k b + (if opened k c then 1 else 0).
Proof.
  unfold opens. rewrite List.filter_app, length_app. simpl.
  by destruct (opened k c).
Qed.

Lemma kw_get_with_tags tags p k :
  k <> "tags" -> kw_get (with_tags tags p) k = kw_get p k.
Proof.
  intros Hk. unfold with_tags. destruct tags; [done |].
  induction p as [| [k' a] p IH]; simpl.
  - by destruct (String.eqb_spec k "tags").
  - by destruct (String.eqb k k').
Qed.

#[global] Instance once_kept_preorder : PreOrder once_kept.
Proof.
  split; [intros st H; exact H | intros x y z H1 H2 H; by apply H2, H1].
Qed.

#[global] Instance once_kept_heap : TolHeap once_kept.
Proof. intros st h H. exact H. Qed.
#[global] Instance once_kept_out : TolOut once_kept.
Proof. intros st s H. exact H. Qed.
#[global] Instance once_kept_uuids : TolUuids once_kept.
Proof. intros st n H. exact H. Qed.
#[global] Instance once_kept_models : TolModels once_kept.
Proof. intros st m H. exact H. Qed.

Lemma once_kept_call c :
  (forall k ok, opened k (c, ok) = false) -> TolCall once_kept c.
Proof.
  intros Hc st ok H k. simpl. rewrite opens_snoc, Hc, Nat.add_0_r. apply H.
Qed.

#[global] Instance once_kept_update t p : TolCall once_kept (CUpdate t p).
Proof. apply once_kept_call. intros k ok. by destruct ok. Qed.
#[global] Instance once_kept_generation t p : TolCall once_kept (CGeneration t p).
Proof. apply once_kept_call. intros k ok. by destruct ok. Qed.
#[global] Instance once_kept_end t p : TolCall once_kept (CEnd t p).
Proof. apply once_kept_call. intros k ok. by destruct ok. Qed.
#[global] Instance once_kept_event t p : TolCall once_kept (CEvent t p).
Proof. apply once_kept_call. intros k ok. by destruct ok. Qed.
#[global] Instance once_kept_flush : TolCall once_kept CFlush.
Proof. apply once_kept_call. intros k ok. by destruct ok. Qed.

(** A lookup in the trace store, followed by code for each answer. *)
Lemma preserves_lookup {A} (R : relation state) k (a : M A)
    (b : handle -> M A) :
  (forall st r st', chat_traces st !! k = None -> a st = (r, st') -> R st st') ->
  (forall t, preserves R (b t)) ->
  preserves R
    (t <- traces_get k ;;
     match t with
     | None => a
     | Some trace => b trace
     end).
Proof.
  intros Ha Hb st r st'. unfold bind, traces_get.
  destruct (chat_traces st !! k) eqn:Hk; [apply Hb | by apply Ha].
Qed.

Section Once.

Context {E : env}.

Lemma once_logged s st : once (logged s st) <-> once st.
Proof.
  unfold once. by rewrite backend_logged, chat_traces_logged.
Qed.

(** The state after the open-trace call [c] for the key [k], made from a
    state without a trace for [k], keeps the invariant. *)
Lemma once_open st k chat_id p (ok : bool) :
  once st ->
  chat_traces st !! k = None ->
  to_key chat_id = Some k ->
  kw_get p "session_id" = Some (AVal chat_id) ->
  once (if ok
        then set_chat_traces (<[k := length (backend st)]> (chat_traces st))
               (set_backend (backend st ++ [(CTrace p, true)]) st)
        else set_backend (backend st ++ [(CTrace p, false)]) st).
Proof.
  intros Honce Hnone Hk Hp k'. destruct ok; simpl.
  - rewrite opens_snoc. simpl. rewrite Hp, Hk, Honce.
    destruct (decide (k = k')) as [<- | Hne].
    + rewrite lookup_insert_eq, Hnone. by rewrite bool_decide_eq_true_2.
    + rewrite lookup_insert_ne by done.
      rewrite bool_decide_eq_false_2 by congruence. lia.
  - rewrite opens_snoc. simpl. rewrite Nat.add_0_r. apply Honce.
Qed.

Lemma strict_open_or_reuse_once body metadata chat_id user_email k tags :
  to_key chat_id = Some k ->
  preserves once_kept
    (Strict.open_or_reuse body metadata chat_id user_email k tags).
Proof.
  intros Hk. unfold Strict.open_or_reuse. apply preserves_lookup.
  - intros st r st' Hnone. run_log. unfold get_heap at 1. unfold bind at 1.
    cbv zeta. run_log. rewrite !heap_logged.
    set (st0 := logged _ (logged _ st)).
    set (p := with_tags tags _).
    assert (Hp : kw_get p "session_id" = Some (AVal chat_id)).
    { unfold p. by rewrite kw_get_with_tags. }
    assert (Hnone0 : chat_traces st0 !! k = None).
    { unfold st0. by rewrite !chat_traces_logged. }
    intros Hrun Honce.
    assert (Honce0 : once st0) by (unfold st0; by rewrite !once_logged).
    revert Hrun. unfold try_except, bind, client_call, backend_call, traces_set.
    destruct (langfuse st0).
    + destruct (faulty (length (backend st0))).
      * rewrite log_run. unfold raise. intros [= <- <-]. apply once_logged.
        apply (once_open st0 k chat_id p false Honce0 Hnone0 Hk Hp).
      * unfold ret. intros [= <- <-].
        apply (once_open st0 k chat_id p true Honce0 Hnone0 Hk Hp).
    + rewrite log_run. unfold raise. intros [= <- <-]. by apply once_logged.
  - intros t. pres.
Qed.

Lemma defensive_open_or_reuse_once body metadata chat_id user_email k tags :
  to_key chat_id = Some k ->
  preserves once_kept
    (Defensive.open_or_reuse body metadata chat_id user_email k tags).
Proof.
  intros Hk. unfold Defensive.open_or_reuse. apply preserves_lookup.
  - intros st r st' Hnone. run_log. unfold get_heap at 1. unfold bind at 1.
    rewrite !heap_logged.
    set (st0 := logged _ st).
    assert (Hnone0 : chat_traces st0 !! k = None).
    { unfold st0. by rewrite !chat_traces_logged. }
    intros Hrun Honce.
    assert (Honce0 : once st0) by (unfold st0; by rewrite !once_logged).
    apply bind_run in Hrun as [(input & st1 & Hin & Hrun) | (e & Hin & _)].
    2: { apply (preserves_get_or once_kept) in Hin. by apply Hin. }
    assert (st1 = st0) as ->.
    { revert Hin. unfold get_or, bind, attr_get.
      destruct (as_dict _ _); by intros [= _ <-]. }
    revert Hrun. cbv zeta.
    change (when (debug cfg) (print "[DEBUG] Langfuse trace request"))
      with (log "[DEBUG] Langfuse trace request").
    run_log.
    set (st2 := logged _ st0).
    set (p := with_tags tags _).
    assert (Hp : kw_get p "session_id" = Some (AVal chat_id)).
    { unfold p. by rewrite kw_get_with_tags. }
    assert (Hnone2 : chat_traces st2 !! k = None).
    { unfold st2. by rewrite !chat_traces_logged. }
    assert (Honce2 : once st2) by (unfold st2; by rewrite !once_logged).
    unfold try_except, bind, client_call, backend_call, traces_set.
    destruct (langfuse st2).
    + destruct (faulty (length (backend st2))).
      * rewrite log_run. unfold ret. intros [= <- <-]. apply once_logged.
        apply (once_open st2 k chat_id p false Honce2 Hnone2 Hk Hp).
      * unfold ret. intros [= <- <-].
        apply (once_open st2 k chat_id p true Honce2 Hnone2 Hk Hp).
    + rewrite log_run. unfold ret. intros [= <- <-]. by apply once_logged.
  - intros t. pres.
Qed.

End Once.

(** ** A failed open *)

Definition no_failed_open (c : call * bool) : Prop :=
  forall p, c <> (CTrace p, false).

#[global] Instance no_failed_open_update t p : Admits no_failed_open (CUpdate t p).
Proof. by intros ok q. Qed.
#[global] Instance no_failed_open_generation t p :
  Admits no_failed_open (CGeneration t p).
Proof. by intros ok q. Qed.
#[global] Instance no_failed_open_end t p : Admits no_failed_open (CEnd t p).
Proof. by intros ok q. Qed.
#[global] Instance no_failed_open_event t p : Admits no_failed_open (CEvent t p).
Proof. by intros ok q. Qed.
#[global] Instance no_failed_open_flush : Admits no_failed_open CFlush.
Proof. by intros ok q. Qed.

Lemma quiet_appends P st st' : quiet st st' -> appends P st st'.
Proof. intros (Hb & _ & Hl). by apply appends_same. Qed.

(** Code during which no open-trace call fails, unless its outcome
    satisfies [Q] and the trace store is left as it was. *)
Definition settles {A} (Q : result A -> Prop) (m : M A) : Prop :=
  forall st r st', m st = (r, st') ->
    appends no_failed_open st st' \/
    (Q r /\ chat_traces st' = chat_traces st).

Lemma settles_bind {A B} (Q : result B -> Prop) (m : M A) (f : A -> M B) :
  preserves quiet m -> (forall a, settles Q (f a)) -> settles Q (bind m f).
Proof.
  intros Hm Hf st r st' H.
  apply bind_run in H as [(a & st1 & H1 & H2) | (e & H1 & _)].
  - apply Hm in H1. destruct (Hf a _ _ _ H2) as [Happ | [HQ Ht]].
    + left. etransitivity; [by apply quiet_appends | exact Happ].
    + right. split; [done |]. destruct H1 as (_ & Ht1 & _). congruence.
  - left. by eapply quiet_appends, Hm.
Qed.

Lemma settles_failed {A} (Q : result A -> Prop) (m : M A) st r st' calls p :
  settles Q m ->
  m st = (r, st') ->
  backend st' = backend st ++ calls ->
  In (CTrace p, false) calls ->
  Q r /\ chat_traces st' = chat_traces st.
Proof.
  intros Hm Hrun Hb Hin.
  destruct (Hm _ _ _ Hrun) as [[_ (calls' & Hb' & Hall)] | HQ]; [| done].
  rewrite Hb in Hb'. apply app_inv_head in Hb'. subst calls'.
  rewrite List.Forall_forall in Hall. by destruct (Hall _ Hin p).
Qed.

Ltac settles_step tac unf :=
  first
    [ tac
    | apply settles_bind; [solve [unf; pres] | intros]
    | match goal with
      | |- settles _ (match ?x with _ => _ end) => destruct x
      end ].

Section FailedOpen.

Context {E : env}.

Lemma strict_open_outcome body metadata chat_id user_email k tags st r st' :
  Strict.open_or_reuse body metadata chat_id user_email k tags st = (r, st') ->
  appends no_failed_open st st' \/
  (r = Raise BackendError /\ chat_traces st' = chat_traces st).
Proof.
  unfold Strict.open_or_reuse. unfold traces_get at 1. unfold bind at 1.
  destruct (chat_traces st !! k) as [t |] eqn:Hlook.
  - intros H. left. revert H. generalize st r st'.
    change (preserves (appends no_failed_open)
              (log "Reusing existing trace for chat_id" ;;
               match tags with
               | [] => ret t
               | _ :: _ =>
                   backend_call (CUpdate t [("tags", ATags tags)]) ;; ret t
               end)).
    pres.
  - run_log. unfold get_heap at 1. unfold bind at 1. cbv zeta. run_log.
    set (st0 := logged _ (logged _ st)).
    assert (H0 : quiet st st0).
    { unfold st0, quiet.
      by rewrite !backend_logged, !chat_traces_logged, !langfuse_logged. }
    destruct H0 as (Hb0 & Ht0 & Hl0).
    unfold try_except, bind, client_call, backend_call, traces_set.
    destruct (langfuse st0) eqn:Hl.
    + destruct (faulty (length (backend st0))).
      * rewrite log_run. unfold raise. intros [= <- <-]. right.
        split; [done |]. by rewrite chat_traces_logged.
      * unfold ret. intros [= <- <-]. left.
        split; [simpl; congruence |].
        eexists [_]. simpl. rewrite Hb0. split; [reflexivity |].
        constructor; [by intros q | constructor].
    + rewrite log_run. unfold raise. intros [= <- <-]. left.
      apply appends_same; rewrite ?langfuse_logged, ?backend_logged;
        congruence.
Qed.

Lemma defensive_open_outcome body metadata chat_id user_email k tags st r st' :
  Defensive.open_or_reuse body metadata chat_id user_email k tags st
    = (r, st') ->
  appends no_failed_open st st' \/
  (r = Ok None /\ chat_traces st' = chat_traces st).
Proof.
  unfold Defensive.open_or_reuse. unfold traces_get at 1. unfold bind at 1.
  destruct (chat_traces st !! k) as [t |] eqn:Hlook.
  - intros H. left. revert H. generalize st r st'.
    change (preserves (appends no_failed_open)
              (log "Reusing existing trace for chat_id" ;;
               match tags with
               | [] => ret (Some t)
               | _ :: _ =>
                   try_except
                     (backend_call (CUpdate t [("tags", ATags tags)]) ;;
                      ret tt)
                     (fun _ => log "Error updating trace tags") ;;
                   ret (Some t)
               end)).
    pres.
  - run_log. unfold get_heap at 1. unfold bind at 1.
    set (st0 := logged _ st).
    assert (H0 : quiet st st0).
    { unfold st0, quiet.
      by rewrite !backend_logged, !chat_traces_logged, !langfuse_logged. }
    intros Hrun.
    apply bind_run in Hrun as [(input & st1 & Hin & Hrun) | (e & Hin & _)].
    2: { left. apply quiet_appends. etransitivity; [exact H0 |].
         by eapply (preserves_get_or quiet). }
    assert (st1 = st0) as ->.
    { revert Hin. unfold get_or, bind, attr_get.
      destruct (as_dict _ _); by intros [= _ <-]. }
    revert Hrun. cbv zeta.
    change (when (debug cfg) (print "[DEBUG] Langfuse trace request"))
      with (log "[DEBUG] Langfuse trace request").
    run_log.
    set (st2 := logged _ st0).
    assert (H2 : quiet st st2).
    { unfold st2, st0, quiet.
      by rewrite !backend_logged, !chat_traces_logged, !langfuse_logged. }
    destruct H2 as (Hb2 & Ht2 & Hl2).
    unfold try_except, bind, client_call, backend_call, traces_set.
    destruct (langfuse st2) eqn:Hl.
    + destruct (faulty (length (backend st2))).
      * rewrite log_run. unfold ret. intros [= <- <-]. right.
        split; [done |]. by rewrite chat_traces_logged.
      * unfold ret. intros [= <- <-]. left.
        split; [simpl; congruence |].
        eexists [_]. simpl. rewrite Hb2. split; [reflexivity |].
        constructor; [by intros q | constructor].
    + rewrite log_run. unfold ret. intros [= <- <-]. right.
      split; [done |]. by rewrite chat_traces_logged.
Qed.

End FailedOpen.

Section Lifetime.

Context {E : env}.

Lemma strict_open_settles body metadata chat_id user_email k tags
    (rest : handle -> M val) :
  (forall t, preserves (appends no_failed_open) (rest t)) ->
  settles (fun r => r = Raise BackendError)
    (trace <- Strict.open_or_reuse body metadata chat_id user_email k tags ;;
     rest trace).
Proof.
  intros Hrest st r st' H.
  apply bind_run in H as [(t & st1 & Ho & H) | (e & Ho & ->)].
  - destruct (strict_open_outcome _ _ _ _ _ _ _ _ _ Ho) as [Happ | [? _]];
      [| done].
    left. etransitivity; [exact Happ | by eapply Hrest].
  - destruct (strict_open_outcome _ _ _ _ _ _ _ _ _ Ho) as [Happ | [[= ->] Ht]];
      [by left | by right].
Qed.

Lemma strict_inlet_settles body user :
  settles (fun r => r = Raise BackendError) (Strict.inlet body user).
Proof.
  unfold Strict.inlet, Strict.inlet_rest.
  repeat settles_step
    ltac:(apply strict_open_settles; intros; unfold_strict; pres)
    ltac:(unfold_strict).
Qed.

Lemma defensive_open_settles body metadata chat_id user_email k tags
    (rest : handle -> M val) :
  (forall t, preserves (appends no_failed_open) (rest t)) ->
  settles (fun r => r = Ok body)
    (trace <- Defensive.open_or_reuse body metadata chat_id user_email k tags ;;
     match trace with
     | None => ret body
     | Some trace => rest trace
     end).
Proof.
  intros Hrest st r st' H.
  apply bind_run in H as [(t & st1 & Ho & H) | (e & Ho & ->)].
  - destruct (defensive_open_outcome _ _ _ _ _ _ _ _ _ Ho)
      as [Happ | [[= ->] Ht]].
    + left. etransitivity; [exact Happ |]. destruct t as [t |].
      * by eapply Hrest.
      * by eapply (preserves_ret (appends no_failed_open)).
    + right. unfold ret in H. by injection H as <- <-.
  - destruct (defensive_open_outcome _ _ _ _ _ _ _ _ _ Ho) as [Happ | [? _]];
      [by left | done].
Qed.

Lemma defensive_inlet_settles body user :
  settles (fun r => r = Ok body) (Defensive.inlet body user).
Proof.
  unfold Defensive.inlet, Defensive.inlet_rest.
  repeat settles_step
    ltac:(apply defensive_open_settles; intros; unfold_defensive; pres)
    ltac:(unfold_defensive).
Qed.

(** *** The invariant along the handlers *)

Lemma strict_store_model_once body metadata chat_id :
  preserves once_kept (Strict.store_model body metadata chat_id).
Proof. unfold_strict. pres. Qed.

Lemma defensive_store_model_once body metadata chat_id :
  preserves once_kept (Defensive.store_model body metadata chat_id).
Proof. unfold_defensive. pres. Qed.

Lemma strict_inlet_once body user :
  preserves once_kept (Strict.inlet body user).
Proof.
  unfold Strict.inlet.
  do 2 (apply preserves_bind; try exact _; [pres | intros _]).
  apply preserves_bind; try exact _; [unfold_strict; pres |].
  intros [metadata chat_id]. unfold Strict.inlet_rest. cbn [fst snd].
  apply (preserves_bind_with _ _ _ _
           (strict_store_model_once _ _ _) (strict_store_model_key _ _ _)).
  intros k Hk.
  unfold Strict.validate, Strict.record_start, user_email_or,
    in_generation_tasks.
  repeat first [ apply (strict_open_or_reuse_once _ _ _ _ _ _ Hk) | pres_step ].
Qed.

Lemma strict_outlet_once body user :
  preserves once_kept (Strict.outlet body user).
Proof.
  unfold Strict.outlet.
  repeat (pres_step; try apply strict_inlet_once).
  all: unfold_strict; pres.
Qed.

Lemma defensive_store_model_key body metadata chat_id :
  returns (fun r => to_key chat_id = Some r.1.1)
    (Defensive.store_model body metadata chat_id).
Proof.
  unfold Defensive.store_model. do 4 (apply returns_bind; intros).
  apply (returns_bind_with _ _ _ _ (returns_hash_key chat_id)).
  intros k Hk. repeat returns_step; exact Hk.
Qed.

Lemma defensive_inlet_once body user :
  preserves once_kept (Defensive.inlet body user).
Proof.
  unfold Defensive.inlet, Defensive.inlet_rest.
  do 6 (apply preserves_bind; try exact _; [unfold_defensive; pres | intros]).
  apply (preserves_bind_with _ _ _ _
           (defensive_store_model_once _ _ _)
           (defensive_store_model_key _ _ _)).
  intros [[k actual_model_id] model_name] Hk. simpl in Hk.
  unfold Defensive.ensure_messages, Defensive.record_start, user_email_or,
    in_generation_tasks.
  repeat first
    [ apply (defensive_open_or_reuse_once _ _ _ _ _ _ Hk) | pres_step ].
Qed.

Lemma defensive_outlet_once body user :
  preserves once_kept (Defensive.outlet body user).
Proof. unfold Defensive.outlet, Defensive.flush. unfold_defensive. pres. Qed.

Lemma once_init h c : once (init h c).
Proof. by intros k. Qed.

Lemma strict_reachable_once st :
  reachable Strict.inlet Strict.outlet st -> once st.
Proof.
  induction 1 as [h c | st h _ IH | st c _ IH | st body user _ IH
                 | st body user _ IH]; try done.
  - destruct (Strict.inlet body user st) as [r st'] eqn:Hrun.
    by apply (strict_inlet_once _ _ _ _ _ Hrun).
  - destruct (Strict.outlet body user st) as [r st'] eqn:Hrun.
    by apply (strict_outlet_once _ _ _ _ _ Hrun).
Qed.

Lemma defensive_reachable_once st :
  reachable Defensive.inlet Defensive.outlet st -> once st.
Proof.
  induction 1 as [h c | st h _ IH | st c _ IH | st body user _ IH
                 | st body user _ IH]; try done.
  - destruct (Defensive.inlet body user st) as [r st'] eqn:Hrun.
    by apply (defensive_inlet_once _ _ _ _ _ Hrun).
  - destruct (Defensive.outlet body user st) as [r st'] eqn:Hrun.
    by apply (defensive_outlet_once _ _ _ _ _ Hrun).
Qed.

End Lifetime.

Section Reuse.

Context {E : env}.

(** With a registered handle the strict block returns it, unless the update
    of the tags raises; no trace is opened. *)
Lemma strict_reuse body metadata chat_id user_email k tags t st :
  chat_traces st !! k = Some t ->
  exists r st',
    Strict.open_or_reuse body metadata chat_id user_email k tags st = (r, st') /\
    (r = Ok t \/ r = Raise BackendError) /\
    chat_traces st' = chat_traces st /\
    forall k', opens k' (backend st') = opens k' (backend st).
Proof.
  intros Hk. unfold Strict.open_or_reuse.
  unfold traces_get at 1. unfold bind at 1. rewrite Hk. run_log.
  destruct tags as [| tag tags].
  - eexists _, _. split; [reflexivity |]. split; [by left |].
    by rewrite chat_traces_logged, backend_logged.
  - unfold bind, backend_call. destruct (faulty _);
      eexists _, _; (split; [reflexivity |]); simpl;
      rewrite chat_traces_logged, backend_logged;
      (split; [auto |]); (split; [done |]); intros k';
      by rewrite opens_snoc, Nat.add_0_r.
Qed.

(** With a registered handle the defensive block returns it; no trace is
    opened. *)
Lemma defensive_reuse body metadata chat_id user_email k tags t st :
  chat_traces st !! k = Some t ->
  exists st',
    Defensive.open_or_reuse body metadata chat_id user_email k tags st
      = (Ok (Some t), st') /\
    chat_traces st' = chat_traces st /\
    forall k', opens k' (backend st') = opens k' (backend st).
Proof.
  intros Hk. unfold Defensive.open_or_reuse.
  unfold traces_get at 1. unfold bind at 1. rewrite Hk. run_log.
  destruct tags as [| tag tags].
  - eexists. split; [reflexivity |].
    by rewrite chat_traces_logged, backend_logged.
  - unfold bind, try_except, backend_call. destruct (faulty _);
      rewrite ?log_run; (eexists; split; [reflexivity |]);
      repeat (simpl; rewrite ?chat_traces_logged, ?backend_logged);
      (split; [done |]); intros k'; by rewrite opens_snoc, Nat.add_0_r.
Qed.

End Reuse.




(** * Enrichment of the metadata object *)

(** ** What a successful run has established *)

Definition achieves {A} (Q : state -> Prop) (m : M A) : Prop :=
  forall st a st', m st = (Ok a, st') -> Q st'.

Lemma achieves_later {A B} (Q : state -> Prop) (m : M A) (f : A -> M B) :
  (forall a, achieves Q (f a)) -> achieves Q (bind m f).
Proof.
  intros Hf st b st' H. apply bind_ok in H as (a & st1 & _ & H).
  by eapply Hf.
Qed.

Lemma achieves_later_with {A B} (P : A -> Prop) (Q : state -> Prop)
    (m : M A) (f : A -> M B) :
  returns P m -> (forall a, P a -> achieves Q (f a)) -> achieves Q (bind m f).
Proof.
  intros Hm Hf st b st' H. apply bind_ok in H as (a & st1 & H1 & H).
  eapply Hf; [by eapply Hm | done].
Qed.

Lemma achieves_now {A B} (R : relation state) (Q : state -> Prop)
    (m : M A) (f : A -> M B) :
  (forall st st', R st st' -> Q st -> Q st') ->
  achieves Q m -> (forall a, preserves R (f a)) -> achieves Q (bind m f).
Proof.
  intros HR Hm Hf st b st' H. apply bind_ok in H as (a & st1 & H1 & H).
  eapply HR; [by eapply Hf | by eapply Hm].
Qed.

(** ** Steps that succeeded *)

Lemma setitem_inv v k x st st' :
  setitem v k x st = (Ok tt, st') ->
  exists l d, v = VRef l /\ heap st !! l = Some (ODict d) /\
    st' = set_heap (<[l := ODict (dict_set d k x)]> (heap st)) st.
Proof.
  unfold setitem. destruct v as [| | | | l]; try done.
  destruct (heap st !! l) as [[d | xs] |] eqn:Hl; try done.
  intros [= <-]. by exists l, d.
Qed.

Lemma attr_get_inv v k r st st' :
  attr_get v k st = (Ok r, st') ->
  exists d, as_dict (heap st) v = Some d /\ r = dict_get d k /\ st' = st.
Proof.
  unfold attr_get. destruct (as_dict (heap st) v) as [d |]; [| done].
  intros [= <- <-]. by exists d.
Qed.

Lemma get_or_inv v k dflt x st st' :
  get_or v k dflt st = (Ok x, st') ->
  exists d, as_dict (heap st) v = Some d /\
    x = default dflt (dict_get d k) /\ st' = st.
Proof.
  unfold get_or. intros H. apply bind_ok in H as (r & s & H1 & H).
  apply attr_get_inv in H1 as (d & Hd & -> & ->).
  injection H as <- <-. by exists d.
Qed.

Section Inversions.

Context {E : env}.

Lemma get_or_uuid_inv v k x st st' :
  get_or_uuid v k st = (Ok x, st') ->
  exists d, as_dict (heap st) v = Some d /\
    x = default (VStr (uuid4 (uuids st))) (dict_get d k) /\
    st' = set_uuids (S (uuids st)) st.
Proof.
  unfold get_or_uuid. intros H. apply bind_ok in H as (r & s & H1 & H).
  apply attr_get_inv in H1 as (d & Hd & -> & ->).
  injection H as <- <-. by exists d.
Qed.

Lemma returns_in_generation_tasks task :
  returns (fun g => g = str_is task "llm_response") (in_generation_tasks task).
Proof.
  unfold in_generation_tasks. apply returns_bind. intros k.
  by apply returns_ret.
Qed.

End Inversions.

(** ** More relations on the store and the registries *)

(** The dict at [b], if it is [d], stays [d]. *)
Definition fixed (b : loc) (d : dict) (st st' : state) : Prop :=
  heap st !! b = Some (ODict d) -> heap st' !! b = Some (ODict d).

#[global] Instance fixed_preorder b d : PreOrder (fixed b d).
Proof.
  split; [intros st H; exact H | intros x y z H1 H2 H; by apply H2, H1].
Qed.

Lemma fixed_same b d st st' : heap st' = heap st -> fixed b d st st'.
Proof. intros H Hb. by rewrite H. Qed.

#[global] Instance fixed_alloc b d : TolAlloc (fixed b d).
Proof. intros st o Hb. simpl. by apply lookup_app_l_Some. Qed.

Lemma fixed_set b d v k : v <> VRef b -> TolSet (fixed b d) v k.
Proof.
  intros Hv st l d' x -> Hl Hb. simpl.
  rewrite list_lookup_insert_ne; [done | congruence].
Qed.

#[global] Hint Extern 2 (TolSet (fixed _ _) _ _) =>
  apply fixed_set; congruence : typeclass_instances.

#[global] Instance fixed_out b d : TolOut (fixed b d).
Proof. intros st s. by apply fixed_same. Qed.
#[global] Instance fixed_uuids b d : TolUuids (fixed b d).
Proof. intros st n. by apply fixed_same. Qed.
#[global] Instance fixed_models b d : TolModels (fixed b d).
Proof. intros st m. by apply fixed_same. Qed.
#[global] Instance fixed_traces b d : TolTraces (fixed b d).
Proof. intros st m. by apply fixed_same. Qed.
#[global] Instance fixed_call b d c : TolCall (fixed b d) c.
Proof. intros st ok. by apply fixed_same. Qed.

(** Registered keys stay registered. *)
Definition traces_grow (st st' : state) : Prop :=
  forall k, is_Some (chat_traces st !! k) -> is_Some (chat_traces st' !! k).

Definition models_grow (st st' : state) : Prop :=
  forall k, is_Some (model_names st !! k) -> is_Some (model_names st' !! k).

#[global] Instance traces_grow_preorder : PreOrder traces_grow.
Proof.
  split; [by intros st k | intros x y z H1 H2 k H; by apply H2, H1].
Qed.
#[global] Instance traces_grow_heap : TolHeap traces_grow.
Proof. by intros st h k. Qed.
#[global] Instance traces_grow_out : TolOut traces_grow.
Proof. by intros st s k. Qed.
#[global] Instance traces_grow_uuids : TolUuids traces_grow.
Proof. by intros st n k. Qed.
#[global] Instance traces_grow_models : TolModels traces_grow.
Proof. by intros st m k. Qed.
#[global] Instance traces_grow_call c : TolCall traces_grow c.
Proof. by intros st ok k. Qed.
#[global] Instance traces_grow_at k : TolTracesAt traces_grow k.
Proof.
  intros st t k' H. simpl. destruct (decide (k = k')) as [<- | Hne].
  - rewrite lookup_insert_eq. by eexists.
  - by rewrite lookup_insert_ne.
Qed.

#[global] Instance models_grow_preorder : PreOrder models_grow.
Proof.
  split; [by intros st k | intros x y z H1 H2 k H; by apply H2, H1].
Qed.
#[global] Instance models_grow_heap : TolHeap models_grow.
Proof. by intros st h k. Qed.
#[global] Instance models_grow_out : TolOut models_grow.
Proof. by intros st s k. Qed.
#[global] Instance models_grow_uuids : TolUuids models_grow.
Proof. by intros st n k. Qed.
#[global] Instance models_grow_traces : TolTraces models_grow.
Proof. by intros st m k. Qed.
#[global] Instance models_grow_call c : TolCall models_grow c.
Proof. by intros st ok k. Qed.
#[global] Instance models_grow_at k : TolModelsAt models_grow k.
Proof.
  intros st r k' H. simpl. destruct (decide (k = k')) as [<- | Hne].
  - rewrite lookup_insert_eq. by eexists.
  - by rewrite lookup_insert_ne.
Qed.

(** From the run [H : m st = (r, st')] of a piece of handler code, the fact
    [R st st'] for a relation [R] that the code keeps. *)
Ltac derive R H :=
  lazymatch type of H with
  | ?m ?s = (_, ?s') =>
      let Hp := fresh "Hp" in
      let Hr := fresh "Hr" in
      assert (Hp : preserves R m) by (unfold_strict; unfold_defensive; pres);
      pose proof (Hp _ _ _ H) as Hr; clear Hp
  end.

Lemma setitem_post l k x st st' :
  setitem (VRef l) k x st = (Ok tt, st') ->
  exists d, heap st !! l = Some (ODict d) /\
    heap st' !! l = Some (ODict (dict_set d k x)) /\
    forall l', l' <> l -> heap st' !! l' = heap st !! l'.
Proof.
  intros H. apply setitem_inv in H as (l0 & d & [= <-] & Hl & ->).
  exists d. split; [done |]. simpl. split.
  - rewrite list_lookup_insert_eq; [done | by eapply lookup_lt_Some].
  - intros l' Hne. by rewrite list_lookup_insert_ne.
Qed.

Ltac dict_simpl :=
  repeat first
    [ rewrite dict_get_set_eq | rewrite dict_get_set_ne by done ].

(** ** The strict inlet *)

Section StrictEnrichment.

Context {E : env}.

(** Lines 109-119: the metadata object is the body's own, or a new one; it
    gets the conversation id and is stored in the body. *)
Lemma strict_resolve_stores b d m c st st1 :
  heap st !! b = Some (ODict d) ->
  dict_get d "metadata" <> Some (VRef b) ->
  Strict.resolve (VRef b) st = (Ok (m, c), st1) ->
  exists lm md, m = VRef lm /\ lm <> b /\
    (forall x, dict_get d "metadata" = Some x -> x = VRef lm) /\
    heap st1 !! b = Some (ODict (dict_set d "metadata" (VRef lm))) /\
    heap st1 !! lm = Some (ODict md) /\ dict_get md "chat_id" = Some c.
Proof.
  intros Hb Hne H. unfold Strict.resolve in H.
  apply bind_ok in H as (mo & s0 & H0 & H).
  apply attr_get_inv in H0 as (d0 & Hd0 & -> & ->).
  rewrite (as_dict_lookup _ _ _ Hb) in Hd0. injection Hd0 as <-.
  apply bind_ok in H as (mv & s1 & H1 & H).
  apply bind_ok in H as (c0 & s2 & H2 & H).
  apply get_or_uuid_inv in H2 as (md0 & Hmd0 & -> & ->).
  apply as_dict_ref in Hmd0 as (lm & -> & Hlm).
  apply bind_ok in H as (c1 & s3 & H3 & H).
  derive same_heap H3. unfold same_heap in Hr. simpl in Hr.
  apply bind_ok in H as ([] & s4 & H4 & H).
  apply setitem_post in H4 as (md1 & Hlm1 & Hlm4 & Hoth4).
  apply bind_ok in H as ([] & s5 & H5 & H).
  apply setitem_post in H5 as (d1 & Hb4 & Hb5 & Hoth5).
  injection H as <- <- <-.
  assert (Hfresh : lm <> b /\ heap s1 !! b = Some (ODict d) /\
            forall x, dict_get d "metadata" = Some x -> x = VRef lm).
  { destruct (dict_get d "metadata") as [x |] eqn:Hm.
    - injection H1 as -> <-. split; [congruence |]. split; [done |].
      by intros x [= <-].
    - unfold alloc in H1. injection H1 as <- <-. simpl.
      split; [apply lookup_lt_Some in Hb; lia |].
      split; [by apply lookup_app_l_Some | done]. }
  destruct Hfresh as (Hlmb & Hb1 & Halias).
  rewrite Hoth4, Hr, Hb1 in Hb4 by congruence. injection Hb4 as <-.
  exists lm, (dict_set md1 "chat_id" c1). repeat split; try done.
  - rewrite Hoth5 by done. exact Hlm4.
  - apply dict_get_set_eq.
Qed.

Lemma strict_store_model_registers body metadata chat_id :
  achieves
    (fun st' => forall k, to_key chat_id = Some k ->
       is_Some (model_names st' !! k))
    (Strict.store_model body metadata chat_id).
Proof.
  unfold Strict.store_model.
  do 2 (apply achieves_later; intros ?).
  apply (achieves_later_with _ _ _ _ (returns_hash_key chat_id)).
  intros k Hk. apply achieves_later. intros r.
  apply (achieves_now models_grow).
  - intros st st' HR HQ k' Hk'. by apply HR, HQ.
  - intros st [] st' H k' Hk'. assert (k' = k) as -> by congruence.
    destruct r; unfold registry_set in H; injection H as <-; simpl;
      rewrite lookup_insert_eq; by eexists.
  - intros []. pres.
Qed.

Lemma strict_open_registers body metadata chat_id user_email k tags :
  achieves (fun st' => is_Some (chat_traces st' !! k))
    (Strict.open_or_reuse body metadata chat_id user_email k tags).
Proof.
  intros st t st' H. unfold Strict.open_or_reuse in H.
  apply bind_ok in H as (t0 & s & H0 & H).
  unfold traces_get in H0. injection H0 as <- <-.
  destruct (chat_traces st !! k) as [t0 |] eqn:Hk.
  - derive traces_grow H. apply Hr. rewrite Hk. by eexists.
  - do 3 (apply bind_ok in H as (? & ? & _ & H)).
    unfold try_except in H.
    match type of H with
    | match ?m ?s with _ => _ end = _ =>
        destruct (m s) as [[v | e] s4] eqn:Hin
    end.
    + injection H as <- <-.
      apply bind_ok in Hin as (trace & s5 & _ & Hin).
      apply bind_ok in Hin as ([] & s6 & Hset & Hin).
      unfold traces_set in Hset. injection Hset as <-.
      injection Hin as _ <-. simpl. rewrite lookup_insert_eq. by eexists.
    + apply bind_ok in H as (? & ? & _ & H). discriminate H.
Qed.

(** Lines 170-210: what the start record leaves in the metadata object. *)
Definition enriched (lm : loc) (task_name : val) (st : state) : Prop :=
  exists md, heap st !! lm = Some (ODict md) /\
    dict_get md "type" = Some task_name /\
    is_Some (dict_get md "interface") /\
    (str_is task_name "llm_response" = true ->
     is_Some (dict_get md "model_id") /\ is_Some (dict_get md "model_name")).

Lemma enriched_same lm task_name st st' :
  same_heap st st' -> enriched lm task_name st -> enriched lm task_name st'.
Proof. intros H (md & Hmd & Hrest). exists md. by rewrite H. Qed.

Lemma strict_record_start_enriches body lm task_name k trace tags :
  achieves
    (fun st' => enriched lm task_name st' /\
       exists md, heap st' !! lm = Some (ODict md) /\
         dict_get md "interface" = Some (VStr "open-webui"))
    (Strict.record_start body (VRef lm) task_name k trace tags).
Proof.
  intros st [] st' H. unfold Strict.record_start in H.
  apply bind_ok in H as ([] & s1 & H1 & H).
  apply setitem_post in H1 as (md0 & _ & Hs1 & _).
  apply bind_ok in H as ([] & s2 & H2 & H).
  apply setitem_post in H2 as (md1 & Hmd1 & Hs2 & _).
  rewrite Hs1 in Hmd1. injection Hmd1 as <-.
  apply bind_ok in H as (g & s3 & Hg & H).
  pose proof (returns_in_generation_tasks _ _ _ _ Hg) as ->.
  derive same_heap Hg. unfold same_heap in Hr.
  destruct (str_is task_name "llm_response") eqn:Hgen.
  - apply bind_ok in H as (dflt & s4 & H4 & H). derive same_heap H4.
    apply bind_ok in H as (model_id & s5 & H5 & H).
    unfold registry_field in H5. derive same_heap H5.
    apply bind_ok in H as (model_name & s6 & H6 & H).
    unfold registry_field in H6. derive same_heap H6.
    apply bind_ok in H as ([] & s7 & H7 & H).
    apply setitem_post in H7 as (md2 & Hmd2 & Hs7 & _).
    apply bind_ok in H as ([] & s8 & H8 & H).
    apply setitem_post in H8 as (md3 & Hmd3 & Hs8 & _).
    derive same_heap H. unfold same_heap in *.
    rewrite Hr2, Hr1, Hr0, Hr, Hs2 in Hmd2. injection Hmd2 as <-.
    rewrite Hs7 in Hmd3. injection Hmd3 as <-.
    rewrite <- Hr3 in Hs8.
    split; eexists; (split; [exact Hs8 |]).
    + dict_simpl. repeat split; by eexists.
    + by dict_simpl.
  - derive same_heap H. unfold same_heap in *.
    rewrite <- Hr, <- Hr0 in Hs2.
    split; eexists; (split; [exact Hs2 |]).
    + dict_simpl. split; [done |]. split; [by eexists | congruence].
    + by dict_simpl.
Qed.

End StrictEnrichment.

Section StrictInlet.

Context {E : env}.

(** The body returned by the strict inlet: its metadata entry is the
    metadata object, which carries the conversation id that keys both
    registries, the type, the interface and, on a generation task, the model
    id and name; its other entries are as they were. *)
Lemma strict_inlet_enriches b d user st v st' :
  heap st !! b = Some (ODict d) ->
  dict_get d "metadata" <> Some (VRef b) ->
  Strict.inlet (VRef b) user st = (Ok v, st') ->
  v = VRef b /\
  exists d' lm md c k,
    heap st' !! b = Some (ODict d') /\
    dict_get d' "metadata" = Some (VRef lm) /\
    (forall K, K <> "metadata" -> dict_get d' K = dict_get d K) /\
    (forall x, dict_get d "metadata" = Some x -> x = VRef lm) /\
    heap st' !! lm = Some (ODict md) /\
    dict_get md "chat_id" = Some c /\ str_is c "local" = false /\
    to_key c = Some k /\
    is_Some (model_names st' !! k) /\ is_Some (chat_traces st' !! k) /\
    dict_get md "type" =
      Some (default (VStr "user_response") (dict_get md "task")) /\
    dict_get md "interface" = Some (VStr "open-webui") /\
    (str_is (default (VStr "user_response") (dict_get md "task"))
       "llm_response" = true ->
     is_Some (dict_get md "model_id") /\ is_Some (dict_get md "model_name")).
Proof.
  intros Hb Hne H. unfold Strict.inlet in H.
  do 2 (apply bind_ok in H as ([] & ? & Hlog & H);
        rewrite log_run in Hlog; injection Hlog as <-).
  apply bind_ok in H as ([m c] & s1 & Hres & H). simpl in H.
  pose proof (strict_resolve_not_local _ _ _ _ Hres) as Hlocal.
  simpl in Hlocal.
  apply strict_resolve_stores with (d := d) in Hres
    as (lm & md1 & -> & Hlmb & Halias & Hb1 & Hlm1 & Hc1);
    [| by rewrite !heap_logged | done].
  assert (Hbody : forall K, keeps b K s1 st').
  { intros K. derive (keeps b K) H. exact Hr. }
  derive (keeps lm "chat_id") H. rename Hr into Hchat.
  unfold Strict.inlet_rest in H.
  apply bind_ok in H as (k & s2 & Hsm & H).
  pose proof (strict_store_model_key _ _ _ _ _ _ Hsm) as Hk.
  pose proof (strict_store_model_registers _ _ _ _ _ _ Hsm k Hk) as Hreg.
  derive models_grow H. rename Hr into Hmodels.
  apply bind_ok in H as ([] & s3 & _ & H).
  apply bind_ok in H as (user_email & s4 & _ & H).
  apply bind_ok in H as (task_name & s5 & Htask & H).
  apply get_or_inv in Htask as (mdt & Hmdt & -> & ->).
  apply as_dict_ref in Hmdt as (? & [= <-] & Hmdt).
  derive (keeps lm "task") H. rename Hr into Htask.
  do 2 (apply bind_ok in H as ([] & ? & _ & H)).
  apply bind_ok in H as (trace & s8 & Hopen & H).
  pose proof (strict_open_registers _ _ _ _ _ _ _ _ _ Hopen) as Htr.
  derive traces_grow H. rename Hr into Htraces.
  apply bind_ok in H as ([] & s9 & Hrec & H).
  apply strict_record_start_enriches in Hrec
    as [(md & Hmd & Htype & _ & Hgen) (md' & Hmd' & Hint)].
  rewrite Hmd in Hmd'. injection Hmd' as <-.
  derive same_heap H. unfold same_heap in Hr.
  apply bind_ok in H as ([] & s10 & _ & H). injection H as <- <-.
  split; [done |].
  destruct (Hbody "metadata" _ Hb1) as (d' & Hd' & Hmeta).
  rewrite dict_get_set_eq in Hmeta.
  rewrite <- Hr in Hmd.
  destruct (Hchat _ Hlm1) as (md2 & Hmd2 & Hc2).
  rewrite Hmd in Hmd2. injection Hmd2 as <-.
  destruct (Htask _ Hmdt) as (md3 & Hmd3 & Ht3).
  rewrite Hmd in Hmd3. injection Hmd3 as <-.
  exists d', lm, md, c, k. rewrite Ht3.
  split; [done |]. split; [done |].
  split.
  { intros K HK. destruct (Hbody K _ Hb1) as (d2 & Hd2 & HK2).
    rewrite Hd' in Hd2. injection Hd2 as <-.
    rewrite HK2. by apply dict_get_set_ne. }
  split; [done |]. split; [done |]. split; [congruence |].
  split; [done |]. split; [done |].
  split; [by apply Hmodels |]. split; [by apply Htraces |].
  split; [done |]. split; [done | exact Hgen].
Qed.

End StrictInlet.

(** ** The defensive inlet *)

Lemma try_except_run {A} (m : M A) (h : exn -> M A) st r st' :
  try_except m h st = (r, st') ->
  exists r1 s1, m st = (r1, s1) /\
    match r1 with
    | Ok a => r = Ok a /\ st' = s1
    | Raise e => h e s1 = (r, st')
    end.
Proof.
  unfold try_except. destruct (m st) as [[a | e] s1]; intros H.
  - injection H as <- <-. by exists (Ok a), s1.
  - by exists (Raise e), s1.
Qed.

Lemma str_is_eq v s : str_is v s = true -> v = VStr s.
Proof.
  destruct v; try done. simpl. intros H. by apply String.eqb_eq in H as ->.
Qed.

Section DefensiveEnrichment.

Context {E : env}.

(** [_extract_metadata]: the body's own metadata entry when there is one
    (and then nothing is written), a new object with a conversation id
    otherwise. *)
Lemma defensive_extract_metadata_stores b d m st st1 :
  heap st !! b = Some (ODict d) ->
  dict_get d "metadata" <> Some (VRef b) ->
  Defensive.extract_metadata (VRef b) st = (Ok m, st1) ->
  m <> VRef b /\ heap st1 !! b = Some (ODict d) /\
  (forall x, dict_get d "metadata" = Some x -> x = m) /\
  (dict_get d "metadata" = None ->
   exists md, as_dict (heap st1) m = Some md /\
     is_Some (dict_get md "chat_id")).
Proof.
  intros Hb Hne H. unfold Defensive.extract_metadata in H.
  apply bind_ok in H as (has & s0 & Hc & H).
  rewrite (contains_run _ _ _ _ Hb) in Hc. injection Hc as <- <-.
  unfold dict_has in H. destruct (dict_get d "metadata") as [x |] eqn:Hm.
  - unfold getitem in H. rewrite (as_dict_lookup _ _ _ Hb), Hm in H.
    injection H as <- <-. split; [congruence |]. split; [done |].
    split; [by intros ? [= <-] | done].
  - apply bind_ok in H as (metadata & s1 & Ha & H).
    unfold alloc in Ha. injection Ha as <- <-.
    assert (Hfresh : length (heap st) <> b)
      by (apply lookup_lt_Some in Hb; lia).
    assert (Hb1 : heap (set_heap (heap st ++ [ODict []]) st) !! b
                  = Some (ODict d)) by (by apply lookup_app_l_Some).
    set (n := length (heap st)) in *.
    set (s1 := set_heap (heap st ++ [ODict []]) st) in *.
    assert (m = VRef n) as ->.
    { match type of H with
      | ?t _ = _ => assert (Hy : yields (VRef n) t)
          by (unfold_defensive; repeat yields_step)
      end.
      exact (Hy _ _ _ H). }
    derive (fixed b d) H.
    split; [congruence |]. split; [by apply Hr |]. split; [done |].
    intros _.
    do 3 (apply bind_ok in H as (? & ? & _ & H)).
    apply bind_ok in H as ([] & s5 & Hset & H).
    apply setitem_post in Hset as (md0 & _ & Hs5 & _).
    derive (keeps n "chat_id") H.
    destruct (Hr0 _ Hs5) as (md & Hmd & Hchat).
    exists md. split; [by apply as_dict_lookup |].
    rewrite Hchat, dict_get_set_eq. by eexists.
Qed.

Lemma defensive_store_model_registers body metadata chat_id :
  achieves
    (fun st' => forall k, to_key chat_id = Some k ->
       is_Some (model_names st' !! k))
    (Defensive.store_model body metadata chat_id).
Proof.
  unfold Defensive.store_model.
  do 4 (apply achieves_later; intros ?).
  apply (achieves_later_with _ _ _ _ (returns_hash_key chat_id)).
  intros k Hk. apply achieves_later. intros r.
  apply (achieves_now models_grow).
  - intros st st' HR HQ k' Hk'. by apply HR, HQ.
  - intros st [] st' H k' Hk'. assert (k' = k) as -> by congruence.
    destruct r; unfold registry_set in H; injection H as <-; simpl;
      rewrite lookup_insert_eq; by eexists.
  - intros []. pres.
Qed.

(** Lines 227-232: when the open call fails, no trace is registered. *)
Lemma defensive_open_none body metadata chat_id user_email k tags st st' :
  Defensive.open_or_reuse body metadata chat_id user_email k tags st
    = (Ok None, st') ->
  chat_traces st' !! k = None.
Proof.
  intros H. unfold Defensive.open_or_reuse in H.
  apply bind_ok in H as (t0 & s & H0 & H).
  unfold traces_get in H0. injection H0 as <- <-.
  destruct (chat_traces st !! k) as [t0 |] eqn:Hk.
  - apply bind_ok in H as ([] & s1 & _ & H). destruct tags.
    + discriminate H.
    + apply bind_ok in H as ([] & s2 & _ & H). discriminate H.
  - apply bind_ok in H as ([] & s1 & H1 & H). derive quiet H1.
    apply bind_ok in H as (h & s2 & H2 & H). derive quiet H2.
    apply bind_ok in H as (input & s3 & H3 & H). derive quiet H3.
    apply bind_ok in H as ([] & s4 & H4 & H). derive quiet H4.
    assert (Hk4 : chat_traces s4 !! k = None).
    { destruct Hr2 as (_ & -> & _). destruct Hr1 as (_ & -> & _).
      destruct Hr0 as (_ & -> & _). by destruct Hr as (_ & -> & _). }
    apply try_except_run in H as (r1 & s5 & Hin & H).
    destruct r1 as [a | e].
    + destruct H as [[= <-] ->].
      apply bind_ok in Hin as (trace & s6 & _ & Hin).
      apply bind_ok in Hin as ([] & s7 & _ & Hin). discriminate Hin.
    + apply bind_ok in H as ([] & s6 & Hlog & H).
      rewrite log_run in Hlog. injection Hlog as <-. injection H as <-.
      rewrite chat_traces_logged.
      apply bind_run in Hin as [(trace & s6 & _ & Hin) | (e' & Hin & _)].
      * apply bind_run in Hin as [(? & ? & _ & Hin) | (? & Hin & _)];
          discriminate Hin.
      * unfold client_call, bind, has_client, backend_call in Hin.
        destruct (langfuse s4); [destruct (faulty _) |];
          injection Hin as _ <-; exact Hk4.
Qed.

(** Lines 242-283: what the start record leaves in the metadata object,
    whether or not the backend call at its end succeeds. *)
Lemma defensive_record_start_enriches body lm task_name actual_model_id
    model_name trace tags :
  achieves (enriched lm task_name)
    (Defensive.record_start body (VRef lm) task_name actual_model_id
       model_name trace tags).
Proof.
  intros st [] st' H. unfold Defensive.record_start in H.
  apply bind_ok in H as ([] & s1 & H1 & H).
  apply setitem_post in H1 as (md0 & _ & Hs1 & _).
  apply bind_ok in H as (interface & s2 & H2 & H).
  apply get_or_inv in H2 as (? & _ & _ & ->).
  apply bind_ok in H as ([] & s3 & H3 & H).
  apply setitem_post in H3 as (md1 & Hmd1 & Hs3 & _).
  rewrite Hs1 in Hmd1. injection Hmd1 as <-.
  derive (keeps lm "type") H. derive (keeps lm "interface") H.
  destruct (Hr _ Hs3) as (md & Hmd & Htype).
  destruct (Hr0 _ Hs3) as (md' & Hmd' & Hint).
  rewrite Hmd in Hmd'. injection Hmd' as <-.
  revert Htype Hint. dict_simpl. intros Htype Hint.
  exists md. split; [done |]. split; [done |].
  split; [rewrite Hint; by eexists |].
  intros Hgen. apply str_is_eq in Hgen as ->.
  apply try_except_run in H as (r1 & s4 & Hin & H).
  rewrite (bind_step _ _ _ _ _
             (eq_refl : in_generation_tasks (VStr "llm_response") s3
                        = (Ok true, s3))) in Hin.
  rewrite (bind_step _ _ _ _ _ (setitem_run _ _ _ _ _ Hs3)) in Hin.
  match type of Hin with
  | bind (setitem (VRef lm) ?k ?x) _ ?s = _ =>
      assert (Hs4 : heap s !! lm
                    = Some (ODict (dict_set (dict_set (dict_set md0 "type"
                         (VStr "llm_response")) "interface" interface)
                         "model_id" actual_model_id)))
        by (simpl; rewrite list_lookup_insert_eq;
            [done | by eapply lookup_lt_Some])
  end.
  rewrite (bind_step _ _ _ _ _ (setitem_run _ _ _ _ _ Hs4)) in Hin.
  match type of Hin with
  | _ ?s = _ =>
      assert (Hs5 : exists md5, heap s !! lm = Some (ODict md5) /\
                is_Some (dict_get md5 "model_id") /\
                is_Some (dict_get md5 "model_name"))
  end.
  { eexists. split.
    - simpl. rewrite list_lookup_insert_eq; [done |].
      rewrite length_insert. by eapply lookup_lt_Some.
    - dict_simpl. split; by eexists. }
  destruct Hs5 as (md5 & Hmd5 & Hid5 & Hname5).
  derive (keeps lm "model_id") Hin. derive (keeps lm "model_name") Hin.
  destruct (Hr1 _ Hmd5) as (md6 & Hmd6 & Hid6).
  destruct (Hr2 _ Hmd5) as (md6' & Hmd6' & Hname6).
  rewrite Hmd6 in Hmd6'. injection Hmd6' as <-.
  assert (Hlast : heap st' = heap s4).
  { destruct r1 as [a | e]; [by destruct H as [_ ->] |].
    rewrite log_run in H. injection H as <-. apply heap_logged. }
  rewrite Hlast, Hmd6 in Hmd. injection Hmd as <-.
  by rewrite Hid6, Hname6.
Qed.

End DefensiveEnrichment.

Section DefensiveInlet.

Context {E : env}.

(** The body returned by the defensive inlet: its metadata entry is the
    metadata object, whose conversation id keys the model registry; when a
    trace is registered for it the object carries the type, the interface
    and, on a generation task, the model id and name; the other entries of
    the body are as they were, but for a message list made up when the body
    had neither messages nor input. *)
Lemma defensive_inlet_enriches b d user st v st' :
  heap st !! b = Some (ODict d) ->
  dict_get d "metadata" <> Some (VRef b) ->
  Defensive.inlet (VRef b) user st = (Ok v, st') ->
  v = VRef b /\
  exists d' lm md k,
    heap st' !! b = Some (ODict d') /\
    dict_get d' "metadata" = Some (VRef lm) /\
    (forall K, K <> "metadata" -> K <> "messages" ->
       dict_get d' K = dict_get d K) /\
    (dict_has d "messages" || dict_has d "input" = true ->
       dict_get d' "messages" = dict_get d "messages") /\
    (forall x, dict_get d "metadata" = Some x -> x = VRef lm) /\
    heap st' !! lm = Some (ODict md) /\
    (dict_get d "metadata" = None -> is_Some (dict_get md "chat_id")) /\
    to_key (default VNone (dict_get md "chat_id")) = Some k /\
    is_Some (model_names st' !! k) /\
    (is_Some (chat_traces st' !! k) ->
     exists task_name,
       dict_get md "type" = Some task_name /\
       (forall t, dict_get md "task" = Some t -> task_name = t) /\
       is_Some (dict_get md "interface") /\
       (str_is task_name "llm_response" = true ->
        is_Some (dict_get md "model_id") /\
        is_Some (dict_get md "model_name"))).
Proof.
  intros Hb Hne H. unfold Defensive.inlet in H.
  apply bind_ok in H as ([] & s & H0 & H). derive same_heap H0. clear H0.
  apply bind_ok in H as ([] & sa & H0 & H). derive same_heap H0. clear H0.
  apply bind_ok in H as ([] & sb & H0 & H). derive same_heap H0. clear H0.
  unfold same_heap in *.
  apply bind_ok in H as (m & s1 & Hex & H).
  apply defensive_extract_metadata_stores with (d := d) in Hex
    as (Hmb & Hb1 & Halias & Hfresh); [| by rewrite Hr1, Hr0, Hr | done].
  clear s sa Hr Hr0 Hr1.
  assert (v = VRef b) as ->.
  { assert (Hy : yields (VRef b) (Defensive.inlet_rest (VRef b) user m))
      by (unfold_defensive; repeat yields_step).
    exact (Hy _ _ _ H). }
  unfold Defensive.inlet_rest in H.
  apply bind_ok in H as (c & s2 & Hc & H).
  apply get_or_inv in Hc as (md1 & Hmd1 & -> & ->).
  pose proof Hmd1 as Hmd1'.
  apply as_dict_ref in Hmd1' as (lm & -> & Hlm1).
  assert (Hlmb : lm <> b) by congruence.
  apply bind_ok in H as ([] & s3 & Hset & H).
  apply setitem_post in Hset as (d0 & Hd0 & Hb3 & Hoth3).
  rewrite Hb1 in Hd0. injection Hd0 as <-.
  assert (Hlm3 : heap s3 !! lm = Some (ODict md1)) by (by rewrite Hoth3).
  assert (Hbody : forall K, K <> "messages" -> keeps b K s3 st').
  { intros K HK. derive (keeps b K) H. exact Hr. }
  derive (keeps lm "chat_id") H. rename Hr into Hchat.
  derive (keeps lm "task") H. rename Hr into Htask.
  apply bind_ok in H as ([[k actual_model_id] model_name] & s4 & Hsm & H).
  cbv beta iota in H.
  pose proof (defensive_store_model_key _ _ _ _ _ _ Hsm) as Hk. simpl in Hk.
  pose proof (defensive_store_model_registers _ _ _ _ _ _ Hsm k Hk) as Hreg.
  derive same_heap Hsm. rename Hr into Hh4. unfold same_heap in Hh4.
  derive models_grow H. rename Hr into Hmodels.
  apply bind_ok in H as ([] & s5 & Hens & H).
  assert (Hmsg : dict_has d "messages" || dict_has d "input" = true ->
            keeps b "messages" s3 st').
  { intros Hhas. derive (keeps b "messages") H.
    assert (s5 = s4) as ->.
    { assert (Hb4 : heap s4 !! b
                    = Some (ODict (dict_set d "metadata" (VRef lm))))
        by (by rewrite Hh4).
      unfold Defensive.ensure_messages in Hens.
      rewrite (bind_step _ _ _ _ _ (contains_run _ _ _ _ Hb4)) in Hens.
      rewrite (bind_step _ _ _ _ _ (contains_run _ _ _ _ Hb4)) in Hens.
      rewrite !dict_has_set_ne in Hens by done.
      destruct (dict_has d "messages"), (dict_has d "input");
        try discriminate Hhas; by injection Hens as <-. }
    intros d1 Hd1. apply Hr. by rewrite Hh4. }
  assert (Htail : is_Some (chat_traces st' !! k) ->
            exists task_name, enriched lm task_name st' /\
              forall md t, heap st' !! lm = Some (ODict md) ->
                dict_get md "task" = Some t -> task_name = t).
  { intros Hsome. clear Hmodels.
    do 3 (apply bind_ok in H as (? & ? & _ & H)).
    apply bind_ok in H as (task_name & s8 & Hget & H).
    apply get_or_inv in Hget as (mdt & Hmdt & -> & ->).
    apply as_dict_ref in Hmdt as (? & [= <-] & Hmdt).
    derive (keeps lm "task") H.
    destruct (Hr _ Hmdt) as (md' & Hmd' & Ht').
    apply bind_ok in H as ([trace |] & s9 & Hopen & H).
    - apply bind_ok in H as ([] & s10 & Hrec & H). injection H as <-.
      eexists. split; [by eapply defensive_record_start_enriches |].
      intros md t Hmd Ht. rewrite Hmd' in Hmd. injection Hmd as <-.
      rewrite Ht' in Ht. by rewrite Ht.
    - injection H as <-. apply defensive_open_none in Hopen.
      rewrite Hopen in Hsome. by destruct Hsome. }
  split; [done |].
  destruct (Hbody "metadata" ltac:(done) _ Hb3) as (d' & Hd' & Hmeta).
  rewrite dict_get_set_eq in Hmeta.
  destruct (Hchat _ Hlm3) as (md & Hmd & Hcid).
  exists d', lm, md, k.
  split; [done |]. split; [done |]. split.
  { intros K HK HK'. destruct (Hbody K HK' _ Hb3) as (d2 & Hd2 & HK2).
    rewrite Hd' in Hd2. injection Hd2 as <-.
    rewrite HK2. by apply dict_get_set_ne. }
  split.
  { intros Hhas. destruct (Hmsg Hhas _ Hb3) as (d2 & Hd2 & HK2).
    rewrite Hd' in Hd2. injection Hd2 as <-.
    rewrite HK2. by apply dict_get_set_ne. }
  split; [exact Halias |]. split; [done |]. split.
  { intros Hnone. destruct (Hfresh Hnone) as (md0 & Hmd0 & Hsome).
    rewrite Hmd1 in Hmd0. injection Hmd0 as <-. by rewrite Hcid. }
  split; [by rewrite Hcid |]. split; [by apply Hmodels |].
  intros Hsome.
  destruct (Htail Hsome) as (task_name & (md' & Hmd' & Hrest) & Htask').
  rewrite Hmd in Hmd'. injection Hmd' as <-.
  exists task_name. destruct Hrest as (Htype & Hint & Hgen).
  split; [done |]. split; [| done].
  intros t Ht. by eapply Htask'.
Qed.

End DefensiveInlet.

(** ** The usage record in the defensive outlet *)

Lemma truthy_insert h v l d k x :
  h !! l = Some (ODict d) -> truthy h v = true ->
  truthy (<[l := ODict (dict_set d k x)]> h) v = true.
Proof.
  intros Hl. destruct v as [| | | | l']; try done. simpl.
  destruct (decide (l' = l)) as [-> | Hne].
  - rewrite list_lookup_insert_eq by (by eapply lookup_lt_Some).
    intros _. destruct d as [| [k' v'] d]; simpl; [done |].
    by destruct (String.eqb k k').
  - by rewrite list_lookup_insert_ne.
Qed.

Section DefensiveOutlet.

Context {E : env}.

Lemma get_heap_run st : get_heap st = (Ok (heap st), st).
Proof. reflexivity. Qed.

Lemma uuid_run st :
  uuid st = (Ok (uuid4 (uuids st)), set_uuids (S (uuids st)) st).
Proof. reflexivity. Qed.

Lemma try_except_log_total (R : relation state) `{!PreOrder R} `{!TolOut R}
    (m : M unit) msg st :
  preserves R m ->
  exists s', try_except m (fun _ => log msg) st = (Ok tt, s') /\ R st s'.
Proof.
  intros Hp. unfold try_except.
  destruct (m st) as [[[] | e] s] eqn:Hm.
  - exists s. split; [done | by eapply Hp].
  - exists (logged msg s). split; [apply log_run |].
    etransitivity; [by eapply Hp | eapply (preserves_log R), log_run].
Qed.

(** Lines 337-396 on a task that is not a generation task, with a usage
    record: the block ends normally whatever the backend does, and leaves
    the usage record and the type in the metadata object. *)
Lemma defensive_emit_end_usage b d lm md task_name kt k trace tags
    messages assistant_message usage st r st' :
  heap st !! b = Some (ODict d) ->
  heap st !! lm = Some (ODict md) ->
  lm <> b ->
  to_key task_name = Some kt ->
  str_is task_name "llm_response" = false ->
  truthy (heap st) usage = true ->
  Defensive.emit_end (VRef b) (VRef lm) task_name k trace tags
    messages assistant_message usage st = (r, st') ->
  r = Ok (VRef b) /\ heap st' !! b = Some (ODict d) /\
  exists md', heap st' !! lm = Some (ODict md') /\
    dict_get md' "usage" = Some usage /\
    dict_get md' "type" = Some task_name.
Proof.
  intros Hb Hlm Hne Hkt Hgen Htruthy H.
  derive (fixed b d) H. rename Hr into Hfix.
  unfold Defensive.emit_end in H.
  rewrite (bind_step _ _ _ _ _ (get_heap_run st)) in H.
  match type of H with
  | bind (try_except ?m (fun _ => log ?msg)) _ ?s = _ =>
      destruct (try_except_log_total same_heap m msg s) as (s1 & H1 & Hh1);
        [pres |]
  end.
  rewrite (bind_step _ _ _ _ _ H1) in H. unfold same_heap in Hh1.
  assert (Hlm1 : heap s1 !! lm = Some (ODict md)) by (by rewrite Hh1).
  rewrite (bind_step _ _ _ _ _ (setitem_run _ _ _ _ _ Hlm1)) in H.
  set (s2 := set_heap _ s1) in H.
  assert (Hlm2 : heap s2 !! lm = Some (ODict (dict_set md "type" task_name))).
  { unfold s2. simpl. rewrite list_lookup_insert_eq; [done |].
    by eapply lookup_lt_Some. }
  assert (Htr2 : truthy (heap s2) usage = true).
  { unfold s2. simpl. apply truthy_insert; [done | by rewrite Hh1]. }
  rewrite (bind_step _ _ _ _ _
             (get_or_run _ _ _ _ _ (as_dict_lookup _ _ _ Hlm2))) in H.
  rewrite (bind_step _ _ _ _ _ (setitem_run _ _ _ _ _ Hlm2)) in H.
  set (interface := default _ _) in H.
  set (s3 := set_heap _ s2) in H.
  assert (Hlm3 : heap s3 !! lm
                 = Some (ODict (dict_set (dict_set md "type" task_name)
                                  "interface" interface))).
  { unfold s3. simpl. rewrite list_lookup_insert_eq; [done |].
    by eapply lookup_lt_Some. }
  assert (Htr3 : truthy (heap s3) usage = true).
  { unfold s3. simpl. by apply truthy_insert. }
  match type of H with
  | bind (try_except ?m (fun _ => log ?msg)) _ ?s = _ =>
      destruct (m s) as [r5 s5] eqn:Hin;
      assert (Hte : try_except m (fun _ => log msg) s
                    = (Ok tt, match r5 with
                              | Ok _ => s5
                              | Raise _ => logged msg s5
                              end))
        by (unfold try_except; rewrite Hin; destruct r5 as [[] |];
            [done | apply log_run])
  end.
  rewrite (bind_step _ _ _ _ _ Hte) in H. injection H as <- <-.
  split; [done |]. split; [by apply Hfix |].
  assert (Hg : in_generation_tasks task_name s3 = (Ok false, s3)).
  { unfold in_generation_tasks.
    rewrite (bind_step _ _ _ _ _ (hash_key_run _ _ _ Hkt)).
    by rewrite Hgen. }
  rewrite (bind_step _ _ _ _ _ Hg) in Hin. cbv beta iota in Hin.
  rewrite (bind_step _ _ _ _ _ (get_heap_run s3)) in Hin.
  rewrite (bind_step _ _ _ _ _ (uuid_run s3)) in Hin.
  rewrite Htr3 in Hin. unfold when at 1 in Hin.
  assert (Hlm4 : heap (set_uuids (S (uuids s3)) s3) !! lm
                 = Some (ODict (dict_set (dict_set md "type" task_name)
                                  "interface" interface))) by exact Hlm3.
  rewrite (bind_step _ _ _ _ _ (setitem_run _ _ _ _ _ Hlm4)) in Hin.
  derive same_heap Hin. unfold same_heap in Hr.
  assert (Hlast : heap (match r5 with
                        | Ok _ => s5
                        | Raise _ =>
                            logged "Error completing Langfuse logging" s5
                        end) = heap s5)
    by (destruct r5; [done | apply heap_logged]).
  eexists. rewrite Hlast, Hr. split.
  - simpl. rewrite list_lookup_insert_eq; [done |].
    apply lookup_lt_Some in Hlm3. exact Hlm3.
  - by dict_simpl.
Qed.

End DefensiveOutlet.

Section DefensiveOutletRun.

Context {E : env}.

(** The defensive outlet on a body whose metadata entry is the object at
    [lm], for a conversation with an open trace, on a task that is not a
    generation task, when a usage record is extracted: the returned body is
    as it was and its metadata object carries the usage record. *)
Lemma defensive_outlet_usage b d lm md user st chat_id k trace kt
    messages assistant_message usage s1 :
  heap st !! b = Some (ODict d) ->
  dict_get d "metadata" = Some (VRef lm) ->
  lm <> b ->
  heap st !! lm = Some (ODict md) ->
  (Defensive.outlet_chat_id (VRef b) st).1 = Ok chat_id ->
  truthy (heap st) chat_id = true ->
  to_key chat_id = Some k ->
  chat_traces st !! k = Some trace ->
  to_key (default (default (VStr "llm_response") (dict_get md "type"))
            (dict_get md "task")) = Some kt ->
  str_is (default (default (VStr "llm_response") (dict_get md "type"))
            (dict_get md "task")) "llm_response" = false ->
  Defensive.gather (VRef b)
    (logged "Outlet function called with body keys" st)
    = (Ok (messages, assistant_message, usage), s1) ->
  truthy (heap s1) usage = true ->
  exists st' md',
    Defensive.outlet (VRef b) user st = (Ok (VRef b), st') /\
    heap st' !! b = Some (ODict d) /\
    heap st' !! lm = Some (ODict md') /\
    dict_get md' "usage" = Some usage /\
    dict_get md' "type" =
      Some (default (default (VStr "llm_response") (dict_get md "type"))
              (dict_get md "task")).
Proof.
  intros Hb Hmeta Hne Hlm Hcid Hc Hk Htrace Hkt Hgen Hgather Husage.
  assert (Hd : is_dict (heap st) (VRef b) = true)
    by (unfold is_dict; by rewrite (as_dict_lookup _ _ _ Hb)).
  destruct (defensive_outlet_run (VRef b) user st Hd)
    as (r & st1 & st' & Htry & Hf & Hrun).
  pose proof (heap_logged "Outlet function called with body keys" st) as Hh0.
  pose proof (chat_traces_logged "Outlet function called with body keys" st)
    as Ht0.
  assert (Hb0 : heap (logged "Outlet function called with body keys" st) !! b
                = Some (ODict d)) by (by rewrite Hh0).
  assert (Hlm0 : heap (logged "Outlet function called with body keys" st)
                   !! lm = Some (ODict md)) by (by rewrite Hh0).
  unfold Defensive.outlet_try in Htry.
  rewrite (bind_step _ _ _ _ _
             (eq_trans
                (defensive_outlet_chat_id_heap_only (VRef b) st _
                   (eq_sym Hh0))
                (f_equal (fun x => (x, _)) Hcid))) in Htry.
  unfold Defensive.outlet_rest in Htry.
  rewrite (bind_step _ _ _ _ _ (get_heap_run _)) in Htry.
  rewrite Hh0, Hc in Htry. cbn [negb] in Htry. cbv beta iota in Htry.
  rewrite (bind_step _ _ _ _ _
             (attr_get_run _ _ _ _ (as_dict_lookup _ _ _ Hb0))) in Htry.
  rewrite Hmeta in Htry. rewrite ret_run in Htry.
  rewrite (bind_step _ _ _ _ _
             (get_or_run _ _ _ _ _ (as_dict_lookup _ _ _ Hlm0))) in Htry.
  rewrite (bind_step _ _ _ _ _
             (get_or_run _ _ _ _ _ (as_dict_lookup _ _ _ Hlm0))) in Htry.
  rewrite (bind_step _ _ _ _ _ (hash_key_run _ _ _ Hk)) in Htry.
  rewrite (bind_step _ _ _ _ _
             (eq_refl : traces_get k _ = (Ok (chat_traces _ !! k), _)))
    in Htry.
  rewrite Ht0, Htrace in Htry.
  unfold Defensive.record_end in Htry.
  rewrite (bind_step _ _ _ _ _ Hgather) in Htry. cbv beta iota in Htry.
  derive (fixed b d) Hgather. derive (fixed lm md) Hgather.
  apply defensive_emit_end_usage with (d := d) (md := md) (kt := kt) in Htry
    as (-> & Hb1 & md' & Hmd' & Hu & Ht);
    [| by apply Hr | by apply Hr0 | done | done | done | done].
  destruct (flush_run st1) as (st3 & Hf3 & _ & _ & Hheap & _).
  rewrite Hf in Hf3. injection Hf3 as <-.
  exists st', md'. rewrite Hheap. by repeat split.
Qed.

End DefensiveOutletRun.

(** A generation request with a metadata object:
    [{"model": "gpt-4", "messages": [{"role": "user", "content": "hi"}],
      "metadata": {"chat_id": "c1", "task": "llm_response"}}]
    at location 0. *)
Definition request_generation : list obj :=
  [ ODict [("model", VStr "gpt-4"); ("messages", VRef 1); ("metadata", VRef 3)];
    OList [VRef 2];
    ODict [("role", VStr "user"); ("content", VStr "hi")];
    ODict [("chat_id", VStr "c1"); ("task", VStr "llm_response")] ].

(** A title-generation turn, whose last assistant message has usage counts:
    [{"chat_id": "c1",
      "messages": [{"role": "user", "content": "hi"},
                   {"role": "assistant", "content": "hello",
                    "usage": {"prompt_tokens": 5, "completion_tokens": 3}}],
      "metadata": {"chat_id": "c1", "task": "title_generation"}}]
    at location 0. *)
Definition title_turn : list obj :=
  [ ODict [("chat_id", VStr "c1"); ("messages", VRef 1); ("metadata", VRef 5)];
    OList [VRef 2; VRef 3];
    ODict [("role", VStr "user"); ("content", VStr "hi")];
    ODict [("role", VStr "assistant"); ("content", VStr "hello");
           ("usage", VRef 4)];
    ODict [("prompt_tokens", VInt 5); ("completion_tokens", VInt 3)];
    ODict [("chat_id", VStr "c1"); ("task", VStr "title_generation")] ].

(** * The registries over the life of the adapter *)

(** A registered trace handle stays registered, unchanged. *)
Definition traces_kept (st st' : state) : Prop :=
  forall k t, chat_traces st !! k = Some t -> chat_traces st' !! k = Some t.

(** The same for every key but [k]. *)
Definition traces_kept_but (k : key) (st st' : state) : Prop :=
  forall k' t, k' <> k ->
    chat_traces st !! k' = Some t -> chat_traces st' !! k' = Some t.

(** Both registries are left as they are. *)
Definition same_registries (st st' : state) : Prop :=
  chat_traces st' = chat_traces st /\ model_names st' = model_names st.

#[global] Instance traces_kept_preorder : PreOrder traces_kept.
Proof.
  split; [by intros st k t | intros x y z H1 H2 k t H; by apply H2, H1].
Qed.
#[global] Instance traces_kept_heap : TolHeap traces_kept.
Proof. by intros st h k t. Qed.
#[global] Instance traces_kept_out : TolOut traces_kept.
Proof. by intros st s k t. Qed.
#[global] Instance traces_kept_uuids : TolUuids traces_kept.
Proof. by intros st n k t. Qed.
#[global] Instance traces_kept_models : TolModels traces_kept.
Proof. by intros st m k t. Qed.
#[global] Instance traces_kept_call c : TolCall traces_kept c.
Proof. by intros st ok k t. Qed.

#[global] Instance traces_kept_but_preorder k : PreOrder (traces_kept_but k).
Proof.
  split; [by intros st k' t | intros x y z H1 H2 k' t Hk H; by apply H2, H1].
Qed.
#[global] Instance traces_kept_but_heap k : TolHeap (traces_kept_but k).
Proof. by intros st h k' t. Qed.
#[global] Instance traces_kept_but_out k : TolOut (traces_kept_but k).
Proof. by intros st s k' t. Qed.
#[global] Instance traces_kept_but_uuids k : TolUuids (traces_kept_but k).
Proof. by intros st n k' t. Qed.
#[global] Instance traces_kept_but_models k : TolModels (traces_kept_but k).
Proof. by intros st m k' t. Qed.
#[global] Instance traces_kept_but_call k c : TolCall (traces_kept_but k) c.
Proof. by intros st ok k' t. Qed.
#[global] Instance traces_kept_but_at k : TolTracesAt (traces_kept_but k) k.
Proof. intros st t k' t' Hk H. simpl. by rewrite lookup_insert_ne. Qed.

#[global] Instance same_registries_preorder : PreOrder same_registries.
Proof.
  split; [by intros st |].
  intros x y z [H1 H2] [H3 H4]. split; congruence.
Qed.
#[global] Instance same_registries_heap : TolHeap same_registries.
Proof. by intros st h. Qed.
#[global] Instance same_registries_out : TolOut same_registries.
Proof. by intros st s. Qed.
#[global] Instance same_registries_uuids : TolUuids same_registries.
Proof. by intros st n. Qed.
#[global] Instance same_registries_call c : TolCall same_registries c.
Proof. by intros st ok. Qed.

Section Registrations.

Context {E : env}.

Lemma strict_open_or_reuse_kept body metadata chat_id user_email k tags :
  preserves traces_kept
    (Strict.open_or_reuse body metadata chat_id user_email k tags).
Proof.
  unfold Strict.open_or_reuse. apply preserves_lookup.
  - intros st r st' Hnone Hrun. derive (traces_kept_but k) Hrun.
    intros k' t Hk'. apply Hr; [congruence | done].
  - intros t. pres.
Qed.

Lemma defensive_open_or_reuse_kept body metadata chat_id user_email k tags :
  preserves traces_kept
    (Defensive.open_or_reuse body metadata chat_id user_email k tags).
Proof.
  unfold Defensive.open_or_reuse. apply preserves_lookup.
  - intros st r st' Hnone Hrun. derive (traces_kept_but k) Hrun.
    intros k' t Hk'. apply Hr; [congruence | done].
  - intros t. pres.
Qed.

Lemma strict_inlet_traces_kept body user :
  preserves traces_kept (Strict.inlet body user).
Proof.
  unfold Strict.inlet, Strict.inlet_rest, Strict.resolve, Strict.store_model,
    Strict.validate, Strict.record_start, user_email_or, in_generation_tasks.
  repeat first [ apply strict_open_or_reuse_kept | pres_step ].
Qed.

Lemma strict_outlet_traces_kept body user :
  preserves traces_kept (Strict.outlet body user).
Proof.
  unfold Strict.outlet.
  repeat (pres_step; try apply strict_inlet_traces_kept).
  all: unfold_strict; pres.
Qed.

Lemma defensive_inlet_traces_kept body user :
  preserves traces_kept (Defensive.inlet body user).
Proof.
  unfold Defensive.inlet, Defensive.inlet_rest, Defensive.extract_metadata,
    Defensive.copy_field, Defensive.store_model, Defensive.ensure_messages,
    Defensive.record_start, Defensive.rewrite_local, Defensive.or_else,
    Defensive.nested_get, Defensive.keys_of, user_email_or,
    in_generation_tasks.
  repeat first [ apply defensive_open_or_reuse_kept | pres_step ].
Qed.

Lemma defensive_outlet_same_registries body user :
  preserves same_registries (Defensive.outlet body user).
Proof. unfold Defensive.outlet, Defensive.flush. unfold_defensive. pres. Qed.

Lemma strict_record_end_same_registries body metadata chat_id task_name k
    trace tags :
  preserves same_registries
    (Strict.record_end body metadata chat_id task_name k trace tags).
Proof. unfold_strict. pres. Qed.

Lemma strict_models_grow body user :
  preserves models_grow (Strict.inlet body user) /\
  preserves models_grow (Strict.outlet body user).
Proof. split; unfold_strict; pres. Qed.

Lemma defensive_inlet_models_grow body user :
  preserves models_grow (Defensive.inlet body user).
Proof. unfold_defensive. pres. Qed.

End Registrations.

(** X1.  No handler of either variant ever removes a conversation from a
    registry or replaces its trace handle, however the call ends: a handle
    registered before the call is registered, the same, after it, and a
    conversation with a model record still has one. *)
Theorem handlers_keep_registrations {E : env}
    (handler : val -> val -> M val) body user st r st' :
  In handler [Strict.inlet; Strict.outlet; Defensive.inlet; Defensive.outlet] ->
  handler body user st = (r, st') ->
  (forall k t, chat_traces st !! k = Some t -> chat_traces st' !! k = Some t) /\
  (forall k, is_Some (model_names st !! k) -> is_Some (model_names st' !! k)).
Proof.
  intros Hin Hrun. simpl in Hin.
  destruct Hin as [<- | [<- | [<- | [<- | []]]]].
  - split; [by eapply strict_inlet_traces_kept |].
    by eapply (proj1 (strict_models_grow _ _)).
  - split; [by eapply strict_outlet_traces_kept |].
    by eapply (proj2 (strict_models_grow _ _)).
  - split; [by eapply defensive_inlet_traces_kept |].
    by eapply defensive_inlet_models_grow.
  - destruct (defensive_outlet_same_registries _ _ _ _ _ Hrun) as [Ht Hm].
    split; [intros k t; by rewrite Ht | intros k; by rewrite Hm].
Qed.

Lemma handlers_keep_registrations_witness :
  let st := (@Strict.inlet calm (VRef 0) VNone (init turn_c1 true)).2 in
  let st' := (@Strict.outlet (fails_at 2) (VRef 0) VNone st).2 in
  chat_traces st' !! KStr "c1" = Some 0 /\
  is_Some (model_names st' !! KStr "c1").
Proof.
  intros st st'.
  destruct (@handlers_keep_registrations (fails_at 2)
              (@Strict.outlet (fails_at 2)) (VRef 0) VNone st
              (@Strict.outlet (fails_at 2) (VRef 0) VNone st).1 st')
    as [Ht Hm].
  - right. by left.
  - by destruct (@Strict.outlet (fails_at 2) (VRef 0) VNone st).
  - split; [apply Ht | apply Hm]; vm_compute; [reflexivity | by eexists].
Defined.

(** X2.  An outlet that finds the trace of its conversation changes neither
    registry, however it ends.  The defensive outlet never changes them at
    all; the strict outlet leaves them alone when the resolved conversation
    id has a registered trace (without one it runs the inlet). *)
Theorem outlet_leaves_registries {E : env} body user st r st' :
  (Defensive.outlet body user st = (r, st') ->
   chat_traces st' = chat_traces st /\ model_names st' = model_names st) /\
  (forall chat_id metadata task_name st1 k trace,
      Strict.outlet_resolve body st = (Ok (chat_id, metadata, task_name), st1) ->
      to_key chat_id = Some k ->
      chat_traces st !! k = Some trace ->
      Strict.outlet body user st = (r, st') ->
      chat_traces st' = chat_traces st /\ model_names st' = model_names st).
Proof.
  split.
  - intros Hrun. by eapply defensive_outlet_same_registries.
  - intros chat_id metadata task_name st1 k trace Hres Hk Ht Hrun.
    derive same_registries Hres. destruct Hr as [Ht1 Hm1].
    unfold Strict.outlet in Hrun.
    rewrite (bind_step _ _ _ _ _ Hres) in Hrun. cbv beta iota zeta in Hrun.
    rewrite (bind_step _ _ _ _ _ (hash_key_run _ _ _ Hk)) in Hrun.
    rewrite (bind_step _ _ _ _ _
               (eq_refl : traces_get k st1 = (Ok (chat_traces st1 !! k), st1)))
      in Hrun.
    rewrite Ht1, Ht in Hrun.
    apply strict_record_end_same_registries in Hrun as [Ht2 Hm2].
    split; congruence.
Qed.

Lemma outlet_leaves_registries_witness :
  let st := (@Strict.inlet calm (VRef 0) VNone (init turn_c1 true)).2 in
  chat_traces (@Defensive.outlet calm (VRef 0) VNone st).2 = chat_traces st /\
  model_names (@Strict.outlet calm (VRef 0) VNone st).2 = model_names st.
Proof.
  intros st. split.
  - destruct (@outlet_leaves_registries calm (VRef 0) VNone st
                (@Defensive.outlet calm (VRef 0) VNone st).1
                (@Defensive.outlet calm (VRef 0) VNone st).2) as [Hd _].
    apply Hd. by destruct (@Defensive.outlet calm (VRef 0) VNone st).
  - destruct (@outlet_leaves_registries calm (VRef 0) VNone st
                (@Strict.outlet calm (VRef 0) VNone st).1
                (@Strict.outlet calm (VRef 0) VNone st).2) as [_ Hs].
    apply (Hs (VStr "c1") (VRef 4) (VStr "llm_response")
              (@Strict.outlet_resolve calm (VRef 0) st).2 (KStr "c1") 0).
    + vm_compute. reflexivity.
    + reflexivity.
    + vm_compute. reflexivity.
    + by destruct (@Strict.outlet calm (VRef 0) VNone st).
Defined.

(** * Malformed message lists *)

Lemma scan_assistant_skip st skip rest :
  Forall (fun x => has_role (heap st) x = true /\
                   is_assistant (heap st) x = false) skip ->
  scan_assistant (skip ++ rest) st = scan_assistant rest st.
Proof.
  induction 1 as [| x skip [Hr Ha] _ IH]; simpl; [done |].
  destruct (getitem_role st x Hr) as (role & Hget & Hrole).
  rewrite (bind_step _ _ _ _ _ Hget). by rewrite <- Hrole, Ha.
Qed.

(** A message list that holds one message with no role among messages of
    other authors:
    [[{"content": "x"}, {"role": "assistant", "content": "hello"},
      {"role": "user", "content": "hi"}]] at location 0, and the same list
    without its last two messages at location 4. *)
Definition ragged_messages : list obj :=
  [ OList [VRef 1; VRef 2; VRef 3];
    ODict [("content", VStr "x")];
    ODict [("role", VStr "assistant"); ("content", VStr "hello")];
    ODict [("role", VStr "user"); ("content", VStr "hi")];
    OList [VRef 1] ].

(** X3.  [get_last_assistant_message_obj] reads the list from its end and
    stops at the first assistant message: when every message after [m] is a
    dict with a role other than "assistant", it returns [m] if [m] is
    assistant-authored, raises [KeyError] if [m] is a dict without a role
    and [TypeError] if [m] is not a dict, whatever the messages before [m]
    are (they are never inspected) and without changing the state. *)
Theorem get_last_assistant_message_obj_stops st l before m after :
  heap st !! l = Some (OList (before ++ m :: after)) ->
  Forall (fun x => has_role (heap st) x = true /\
                   is_assistant (heap st) x = false) after ->
  (is_assistant (heap st) m = true ->
   get_last_assistant_message_obj (VRef l) st = (Ok m, st)) /\
  (forall d, as_dict (heap st) m = Some d -> dict_get d "role" = None ->
   get_last_assistant_message_obj (VRef l) st = (Raise KeyError, st)) /\
  (as_dict (heap st) m = None ->
   get_last_assistant_message_obj (VRef l) st = (Raise TypeError, st)).
Proof.
  intros Hl Hafter.
  assert (Hrev : reversed (VRef l) st
                 = (Ok (rev after ++ m :: rev before), st)).
  { unfold reversed. rewrite Hl, rev_app_distr. simpl.
    by rewrite <- app_assoc. }
  assert (Hscan : get_last_assistant_message_obj (VRef l) st
                  = scan_assistant (m :: rev before) st).
  { unfold get_last_assistant_message_obj.
    rewrite (bind_step _ _ _ _ _ Hrev).
    apply scan_assistant_skip. by apply Forall_rev. }
  rewrite Hscan. simpl. unfold bind, getitem. repeat split.
  - unfold is_assistant. destruct (as_dict (heap st) m) as [d |]; [| done].
    destruct (dict_get d "role") as [role |]; [| done]. by intros ->.
  - by intros d -> ->.
  - by intros ->.
Qed.

Lemma get_last_assistant_message_obj_stops_witness :
  let st := init ragged_messages true in
  get_last_assistant_message_obj (VRef 0) st = (Ok (VRef 2), st) /\
  get_last_assistant_message_obj (VRef 4) st = (Raise KeyError, st).
Proof.
  intros st. split.
  - destruct (get_last_assistant_message_obj_stops st 0 [VRef 1] (VRef 2)
                [VRef 3]) as (Hok & _); [reflexivity | | by apply Hok].
    by repeat constructor.
  - destruct (get_last_assistant_message_obj_stops st 4 [] (VRef 1) []
                eq_refl (Forall_nil _)) as (_ & Hkey & _).
    by apply (Hkey [("content", VStr "x")]).
Defined.

(** * Usage extraction on any message *)

Section UsageTotal.

Context {E : env}.

(** X4.  On a last assistant message that is a dict, usage extraction never
    raises.  It returns [None] and leaves the state alone, or it returns a
    new dict, allocated at the end of the store, that holds two counts read
    from the message's usage dict, neither of them [None], and the unit
    "TOKENS"; nothing else changes but the log. *)
Theorem extract_usage_total st l d :
  heap st !! l = Some (ODict d) ->
  extract_usage (VRef l) st = (Ok VNone, st) \/
  exists uv info i o,
    dict_get d "usage" = Some uv /\
    as_dict (heap st) uv = Some info /\
    i <> VNone /\ o <> VNone /\
    (dict_get info "prompt_eval_count" = Some i \/
     dict_get info "prompt_tokens" = Some i) /\
    (dict_get info "eval_count" = Some o \/
     dict_get info "completion_tokens" = Some o) /\
    extract_usage (VRef l) st =
      (Ok (VRef (length (heap st))),
       logged "Usage data extracted"
         (set_heap (heap st ++ [ODict [("input", i); ("output", o);
                                       ("unit", VStr "TOKENS")]]) st)).
Proof.
  intros Hl. unfold extract_usage.
  rewrite (bind_step _ _ _ _ _ (eq_refl : get_heap st = (Ok (heap st), st))).
  destruct (truthy (heap st) (VRef l)) eqn:Ht; [| by left].
  rewrite (bind_step _ _ _ _ _
             (attr_get_run _ _ _ _ (as_dict_lookup _ _ _ Hl))).
  destruct (dict_get d "usage") as [uv |] eqn:Hu; [| by left].
  destruct (as_dict (heap st) uv) as [info |] eqn:Hinfo; [| by left].
  destruct (usage_counts (heap st) info) as [[i o] |] eqn:Hc; [| by left].
  right. exists uv, info, i, o.
  destruct (usage_counts_sound _ _ _ _ Hc) as (Hi & Ho & Hin & Hout).
  repeat split; try done.
  unfold bind, alloc. by rewrite log_run.
Qed.

End UsageTotal.

Lemma extract_usage_total_witness :
  exists st',
    @extract_usage calm (VRef 3) (init response_c1 true) = (Ok (VRef 5), st') /\
    heap st' !! 5 = Some (ODict [("input", VInt 5); ("output", VInt 3);
                                 ("unit", VStr "TOKENS")]).
Proof.
  destruct (@extract_usage_total calm (init response_c1 true) 3
              [("role", VStr "assistant"); ("content", VStr "hello");
               ("usage", VRef 4)] eq_refl)
    as [Hnone | (uv & info & i & o & _ & _ & _ & _ & _ & _ & Hrun)].
  - vm_compute in Hnone. discriminate Hnone.
  - eexists. split; [vm_compute; reflexivity | reflexivity].
Defined.

(** * Objects of the store that a piece of code leaves alone *)

(** The object at [l], if there is one, stays what it is. *)
Definition unchanged (l : loc) (st st' : state) : Prop :=
  forall o, heap st !! l = Some o -> heap st' !! l = Some o.

#[global] Instance unchanged_preorder l : PreOrder (unchanged l).
Proof.
  split; [by intros st o | intros x y z H1 H2 o H; by apply H2, H1].
Qed.

Lemma unchanged_same l st st' : heap st' = heap st -> unchanged l st st'.
Proof. intros H o. by rewrite H. Qed.

#[global] Instance unchanged_alloc l : TolAlloc (unchanged l).
Proof. intros st o o' Hl. simpl. by apply lookup_app_l_Some. Qed.

Lemma unchanged_set l v k : v <> VRef l -> TolSet (unchanged l) v k.
Proof.
  intros Hv st l' d x -> Hl' o Hl. simpl.
  rewrite list_lookup_insert_ne; [done | congruence].
Qed.

#[global] Hint Extern 2 (TolSet (unchanged _) _ _) =>
  apply unchanged_set; congruence : typeclass_instances.

#[global] Instance unchanged_out l : TolOut (unchanged l).
Proof. intros st s. by apply unchanged_same. Qed.
#[global] Instance unchanged_uuids l : TolUuids (unchanged l).
Proof. intros st n. by apply unchanged_same. Qed.
#[global] Instance unchanged_models l : TolModels (unchanged l).
Proof. intros st m. by apply unchanged_same. Qed.
#[global] Instance unchanged_traces l : TolTraces (unchanged l).
Proof. intros st m. by apply unchanged_same. Qed.
#[global] Instance unchanged_call l c : TolCall (unchanged l) c.
Proof. intros st ok. by apply unchanged_same. Qed.

Lemma getitem_run l k d v st :
  heap st !! l = Some (ODict d) -> dict_get d k = Some v ->
  getitem (VRef l) k st = (Ok v, st).
Proof.
  intros Hl Hk. unfold getitem. by rewrite (as_dict_lookup _ _ _ Hl), Hk.
Qed.

Lemma alloc_run o st :
  alloc o st = (Ok (VRef (length (heap st))), set_heap (heap st ++ [o]) st).
Proof. reflexivity. Qed.

(** * The message list made up by the defensive inlet *)

(** A body with a prompt and no messages: [{"prompt": "hi"}] at location 0. *)
Definition prompt_only : list obj := [ ODict [("prompt", VStr "hi")] ].

Section Synthesis.

Context {E : env}.

Lemma ensure_messages_run st b d :
  heap st !! b = Some (ODict d) ->
  exists st' d',
    Defensive.ensure_messages (VRef b) st = (Ok tt, st') /\
    heap st' !! b = Some (ODict d') /\
    (forall K, K <> "messages" -> dict_get d' K = dict_get d K) /\
    (forall l o, l <> b -> heap st !! l = Some o -> heap st' !! l = Some o) /\
    (dict_has d "messages" || dict_has d "input" = true -> st' = st) /\
    (dict_has d "messages" || dict_has d "input" = false ->
     exists lms,
       dict_get d' "messages" = Some (VRef lms) /\
       match dict_get d "prompt" with
       | Some p =>
           exists lm,
             heap st' !! lms = Some (OList [VRef lm]) /\
             heap st' !! lm
               = Some (ODict [("role", VStr "user"); ("content", p)])
       | None => heap st' !! lms = Some (OList [])
       end).
Proof.
  intros Hb. unfold Defensive.ensure_messages.
  rewrite (bind_step _ _ _ _ _ (contains_run _ _ _ _ Hb)).
  rewrite (bind_step _ _ _ _ _ (contains_run _ _ _ _ Hb)).
  destruct (dict_has d "messages" || dict_has d "input") eqn:Hhas.
  - assert (negb (dict_has d "messages") && negb (dict_has d "input") = false)
      as -> by (destruct (dict_has d "messages"), (dict_has d "input"); done).
    exists st, d. by repeat split.
  - assert (negb (dict_has d "messages") && negb (dict_has d "input") = true)
      as -> by (destruct (dict_has d "messages"), (dict_has d "input"); done).
    assert (Hlt : b < length (heap st)) by (by eapply lookup_lt_Some).
    rewrite (bind_step _ _ _ _ _ (contains_run _ _ _ _ Hb)).
    unfold dict_has. destruct (dict_get d "prompt") as [p |] eqn:Hp.
    + rewrite (bind_step _ _ _ _ _ (getitem_run _ _ _ _ _ Hb Hp)).
      rewrite (bind_step _ _ _ _ _ (alloc_run _ _)).
      rewrite (bind_step _ _ _ _ _ (alloc_run _ _)).
      set (message := ODict [("role", VStr "user"); ("content", p)]).
      set (n := length (heap st)).
      assert (Hb2 : heap (set_heap
                      (heap (set_heap (heap st ++ [message]) st)
                       ++ [OList [VRef n]])
                      (set_heap (heap st ++ [message]) st)) !! b
                    = Some (ODict d)).
      { simpl. by do 2 apply lookup_app_l_Some. }
      rewrite (setitem_run _ _ _ _ _ Hb2). simpl.
      rewrite length_app. simpl. fold n.
      eexists _, _. split; [reflexivity |]. simpl.
      split; [rewrite list_lookup_insert_eq;
              [done | rewrite !length_app; simpl; lia] |].
      split; [intros K HK; by apply dict_get_set_ne |].
      split.
      { intros l o Hl Ho. rewrite list_lookup_insert_ne by done.
        by do 2 apply lookup_app_l_Some. }
      split; [done |]. intros _. exists (n + 1).
      split; [apply dict_get_set_eq |]. exists n.
      rewrite !list_lookup_insert_ne by lia. split.
      * apply list_lookup_middle. rewrite length_app. simpl. by fold n.
      * apply lookup_app_l_Some. by apply list_lookup_middle.
    + rewrite (bind_step _ _ _ _ _ (log_run _ _)).
      rewrite (bind_step _ _ _ _ _ (alloc_run _ _)).
      set (st1 := logged _ st).
      assert (Hh1 : heap st1 = heap st) by apply heap_logged.
      assert (Hb2 : heap (set_heap (heap st1 ++ [OList []]) st1) !! b
                    = Some (ODict d)).
      { simpl. apply lookup_app_l_Some. by rewrite Hh1. }
      rewrite (setitem_run _ _ _ _ _ Hb2). simpl. rewrite Hh1.
      eexists _, _. split; [reflexivity |]. simpl.
      split; [rewrite list_lookup_insert_eq;
              [done | rewrite !length_app; simpl; lia] |].
      split; [intros K HK; by apply dict_get_set_ne |].
      split.
      { intros l o Hl Ho. rewrite list_lookup_insert_ne by done.
        by apply lookup_app_l_Some. }
      split; [done |]. intros _. exists (length (heap st)).
      split; [apply dict_get_set_eq |].
      rewrite list_lookup_insert_ne by lia.
      by apply list_lookup_middle.
Qed.

(** X5.  Lines 195-202 of the defensive inlet, on a dict body: the block
    never raises.  A body with a "messages" or an "input" key is left as it
    is, and so is the whole state.  Otherwise the body gets a "messages" key
    holding a new list: the single message
    [{"role": "user", "content": <prompt>}] when the body has a prompt, the
    empty list when it has none.  No other key of the body and no other
    object of the store changes. *)
Theorem ensure_messages_synthesizes st b d :
  heap st !! b = Some (ODict d) ->
  exists st' d',
    Defensive.ensure_messages (VRef b) st = (Ok tt, st') /\
    heap st' !! b = Some (ODict d') /\
    (forall K, K <> "messages" -> dict_get d' K = dict_get d K) /\
    (forall l o, l <> b -> heap st !! l = Some o -> heap st' !! l = Some o) /\
    (dict_has d "messages" || dict_has d "input" = true -> st' = st) /\
    (dict_has d "messages" || dict_has d "input" = false ->
     exists lms,
       dict_get d' "messages" = Some (VRef lms) /\
       match dict_get d "prompt" with
       | Some p =>
           exists lm,
             heap st' !! lms = Some (OList [VRef lm]) /\
             heap st' !! lm
               = Some (ODict [("role", VStr "user"); ("content", p)])
       | None => heap st' !! lms = Some (OList [])
       end).
Proof. apply ensure_messages_run. Qed.

End Synthesis.

Lemma ensure_messages_synthesizes_witness :
  exists st' d',
    @Defensive.ensure_messages calm (VRef 0) (init prompt_only true)
      = (Ok tt, st') /\
    heap st' !! 0 = Some (ODict d') /\
    dict_get d' "messages" = Some (VRef 2) /\
    heap st' !! 2 = Some (OList [VRef 1]) /\
    heap st' !! 1 = Some (ODict [("role", VStr "user"); ("content", VStr "hi")]).
Proof.
  destruct (@ensure_messages_synthesizes calm (init prompt_only true) 0
              [("prompt", VStr "hi")] eq_refl)
    as (st' & d' & Hrun & Hd' & _ & _ & _ & Hnew).
  exists st', d'. split; [done |]. split; [done |].
  destruct (Hnew eq_refl) as (lms & Hms & lm & Hlms & Hlm).
  vm_compute in Hrun. injection Hrun as <-.
  vm_compute in Hd'. injection Hd' as <-.
  vm_compute in Hms. injection Hms as <-.
  vm_compute in Hlms. injection Hlms as <-.
  by repeat split.
Defined.

(** * The metadata record built by the defensive variant *)

(** [if k in body: metadata[k] = body[k]], on the two dicts. *)
Definition copy_into (d md : dict) (k : string) : dict :=
  match dict_get d k with
  | Some v => dict_set md k v
  | None => md
  end.

Lemma dict_get_copy_into d md k k' :
  dict_get (copy_into d md k) k' =
    if String.eqb k k'
    then match dict_get d k with Some v => Some v | None => dict_get md k end
    else dict_get md k'.
Proof.
  unfold copy_into. destruct (String.eqb_spec k k') as [<- | Hne].
  - destruct (dict_get d k); [apply dict_get_set_eq | done].
  - destruct (dict_get d k); [by apply dict_get_set_ne | done].
Qed.

Section Extraction.

Context {E : env}.

Lemma or_else_true a m st :
  truthy (heap st) a = true -> Defensive.or_else a m st = (Ok a, st).
Proof. intros H. unfold Defensive.or_else, bind, get_heap. by rewrite H. Qed.

Lemma or_else_false a m st :
  truthy (heap st) a = false -> Defensive.or_else a m st = m st.
Proof. intros H. unfold Defensive.or_else, bind, get_heap. by rewrite H. Qed.

Lemma nested_get_absent b d k st :
  heap st !! b = Some (ODict d) -> dict_get d "metadata" = None ->
  Defensive.nested_get (VRef b) k st = (Ok VNone, st).
Proof.
  intros Hb Hm. unfold Defensive.nested_get.
  rewrite (bind_step _ _ _ _ _
             (attr_get_run _ _ _ _ (as_dict_lookup _ _ _ Hb))).
  by rewrite Hm.
Qed.

(** Lines 131-134 on a body without a metadata entry. *)
Lemma rewrite_local_absent b d c st :
  heap st !! b = Some (ODict d) -> dict_get d "metadata" = None ->
  Defensive.rewrite_local (VRef b) c st =
    (Ok (if str_is c "local" &&
            truthy (heap st) (default VNone (dict_get d "session_id"))
         then temporary_session (heap st)
                (default VNone (dict_get d "session_id"))
         else c), st).
Proof.
  intros Hb Hm. unfold Defensive.rewrite_local.
  destruct (str_is c "local"); [| done].
  rewrite (bind_step _ _ _ _ _
             (get_or_run _ _ _ _ _ (as_dict_lookup _ _ _ Hb))).
  set (sid := default VNone (dict_get d "session_id")). simpl.
  destruct (truthy (heap st) sid) eqn:Ht.
  - rewrite (bind_step _ _ _ _ _ (or_else_true _ _ _ Ht)).
    unfold bind, get_heap. by rewrite Ht.
  - unfold bind at 1. rewrite (or_else_false _ _ _ Ht).
    rewrite (nested_get_absent _ _ _ _ Hb Hm).
    unfold bind, get_heap. by simpl.
Qed.

Lemma copy_field_run b d n md k st :
  heap st !! b = Some (ODict d) -> heap st !! n = Some (ODict md) ->
  exists st',
    Defensive.copy_field (VRef b) (VRef n) k st = (Ok tt, st') /\
    (forall l, l <> n -> heap st' !! l = heap st !! l) /\
    heap st' !! n = Some (ODict (copy_into d md k)).
Proof.
  intros Hb Hn. unfold Defensive.copy_field, copy_into.
  rewrite (bind_step _ _ _ _ _ (contains_run _ _ _ _ Hb)).
  unfold dict_has. destruct (dict_get d k) as [v |] eqn:Hk.
  - rewrite (bind_step _ _ _ _ _ (getitem_run _ _ _ _ _ Hb Hk)).
    rewrite (setitem_run _ _ _ _ _ Hn). eexists. split; [reflexivity |].
    simpl. split.
    + intros l Hne. by rewrite list_lookup_insert_ne.
    + rewrite list_lookup_insert_eq; [done | by eapply lookup_lt_Some].
  - exists st. by repeat split.
Qed.

(** Lines 124-128 on a body without a metadata entry: the body's own
    conversation id when it is true, a new uuid otherwise. *)
Lemma resolve_chat_id_absent b d a st :
  heap st !! b = Some (ODict d) -> dict_get d "metadata" = None ->
  Defensive.or_else a
    (b0 <- Defensive.nested_get (VRef b) "chat_id" ;;
     Defensive.or_else b0 (u <- uuid ;; ret (VStr u))) st =
  (Ok (if truthy (heap st) a then a else VStr (uuid4 (uuids st))),
   if truthy (heap st) a then st else set_uuids (S (uuids st)) st).
Proof.
  intros Hb Hm. destruct (truthy (heap st) a) eqn:Ha.
  - by apply or_else_true.
  - rewrite (or_else_false _ _ _ Ha).
    rewrite (bind_step _ _ _ _ _ (nested_get_absent _ _ _ _ Hb Hm)).
    by rewrite or_else_false.
Qed.

End Extraction.

(** A chat completion body without metadata:
    [{"chat_id": "local", "session_id": "s1", "user_id": "u1",
      "model": "gpt-4", "messages": []}] at location 0. *)
Definition bare_body : list obj :=
  [ ODict [("chat_id", VStr "local"); ("session_id", VStr "s1");
           ("user_id", VStr "u1"); ("model", VStr "gpt-4");
           ("messages", VRef 1)];
    OList [] ].

Section ExtractMetadata.

Context {E : env}.

Lemma extract_metadata_run st b d :
  heap st !! b = Some (ODict d) ->
  dict_get d "metadata" = None ->
  let n := length (heap st) in
  let h := heap st ++ [ODict []] in
  let a := default VNone (dict_get d "chat_id") in
  let c := if truthy h a then a else VStr (uuid4 (uuids st)) in
  let sid := default VNone (dict_get d "session_id") in
  exists st' md,
    Defensive.extract_metadata (VRef b) st = (Ok (VRef n), st') /\
    heap st' !! n = Some (ODict md) /\
    (forall l, l < n -> heap st' !! l = heap st !! l) /\
    dict_get md "chat_id" =
      Some (if str_is c "local" && truthy h sid
            then temporary_session h sid else c) /\
    (forall K,
        In K ["user_id"; "message_id"; "session_id"; "interface"; "type"] ->
        dict_get md K = dict_get d K) /\
    match dict_get d "model" with
    | Some v =>
        if is_dict h v then dict_get md "model" = Some v
        else if is_str v then
          exists lw, dict_get md "model" = Some (VRef lw) /\
                     heap st' !! lw = Some (ODict [("id", v)])
        else dict_get md "model" = None
    | None => dict_get md "model" = None
    end.
Proof.
  intros Hb Hm n h a c sid.
  assert (Hlt : b < n) by (by eapply lookup_lt_Some).
  unfold Defensive.extract_metadata.
  rewrite (bind_step _ _ _ _ _ (contains_run _ _ _ _ Hb)).
  unfold dict_has at 1. rewrite Hm.
  rewrite (bind_step _ _ _ _ _ (alloc_run _ _)).
  fold n. fold h. set (s1 := set_heap h st).
  assert (Hb1 : heap s1 !! b = Some (ODict d))
    by (by apply lookup_app_l_Some).
  rewrite (bind_step _ _ _ _ _
             (get_or_run _ _ _ _ _ (as_dict_lookup _ _ _ Hb1))).
  rewrite (bind_step _ _ _ _ _ (resolve_chat_id_absent _ _ _ _ Hb1 Hm)).
  change (heap s1) with h. change (uuids s1) with (uuids st).
  fold a. fold c.
  set (s2 := if truthy h a then s1 else set_uuids (S (uuids st)) s1).
  assert (Hh2 : heap s2 = h) by (unfold s2; by destruct (truthy h a)).
  assert (Hb2 : heap s2 !! b = Some (ODict d)) by (by rewrite Hh2).
  rewrite (bind_step _ _ _ _ _ (rewrite_local_absent _ _ _ _ Hb2 Hm)).
  rewrite Hh2. fold sid.
  set (c' := if str_is c "local" && truthy h sid
             then temporary_session h sid else c).
  assert (Hn2 : heap s2 !! n = Some (ODict [])).
  { rewrite Hh2. by apply list_lookup_middle. }
  rewrite (bind_step _ _ _ _ _ (setitem_run _ _ _ _ _ Hn2)).
  set (s3 := set_heap _ s2).
  assert (Hn3 : heap s3 !! n = Some (ODict [("chat_id", c')])).
  { unfold s3. simpl. rewrite list_lookup_insert_eq; [done |].
    by eapply lookup_lt_Some. }
  assert (Ho3 : forall l, l <> n -> heap s3 !! l = h !! l).
  { intros l Hl. unfold s3. simpl.
    by rewrite list_lookup_insert_ne, Hh2. }
  assert (Hb3 : heap s3 !! b = Some (ODict d)).
  { rewrite Ho3 by lia. by apply lookup_app_l_Some. }
  destruct (copy_field_run b d n _ "user_id" s3 Hb3 Hn3)
    as (s4 & Hr4 & Ho4 & Hn4).
  rewrite (bind_step _ _ _ _ _ Hr4).
  assert (Hb4 : heap s4 !! b = Some (ODict d))
    by (rewrite Ho4 by lia; exact Hb3).
  destruct (copy_field_run b d n _ "message_id" s4 Hb4 Hn4)
    as (s5 & Hr5 & Ho5 & Hn5).
  rewrite (bind_step _ _ _ _ _ Hr5).
  assert (Hb5 : heap s5 !! b = Some (ODict d))
    by (rewrite Ho5 by lia; exact Hb4).
  destruct (copy_field_run b d n _ "session_id" s5 Hb5 Hn5)
    as (s6 & Hr6 & Ho6 & Hn6).
  rewrite (bind_step _ _ _ _ _ Hr6).
  assert (Hb6 : heap s6 !! b = Some (ODict d))
    by (rewrite Ho6 by lia; exact Hb5).
  destruct (copy_field_run b d n _ "interface" s6 Hb6 Hn6)
    as (s7 & Hr7 & Ho7 & Hn7).
  rewrite (bind_step _ _ _ _ _ Hr7).
  assert (Hb7 : heap s7 !! b = Some (ODict d))
    by (rewrite Ho7 by lia; exact Hb6).
  destruct (copy_field_run b d n _ "type" s7 Hb7 Hn7)
    as (s8 & Hr8 & Ho8 & Hn8).
  rewrite (bind_step _ _ _ _ _ Hr8).
  assert (Hb8 : heap s8 !! b = Some (ODict d))
    by (rewrite Ho8 by lia; exact Hb7).
  assert (Ho : forall l, l <> n -> heap s8 !! l = h !! l).
  { intros l Hl. by rewrite Ho8, Ho7, Ho6, Ho5, Ho4, Ho3. }
  set (md8 := copy_into d _ "type") in Hn8.
  assert (Hkeys : dict_get md8 "chat_id" = Some c' /\
            (forall K,
                In K ["user_id"; "message_id"; "session_id"; "interface";
                      "type"] ->
                dict_get md8 K = dict_get d K) /\
            dict_get md8 "model" = None).
  { unfold md8. split; [| split].
    - by rewrite !dict_get_copy_into.
    - intros K HK. simpl in HK.
      destruct HK as [<- | [<- | [<- | [<- | [<- | []]]]]];
        rewrite !dict_get_copy_into; simpl;
        repeat match goal with
               | |- context [dict_get d ?k] => destruct (dict_get d k)
               end; reflexivity.
    - by rewrite !dict_get_copy_into. }
  destruct Hkeys as (Hchat & Hcopied & Hnomodel).
  assert (Hold : forall s, (forall l, l <> n -> heap s !! l = h !! l) ->
            forall l, l < n -> heap s !! l = heap st !! l).
  { intros s Hs l Hl. rewrite Hs by lia.
    unfold h. by rewrite lookup_app_l. }
  rewrite (bind_step _ _ _ _ _ (contains_run _ _ _ _ Hb8)).
  unfold dict_has. destruct (dict_get d "model") as [v |] eqn:Hmodel.
  - rewrite bind_assoc.
    rewrite (bind_step _ _ _ _ _ (getitem_run _ _ _ _ _ Hb8 Hmodel)).
    rewrite bind_assoc.
    rewrite (bind_step _ _ _ _ _ (get_heap_run _)).
    assert (Hdict : is_dict (heap s8) v = is_dict h v).
    { unfold is_dict, as_dict, deref. destruct v as [| | | | l]; try done.
      destruct (decide (l = n)) as [-> | Hl].
      - rewrite Hn8. unfold h. by rewrite list_lookup_middle.
      - by rewrite Ho. }
    rewrite Hdict. destruct (is_dict h v).
    + rewrite (bind_step _ _ _ _ _ (setitem_run _ _ _ _ _ Hn8)).
      eexists _, _. split; [reflexivity |]. simpl.
      split; [rewrite list_lookup_insert_eq;
              [done | by eapply lookup_lt_Some] |].
      split.
      { intros l Hl. rewrite list_lookup_insert_ne by lia.
        by apply Hold. }
      rewrite dict_get_set_ne by done. split; [done |].
      split; [| apply dict_get_set_eq].
      intros K HK. rewrite dict_get_set_ne; [by apply Hcopied |].
      simpl in HK. intros <-. intuition discriminate.
    + destruct (is_str v).
      * rewrite bind_assoc.
        rewrite (bind_step _ _ _ _ _ (alloc_run _ _)).
        assert (Hn9 : heap (set_heap (heap s8 ++ [ODict [("id", v)]]) s8)
                        !! n = Some (ODict md8))
          by (by apply lookup_app_l_Some).
        rewrite (bind_step _ _ _ _ _ (setitem_run _ _ _ _ _ Hn9)).
        eexists _, _. split; [reflexivity |]. simpl.
        assert (Hlen : n < length (heap s8)) by (by eapply lookup_lt_Some).
        split; [rewrite list_lookup_insert_eq;
                [done | rewrite length_app; lia] |].
        split.
        { intros l Hl. rewrite list_lookup_insert_ne by lia.
          rewrite lookup_app_l by lia. by apply Hold. }
        rewrite dict_get_set_ne by done. split; [done |].
        split.
        { intros K HK. rewrite dict_get_set_ne; [by apply Hcopied |].
          simpl in HK. intros <-. intuition discriminate. }
        exists (length (heap s8)). split; [apply dict_get_set_eq |].
        rewrite list_lookup_insert_ne by lia.
        by apply list_lookup_middle.
      * exists s8, md8. split; [reflexivity |].
        split; [done |]. split; [by apply Hold |]. by repeat split.
  - exists s8, md8. split; [reflexivity |].
    split; [done |]. split; [by apply Hold |]. by repeat split.
Qed.

(** X6.  [_extract_metadata] of the defensive variant, on a dict body
    without a metadata entry: it never raises and returns a new dict.  The
    dict holds a conversation id: the body's own when that is true, a new
    uuid otherwise, rewritten to "temporary-session-<session id>" when it is
    "local" and the body has a true session id.  Its entries for user_id,
    message_id, session_id, interface and type are the body's (absent when
    the body has none); its model entry is the body's model when that is a
    dict, a new dict [{"id": <model>}] when it is a string, and absent
    otherwise.  No object that was in the store changes (the body among
    them), and neither registry nor the backend is touched. *)
Theorem extract_metadata_builds st b d :
  heap st !! b = Some (ODict d) ->
  dict_get d "metadata" = None ->
  let n := length (heap st) in
  let h := heap st ++ [ODict []] in
  let a := default VNone (dict_get d "chat_id") in
  let c := if truthy h a then a else VStr (uuid4 (uuids st)) in
  let sid := default VNone (dict_get d "session_id") in
  exists st' md,
    Defensive.extract_metadata (VRef b) st = (Ok (VRef n), st') /\
    heap st' !! n = Some (ODict md) /\
    dict_get md "chat_id" =
      Some (if str_is c "local" && truthy h sid
            then temporary_session h sid else c) /\
    (forall K,
        In K ["user_id"; "message_id"; "session_id"; "interface"; "type"] ->
        dict_get md K = dict_get d K) /\
    match dict_get d "model" with
    | Some v =>
        if is_dict h v then dict_get md "model" = Some v
        else if is_str v then
          exists lw, dict_get md "model" = Some (VRef lw) /\
                     heap st' !! lw = Some (ODict [("id", v)])
        else dict_get md "model" = None
    | None => dict_get md "model" = None
    end /\
    (forall l o, heap st !! l = Some o -> heap st' !! l = Some o) /\
    chat_traces st' = chat_traces st /\ model_names st' = model_names st /\
    backend st' = backend st.
Proof.
  intros Hb Hm n h a c sid.
  destruct (extract_metadata_run st b d Hb Hm)
    as (st' & md & Hrun & Hmd & Hold & Hchat & Hcopied & Hmodel).
  derive same_registries Hrun. destruct Hr as [Ht Hr].
  derive quiet Hrun. destruct Hr0 as (Hback & _ & _).
  exists st', md. repeat split; try done.
  intros l o Hl. rewrite Hold; [done | by eapply lookup_lt_Some].
Qed.

End ExtractMetadata.

Lemma extract_metadata_builds_witness :
  exists st' md,
    @Defensive.extract_metadata calm (VRef 0) (init bare_body true)
      = (Ok (VRef 2), st') /\
    heap st' !! 2 = Some (ODict md) /\
    dict_get md "chat_id" = Some (VStr "temporary-session-s1") /\
    dict_get md "user_id" = Some (VStr "u1") /\
    dict_get md "type" = None.
Proof.
  destruct (@extract_metadata_builds calm (init bare_body true) 0
              [("chat_id", VStr "local"); ("session_id", VStr "s1");
               ("user_id", VStr "u1"); ("model", VStr "gpt-4");
               ("messages", VRef 1)] eq_refl eq_refl)
    as (st' & md & Hrun & Hmd & Hchat & Hcopied & _).
  exists st', md. split; [exact Hrun |]. split; [exact Hmd |].
  split; [exact Hchat |]. split.
  - apply (Hcopied "user_id"). by left.
  - apply (Hcopied "type"). simpl. tauto.
Defined.

(** * The model registry *)

Lemma hash_key_inv v k st st' :
  hash_key v st = (Ok k, st') -> to_key v = Some k /\ st' = st.
Proof.
  unfold hash_key. destruct (to_key v); [| done]. by intros [= -> ->].
Qed.

(** [metadata.get("model", {})["name"]] when the model entry is a dict with
    a name. *)
Definition model_info_name (h : list obj) (md : dict) : option val :=
  match dict_get md "model" with
  | Some mi =>
      match as_dict h mi with
      | Some d => dict_get d "name"
      | None => None
      end
  | None => None
  end.

(** A request whose metadata names no model, for a conversation that has a
    named model on record: [{"model": "gpt-4o", "messages": [],
    "metadata": {"chat_id": "c1"}}] at location 0. *)
Definition second_request : list obj :=
  [ ODict [("model", VStr "gpt-4o"); ("messages", VRef 1); ("metadata", VRef 2)];
    OList [];
    ODict [("chat_id", VStr "c1")] ].

Definition named_record : gmap key dict :=
  {[ KStr "c1" := [("id", VStr "gpt-4"); ("name", VStr "GPT-4")] ]}.

Section Registry.

Context {E : env}.

(** What a run of lines 121-130 that ends normally has done. *)
Lemma strict_store_model_inv body metadata chat_id st k st' :
  Strict.store_model body metadata chat_id st = (Ok k, st') ->
  exists d md r,
    as_dict (heap st) body = Some d /\
    as_dict (heap st) metadata = Some md /\
    to_key chat_id = Some k /\
    model_names st' !! k = Some r /\
    dict_get r "id" = Some (default VNone (dict_get d "model")) /\
    dict_get r "name" =
      match model_info_name (heap st) md with
      | Some name => Some name
      | None => model_names st !! k ≫= (fun r0 => dict_get r0 "name")
      end /\
    (forall dflt,
        registry_field k "id" dflt st'
        = (Ok (default VNone (dict_get d "model")), st')) /\
    (forall k', k' <> k -> model_names st' !! k' = model_names st !! k') /\
    heap st' = heap st /\ chat_traces st' = chat_traces st /\
    backend st' = backend st.
Proof.
  intros H. unfold Strict.store_model in H.
  apply bind_ok in H as (mi & s & Hs1 & H).
  apply attr_get_inv in Hs1 as (md & Hmd & -> & ->).
  apply bind_ok in H as (model_id & s & Hs2 & H).
  apply get_or_inv in Hs2 as (d & Hd & -> & ->).
  apply bind_ok in H as (k0 & s & Hs3 & H).
  apply hash_key_inv in Hs3 as (Hk & ->).
  apply bind_ok in H as (r0 & s & Hs4 & H).
  unfold registry_get in Hs4. injection Hs4 as <- <-.
  apply bind_ok in H as ([] & s1 & Hs5 & H).
  set (id := default VNone (dict_get d "model")) in *.
  assert (Hs1 : exists r1,
            s1 = set_model_names (<[k0 := r1]> (model_names st)) st /\
            dict_get r1 "id" = Some id /\
            dict_get r1 "name"
            = model_names st !! k0 ≫= (fun r0 => dict_get r0 "name")).
  { destruct (model_names st !! k0) as [r0 |];
      unfold registry_set in Hs5; injection Hs5 as <-; eexists;
      (split; [reflexivity |]); simpl.
    - by rewrite dict_get_set_eq, dict_get_set_ne.
    - done. }
  destruct Hs1 as (r1 & -> & Hid1 & Hname1).
  apply bind_ok in H as (h & s & Hs6 & H).
  unfold get_heap in Hs6. injection Hs6 as <- <-. simpl in H.
  fold (model_info_name (heap st) md) in H.
  exists d, md.
  destruct (model_info_name (heap st) md) as [name |].
  - apply bind_ok in H as (r2 & s & Hs7 & H).
    unfold registry_get in Hs7. injection Hs7 as <- <-. simpl in H.
    rewrite lookup_insert_eq in H.
    apply bind_ok in H as ([] & s2 & Hs8 & H).
    unfold registry_set in Hs8. injection Hs8 as <-.
    apply bind_ok in H as ([] & s3 & Hs9 & H).
    rewrite log_run in Hs9. injection Hs9 as <-. injection H as <- <-.
    exists (dict_set r1 "name" name).
    rewrite heap_logged, chat_traces_logged, backend_logged,
      model_names_logged. simpl.
    assert (Hlook : <[k0 := dict_set r1 "name" name]>
                      (<[k0 := r1]> (model_names st)) !! k0
                    = Some (dict_set r1 "name" name))
      by apply lookup_insert_eq.
    repeat split; try done.
    + by rewrite dict_get_set_ne.
    + apply dict_get_set_eq.
    + intros dflt. unfold registry_field, bind, registry_get.
      rewrite model_names_logged. simpl. rewrite Hlook. simpl.
      by rewrite dict_get_set_ne, Hid1.
    + intros k' Hk'. by rewrite !lookup_insert_ne.
  - injection H as <- <-. exists r1. simpl.
    assert (Hlook : <[k0 := r1]> (model_names st) !! k0 = Some r1)
      by apply lookup_insert_eq.
    repeat split; try done.
    + intros dflt. unfold registry_field, bind, registry_get. simpl.
      rewrite Hlook. simpl. by rewrite Hid1.
    + intros k' Hk'. by rewrite lookup_insert_ne.
Qed.

(** X7.  Lines 121-130 of the strict inlet, when they do not raise: the
    conversation's record holds [body.get("model")] as its id, so that a
    later lookup of the id finds it whatever default is given; its name is
    the name in the metadata's model entry when there is one, and the name
    the record had before otherwise (none for a new record): a request
    without a model name keeps the name of an earlier one.  The records of
    other conversations, the store, the trace store and the backend are
    left as they are. *)
Theorem strict_store_model_records body metadata chat_id st k st' :
  Strict.store_model body metadata chat_id st = (Ok k, st') ->
  exists d md r,
    as_dict (heap st) body = Some d /\
    as_dict (heap st) metadata = Some md /\
    to_key chat_id = Some k /\
    model_names st' !! k = Some r /\
    dict_get r "id" = Some (default VNone (dict_get d "model")) /\
    dict_get r "name" =
      match model_info_name (heap st) md with
      | Some name => Some name
      | None => model_names st !! k ≫= (fun r0 => dict_get r0 "name")
      end /\
    (forall dflt,
        registry_field k "id" dflt st'
        = (Ok (default VNone (dict_get d "model")), st')) /\
    (forall k', k' <> k -> model_names st' !! k' = model_names st !! k') /\
    heap st' = heap st /\ chat_traces st' = chat_traces st /\
    backend st' = backend st.
Proof. apply strict_store_model_inv. Qed.

End Registry.

Lemma strict_store_model_records_witness :
  let st := set_model_names named_record (init second_request true) in
  exists st' r,
    @Strict.store_model calm (VRef 0) (VRef 2) (VStr "c1") st
      = (Ok (KStr "c1"), st') /\
    model_names st' !! KStr "c1" = Some r /\
    dict_get r "id" = Some (VStr "gpt-4o") /\
    dict_get r "name" = Some (VStr "GPT-4").
Proof.
  intros st.
  destruct (@strict_store_model_records calm (VRef 0) (VRef 2) (VStr "c1")
              st (KStr "c1")
              (@Strict.store_model calm (VRef 0) (VRef 2) (VStr "c1") st).2)
    as (d & md & r & Hd & Hmd & _ & Hr & Hid & Hname & _);
    [vm_compute; reflexivity |].
  vm_compute in Hd. injection Hd as <-.
  vm_compute in Hmd. injection Hmd as <-.
  eexists _, r. split; [vm_compute; reflexivity |].
  split; [exact Hr |]. split; [exact Hid |]. exact Hname.
Defined.

Section DefensiveRegistry.

Context {E : env}.

(** What a run of lines 172-193 that ends normally has done. *)
Lemma defensive_store_model_inv body metadata chat_id st k id name st' :
  Defensive.store_model body metadata chat_id st = (Ok (k, id, name), st') ->
  exists d md r,
    as_dict (heap st) body = Some d /\
    as_dict (heap st) metadata = Some md /\
    to_key chat_id = Some k /\
    model_names st' !! k = Some r /\
    dict_get r "id" = Some id /\
    dict_get r "name" = Some name /\
    (let model := default VNone (dict_get d "model") in
     match as_dict (heap st) model with
     | Some dm =>
         id = default (VStr "unknown") (dict_get dm "id") /\
         name = default (VStr "unknown") (dict_get dm "name")
     | None =>
         if is_str model
         then id = model /\
              name = default (VStr "unknown") (model_info_name (heap st) md)
         else id = VStr "unknown" /\ name = VStr "unknown"
     end) /\
    (forall dflt,
        registry_field k "id" dflt st' = (Ok id, st') /\
        registry_field k "name" dflt st' = (Ok name, st')) /\
    (forall k', k' <> k -> model_names st' !! k' = model_names st !! k') /\
    heap st' = heap st /\ chat_traces st' = chat_traces st /\
    backend st' = backend st.
Proof.
  intros H. unfold Defensive.store_model in H.
  apply bind_ok in H as (mi & s & Ha & H).
  apply attr_get_inv in Ha as (md & Hmd & -> & ->).
  apply bind_ok in H as (model & s & Hb & H).
  apply get_or_inv in Hb as (d & Hd & -> & ->).
  apply bind_ok in H as (h & s & Hc & H).
  unfold get_heap in Hc. injection Hc as <- <-.
  apply bind_ok in H as ([id0 name0] & s & Him & H). simpl in H.
  set (model := default VNone (dict_get d "model")) in *.
  assert (Hcases : s = st /\
            match as_dict (heap st) model with
            | Some dm =>
                id0 = default (VStr "unknown") (dict_get dm "id") /\
                name0 = default (VStr "unknown") (dict_get dm "name")
            | None =>
                if is_str model
                then id0 = model /\
                     name0 = default (VStr "unknown")
                               (model_info_name (heap st) md)
                else id0 = VStr "unknown" /\ name0 = VStr "unknown"
            end).
  { unfold is_dict in Him.
    destruct (as_dict (heap st) model) as [dm |] eqn:Hdm.
    - apply bind_ok in Him as (x & s0 & Hx & Him).
      apply get_or_inv in Hx as (dm1 & Hdm1 & -> & ->).
      apply bind_ok in Him as (y & s0 & Hy & Him).
      apply get_or_inv in Hy as (dm2 & Hdm2 & -> & ->).
      injection Him as <- <- <-.
      rewrite Hdm in Hdm1, Hdm2. injection Hdm1 as <-. injection Hdm2 as <-.
      done.
    - destruct (is_str model).
      + injection Him as <- <- <-. split; [done |]. split; [done |].
        unfold model_info_name. destruct (dict_get md "model") as [v |];
          [| done]. by destruct (as_dict (heap st) v).
      + by injection Him as <- <- <-. }
  destruct Hcases as (-> & Hcases).
  apply bind_ok in H as (k0 & s & Hh & H).
  apply hash_key_inv in Hh as (Hk & ->).
  apply bind_ok in H as (r0 & s & Hg & H).
  unfold registry_get in Hg. injection Hg as <- <-.
  apply bind_ok in H as ([] & s1 & Hset & H).
  assert (Hs1 : exists r1,
            s1 = set_model_names (<[k0 := r1]> (model_names st)) st /\
            dict_get r1 "id" = Some id0 /\ dict_get r1 "name" = Some name0).
  { destruct (model_names st !! k0) as [r0 |];
      unfold registry_set in Hset; injection Hset as <-; eexists;
      (split; [reflexivity |]).
    - by rewrite dict_get_set_ne, !dict_get_set_eq.
    - done. }
  destruct Hs1 as (r1 & -> & Hid1 & Hname1).
  apply bind_ok in H as ([] & s2 & Hlog & H).
  rewrite log_run in Hlog. injection Hlog as <-.
  injection H as <- <- <- <-.
  exists d, md, r1.
  rewrite heap_logged, chat_traces_logged, backend_logged, model_names_logged.
  simpl.
  assert (Hlook : <[k0 := r1]> (model_names st) !! k0 = Some r1)
    by apply lookup_insert_eq.
  repeat split; try done.
  - unfold registry_field, bind, registry_get.
    rewrite model_names_logged. simpl. rewrite Hlook. simpl.
    by rewrite Hid1.
  - unfold registry_field, bind, registry_get.
    rewrite model_names_logged. simpl. rewrite Hlook. simpl.
    by rewrite Hname1.
  - intros k' Hk'. by rewrite lookup_insert_ne.
Qed.

(** X8.  Lines 172-193 of the defensive inlet, when they do not raise: the
    conversation's record holds the id and the name the block returns, so
    that later lookups find them whatever default is given.  They are the
    "id" and "name" entries of the body's model when that is a dict; the
    model itself and the name in the metadata's model entry when the model
    is a string; "unknown" wherever nothing is found.  The name on record is
    always replaced: a request without a model name turns the name of an
    earlier one into "unknown".  The records of other conversations, the
    store, the trace store and the backend are left as they are. *)
Theorem defensive_store_model_records body metadata chat_id st k id name st' :
  Defensive.store_model body metadata chat_id st = (Ok (k, id, name), st') ->
  exists d md r,
    as_dict (heap st) body = Some d /\
    as_dict (heap st) metadata = Some md /\
    to_key chat_id = Some k /\
    model_names st' !! k = Some r /\
    dict_get r "id" = Some id /\
    dict_get r "name" = Some name /\
    (let model := default VNone (dict_get d "model") in
     match as_dict (heap st) model with
     | Some dm =>
         id = default (VStr "unknown") (dict_get dm "id") /\
         name = default (VStr "unknown") (dict_get dm "name")
     | None =>
         if is_str model
         then id = model /\
              name = default (VStr "unknown") (model_info_name (heap st) md)
         else id = VStr "unknown" /\ name = VStr "unknown"
     end) /\
    (forall dflt,
        registry_field k "id" dflt st' = (Ok id, st') /\
        registry_field k "name" dflt st' = (Ok name, st')) /\
    (forall k', k' <> k -> model_names st' !! k' = model_names st !! k') /\
    heap st' = heap st /\ chat_traces st' = chat_traces st /\
    backend st' = backend st.
Proof. apply defensive_store_model_inv. Qed.

End DefensiveRegistry.

Lemma defensive_store_model_records_witness :
  let st := set_model_names named_record (init second_request true) in
  exists st' r,
    @Defensive.store_model calm (VRef 0) (VRef 2) (VStr "c1") st
      = (Ok (KStr "c1", VStr "gpt-4o", VStr "unknown"), st') /\
    model_names st' !! KStr "c1" = Some r /\
    dict_get r "id" = Some (VStr "gpt-4o") /\
    dict_get r "name" = Some (VStr "unknown").
Proof.
  intros st.
  destruct (@defensive_store_model_records calm (VRef 0) (VRef 2) (VStr "c1")
              st (KStr "c1") (VStr "gpt-4o") (VStr "unknown")
              (@Defensive.store_model calm (VRef 0) (VRef 2) (VStr "c1") st).2)
    as (d & md & r & _ & _ & _ & Hr & Hid & Hname & _);
    [vm_compute; reflexivity |].
  eexists _, r. split; [vm_compute; reflexivity |]. by repeat split.
Defined.

(** * The rest of the store *)

(** Code that gets the metadata object, the body's own or a new one, and
    goes on with it: when the object at [l] is not the body's metadata, it
    is left alone if the code leaves alone what it does not go on with, and
    it is not the object that the code goes on with. *)
Lemma after_metadata_unchanged {A} l o (mo : option val) (f : val -> M A)
    st r st' :
  heap st !! l = Some o ->
  mo <> Some (VRef l) ->
  (forall v, v <> VRef l -> preserves (unchanged l) (f v)) ->
  bind (match mo with
        | Some v => ret v
        | None => alloc (ODict [])
        end) f st = (r, st') ->
  heap st' !! l = Some o.
Proof.
  intros Hl Hmo Hf H. destruct mo as [v |].
  - rewrite ret_run in H. assert (Hv : v <> VRef l) by congruence.
    by eapply (Hf v Hv).
  - rewrite (bind_step _ _ _ _ _ (alloc_run _ _)) in H.
    assert (Hn : VRef (length (heap st)) <> VRef l).
    { apply lookup_lt_Some in Hl. intros [= Heq]. lia. }
    eapply (Hf _ Hn); [exact H |]. simpl. by apply lookup_app_l_Some.
Qed.

Lemma after_metadata_returns {A} (proj : A -> val) l o (mo : option val)
    (f : val -> M A) st a st' :
  heap st !! l = Some o ->
  mo <> Some (VRef l) ->
  (forall v, returns (fun a => proj a = v) (f v)) ->
  bind (match mo with
        | Some v => ret v
        | None => alloc (ODict [])
        end) f st = (Ok a, st') ->
  proj a <> VRef l.
Proof.
  intros Hl Hmo Hret H. destruct mo as [v |].
  - rewrite ret_run in H. rewrite (Hret v _ _ _ H). congruence.
  - rewrite (bind_step _ _ _ _ _ (alloc_run _ _)) in H.
    rewrite (Hret _ _ _ _ H).
    apply lookup_lt_Some in Hl. intros [= Heq]. lia.
Qed.

Section Frame.

Context {E : env}.

Lemma strict_resolve_unchanged b d l o st r st1 :
  heap st !! b = Some (ODict d) ->
  l <> b ->
  dict_get d "metadata" <> Some (VRef l) ->
  heap st !! l = Some o ->
  Strict.resolve (VRef b) st = (r, st1) ->
  heap st1 !! l = Some o /\ forall mc, r = Ok mc -> mc.1 <> VRef l.
Proof.
  intros Hb Hlb Hm Hl H. unfold Strict.resolve in H.
  rewrite (bind_step _ _ _ _ _
             (attr_get_run _ _ _ _ (as_dict_lookup _ _ _ Hb))) in H.
  split.
  - eapply after_metadata_unchanged; [exact Hl | exact Hm | | exact H].
    intros v Hv. cbv beta. pres.
  - intros mc ->.
    eapply (after_metadata_returns fst); [exact Hl | exact Hm | | exact H].
    intros v. cbv beta. by repeat returns_step.
Qed.

Lemma strict_inlet_unchanged b d l o user st r st' :
  heap st !! b = Some (ODict d) ->
  l <> b ->
  dict_get d "metadata" <> Some (VRef l) ->
  heap st !! l = Some o ->
  Strict.inlet (VRef b) user st = (r, st') ->
  heap st' !! l = Some o.
Proof.
  intros Hb Hlb Hm Hl H. unfold Strict.inlet in H.
  do 2 rewrite (bind_step _ _ _ _ _ (log_run _ _)) in H.
  apply bind_run in H as [(mc & s1 & Hres & H) | (e & Hres & _)].
  - eapply strict_resolve_unchanged in Hres as (Hl1 & Hmc);
      [| by rewrite !heap_logged | done | done | by rewrite !heap_logged].
    specialize (Hmc mc eq_refl). destruct mc as [m c]. simpl in *.
    derive (unchanged l) H. by apply Hr.
  - eapply strict_resolve_unchanged in Hres as (Hl1 & _);
      [done | by rewrite !heap_logged | done | done | by rewrite !heap_logged].
Qed.

Lemma strict_outlet_unchanged b d l o user st r st' :
  heap st !! b = Some (ODict d) ->
  l <> b ->
  dict_get d "metadata" <> Some (VRef l) ->
  heap st !! l = Some o ->
  Strict.outlet (VRef b) user st = (r, st') ->
  heap st' !! l = Some o.
Proof.
  intros Hb Hlb Hm Hl H. unfold Strict.outlet in H.
  apply bind_run in H as [(res & s1 & Hres & H) | (e & Hres & _)].
  - assert (Hb1 : heap s1 !! b = Some (ODict d)).
    { derive (fixed b d) Hres. by apply Hr. }
    assert (Hres1 : heap s1 !! l = Some o /\ res.1.2 <> VRef l).
    { unfold Strict.outlet_resolve in Hres.
      do 2 rewrite (bind_step _ _ _ _ _ (log_run _ _)) in Hres.
      apply bind_ok in Hres as (c0 & s & Hc0 & Hres).
      derive same_heap Hc0.
      apply bind_ok in Hres as (c & s0 & Hc & Hres).
      derive same_heap Hc. unfold same_heap in *.
      assert (Hb0 : heap s0 !! b = Some (ODict d))
        by (by rewrite Hr0, Hr, !heap_logged).
      rewrite (bind_step _ _ _ _ _
                 (attr_get_run _ _ _ _ (as_dict_lookup _ _ _ Hb0))) in Hres.
      assert (Hl0 : heap s0 !! l = Some o)
        by (by rewrite Hr0, Hr, !heap_logged).
      split.
      - eapply after_metadata_unchanged; [exact Hl0 | exact Hm | | exact Hres].
        intros v Hv. cbv beta. pres.
      - eapply (after_metadata_returns (fun x : val * val * val => x.1.2));
          [exact Hl0 | exact Hm | | exact Hres].
        intros v. cbv beta. by repeat returns_step. }
    destruct Hres1 as (Hl1 & Hmeta).
    destruct res as [[chat_id metadata] task_name]. simpl in *.
    apply bind_run in H as [(k & s2 & Hk & H) | (e & Hk & _)].
    + apply hash_key_inv in Hk as (_ & ->).
      rewrite (bind_step _ _ _ _ _
                 (eq_refl : traces_get k s1
                            = (Ok (chat_traces s1 !! k), s1))) in H.
      destruct (chat_traces s1 !! k) as [trace |].
      * derive (unchanged l) H. by apply Hr.
      * rewrite (bind_step _ _ _ _ _ (log_run _ _)) in H.
        eapply strict_inlet_unchanged; [| done | done | | exact H];
          by rewrite heap_logged.
    + derive same_heap Hk. unfold same_heap in Hr. by rewrite Hr.
  - derive (unchanged l) Hres. by apply Hr.
Qed.

Lemma defensive_extract_metadata_unchanged b d l o st r st1 :
  heap st !! b = Some (ODict d) ->
  dict_get d "metadata" <> Some (VRef l) ->
  heap st !! l = Some o ->
  Defensive.extract_metadata (VRef b) st = (r, st1) ->
  heap st1 !! l = Some o /\ forall m, r = Ok m -> m <> VRef l.
Proof.
  intros Hb Hm Hl H. unfold Defensive.extract_metadata in H.
  rewrite (bind_step _ _ _ _ _ (contains_run _ _ _ _ Hb)) in H.
  unfold dict_has in H. destruct (dict_get d "metadata") as [v |] eqn:Hv.
  - rewrite (getitem_run _ _ _ _ _ Hb Hv) in H. injection H as <- <-.
    split; [done |]. intros m [= <-]. congruence.
  - rewrite (bind_step _ _ _ _ _ (alloc_run _ _)) in H.
    assert (Hn : length (heap st) <> l)
      by (apply lookup_lt_Some in Hl; lia).
    split.
    + derive (unchanged l) H. apply Hr. simpl. by apply lookup_app_l_Some.
    + intros m ->.
      match type of H with
      | ?t _ = _ => assert (Hy : yields (VRef (length (heap st))) t)
          by (unfold_defensive; repeat yields_step)
      end.
      rewrite (Hy _ _ _ H). congruence.
Qed.

Lemma defensive_inlet_unchanged b d l o user st r st' :
  heap st !! b = Some (ODict d) ->
  l <> b ->
  dict_get d "metadata" <> Some (VRef l) ->
  heap st !! l = Some o ->
  Defensive.inlet (VRef b) user st = (r, st') ->
  heap st' !! l = Some o.
Proof.
  intros Hb Hlb Hm Hl H. unfold Defensive.inlet in H.
  change (when (debug cfg) (print "[DEBUG] Received request"))
    with (log "[DEBUG] Received request") in H.
  rewrite (bind_step _ _ _ _ _ (log_run _ _)) in H.
  rewrite (bind_step _ _ _ _ _ (keys_of_run (VRef b) _
             ltac:(unfold is_dict;
                   by rewrite heap_logged, (as_dict_lookup _ _ _ Hb)))) in H.
  rewrite (bind_step _ _ _ _ _ (log_run _ _)) in H.
  apply bind_run in H as [(m & s1 & Hex & H) | (e & Hex & _)].
  - eapply defensive_extract_metadata_unchanged in Hex as (Hl1 & Hne);
      [| by rewrite !heap_logged | done | by rewrite !heap_logged].
    specialize (Hne m eq_refl).
    derive (unchanged l) H. by apply Hr.
  - eapply defensive_extract_metadata_unchanged in Hex as (Hl1 & _);
      [done | by rewrite !heap_logged | done | by rewrite !heap_logged].
Qed.

Lemma defensive_outlet_unchanged b d l o user st r st' :
  heap st !! b = Some (ODict d) ->
  l <> b ->
  dict_get d "metadata" <> Some (VRef l) ->
  heap st !! l = Some o ->
  Defensive.outlet (VRef b) user st = (r, st') ->
  heap st' !! l = Some o.
Proof.
  intros Hb Hlb Hm Hl H.
  assert (Hd : is_dict (heap st) (VRef b) = true)
    by (unfold is_dict; by rewrite (as_dict_lookup _ _ _ Hb)).
  destruct (defensive_outlet_run (VRef b) user st Hd)
    as (r1 & st1 & st2 & Htry & Hf & Hrun).
  rewrite Hrun in H. injection H as <- <-.
  destruct (flush_run (match r1 with
                       | Ok _ => st1
                       | Raise _ => logged "Error in outlet" st1
                       end)) as (st3 & Hf3 & _ & _ & Hheap & _).
  rewrite Hf in Hf3. injection Hf3 as <-. rewrite Hheap.
  assert (Hl1 : heap st1 !! l = Some o);
    [| destruct r1; [done | by rewrite heap_logged]].
  unfold Defensive.outlet_try in Htry.
  apply bind_run in Htry as [(c & s0 & Hc & Htry) | (e & Hc & _)].
  - derive same_heap Hc. unfold same_heap in Hr.
    rewrite heap_logged in Hr.
    unfold Defensive.outlet_rest in Htry.
    rewrite (bind_step _ _ _ _ _ (get_heap_run _)) in Htry.
    destruct (negb (truthy (heap s0) c)).
    + derive same_heap Htry. unfold same_heap in Hr0. by rewrite Hr0, Hr.
    + assert (Hb0 : heap s0 !! b = Some (ODict d)) by (by rewrite Hr).
      rewrite (bind_step _ _ _ _ _
                 (attr_get_run _ _ _ _ (as_dict_lookup _ _ _ Hb0))) in Htry.
      eapply after_metadata_unchanged;
        [by rewrite Hr | exact Hm | | exact Htry].
      intros v Hv. cbv beta. unfold_defensive. pres.
  - derive same_heap Hc. unfold same_heap in Hr.
    rewrite heap_logged in Hr. by rewrite Hr.
Qed.

End Frame.

(** X9.  On a dict body, no handler of either variant changes any object of
    the store other than the body and the body's metadata object, however
    the call ends: the message list, the messages, their usage records and
    every other object are what they were.  What the handlers add to the
    store is new objects. *)
Theorem handlers_leave_other_objects {E : env}
    (handler : val -> val -> M val) b d l o user st r st' :
  In handler [Strict.inlet; Strict.outlet; Defensive.inlet; Defensive.outlet] ->
  heap st !! b = Some (ODict d) ->
  l <> b ->
  dict_get d "metadata" <> Some (VRef l) ->
  heap st !! l = Some o ->
  handler (VRef b) user st = (r, st') ->
  heap st' !! l = Some o.
Proof.
  intros Hin Hb Hlb Hm Hl Hrun. simpl in Hin.
  destruct Hin as [<- | [<- | [<- | [<- | []]]]].
  - by eapply strict_inlet_unchanged.
  - by eapply strict_outlet_unchanged.
  - by eapply defensive_inlet_unchanged.
  - by eapply defensive_outlet_unchanged.
Qed.

Lemma handlers_leave_other_objects_witness :
  let st := (@Defensive.inlet calm (VRef 0) VNone (init title_turn true)).2 in
  heap (@Defensive.outlet calm (VRef 0) VNone st).2 !! 3
  = Some (ODict [("role", VStr "assistant"); ("content", VStr "hello");
                 ("usage", VRef 4)]).
Proof.
  intros st.
  apply (@handlers_leave_other_objects calm (@Defensive.outlet calm) 0
           [("chat_id", VStr "c1"); ("messages", VRef 1);
            ("metadata", VRef 5)] 3 _ VNone st
           (@Defensive.outlet calm (VRef 0) VNone st).1).
  - do 3 right. by left.
  - vm_compute. reflexivity.
  - done.
  - done.
  - vm_compute. reflexivity.
  - by destruct (@Defensive.outlet calm (VRef 0) VNone st).
Defined.

(** * [Pipeline.log] with its [suppress_repeats] flag *)

(** The handlers call [log] with a message alone; the method itself also
    takes [suppress_repeats] and keeps the set [self.suppressed_logs]. *)
Module Logger.

Record logger := {
  (** printed lines, oldest first *)
  printed : list string;
  (** [self.suppressed_logs] *)
  suppressed_logs : gset string;
}.

(** The logger of a fresh [Pipeline()]. *)
Definition fresh : logger := {| printed := []; suppressed_logs := ∅ |}.

(** [Pipeline.log] (lines 57-63 of the strict file, 62-68 of the defensive
    one); [debug] is [self.valves.debug] and [prefix] is
    "[DEBUG][Langfuse Pipeline] " in the first and "[DEBUG] " in the
    second. *)
Definition log (debug : bool) (prefix message : string)
    (suppress_repeats : bool) (lg : logger) : logger :=
  if debug then
    if suppress_repeats then
      if bool_decide (message ∈ suppressed_logs lg) then lg
      else {| printed := printed lg ++ [prefix +:+ message];
              suppressed_logs := {[ message ]} ∪ suppressed_logs lg |}
    else {| printed := printed lg ++ [prefix +:+ message];
            suppressed_logs := suppressed_logs lg |}
  else lg.

(** A run of calls, each a message with its flag. *)
Definition logs (debug : bool) (prefix : string)
    (calls : list (string * bool)) (lg : logger) : logger :=
  foldl (fun lg c => log debug prefix c.1 c.2 lg) lg calls.

End Logger.

Lemma logger_suppressed_run prefix ms lg :
  NoDup (Logger.printed lg) ->
  (forall m, prefix +:+ m ∈ Logger.printed lg -> m ∈ Logger.suppressed_logs lg) ->
  let lg' := Logger.logs true prefix (map (fun m => (m, true)) ms) lg in
  NoDup (Logger.printed lg') /\
  (forall m, m ∈ Logger.suppressed_logs lg' <->
             m ∈ ms \/ m ∈ Logger.suppressed_logs lg) /\
  (forall line, line ∈ Logger.printed lg' <->
     line ∈ Logger.printed lg \/
     exists m, line = prefix +:+ m /\ m ∈ ms /\
               m ∉ Logger.suppressed_logs lg).
Proof.
  revert lg. induction ms as [| m ms IH]; intros lg Hnd Hin; simpl.
  - split; [done |]. split.
    + intros m. rewrite elem_of_nil. tauto.
    + intros line. split; [by left |].
      intros [H | (m & _ & H' & _)]; [done | by apply elem_of_nil in H'].
  - destruct (bool_decide (m ∈ Logger.suppressed_logs lg)) eqn:Hm.
    + apply bool_decide_eq_true in Hm.
      destruct (IH lg Hnd Hin) as (H1 & H3 & H4).
      split; [done |]. split.
      * intros m'. rewrite H3, elem_of_cons.
        split; [tauto | intros [[-> | H] | H]; tauto].
      * intros line. rewrite H4. split.
        -- intros [H | (m' & -> & Hm' & Hn)]; [by left |].
           right. exists m'. rewrite elem_of_cons. tauto.
        -- intros [H | (m' & -> & Hm' & Hn)]; [by left |].
           right. exists m'. split; [done |]. split; [| done].
           apply elem_of_cons in Hm' as [-> | Hm']; done.
    + apply bool_decide_eq_false in Hm.
      set (lg1 := {| Logger.printed := Logger.printed lg ++ [prefix +:+ m];
                     Logger.suppressed_logs :=
                       {[ m ]} ∪ Logger.suppressed_logs lg |}).
      destruct (IH lg1) as (H1 & H3 & H4).
      * simpl. apply list.NoDup_app. split; [done |]. split.
        -- intros x Hx Hx'. apply list_elem_of_singleton in Hx' as ->.
           by apply Hm, Hin.
        -- apply NoDup_singleton.
      * simpl. intros m' Hm'. rewrite elem_of_union, elem_of_singleton.
        apply elem_of_app in Hm' as [Hm' | Hm'].
        -- right. by apply Hin.
        -- left. apply list_elem_of_singleton in Hm'.
           by apply (inj (String.app prefix)) in Hm'.
      * split; [done |]. split.
        -- intros m'. rewrite H3. simpl.
           rewrite elem_of_union, elem_of_singleton, elem_of_cons. tauto.
        -- intros line. rewrite H4. simpl. rewrite elem_of_app.
           rewrite list_elem_of_singleton. split.
           ++ intros [[H | ->] | (m' & -> & Hm' & Hn)].
              ** by left.
              ** right. exists m. split; [done |].
                 split; [apply list_elem_of_here | done].
              ** right. exists m'. split; [done |].
                 rewrite elem_of_union, elem_of_singleton in Hn.
                 split; [by apply list_elem_of_further | tauto].
           ++ intros [H | (m' & -> & Hm' & Hn)]; [by left; left |].
              destruct (decide (m' = m)) as [-> | Hne]; [by left; right |].
              right. exists m'. split; [done |].
              apply elem_of_cons in Hm' as [-> | Hm']; [done |].
              split; [done |].
              rewrite elem_of_union, elem_of_singleton. tauto.
Qed.

(** X10.  [Pipeline.log] with [suppress_repeats=True], debug on, from a
    fresh pipeline: whatever sequence of messages is logged, each distinct
    message is printed exactly once, so the output has no repeated line and
    [suppressed_logs] is the set of the messages.  With debug off nothing
    is printed and nothing is recorded, whatever the flags, so that a
    message logged while debug was off is still printed once debug is
    on. *)
Theorem log_suppresses_repeats prefix :
  (forall ms,
      let lg := Logger.logs true prefix (map (fun m => (m, true)) ms)
                  Logger.fresh in
      NoDup (Logger.printed lg) /\
      (forall line, line ∈ Logger.printed lg <->
                    exists m, line = prefix +:+ m /\ m ∈ ms) /\
      (forall m, m ∈ Logger.suppressed_logs lg <-> m ∈ ms)) /\
  (forall calls lg, Logger.logs false prefix calls lg = lg).
Proof.
  split.
  - intros ms lg.
    destruct (logger_suppressed_run prefix ms Logger.fresh)
      as (H1 & H3 & H4).
    + apply NoDup_nil_2.
    + intros m Hm. by apply elem_of_nil in Hm.
    + split; [done |]. split.
      * intros line. unfold lg. rewrite H4. simpl. split.
        -- intros [H | (m & -> & Hm & _)]; [by apply elem_of_nil in H |].
           by exists m.
        -- intros (m & -> & Hm). right. exists m.
           split; [done |]. split; [done |]. apply not_elem_of_empty.
      * intros m. unfold lg. rewrite H3. simpl.
        rewrite elem_of_empty. tauto.
  - intros calls. induction calls as [| c calls IH]; intros lg; [done |].
    simpl. apply IH.
Qed.

(** * Start-up, valve updates and shutdown *)

(** What can go wrong when a client is set up: [UnauthorizedError], or any
    other exception. *)
Inductive setup_error :=
| UnauthorizedError
| OtherError.

(** The Langfuse service as seen by [set_langfuse]: whether [Langfuse(...)]
    raises, and whether [auth_check()] does. *)
Record connection := {
  constructs : option setup_error;
  authorizes : option setup_error;
}.

(** The state once [self.langfuse] has been assigned a client. *)
Definition install_client (st : state) : state := set_langfuse true st.

(** Code of the set-up methods: a state transformer that returns or raises a
    set-up error. *)
Definition S (A : Type) : Type := state -> (A + setup_error) * state.

Definition sret {A} (a : A) : S A := fun st => (inl a, st).
Definition sraise {A} (e : setup_error) : S A := fun st => (inr e, st).

Definition sbind {A B} (m : S A) (f : A -> S B) : S B :=
  fun st =>
    match m st with
    | (inl a, st1) => f a st1
    | (inr e, st1) => (inr e, st1)
    end.

Definition stry {A} (m : S A) (h : setup_error -> S A) : S A :=
  fun st =>
    match m st with
    | (inl a, st1) => (inl a, st1)
    | (inr e, st1) => h e st1
    end.

Section SetUp.

Context {E : env}.

Definition slog (s : string) : S unit := fun st => (inl tt, logged s st).

Definition sprint (s : string) : S unit :=
  fun st => (inl tt, set_out (out st ++ [s]) st).

(** [self.langfuse = Langfuse(...)]: assigned when the constructor returns. *)
Definition new_client (c : connection) : S unit :=
  fun st =>
    match constructs c with
    | Some e => (inr e, st)
    | None => (inl tt, install_client st)
    end.

(** [self.langfuse.auth_check()] *)
Definition auth_check (c : connection) : S unit :=
  fun st =>
    match authorizes c with
    | Some e => (inr e, st)
    | None => (inl tt, st)
    end.

End SetUp.

(** [pipelines-1.py], lines 65-94. *)
Module StrictSetUp.
Section Methods.

Context {E : env}.

Definition set_langfuse (c : connection) : S unit :=
  stry
    (sbind (slog "Initializing Langfuse with host") (fun _ =>
     sbind (new_client c) (fun _ =>
     sbind (auth_check c) (fun _ =>
     slog "Langfuse client initialized successfully."))))
    (fun e =>
       match e with
       | UnauthorizedError =>
           sbind (slog "UnauthorizedError: Invalid Langfuse credentials")
             (fun _ => sraise e)
       | OtherError =>
           sbind (slog "Langfuse initialization error") (fun _ => sraise e)
       end).

Definition on_startup (c : connection) : S unit :=
  sbind (slog "on_startup triggered") (fun _ => set_langfuse c).

Definition on_valves_updated (c : connection) : S unit :=
  sbind (slog "Valves updated, resetting Langfuse client.")
    (fun _ => set_langfuse c).

Definition on_shutdown : M unit :=
  log "on_shutdown triggered" ;;
  client <- has_client ;;
  if client then backend_call CFlush ;; ret tt else ret tt.

End Methods.
End StrictSetUp.

(** [pipelines-3.py], lines 70-100. *)
Module DefensiveSetUp.
Section Methods.

Context {E : env}.

Definition set_langfuse (c : connection) : S unit :=
  stry
    (sbind (new_client c) (fun _ =>
     sbind (auth_check c) (fun _ =>
     slog "Langfuse client initialized successfully.")))
    (fun e =>
       match e with
       | UnauthorizedError =>
           sprint "Langfuse credentials incorrect. Please re-enter your Langfuse credentials in the pipeline settings."
       | OtherError =>
           sprint "Langfuse error: Please re-enter your Langfuse credentials in the pipeline settings."
       end).

Definition on_startup (c : connection) : S unit :=
  sbind (slog "on_startup triggered") (fun _ => set_langfuse c).

Definition on_valves_updated (c : connection) : S unit :=
  sbind (slog "Valves updated, resetting Langfuse client.")
    (fun _ => set_langfuse c).

Definition on_shutdown : M unit :=
  log "on_shutdown triggered" ;;
  client <- has_client ;;
  if client then backend_call CFlush ;; ret tt else ret tt.

End Methods.
End DefensiveSetUp.

(** The first failure of a set-up, if any. *)
Definition first_failure (c : connection) : option setup_error :=
  match constructs c with
  | Some e => Some e
  | None => authorizes c
  end.

(** Everything but the client and the printed lines is the same. *)
Definition same_data (st st' : state) : Prop :=
  heap st' = heap st /\ chat_traces st' = chat_traces st /\
  model_names st' = model_names st /\ backend st' = backend st /\
  uuids st' = uuids st.

Section SetUpOutcome.

Context {E : env}.

(** X11.  [set_langfuse], as called by [on_startup] and
    [on_valves_updated], for any behaviour of the Langfuse service.  The
    client is assigned as soon as the constructor returns, before the
    credentials are checked: after the call the pipeline has a client
    exactly when the constructor returned or it had one before, whether or
    not the check passed.  The strict variant raises the first failure, and
    then says so only in the debug log; the defensive variant never raises
    and prints one line on a failure, debug or not.  Neither touches the
    store, the registries or the backend: the traces registered with an
    earlier client stay registered. *)
Theorem set_langfuse_outcome (c : connection) (st : state) :
  (forall hook,
      In hook [StrictSetUp.on_startup; StrictSetUp.on_valves_updated] ->
      exists st',
        hook c st =
          (match first_failure c with Some e => inr e | None => inl tt end,
           st') /\
        langfuse st' =
          (match constructs c with Some _ => langfuse st | None => true end) /\
        same_data st st' /\
        (debug cfg = false -> out st' = out st)) /\
  (forall hook,
      In hook [DefensiveSetUp.on_startup; DefensiveSetUp.on_valves_updated] ->
      exists st',
        hook c st = (inl tt, st') /\
        langfuse st' =
          (match constructs c with Some _ => langfuse st | None => true end) /\
        same_data st st' /\
        (debug cfg = false ->
         match first_failure c with
         | Some _ => exists line, out st' = out st ++ [line]
         | None => out st' = out st
         end)).
Proof.
  split; intros hook Hin; simpl in Hin; destruct Hin as [<- | [<- | []]];
    unfold StrictSetUp.on_startup, StrictSetUp.on_valves_updated,
      StrictSetUp.set_langfuse, DefensiveSetUp.on_startup,
      DefensiveSetUp.on_valves_updated, DefensiveSetUp.set_langfuse,
      sbind, stry, slog, sprint, sraise, new_client, auth_check,
      first_failure, same_data, install_client, logged;
    destruct (constructs c) as [[] |], (authorizes c) as [[] |],
      (debug cfg); simpl;
    eexists; (split; [reflexivity |]); simpl; repeat split; try done;
    intros _; by eexists.
Qed.

Lemma on_shutdown_run st :
  exists r st',
    StrictSetUp.on_shutdown st = (r, st') /\
    heap st' = heap st /\ chat_traces st' = chat_traces st /\
    model_names st' = model_names st /\
    if langfuse st
    then exists ok,
           backend st' = backend st ++ [(CFlush, ok)] /\
           ok = negb (faulty (length (backend st))) /\
           r = if ok then Ok tt else Raise BackendError
    else backend st' = backend st /\ r = Ok tt.
Proof.
  unfold StrictSetUp.on_shutdown.
  rewrite (bind_step _ _ _ _ _ (log_run _ _)).
  set (st0 := logged _ st).
  assert (H0 : heap st0 = heap st /\ chat_traces st0 = chat_traces st /\
               model_names st0 = model_names st /\
               backend st0 = backend st /\ langfuse st0 = langfuse st).
  { unfold st0. by rewrite heap_logged, chat_traces_logged,
      model_names_logged, backend_logged, langfuse_logged. }
  destruct H0 as (Hh & Ht & Hm & Hb & Hl).
  rewrite (bind_step _ _ _ _ _
             (eq_refl : has_client st0 = (Ok (langfuse st0), st0))).
  rewrite Hl. destruct (langfuse st).
  - unfold bind, backend_call. rewrite Hb.
    destruct (faulty (length (backend st))); eexists _, _;
      (split; [reflexivity |]); simpl; rewrite ?Hb;
      repeat split; try done; by eexists.
  - eexists _, _. split; [reflexivity |]. by repeat split.
Qed.

(** X12.  [on_shutdown] (the same in both files): without a client it makes
    no call and returns; with a client it attempts exactly one flush and
    raises exactly when the flush fails: unlike the outlet, it does not
    catch the failure.  It leaves the store and the registries alone. *)
Theorem on_shutdown_flushes (st : state) :
  let hooks := [StrictSetUp.on_shutdown; DefensiveSetUp.on_shutdown] in
  forall hook, In hook hooks ->
  exists r st',
    hook st = (r, st') /\
    heap st' = heap st /\ chat_traces st' = chat_traces st /\
    model_names st' = model_names st /\
    if langfuse st
    then exists ok,
           backend st' = backend st ++ [(CFlush, ok)] /\
           ok = negb (faulty (length (backend st))) /\
           r = if ok then Ok tt else Raise BackendError
    else backend st' = backend st /\ r = Ok tt.
Proof.
  intros hooks hook Hin. simpl in Hin.
  destruct Hin as [<- | [<- | []]]; apply on_shutdown_run.
Qed.

End SetUpOutcome.

Lemma set_langfuse_outcome_witness :
  let c := {| constructs := None; authorizes := Some UnauthorizedError |} in
  (exists st',
      @DefensiveSetUp.on_startup calm c (init [] false) = (inl tt, st') /\
      langfuse st' = true) /\
  (exists st',
      @StrictSetUp.on_startup calm c (init [] false)
        = (inr UnauthorizedError, st') /\
      langfuse st' = true).
Proof.
  intros c.
  destruct (@set_langfuse_outcome calm c (init [] false)) as [Hs Hd]. split.
  - destruct (Hd (@DefensiveSetUp.on_startup calm)) as (st' & Hrun & Hl & _);
      [by left |].
    by exists st'.
  - destruct (Hs (@StrictSetUp.on_startup calm)) as (st' & Hrun & Hl & _);
      [by left |].
    by exists st'.
Defined.

Lemma on_shutdown_flushes_witness :
  exists st',
    @DefensiveSetUp.on_shutdown (fails_at 0) (init [] true)
      = (Raise BackendError, st') /\
    backend st' = [(CFlush, false)].
Proof.
  destruct (@on_shutdown_flushes (fails_at 0) (init [] true)
              (@DefensiveSetUp.on_shutdown (fails_at 0)))
    as (r & st' & Hrun & _ & _ & _ & ok & Hb & -> & ->).
  - right. by left.
  - by exists st'.
Defined.

(** * A pipeline without a client *)

(** From a state with no client and no registered trace, nothing is sent
    and nothing is registered. *)
Definition clientless (st st' : state) : Prop :=
  langfuse st = false -> chat_traces st = ∅ ->
  backend st' = backend st /\ chat_traces st' = ∅ /\ langfuse st' = false.

#[global] Instance clientless_preorder : PreOrder clientless.
Proof.
  split.
  - by intros st Hl Ht.
  - intros x y z H1 H2 Hl Ht. destruct (H1 Hl Ht) as (Hb & Ht1 & Hl1).
    destruct (H2 Hl1 Ht1) as (Hb2 & Ht2 & Hl2). by rewrite Hb2, Hb.
Qed.
#[global] Instance clientless_heap : TolHeap clientless.
Proof. by intros st h Hl Ht. Qed.
#[global] Instance clientless_out : TolOut clientless.
Proof. by intros st s Hl Ht. Qed.
#[global] Instance clientless_uuids : TolUuids clientless.
Proof. by intros st n Hl Ht. Qed.
#[global] Instance clientless_models : TolModels clientless.
Proof. by intros st m Hl Ht. Qed.

Lemma quiet_clientless st st' : quiet st st' -> clientless st st'.
Proof. intros (Hb & Ht & Hl) Hl0 Ht0. by rewrite Ht, Hl. Qed.

Section Clientless.

Context {E : env}.

(** A call on the client raises before anything is sent. *)
Lemma clientless_client_call {A} c (f : handle -> M A) :
  preserves clientless (bind (client_call c) f).
Proof.
  intros st r st' H Hl Ht. unfold bind, client_call in H.
  rewrite Hl in H. by injection H as <- <-.
Qed.

Lemma clientless_lookup {A} k (a : M A) (b : handle -> M A) :
  preserves clientless a ->
  preserves clientless
    (t <- traces_get k ;;
     match t with
     | None => a
     | Some trace => b trace
     end).
Proof.
  intros Ha st r st' H Hl Ht. unfold bind, traces_get in H.
  rewrite Ht, lookup_empty in H. by apply (Ha _ _ _ H).
Qed.

Lemma clientless_flush : preserves clientless Defensive.flush.
Proof.
  intros st r st' H Hl Ht.
  unfold Defensive.flush, try_except, bind, has_client in H.
  rewrite Hl in H. by injection H as <- <-.
Qed.

Ltac clientless_step :=
  first [ apply clientless_client_call
        | apply clientless_lookup
        | apply clientless_flush
        | pres_step ].

Lemma strict_open_or_reuse_clientless body metadata chat_id user_email k
    tags :
  preserves clientless
    (Strict.open_or_reuse body metadata chat_id user_email k tags).
Proof. unfold Strict.open_or_reuse. repeat clientless_step. Qed.

Lemma defensive_open_or_reuse_clientless body metadata chat_id user_email k
    tags :
  preserves clientless
    (Defensive.open_or_reuse body metadata chat_id user_email k tags).
Proof. unfold Defensive.open_or_reuse. repeat clientless_step. Qed.

(** Without a client and without a registered trace, the strict
    get-or-create raises. *)
Lemma strict_open_or_reuse_raises body metadata chat_id user_email k tags
    st t st' :
  langfuse st = false -> chat_traces st = ∅ ->
  Strict.open_or_reuse body metadata chat_id user_email k tags st
    <> (Ok t, st').
Proof.
  intros Hl Ht H. unfold Strict.open_or_reuse in H.
  rewrite (bind_step _ _ _ _ _
             (eq_refl : traces_get k st = (Ok (chat_traces st !! k), st)))
    in H.
  rewrite Ht, lookup_empty in H.
  rewrite (bind_step _ _ _ _ _ (log_run _ _)) in H.
  rewrite (bind_step _ _ _ _ _ (get_heap_run _)) in H.
  cbv zeta in H.
  rewrite (bind_step _ _ _ _ _ (log_run _ _)) in H.
  unfold try_except, bind, client_call in H.
  rewrite !langfuse_logged, Hl in H.
  rewrite log_run in H. discriminate H.
Qed.

(** Without a client and without a registered trace, the defensive
    get-or-create gives up. *)
Lemma defensive_open_or_reuse_gives_up body metadata chat_id user_email k
    tags st t st' :
  langfuse st = false -> chat_traces st = ∅ ->
  Defensive.open_or_reuse body metadata chat_id user_email k tags st
    <> (Ok (Some t), st').
Proof.
  intros Hl Ht H. unfold Defensive.open_or_reuse in H.
  rewrite (bind_step _ _ _ _ _
             (eq_refl : traces_get k st = (Ok (chat_traces st !! k), st)))
    in H.
  rewrite Ht, lookup_empty in H.
  rewrite (bind_step _ _ _ _ _ (log_run _ _)) in H.
  rewrite (bind_step _ _ _ _ _ (get_heap_run _)) in H.
  apply bind_ok in H as (input & s1 & Hin & H).
  apply get_or_inv in Hin as (d & _ & _ & ->).
  apply bind_ok in H as ([] & s2 & Hw & H).
  change (when (debug cfg) (print "[DEBUG] Langfuse trace request"))
    with (log "[DEBUG] Langfuse trace request") in Hw.
  rewrite log_run in Hw. injection Hw as <-.
  unfold try_except, bind, client_call in H.
  rewrite !langfuse_logged, Hl in H.
  rewrite log_run in H. discriminate H.
Qed.

Lemma strict_inlet_rest_clientless body user metadata chat_id :
  preserves clientless (Strict.inlet_rest body user metadata chat_id).
Proof.
  unfold Strict.inlet_rest.
  do 6 (apply preserves_bind; try exact _;
        [solve [unfold_strict; pres] | intros]).
  intros st r st' H.
  apply bind_run in H as [(t & s1 & Hopen & H) | (e & Hopen & _)].
  - intros Hl Ht. by destruct (strict_open_or_reuse_raises _ _ _ _ _ _ _ _ _
                                 Hl Ht Hopen).
  - by eapply strict_open_or_reuse_clientless.
Qed.

Lemma strict_inlet_clientless body user :
  preserves clientless (Strict.inlet body user).
Proof.
  unfold Strict.inlet.
  repeat first [ apply strict_inlet_rest_clientless | pres_step ].
  all: unfold_strict; pres.
Qed.

Lemma strict_outlet_clientless body user :
  preserves clientless (Strict.outlet body user).
Proof.
  unfold Strict.outlet.
  repeat first [ apply clientless_lookup
               | apply strict_inlet_clientless
               | pres_step ].
  all: unfold_strict; pres.
Qed.

Lemma defensive_inlet_clientless body user :
  preserves clientless (Defensive.inlet body user).
Proof.
  unfold Defensive.inlet, Defensive.inlet_rest.
  do 6 (apply preserves_bind; try exact _;
        [solve [unfold_defensive; pres] | intros]).
  apply preserves_bind; try exact _; [solve [unfold_defensive; pres] |].
  intros [[k actual_model_id] model_name].
  do 5 (apply preserves_bind; try exact _;
        [solve [unfold_defensive; pres] | intros]).
  intros st r st' H.
  apply bind_run in H as [(t & s1 & Hopen & H) | (e & Hopen & _)].
  - intros Hl Ht. destruct t as [t |].
    + by destruct (defensive_open_or_reuse_gives_up _ _ _ _ _ _ _ _ _
                     Hl Ht Hopen).
    + injection H as <- <-.
      by apply (defensive_open_or_reuse_clientless _ _ _ _ _ _ _ _ _ Hopen).
  - by eapply defensive_open_or_reuse_clientless.
Qed.

Lemma defensive_outlet_clientless body user :
  preserves clientless (Defensive.outlet body user).
Proof.
  unfold Defensive.outlet, Defensive.outlet_try, Defensive.outlet_rest.
  repeat first [ apply clientless_lookup
               | apply clientless_flush
               | pres_step ].
  all: unfold_defensive; pres.
Qed.

End Clientless.

(** One step of code that sends and registers nothing, taken off the run
    [H]: the facts [Hl] (no client) and [Ht] (no trace) move to the state
    after it. *)
Ltac peel H Hl Ht :=
  let Hs := fresh "Hs" in
  let a := fresh "a" in
  let s := fresh "s" in
  let Hq := fresh "Hq" in
  let Hqt := fresh "Hqt" in
  let Hql := fresh "Hql" in
  apply bind_ok in H as (a & s & Hs & H);
  lazymatch type of Hs with
  | ?m _ = _ =>
      assert (Hq : preserves quiet m)
        by (unfold_strict; unfold_defensive; pres);
      apply Hq in Hs as (_ & Hqt & Hql);
      rewrite <- Hql in Hl; rewrite <- Hqt in Ht; clear Hq Hqt Hql
  end.

Section ClientlessStrict.

Context {E : env}.

Lemma strict_inlet_needs_client body user st v st' :
  langfuse st = false -> chat_traces st = ∅ ->
  Strict.inlet body user st <> (Ok v, st').
Proof.
  intros Hl Ht H. unfold Strict.inlet in H.
  do 3 peel H Hl Ht. unfold Strict.inlet_rest in H.
  do 6 peel H Hl Ht.
  apply bind_ok in H as (t & s' & Hopen & _).
  by destruct (strict_open_or_reuse_raises _ _ _ _ _ _ _ _ _ Hl Ht Hopen).
Qed.

Lemma strict_outlet_needs_client body user st v st' :
  langfuse st = false -> chat_traces st = ∅ ->
  Strict.outlet body user st <> (Ok v, st').
Proof.
  intros Hl Ht H. unfold Strict.outlet in H.
  peel H Hl Ht. destruct a as [[chat_id metadata] task_name].
  peel H Hl Ht.
  rewrite (bind_step _ _ _ _ _
             (eq_refl : traces_get a s0 = (Ok (chat_traces s0 !! a), s0)))
    in H.
  rewrite Ht, lookup_empty in H.
  peel H Hl Ht.
  by destruct (strict_inlet_needs_client _ _ _ _ _ Hl Ht H).
Qed.

End ClientlessStrict.

(** X13.  A pipeline that has no client and no registered trace, as before
    a successful start-up: whatever the body, no handler of either variant
    sends anything to the backend or registers a trace, and the pipeline
    still has no client afterwards.  The strict handlers never return: the
    inlet and the outlet both raise (the outlet runs the inlet, which fails
    at the latest at its open-trace call on [None]). *)
Theorem handlers_without_client {E : env} body user st r st' :
  langfuse st = false ->
  chat_traces st = ∅ ->
  (forall handler,
      In handler [Strict.inlet; Strict.outlet;
                  Defensive.inlet; Defensive.outlet] ->
      handler body user st = (r, st') ->
      backend st' = backend st /\ chat_traces st' = ∅ /\
      langfuse st' = false) /\
  (forall handler,
      In handler [Strict.inlet; Strict.outlet] ->
      handler body user st = (r, st') ->
      exists e, r = Raise e).
Proof.
  intros Hl Ht. split; intros handler Hin Hrun; simpl in Hin.
  - destruct Hin as [<- | [<- | [<- | [<- | []]]]].
    + by eapply strict_inlet_clientless.
    + by eapply strict_outlet_clientless.
    + by eapply defensive_inlet_clientless.
    + by eapply defensive_outlet_clientless.
  - destruct r as [v | e]; [| by exists e].
    destruct Hin as [<- | [<- | []]].
    + by destruct (strict_inlet_needs_client _ _ _ _ _ Hl Ht Hrun).
    + by destruct (strict_outlet_needs_client _ _ _ _ _ Hl Ht Hrun).
Qed.

Lemma handlers_without_client_witness :
  let st := init request_c1 false in
  (exists st', @Strict.inlet calm (VRef 0) VNone st
                 = (Raise AttributeError, st') /\ backend st' = []) /\
  backend (@Defensive.inlet calm (VRef 0) VNone st).2 = [].
Proof.
  intros st. split.
  - destruct (@Strict.inlet calm (VRef 0) VNone st) as [r st'] eqn:Hrun.
    destruct (@handlers_without_client calm (VRef 0) VNone st r st'
                eq_refl eq_refl) as [Hquiet Hraise].
    destruct (Hraise (@Strict.inlet calm)) as (e & ->);
      [by left | exact Hrun |].
    destruct (Hquiet (@Strict.inlet calm)) as (Hb & _);
      [by left | exact Hrun |].
    exists st'. split; [| exact Hb].
    vm_compute in Hrun. injection Hrun as <- _. reflexivity.
  - destruct (@Defensive.inlet calm (VRef 0) VNone st) as [r st'] eqn:Hrun.
    destruct (@handlers_without_client calm (VRef 0) VNone st r st'
                eq_refl eq_refl) as [Hquiet _].
    destruct (Hquiet (@Defensive.inlet calm)) as (Hb & _);
      [do 2 right; by left | exact Hrun |].
    exact Hb.
Defined.

(** * The tags sent to the backend *)

(** The keyword arguments of a call. *)
Definition payload (c : call) : kwargs :=
  match c with
  | CTrace p | CUpdate _ p | CGeneration _ p | CEnd _ p | CEvent _ p => p
  | CFlush => []
  end.

Lemma kw_get_app_none p q k :
  kw_get p k = None -> kw_get (p ++ q) k = kw_get q k.
Proof.
  induction p as [| [k' a] p IH]; simpl; [done |].
  destruct (String.eqb k k'); [done | exact IH].
Qed.

Section Tags.

Context {E : env}.

(** A call carries no tags, or, with the [insert_tags] valve on, the tag
    "open-webui", followed by the task name when the task is neither
    "user_response" nor "llm_response". *)
Definition tags_ok (c : call) : Prop :=
  match kw_get (payload c) "tags" with
  | None => True
  | Some (AVal _) => False
  | Some (ATags ts) =>
      insert_tags cfg = true /\
      exists task_name,
        ts = VStr "open-webui" ::
             (if untagged task_name then [] else [task_name])
  end.

Definition well_tagged (c : call * bool) : Prop := tags_ok c.1.

Lemma admits_plain c :
  kw_get (payload c) "tags" = None -> Admits well_tagged c.
Proof. intros H ok. unfold well_tagged, tags_ok. simpl. by rewrite H. Qed.

Lemma tags_ok_built c task_name :
  kw_get (payload c) "tags" = Some (ATags (build_tags task_name)) ->
  build_tags task_name <> [] ->
  tags_ok c.
Proof.
  intros H Hne. unfold tags_ok. rewrite H. unfold build_tags in *.
  destruct (insert_tags cfg); [| done]. split; [done |]. by exists task_name.
Qed.

Lemma admits_with_tags c task_name p :
  payload c = with_tags (build_tags task_name) p ->
  kw_get p "tags" = None ->
  Admits well_tagged c.
Proof.
  intros Hc Hp ok. unfold well_tagged. simpl.
  destruct (build_tags task_name) as [| v ts] eqn:Hb.
  - unfold tags_ok. rewrite Hc. simpl. by rewrite Hp.
  - apply (tags_ok_built c task_name); [| by rewrite Hb].
    rewrite Hc, Hb. simpl. rewrite (kw_get_app_none _ _ _ Hp). done.
Qed.

#[local] Hint Extern 1 (Admits well_tagged _) =>
  first
    [ apply admits_plain; reflexivity
    | eapply admits_with_tags;
      [ reflexivity
      | first [ reflexivity | destruct (truthy _ _); reflexivity ] ] ]
  : typeclass_instances.

(** The tag update of a trace that is reused. *)
Lemma retag_well_tagged {A} trace task_name (a : A) :
  preserves (appends well_tagged)
    (match build_tags task_name with
     | [] => ret a
     | _ =>
         backend_call
           (CUpdate trace [("tags", ATags (build_tags task_name))]) ;;
         ret a
     end).
Proof.
  destruct (build_tags task_name) as [| v ts] eqn:Hb; [pres |].
  rewrite <- Hb.
  apply preserves_bind; try exact _; [| pres].
  apply preserves_backend_call; try exact _.
  apply appends_call. intros ok.
  apply (tags_ok_built _ task_name); [done | by rewrite Hb].
Qed.

Lemma strict_open_or_reuse_tags body metadata chat_id user_email k
    task_name :
  preserves (appends well_tagged)
    (Strict.open_or_reuse body metadata chat_id user_email k
       (build_tags task_name)).
Proof.
  unfold Strict.open_or_reuse.
  repeat first [ apply retag_well_tagged | pres_step ].
Qed.

Lemma defensive_open_or_reuse_tags body metadata chat_id user_email k
    task_name :
  preserves (appends well_tagged)
    (Defensive.open_or_reuse body metadata chat_id user_email k
       (build_tags task_name)).
Proof.
  unfold Defensive.open_or_reuse.
  apply preserves_bind; try exact _; [pres |]. intros [trace |]; [| pres].
  apply preserves_bind; try exact _; [pres |]. intros _.
  destruct (build_tags task_name) as [| v ts] eqn:Hb; [pres |].
  rewrite <- Hb.
  apply preserves_bind; try exact _; [| pres].
  apply preserves_try_except; try exact _; [| pres].
  apply preserves_bind; try exact _; [| pres].
  apply preserves_backend_call; try exact _.
  apply appends_call. intros ok.
  apply (tags_ok_built _ task_name); [done | by rewrite Hb].
Qed.

Lemma strict_inlet_tags body user :
  preserves (appends well_tagged) (Strict.inlet body user).
Proof.
  unfold Strict.inlet, Strict.inlet_rest, Strict.resolve, Strict.store_model,
    Strict.validate, Strict.record_start, user_email_or, in_generation_tasks.
  repeat first [ apply strict_open_or_reuse_tags | pres_step ].
Qed.

Lemma strict_outlet_tags body user :
  preserves (appends well_tagged) (Strict.outlet body user).
Proof.
  unfold Strict.outlet.
  repeat first [ apply strict_inlet_tags | pres_step ].
  all: unfold_strict; pres.
Qed.

Lemma defensive_inlet_tags body user :
  preserves (appends well_tagged) (Defensive.inlet body user).
Proof.
  unfold Defensive.inlet, Defensive.inlet_rest, Defensive.extract_metadata,
    Defensive.copy_field, Defensive.store_model, Defensive.ensure_messages,
    Defensive.record_start, Defensive.rewrite_local, Defensive.or_else,
    Defensive.nested_get, Defensive.keys_of, user_email_or,
    in_generation_tasks.
  repeat first [ apply defensive_open_or_reuse_tags | pres_step ].
Qed.

Lemma defensive_outlet_tags body user :
  preserves (appends well_tagged) (Defensive.outlet body user).
Proof. unfold Defensive.outlet, Defensive.flush. unfold_defensive. pres. Qed.

(** X14.  Whatever a handler of either variant sends to the backend,
    whichever way the call ends: a call carries either no "tags" argument,
    or the list ["open-webui"] or ["open-webui", <task>] for a task that is
    neither "user_response" nor "llm_response"; an empty tag list is never
    sent, and with the [insert_tags] valve off no call carries tags. *)
Theorem calls_are_well_tagged (handler : val -> val -> M val) body user st
    r st' :
  In handler [Strict.inlet; Strict.outlet;
              Defensive.inlet; Defensive.outlet] ->
  handler body user st = (r, st') ->
  exists calls,
    backend st' = backend st ++ calls /\
    forall c ok, In (c, ok) calls ->
      tags_ok c /\
      (insert_tags cfg = false -> kw_get (payload c) "tags" = None).
Proof.
  intros Hin Hrun.
  assert (Happ : appends well_tagged st st').
  { simpl in Hin. destruct Hin as [<- | [<- | [<- | [<- | []]]]].
    - by eapply strict_inlet_tags.
    - by eapply strict_outlet_tags.
    - by eapply defensive_inlet_tags.
    - by eapply defensive_outlet_tags. }
  destruct Happ as (_ & calls & Hb & Hall). exists calls. split; [done |].
  intros c ok Hc. rewrite List.Forall_forall in Hall.
  specialize (Hall _ Hc). unfold well_tagged in Hall. simpl in Hall.
  split; [done |]. intros Hoff. unfold tags_ok in Hall.
  destruct (kw_get (payload c) "tags") as [[v | ts] |]; [done | | done].
  destruct Hall as [Hon _]. congruence.
Qed.

End Tags.

Lemma calls_are_well_tagged_witness :
  let st' := (@Defensive.inlet calm (VRef 0) VNone (init title_turn true)).2 in
  List.Forall (fun c : call * bool => @tags_ok calm c.1) (backend st').
Proof.
  intros st'. apply List.Forall_forall. intros [c ok] Hin.
  destruct (@calls_are_well_tagged calm (@Defensive.inlet calm) (VRef 0)
              VNone (init title_turn true)
              (@Defensive.inlet calm (VRef 0) VNone (init title_turn true)).1
              st')
    as (calls & Hb & Hall).
  - do 2 right. by left.
  - by destruct (@Defensive.inlet calm (VRef 0) VNone (init title_turn true)).
  - simpl in Hb. fold st' in Hb. rewrite Hb in Hin.
    by destruct (Hall c ok Hin).
Defined.

(** * The defensive inlet on a well-formed request *)

Lemma try_except_total {A} (m : M A) (h : exn -> M A) st :
  (forall e s, exists a s', h e s = (Ok a, s')) ->
  exists a st', try_except m h st = (Ok a, st').
Proof.
  intros Hh. unfold try_except. destruct (m st) as [[a | e] s].
  - by exists a, s.
  - apply Hh.
Qed.

Section DefensiveTotal.

Context {E : env}.

Lemma is_dict_lookup h l : is_dict h (VRef l) = true ->
  exists d, h !! l = Some (ODict d).
Proof.
  intros H. apply is_dict_as_dict in H as (d & Hd).
  apply as_dict_ref in Hd as (l' & [= <-] & Hl). by exists d.
Qed.

Lemma defensive_model_id_total (model : val) (model_info : option val) st :
  exists im,
    (if is_dict (heap st) model
     then
       actual_model_id <- get_or model "id" (VStr "unknown") ;;
       model_name <- get_or model "name" (VStr "unknown") ;;
       ret (actual_model_id, model_name)
     else if is_str model
     then ret (model,
               match model_info with
               | Some mi =>
                   match as_dict (heap st) mi with
                   | Some d0 => default (VStr "unknown") (dict_get d0 "name")
                   | None => VStr "unknown"
                   end
               | None => VStr "unknown"
               end)
     else ret (VStr "unknown", VStr "unknown")) st = (Ok im, st).
Proof.
  destruct (is_dict (heap st) model) eqn:Hdict.
  - apply is_dict_as_dict in Hdict as (dm & Hdm).
    rewrite (bind_step _ _ _ _ _ (get_or_run _ _ _ _ _ Hdm)).
    rewrite (bind_step _ _ _ _ _ (get_or_run _ _ _ _ _ Hdm)).
    by eexists.
  - destruct (is_str model); by eexists.
Qed.

Lemma defensive_store_model_total body metadata chat_id k st :
  is_dict (heap st) body = true ->
  is_dict (heap st) metadata = true ->
  to_key chat_id = Some k ->
  exists id name st',
    Defensive.store_model body metadata chat_id st = (Ok (k, id, name), st').
Proof.
  intros Hb Hm Hk. apply is_dict_as_dict in Hb as (d & Hd).
  apply is_dict_as_dict in Hm as (md & Hmd).
  unfold Defensive.store_model.
  rewrite (bind_step _ _ _ _ _ (attr_get_run _ _ _ _ Hmd)).
  rewrite (bind_step _ _ _ _ _ (get_or_run _ _ _ _ _ Hd)).
  rewrite (bind_step _ _ _ _ _ (get_heap_run _)).
  destruct (defensive_model_id_total (default VNone (dict_get d "model"))
              (dict_get md "model") st) as (im & Him).
  rewrite (bind_step _ _ _ _ _ Him). cbv zeta.
  rewrite (bind_step _ _ _ _ _ (hash_key_run _ _ _ Hk)).
  rewrite (bind_step _ _ _ _ _
             (eq_refl : registry_get k st = (Ok (model_names st !! k), st))).
  destruct (model_names st !! k);
    unfold bind at 1, registry_set at 1;
    rewrite (bind_step _ _ _ _ _ (log_run _ _)); by eexists _, _, _.
Qed.

(** Lines 172-190 with a chat id that cannot be a key: the registry look-up
    raises, and nothing has been written. *)
Lemma defensive_store_model_unhashable body metadata chat_id st :
  is_dict (heap st) body = true ->
  is_dict (heap st) metadata = true ->
  to_key chat_id = None ->
  Defensive.store_model body metadata chat_id st = (Raise TypeError, st).
Proof.
  intros Hb Hm Hk. apply is_dict_as_dict in Hb as (d & Hd).
  apply is_dict_as_dict in Hm as (md & Hmd).
  unfold Defensive.store_model.
  rewrite (bind_step _ _ _ _ _ (attr_get_run _ _ _ _ Hmd)).
  rewrite (bind_step _ _ _ _ _ (get_or_run _ _ _ _ _ Hd)).
  rewrite (bind_step _ _ _ _ _ (get_heap_run _)).
  destruct (defensive_model_id_total (default VNone (dict_get d "model"))
              (dict_get md "model") st) as (im & Him).
  rewrite (bind_step _ _ _ _ _ Him). cbv zeta.
  unfold hash_key. by rewrite Hk.
Qed.

Lemma user_email_or_total user other st :
  user = VNone \/ is_dict (heap st) user = true ->
  exists v, user_email_or user other st = (Ok v, st).
Proof.
  intros Hu. unfold user_email_or.
  rewrite (bind_step _ _ _ _ _ (get_heap_run _)).
  destruct Hu as [-> | Hu]; [by eexists |].
  destruct (truthy (heap st) user); [| by eexists].
  apply is_dict_as_dict in Hu as (d & Hd).
  rewrite (get_or_run _ _ _ _ _ Hd). by eexists.
Qed.

(** Lines 210-241: whatever the backend does, the block ends normally. *)
Lemma defensive_open_or_reuse_total body metadata chat_id user_email k tags
    st :
  is_dict (heap st) body = true ->
  exists t st',
    Defensive.open_or_reuse body metadata chat_id user_email k tags st
    = (Ok t, st').
Proof.
  intros Hb. apply is_dict_as_dict in Hb as (d & Hd).
  unfold Defensive.open_or_reuse.
  rewrite (bind_step _ _ _ _ _
             (eq_refl : traces_get k st = (Ok (chat_traces st !! k), st))).
  destruct (chat_traces st !! k) as [trace |].
  - rewrite (bind_step _ _ _ _ _ (log_run _ _)).
    destruct tags as [| v tags]; [by eexists _, _ |].
    match goal with
    | |- context [bind (try_except ?m (fun _ => log ?msg)) _ ?s] =>
        destruct (try_except_log_total same_heap m msg s) as (s1 & H1 & _);
          [pres |]
    end.
    rewrite (bind_step _ _ _ _ _ H1). by eexists _, _.
  - rewrite (bind_step _ _ _ _ _ (log_run _ _)).
    rewrite (bind_step _ _ _ _ _ (get_heap_run _)).
    assert (Hd1 : as_dict (heap (logged "Creating new trace for chat_id" st))
                    body = Some d) by (by rewrite heap_logged).
    rewrite (bind_step _ _ _ _ _ (get_or_run _ _ _ _ _ Hd1)). cbv zeta.
    change (when (debug cfg) (print "[DEBUG] Langfuse trace request"))
      with (log "[DEBUG] Langfuse trace request").
    rewrite (bind_step _ _ _ _ _ (log_run _ _)).
    apply try_except_total. intros e s.
    rewrite (bind_step _ _ _ _ _ (log_run _ _)). by eexists _, _.
Qed.

(** Lines 242-283: whatever the backend does, the block ends normally. *)
Lemma defensive_record_start_total body metadata task_name actual_model_id
    model_name trace tags st :
  is_dict (heap st) metadata = true ->
  exists st',
    Defensive.record_start body metadata task_name actual_model_id
      model_name trace tags st = (Ok tt, st').
Proof.
  intros Hm. apply is_dict_as_dict in Hm as (md & Hmd).
  apply as_dict_ref in Hmd as (lm & -> & Hlm).
  unfold Defensive.record_start.
  rewrite (bind_step _ _ _ _ _ (setitem_run _ _ _ _ _ Hlm)).
  set (s1 := set_heap _ st).
  assert (Hlm1 : heap s1 !! lm = Some (ODict (dict_set md "type" task_name))).
  { unfold s1. simpl. rewrite list_lookup_insert_eq; [done |].
    by eapply lookup_lt_Some. }
  rewrite (bind_step _ _ _ _ _
             (get_or_run _ _ _ _ _ (as_dict_lookup _ _ _ Hlm1))).
  rewrite (bind_step _ _ _ _ _ (setitem_run _ _ _ _ _ Hlm1)).
  match goal with
  | |- context [try_except ?m (fun _ => log ?msg) ?s] =>
      destruct (try_except_log_total shaped m msg s) as (s2 & H2 & _);
        [unfold in_generation_tasks; pres |]
  end.
  by exists s2.
Qed.

End DefensiveTotal.

Section DefensiveInletTotal.

Context {E : env}.

(** Lines 167-285: once the metadata is a dict whose chat id can be a
    registry key, the rest of the inlet ends normally. *)
Lemma defensive_inlet_rest_total b user m md k st :
  is_dict (heap st) (VRef b) = true ->
  as_dict (heap st) m = Some md ->
  to_key (default VNone (dict_get md "chat_id")) = Some k ->
  user = VNone \/ is_dict (heap st) user = true ->
  exists st', Defensive.inlet_rest (VRef b) user m st = (Ok (VRef b), st').
Proof.
  intros Hb Hm Hk Hu.
  assert (Hmd : is_dict (heap st) m = true) by (unfold is_dict; by rewrite Hm).
  destruct (is_dict_lookup _ _ Hb) as (d & Hd).
  unfold Defensive.inlet_rest.
  rewrite (bind_step _ _ _ _ _ (get_or_run _ _ _ _ _ Hm)).
  pose proof (setitem_run b "metadata" m d st Hd) as H1.
  rewrite (bind_step _ _ _ _ _ H1).
  derive shaped H1. rename Hr into Hs1. clear H1.
  set (s1 := set_heap _ st) in *.
  destruct (defensive_store_model_total (VRef b) m _ k s1
              (Hs1 _ Hb) (Hs1 _ Hmd) Hk) as (id & name & s2 & H2).
  rewrite (bind_step _ _ _ _ _ H2).
  derive shaped H2. rename Hr into Hs2. clear H2.
  destruct (is_dict_lookup _ _ (Hs2 _ (Hs1 _ Hb))) as (d2 & Hd2).
  destruct (ensure_messages_run s2 b d2 Hd2) as (s3 & d3 & H3 & _).
  rewrite (bind_step _ _ _ _ _ H3).
  derive shaped H3. rename Hr into Hs3. clear H3.
  assert (Hs : shaped st s3) by (do 2 (etransitivity; [| done]); done).
  destruct (is_dict_as_dict _ _ (Hs _ Hmd)) as (md3 & Hmd3).
  rewrite (bind_step _ _ _ _ _ (get_or_run _ _ _ _ _ Hmd3)).
  assert (Hu3 : user = VNone \/ is_dict (heap s3) user = true).
  { destruct Hu as [-> | Hu]; [by left | right; by apply Hs]. }
  destruct (user_email_or_total user
              (default VNone (dict_get md3 "user_id")) s3 Hu3) as (mail & H4).
  rewrite (bind_step _ _ _ _ _ H4).
  rewrite (bind_step _ _ _ _ _ (get_or_run _ _ _ _ _ Hmd3)).
  rewrite (bind_step _ _ _ _ _ (get_or_run _ _ _ _ _ Hmd3)).
  cbv zeta.
  match goal with
  | |- context [Defensive.open_or_reuse ?a1 ?a2 ?a3 ?a4 ?a5 ?a6] =>
      destruct (defensive_open_or_reuse_total a1 a2 a3 a4 a5 a6 s3
                  (Hs _ Hb)) as (t & s4 & H5)
  end.
  rewrite (bind_step _ _ _ _ _ H5).
  derive shaped H5. rename Hr into Hs4. clear H5.
  destruct t as [t |]; [| by eexists].
  match goal with
  | |- context [Defensive.record_start ?a1 ?a2 ?a3 ?a4 ?a5 ?a6 ?a7] =>
      destruct (defensive_record_start_total a1 a2 a3 a4 a5 a6 a7 s4
                  (Hs4 _ (Hs _ Hmd))) as (s5 & H6)
  end.
  rewrite (bind_step _ _ _ _ _ H6). by eexists.
Qed.

End DefensiveInletTotal.

(** X15.  The defensive inlet on a well-formed request never raises, whatever
    the backend does.  Let the body be a dict; let its metadata entry, when
    there is one, be a dict whose chat id is hashable (None, a boolean, a
    number or a string), and otherwise let the chat id of the body itself be
    hashable; let the user be None or a dict.  Then the inlet ends normally
    and returns the very body object it was given, for every backend, every
    configuration and every state of the registries, with or without a
    client.  (The request is JSON-decoded data, as in the header, so the
    debug rendering of line 161 cannot fail.) *)
Theorem defensive_inlet_never_raises {E : env} st b d user :
  heap st !! b = Some (ODict d) ->
  match dict_get d "metadata" with
  | Some m =>
      exists md, as_dict (heap st) m = Some md /\
                 is_Some (to_key (default VNone (dict_get md "chat_id")))
  | None => is_Some (to_key (default VNone (dict_get d "chat_id")))
  end ->
  user = VNone \/ is_dict (heap st) user = true ->
  exists st', Defensive.inlet (VRef b) user st = (Ok (VRef b), st').
Proof.
  intros Hb Hwf Hu. unfold Defensive.inlet.
  change (when (debug cfg) (print "[DEBUG] Received request"))
    with (log "[DEBUG] Received request").
  rewrite (bind_step _ _ _ _ _ (log_run _ _)).
  assert (Hb1 : is_dict (heap (logged "[DEBUG] Received request" st)) (VRef b)
                = true).
  { rewrite heap_logged. unfold is_dict. by rewrite (as_dict_lookup _ _ _ Hb). }
  rewrite (bind_step _ _ _ _ _ (keys_of_run _ _ Hb1)).
  rewrite (bind_step _ _ _ _ _ (log_run _ _)).
  set (s0 := logged _ (logged _ st)) in *.
  assert (Hh0 : heap s0 = heap st) by (unfold s0; by rewrite !heap_logged).
  assert (Hb0 : heap s0 !! b = Some (ODict d)) by (by rewrite Hh0).
  assert (Hd0 : is_dict (heap s0) (VRef b) = true).
  { unfold is_dict. by rewrite (as_dict_lookup _ _ _ Hb0). }
  assert (Hu0 : user = VNone \/ is_dict (heap s0) user = true)
    by (by rewrite Hh0).
  destruct (dict_get d "metadata") as [m |] eqn:Hmeta.
  - destruct Hwf as (md & Hmd & k & Hk).
    assert (Hex : Defensive.extract_metadata (VRef b) s0 = (Ok m, s0)).
    { unfold Defensive.extract_metadata.
      rewrite (bind_step _ _ _ _ _ (contains_run _ _ _ _ Hb0)).
      unfold dict_has. rewrite Hmeta. by apply getitem_run with d. }
    rewrite (bind_step _ _ _ _ _ Hex).
    apply defensive_inlet_rest_total with md k; try done. by rewrite Hh0.
  - destruct Hwf as (k & Hk).
    destruct (extract_metadata_run s0 b d Hb0 Hmeta)
      as (s1 & md & Hrun & Hn & _ & Hchat & _).
    rewrite (bind_step _ _ _ _ _ Hrun).
    derive shaped Hrun.
    assert (Hkey : is_Some (to_key (default VNone (dict_get md "chat_id")))).
    { rewrite Hchat. simpl.
      match goal with
      | |- context [if ?c then temporary_session _ _ else _] => destruct c
      end; [by eexists |].
      match goal with
      | |- context [if ?c then _ else VStr _] => destruct c
      end; [by exists k | by eexists]. }
    destruct Hkey as (k' & Hk').
    apply defensive_inlet_rest_total with md k'.
    + by apply Hr.
    + by apply as_dict_lookup.
    + done.
    + destruct Hu0 as [-> | Hu0]; [by left | right; by apply Hr].
Qed.

(** A backend on which every call raises. *)
Definition down : env :=
  {| cfg := default_valves;
     uuid4 := fun n => "uuid-" +:+ str_of_Z (Z.of_nat n);
     faulty := fun _ => true;
     get_last_assistant_message := last_assistant_content;
     str_obj := fun _ _ => "<object>" |}.

Lemma defensive_inlet_never_raises_witness :
  exists st',
    @Defensive.inlet down (VRef 0) VNone (init request_c1 true)
    = (Ok (VRef 0), st').
Proof.
  apply (@defensive_inlet_never_raises down (init request_c1 true) 0
           [("model", VStr "gpt-4"); ("messages", VRef 1);
            ("metadata", VRef 3)] VNone eq_refl).
  - exists [("chat_id", VStr "c1"); ("task", VStr "user_response")].
    split; [reflexivity | by eexists].
  - by left.
Defined.

(** X16.  What the defensive inlet does not catch.  When the body carries a
    metadata entry that is not a dict, the inlet raises AttributeError at
    the first read of the metadata; when the metadata is a dict whose chat id
    is a list or a dict, it raises TypeError at the look-up in the model
    registry.  In both cases the exception reaches the caller, and no
    backend call has been made and neither registry has been written. *)
Theorem defensive_inlet_malformed_metadata {E : env} st b d m user :
  heap st !! b = Some (ODict d) ->
  dict_get d "metadata" = Some m ->
  is_dict (heap st) m = false \/
  (exists md, as_dict (heap st) m = Some md /\
              to_key (default VNone (dict_get md "chat_id")) = None) ->
  exists st',
    Defensive.inlet (VRef b) user st
    = (Raise (if is_dict (heap st) m then TypeError else AttributeError), st')
    /\ backend st' = backend st
    /\ chat_traces st' = chat_traces st
    /\ model_names st' = model_names st.
Proof.
  intros Hb Hmeta Hbad. unfold Defensive.inlet.
  change (when (debug cfg) (print "[DEBUG] Received request"))
    with (log "[DEBUG] Received request").
  rewrite (bind_step _ _ _ _ _ (log_run _ _)).
  assert (Hb1 : is_dict (heap (logged "[DEBUG] Received request" st)) (VRef b)
                = true).
  { rewrite heap_logged. unfold is_dict. by rewrite (as_dict_lookup _ _ _ Hb). }
  rewrite (bind_step _ _ _ _ _ (keys_of_run _ _ Hb1)).
  rewrite (bind_step _ _ _ _ _ (log_run _ _)).
  set (s0 := logged _ (logged _ st)) in *.
  assert (Hh0 : heap s0 = heap st) by (unfold s0; by rewrite !heap_logged).
  assert (Hs0 : backend s0 = backend st /\ chat_traces s0 = chat_traces st /\
                model_names s0 = model_names st).
  { unfold s0.
    by rewrite !backend_logged, !chat_traces_logged, !model_names_logged. }
  assert (Hb0 : heap s0 !! b = Some (ODict d)) by (by rewrite Hh0).
  assert (Hex : Defensive.extract_metadata (VRef b) s0 = (Ok m, s0)).
  { unfold Defensive.extract_metadata.
    rewrite (bind_step _ _ _ _ _ (contains_run _ _ _ _ Hb0)).
    unfold dict_has. rewrite Hmeta. by apply getitem_run with d. }
  rewrite (bind_step _ _ _ _ _ Hex). unfold Defensive.inlet_rest.
  destruct Hbad as [Hno | (md & Hmd & Hk)].
  - rewrite Hno. exists s0. split; [| exact Hs0].
    rewrite <- Hh0 in Hno. unfold is_dict in Hno.
    unfold bind at 1, get_or, bind at 1, attr_get.
    by destruct (as_dict (heap s0) m).
  - assert (Hyes : is_dict (heap st) m = true)
      by (unfold is_dict; by rewrite Hmd).
    rewrite Hyes. rewrite <- Hh0 in Hmd, Hyes.
    rewrite (bind_step _ _ _ _ _ (get_or_run _ _ _ _ _ Hmd)).
    pose proof (setitem_run b "metadata" m d s0 Hb0) as H1.
    rewrite (bind_step _ _ _ _ _ H1).
    derive shaped H1. clear H1.
    set (s1 := set_heap _ s0) in *.
    assert (Hd0 : is_dict (heap s0) (VRef b) = true).
    { unfold is_dict. by rewrite (as_dict_lookup _ _ _ Hb0). }
    exists s1. split; [| exact Hs0].
    unfold bind at 1.
    by rewrite (defensive_store_model_unhashable _ _ _ s1
                  (Hr _ Hd0) (Hr _ Hyes) Hk).
Qed.

(** A request whose metadata holds a list as its chat id. *)
Definition list_chat_id : list obj :=
  [ ODict [("model", VStr "gpt-4"); ("messages", VRef 1); ("metadata", VRef 2)];
    OList [];
    ODict [("chat_id", VRef 3)];
    OList [VStr "c1"] ].

Lemma defensive_inlet_malformed_metadata_witness :
  exists st',
    @Defensive.inlet calm (VRef 0) VNone (init list_chat_id true)
    = (Raise TypeError, st')
    /\ backend st' = [] /\ chat_traces st' = ∅ /\ model_names st' = ∅.
Proof.
  apply (@defensive_inlet_malformed_metadata calm (init list_chat_id true) 0
           [("model", VStr "gpt-4"); ("messages", VRef 1);
            ("metadata", VRef 2)] (VRef 2) VNone eq_refl eq_refl).
  right. exists [("chat_id", VRef 3)]. split; reflexivity.
Defined.
(** * The strict inlet on given data *)

Section StrictIdentity.

Context {E : env}.

(** Lines 110-116 of the strict inlet, as a function of the metadata dict
    [md] in the store [h] when [n] uuids have been drawn: the chat id of the
    metadata, or else the uuid drawn as its default; when that is "local",
    the temporary id made of the session id of the metadata, or else of the
    next uuid. *)
Definition strict_chat_id (h : list obj) (n : nat) (md : dict) : val :=
  let chat_id := default (VStr (uuid4 n)) (dict_get md "chat_id") in
  if str_is chat_id "local"
  then temporary_session h
         (default (VStr (uuid4 (Datatypes.S n))) (dict_get md "session_id"))
  else chat_id.

Lemma strict_chat_id_not_local h n md :
  str_is (strict_chat_id h n md) "local" = false.
Proof.
  unfold strict_chat_id.
  destruct (str_is (default _ (dict_get md "chat_id")) "local") eqn:Hl;
    [reflexivity | exact Hl].
Qed.

(** Lines 109-119 on a dict body whose metadata entry is the dict [md0] at
    [lm], or is absent (and then [lm] is the new object and [md0] is
    empty). *)
Lemma strict_resolve_run b d lm md0 st :
  heap st !! b = Some (ODict d) ->
  (dict_get d "metadata" = Some (VRef lm) /\ heap st !! lm = Some (ODict md0))
  \/ (dict_get d "metadata" = None /\ lm = length (heap st) /\ md0 = []) ->
  exists st1 d1 md1,
    Strict.resolve (VRef b) st
    = (Ok (VRef lm, strict_chat_id (heap st) (uuids st) md0), st1) /\
    heap st1 !! b = Some (ODict d1) /\
    dict_get d1 "metadata" = Some (VRef lm) /\
    heap st1 !! lm = Some (ODict md1) /\
    dict_get md1 "chat_id"
    = Some (strict_chat_id (heap st) (uuids st) md0) /\
    (forall K, K <> "chat_id" -> K <> "metadata" ->
       dict_get md1 K = dict_get md0 K /\ dict_get d1 K = dict_get d K) /\
    (lm <> b ->
     d1 = dict_set d "metadata" (VRef lm) /\
     md1 = dict_set md0 "chat_id"
             (strict_chat_id (heap st) (uuids st) md0)) /\
    (forall l, l <> b -> l <> lm -> heap st1 !! l = heap st !! l).
Proof.
  intros Hb Hm.
  set (c := strict_chat_id (heap st) (uuids st) md0).
  set (st0 := match dict_get d "metadata" with
              | Some _ => st
              | None => set_heap (heap st ++ [ODict []]) st
              end).
  assert (H0 : (match dict_get d "metadata" with
                | Some v => ret v
                | None => alloc (ODict [])
                end) st = (Ok (VRef lm), st0) /\
               heap st0 !! lm = Some (ODict md0) /\
               heap st0 !! b = Some (ODict d) /\
               uuids st0 = uuids st /\
               strict_chat_id (heap st0) (uuids st) md0 = c /\
               (forall l, l <> lm -> heap st0 !! l = heap st !! l)).
  { unfold st0. destruct Hm as [(Hmeta & Hlm) | (Hmeta & -> & ->)];
      rewrite Hmeta.
    - by repeat split.
    - split; [done |]. simpl.
      split; [by rewrite list_lookup_middle |].
      split; [by apply lookup_app_l_Some |].
      split; [done |]. split.
      + unfold c, strict_chat_id. simpl.
        by destruct (str_is (VStr (uuid4 (uuids st))) "local").
      + intros l Hl. destruct (decide (l < length (heap st))) as [Hlt | Hge].
        * by rewrite lookup_app_l.
        * rewrite !lookup_ge_None_2; [done | lia |].
          rewrite length_app. simpl. lia. }
  destruct H0 as (Hmrun & Hlm0 & Hb0 & Hu0 & Hc0 & Hold0).
  clearbody st0.
  unfold Strict.resolve.
  run (attr_get_run (VRef b) "metadata" d st (as_dict_lookup _ _ _ Hb)).
  run Hmrun.
  run (get_or_uuid_run (VRef lm) "chat_id" md0 st0 (as_dict_lookup _ _ _ Hlm0)).
  set (s1 := set_uuids (Datatypes.S (uuids st0)) st0).
  assert (Hif : exists s2,
    (if str_is (default (VStr (uuid4 (uuids st0))) (dict_get md0 "chat_id"))
          "local"
     then session_id <- get_or_uuid (VRef lm) "session_id" ;;
          h <- get_heap ;;
          log "Generated temporary chat_id" ;;
          ret (temporary_session h session_id)
     else ret (default (VStr (uuid4 (uuids st0))) (dict_get md0 "chat_id")))
      s1 = (Ok c, s2) /\ heap s2 = heap st0).
  { rewrite <- Hc0. unfold strict_chat_id. rewrite Hu0.
    destruct (str_is (default (VStr (uuid4 (uuids st))) (dict_get md0 "chat_id"))
                "local").
    - run (get_or_uuid_run (VRef lm) "session_id" md0 s1
             (as_dict_lookup _ _ _ Hlm0)).
      unfold get_heap at 1. unfold bind at 1. run_log.
      eexists. split; [unfold ret, s1; simpl; by rewrite Hu0 |].
      by rewrite heap_logged.
    - by exists s1. }
  destruct Hif as (s2 & Hif & Hh2). run Hif.
  assert (Hlm2 : heap s2 !! lm = Some (ODict md0)) by (by rewrite Hh2).
  run (setitem_run lm "chat_id" c md0 s2 Hlm2).
  set (h3 := <[lm := ODict (dict_set md0 "chat_id" c)]> (heap s2)).
  assert (Hlen : lm < length (heap s2)) by (by eapply lookup_lt_Some).
  assert (Hb3 : h3 !! b
                = Some (ODict (if decide (lm = b)
                               then dict_set md0 "chat_id" c else d))).
  { unfold h3. destruct (decide (lm = b)) as [-> | Hne].
    - by rewrite list_lookup_insert_eq.
    - rewrite list_lookup_insert_ne by done. by rewrite Hh2. }
  run (setitem_run b "metadata" (VRef lm) _ (set_heap h3 s2) Hb3).
  assert (Hblen : b < length h3) by (by eapply lookup_lt_Some).
  destruct (decide (lm = b)) as [-> | Hne].
  - eexists _, _, _. split; [reflexivity |]. simpl.
    split; [by rewrite list_lookup_insert_eq |].
    split; [apply dict_get_set_eq |].
    split; [by rewrite list_lookup_insert_eq |].
    rewrite Hb0 in Hlm0. injection Hlm0 as <-.
    split; [by rewrite dict_get_set_ne, dict_get_set_eq |].
    split; [intros K H1 H2; by rewrite !dict_get_set_ne |].
    split; [done |].
    intros l H1 H2. rewrite list_lookup_insert_ne by done.
    unfold h3. rewrite list_lookup_insert_ne by done.
    rewrite Hh2. by apply Hold0.
  - eexists _, _, _. split; [reflexivity |]. simpl.
    split; [by rewrite list_lookup_insert_eq |].
    split; [apply dict_get_set_eq |].
    split.
    { rewrite list_lookup_insert_ne by done. unfold h3.
      by rewrite list_lookup_insert_eq. }
    split; [apply dict_get_set_eq |].
    split; [intros K H1 H2; by rewrite !dict_get_set_ne |].
    split; [done |].
    intros l H1 H2. rewrite list_lookup_insert_ne by done.
    unfold h3. rewrite list_lookup_insert_ne by done.
    rewrite Hh2. by apply Hold0.
Qed.

End StrictIdentity.

Section StrictValidation.

Context {E : env}.

Lemma strict_chat_id_hashable h n md :
  (forall v, dict_get md "chat_id" = Some v -> is_Some (to_key v)) ->
  is_Some (to_key (strict_chat_id h n md)).
Proof.
  intros Hk. unfold strict_chat_id.
  destruct (str_is (default _ (dict_get md "chat_id")) "local");
    [by eexists |].
  destruct (dict_get md "chat_id") as [v |]; simpl; [by apply Hk | by eexists].
Qed.

(** The metadata object of a body with plain metadata. *)
Lemma plain_metadata_object b d st :
  heap st !! b = Some (ODict d) ->
  plain_metadata (heap st) d ->
  exists lm md0,
    (dict_get d "metadata" = Some (VRef lm) /\
     heap st !! lm = Some (ODict md0)
     \/ dict_get d "metadata" = None /\ lm = length (heap st) /\ md0 = []) /\
    forall v, dict_get md0 "chat_id" = Some v -> is_Some (to_key v).
Proof.
  intros Hb Hplain. unfold plain_metadata in Hplain.
  destruct (dict_get d "metadata") as [m |].
  - destruct Hplain as (md & Hmd & Hk).
    apply as_dict_ref in Hmd as (lm & -> & Hlm).
    exists lm, md. split; [left; by split | done].
  - exists (length (heap st)), []. split; [right; by repeat split | done].
Qed.

(** The strict inlet up to the check of the required keys, on a body with
    plain metadata that lacks a required key. *)
Lemma strict_inlet_missing_key_state b d lm md0 user st :
  heap st !! b = Some (ODict d) ->
  dict_has d "model" && dict_has d "messages" = false ->
  (dict_get d "metadata" = Some (VRef lm) /\ heap st !! lm = Some (ODict md0)
   \/ dict_get d "metadata" = None /\ lm = length (heap st) /\ md0 = []) ->
  (forall v, dict_get md0 "chat_id" = Some v -> is_Some (to_key v)) ->
  exists st' k d' md' r,
    Strict.inlet (VRef b) user st = (Raise ValueError, st') /\
    to_key (strict_chat_id (heap st) (uuids st) md0) = Some k /\
    heap st' !! b = Some (ODict d') /\
    dict_get d' "metadata" = Some (VRef lm) /\
    heap st' !! lm = Some (ODict md') /\
    dict_get md' "chat_id"
    = Some (strict_chat_id (heap st) (uuids st) md0) /\
    model_names st' !! k = Some r /\
    dict_get r "id" = Some (default VNone (dict_get d "model")) /\
    (forall k', k' <> k -> model_names st' !! k' = model_names st !! k').
Proof.
  intros Hb Hmiss Hm Hhash.
  set (st0 := logged "User" (logged "Inlet called with body" st)).
  assert (Hh0 : heap st0 = heap st) by (unfold st0; by rewrite !heap_logged).
  assert (Hu0 : uuids st0 = uuids st) by (unfold st0; by rewrite !uuids_logged).
  assert (Hn0 : model_names st0 = model_names st)
    by (unfold st0; by rewrite !model_names_logged).
  destruct (strict_resolve_run b d lm md0 st0) as
    (st1 & d1 & md1 & Hres & Hb1 & Hmeta1 & Hlm1 & Hc1 & Hkeep & _ & _).
  { by rewrite Hh0. }
  { by rewrite Hh0. }
  rewrite Hh0, Hu0 in Hres, Hc1.
  set (c := strict_chat_id (heap st) (uuids st) md0) in *.
  destruct (strict_chat_id_hashable (heap st) (uuids st) md0 Hhash)
    as (k & Hk). fold c in Hk.
  derive same_registries Hres. destruct Hr as [_ Hn1].
  assert (Hd1 : is_dict (heap st1) (VRef lm) = true).
  { unfold is_dict. by rewrite (as_dict_lookup _ _ _ Hlm1). }
  destruct (strict_store_model_ok (VRef b) (VRef lm) c k d1 st1
              (as_dict_lookup _ _ _ Hb1) Hd1 Hk) as (st2 & r0 & Hsm & _).
  destruct (strict_store_model_inv _ _ _ _ _ _ Hsm)
    as (d2 & md2 & r & Hd2 & _ & _ & Hr & Hid & _ & _ & Hoth & Hh2 & _).
  rewrite (as_dict_lookup _ _ _ Hb1) in Hd2. injection Hd2 as <-.
  destruct (Hkeep "model" ltac:(done) ltac:(done)) as [_ Hmodel].
  destruct (Hkeep "messages" ltac:(done) ltac:(done)) as [_ Hmsgs].
  assert (Hmiss1 : dict_has d1 "model" && dict_has d1 "messages" = false).
  { unfold dict_has in *. by rewrite Hmodel, Hmsgs. }
  assert (Hb2 : heap st2 !! b = Some (ODict d1)) by (by rewrite Hh2).
  exists (logged "Error: Missing keys in request body" st2), k, d1, md1, r.
  split.
  { unfold Strict.inlet. run_log. run_log. fold st0. run Hres.
    unfold Strict.inlet_rest. cbn [fst snd]. run Hsm.
    by rewrite (bind_raise _ _ _ _ _ (validate_missing b d1 st2 Hb2 Hmiss1)). }
  rewrite heap_logged, model_names_logged, Hh2.
  split; [done |]. split; [done |]. split; [done |]. split; [done |].
  split; [done |]. split; [done |]. split; [by rewrite Hid, Hmodel |].
  intros k' Hk'. by rewrite (Hoth k' Hk'), Hn1, Hn0.
Qed.

End StrictValidation.

(** C4 (amended).  The strict inlet, on a dict body that lacks "model" or
    "messages", raises before any backend call: the backend log and the
    trace store are what they were.  When the body's metadata is absent or
    a dict with a hashable chat id, the exception is the validation error,
    and by then the inlet has written: the metadata object [lm] (the body's
    own, or a new one when the body had none) holds the conversation id
    of lines 110-116 and is the body's metadata entry, and the model
    registry holds under that very id a record whose id is the body's model
    (or [None]); the other records of the registry are as they were. *)
Theorem strict_inlet_missing_key {E : env} b d user st :
  heap st !! b = Some (ODict d) ->
  dict_has d "model" && dict_has d "messages" = false ->
  exists e st',
    Strict.inlet (VRef b) user st = (Raise e, st') /\
    backend st' = backend st /\
    chat_traces st' = chat_traces st /\
    (plain_metadata (heap st) d ->
     e = ValueError /\
     exists lm md0 k d' md' r,
       (dict_get d "metadata" = Some (VRef lm) /\
        heap st !! lm = Some (ODict md0)
        \/ dict_get d "metadata" = None /\ lm = length (heap st) /\
           md0 = []) /\
       to_key (strict_chat_id (heap st) (uuids st) md0) = Some k /\
       heap st' !! b = Some (ODict d') /\
       dict_get d' "metadata" = Some (VRef lm) /\
       heap st' !! lm = Some (ODict md') /\
       dict_get md' "chat_id"
       = Some (strict_chat_id (heap st) (uuids st) md0) /\
       model_names st' !! k = Some r /\
       dict_get r "id" = Some (default VNone (dict_get d "model")) /\
       (forall k', k' <> k -> model_names st' !! k' = model_names st !! k')).
Proof.
  intros Hb Hmiss.
  destruct (strict_inlet_missing_key_run b d user st Hb Hmiss)
    as (e & st' & Hrun & (Hq1 & Hq2 & _) & _).
  exists e, st'. split; [done |]. split; [done |]. split; [done |].
  intros Hplain.
  destruct (plain_metadata_object b d st Hb Hplain) as (lm & md0 & Hm & Hhash).
  destruct (strict_inlet_missing_key_state b d lm md0 user st Hb Hmiss Hm Hhash)
    as (st2 & k & d' & md' & r & Hrun2 & Hrest).
  rewrite Hrun in Hrun2. injection Hrun2 as -> ->.
  split; [done |]. by exists lm, md0, k, d', md', r.
Qed.

(** A request without a message list, for a temporary chat:
    [{"model": "gpt-4", "metadata": {"chat_id": "local",
      "session_id": "s1"}}] at location 0. *)
Definition local_without_messages : list obj :=
  [ ODict [("model", VStr "gpt-4"); ("metadata", VRef 1)];
    ODict [("chat_id", VStr "local"); ("session_id", VStr "s1")] ].

Lemma strict_inlet_missing_key_witness :
  let st := init local_without_messages true in
  exists st' md' r,
    @Strict.inlet calm (VRef 0) VNone st = (Raise ValueError, st') /\
    backend st' = backend st /\
    chat_traces st' = chat_traces st /\
    heap st' !! 1 = Some (ODict md') /\
    dict_get md' "chat_id" = Some (VStr "temporary-session-s1") /\
    model_names st' !! KStr "temporary-session-s1" = Some r /\
    dict_get r "id" = Some (VStr "gpt-4").
Proof.
  intros st.
  destruct (@strict_inlet_missing_key calm 0
              [("model", VStr "gpt-4"); ("metadata", VRef 1)] VNone st)
    as (e & st' & Hrun & Hb & Ht & Hplain).
  - reflexivity.
  - reflexivity.
  - destruct Hplain as (-> & lm & md0 & k & d' & md' & r & Hm & Hk & _ & _
                        & Hmd' & Hc & Hr & Hid & _).
    + exists [("chat_id", VStr "local"); ("session_id", VStr "s1")].
      split; [reflexivity |]. intros v [= <-]. by eexists.
    + destruct Hm as [(Hmeta & Hlm) | (Hmeta & _)]; [| discriminate Hmeta].
      injection Hmeta as <-. vm_compute in Hlm. injection Hlm as <-.
      vm_compute in Hk. injection Hk as <-.
      exists st', md', r. by repeat split.
Defined.

(** * The placeholder in the defensive handlers *)

(** The model registry is left as it is. *)
Definition models_fixed (st st' : state) : Prop :=
  model_names st' = model_names st.

#[global] Instance models_fixed_preorder : PreOrder models_fixed.
Proof.
  split; [by intros st | intros x y z H1 H2; unfold models_fixed in *; congruence].
Qed.
#[global] Instance models_fixed_heap : TolHeap models_fixed.
Proof. by intros st h. Qed.
#[global] Instance models_fixed_out : TolOut models_fixed.
Proof. by intros st s. Qed.
#[global] Instance models_fixed_uuids : TolUuids models_fixed.
Proof. by intros st n. Qed.
#[global] Instance models_fixed_traces : TolTraces models_fixed.
Proof. by intros st m. Qed.
#[global] Instance models_fixed_call c : TolCall models_fixed c.
Proof. by intros st ok. Qed.

(** The trace store is left as it is at every key but [k]. *)
Definition traces_same_but (k : key) (st st' : state) : Prop :=
  forall k', k' <> k -> chat_traces st' !! k' = chat_traces st !! k'.

#[global] Instance traces_same_but_preorder k : PreOrder (traces_same_but k).
Proof.
  split; [by intros st k' | ].
  intros x y z H1 H2 k' Hk. by rewrite (H2 k' Hk), (H1 k' Hk).
Qed.
#[global] Instance traces_same_but_heap k : TolHeap (traces_same_but k).
Proof. by intros st h k'. Qed.
#[global] Instance traces_same_but_out k : TolOut (traces_same_but k).
Proof. by intros st s k'. Qed.
#[global] Instance traces_same_but_uuids k : TolUuids (traces_same_but k).
Proof. by intros st n k'. Qed.
#[global] Instance traces_same_but_models k : TolModels (traces_same_but k).
Proof. by intros st m k'. Qed.
#[global] Instance traces_same_but_call k c : TolCall (traces_same_but k) c.
Proof. by intros st ok k'. Qed.
#[global] Instance traces_same_but_at k : TolTracesAt (traces_same_but k) k.
Proof. intros st t k' Hk. simpl. by rewrite lookup_insert_ne. Qed.

(** [body.get(K) or body.get("metadata", {}).get(K)] finds the true value
    [v]: it is the body's own entry, or the body's own entry is false and
    [v] is the entry of the body's metadata dict. *)
Definition found_in (h : list obj) (d : dict) (K : string) (v : val) : Prop :=
  truthy h v = true /\
  (dict_get d K = Some v \/
   truthy h (default VNone (dict_get d K)) = false /\
   exists lm md,
     dict_get d "metadata" = Some (VRef lm) /\ h !! lm = Some (ODict md) /\
     dict_get md K = Some v).

Section DefensivePlaceholder.

Context {E : env}.

Lemma or_else_nested_run b d K v st :
  heap st !! b = Some (ODict d) ->
  found_in (heap st) d K v ->
  Defensive.or_else (default VNone (dict_get d K))
    (Defensive.nested_get (VRef b) K) st = (Ok v, st).
Proof.
  intros Hb (Ht & [Htop | (Hfalse & lm & md & Hmeta & Hlm & Hv)]).
  - rewrite Htop. simpl. by apply or_else_true.
  - rewrite (or_else_false _ _ _ Hfalse). unfold Defensive.nested_get.
    run (attr_get_run (VRef b) "metadata" d st (as_dict_lookup _ _ _ Hb)).
    rewrite Hmeta.
    rewrite (get_or_run _ _ _ _ _ (as_dict_lookup _ _ _ Hlm)).
    by rewrite Hv.
Qed.

(** Lines 291-300: a "local" id, found in the body or in its metadata, with
    a non-empty string token found the same way. *)
Lemma defensive_outlet_chat_id_local b d s st :
  heap st !! b = Some (ODict d) ->
  found_in (heap st) d "chat_id" (VStr "local") ->
  found_in (heap st) d "session_id" (VStr s) ->
  Defensive.outlet_chat_id (VRef b) st
  = (Ok (VStr ("temporary-session-" +:+ s)), st).
Proof.
  intros Hb Hc Hs. unfold Defensive.outlet_chat_id.
  run (get_or_run (VRef b) "chat_id" VNone d st (as_dict_lookup _ _ _ Hb)).
  run (or_else_nested_run b d "chat_id" _ st Hb Hc).
  unfold Defensive.rewrite_local.
  change (str_is (VStr "local") "local") with true. cbv iota.
  run (get_or_run (VRef b) "session_id" VNone d st (as_dict_lookup _ _ _ Hb)).
  run (or_else_nested_run b d "session_id" _ st Hb Hs).
  run (get_heap_run st). destruct Hs as [Ht _]. by rewrite Ht.
Qed.

(** The defensive outlet for such a body looks for the trace under the
    rewritten id: when there is none, nothing is recorded, whatever is
    registered under "local". *)
Lemma defensive_outlet_local_unmatched b d s user st :
  heap st !! b = Some (ODict d) ->
  found_in (heap st) d "chat_id" (VStr "local") ->
  found_in (heap st) d "session_id" (VStr s) ->
  chat_traces st !! KStr ("temporary-session-" +:+ s) = None ->
  exists st',
    Defensive.outlet (VRef b) user st = (Ok (VRef b), st') /\
    chat_traces st' = chat_traces st /\
    model_names st' = model_names st /\
    if langfuse st
    then exists ok, backend st' = backend st ++ [(CFlush, ok)]
    else backend st' = backend st.
Proof.
  intros Hb Hc Hs Hnone.
  apply (defensive_outlet_unmatched (VRef b) user st
           (KStr ("temporary-session-" +:+ s))
           (VStr ("temporary-session-" +:+ s))); try done.
  - unfold is_dict. by rewrite (as_dict_lookup _ _ _ Hb).
  - by rewrite (defensive_outlet_chat_id_local b d s st Hb Hc Hs).
Qed.

(** The defensive inlet on a body without a metadata entry whose chat id
    is "local" and whose session id is the non-empty string [s]: the new
    metadata object holds the rewritten id, the model registry holds a
    record under it, and both registries are what they were at every other
    key, whatever the outcome. *)
Lemma defensive_inlet_local b d s user st r st' :
  heap st !! b = Some (ODict d) ->
  dict_get d "metadata" = None ->
  dict_get d "chat_id" = Some (VStr "local") ->
  dict_get d "session_id" = Some (VStr s) ->
  s <> "" ->
  Defensive.inlet (VRef b) user st = (r, st') ->
  let k := KStr ("temporary-session-" +:+ s) in
  (exists md, heap st' !! length (heap st) = Some (ODict md) /\
     dict_get md "chat_id" = Some (VStr ("temporary-session-" +:+ s))) /\
  is_Some (model_names st' !! k) /\
  (forall k', k' <> k -> model_names st' !! k' = model_names st !! k') /\
  (forall k', k' <> k -> chat_traces st' !! k' = chat_traces st !! k').
Proof.
  intros Hb Hmeta Hchat Hsid Hs Hrun k.
  assert (Hts : negb (String.eqb s "") = true).
  { destruct (String.eqb_spec s ""); [done | reflexivity]. }
  unfold Defensive.inlet in Hrun.
  change (when (debug cfg) (print "[DEBUG] Received request"))
    with (log "[DEBUG] Received request") in Hrun.
  rewrite (bind_step _ _ _ _ _ (log_run _ _)) in Hrun.
  assert (Hb1 : is_dict (heap (logged "[DEBUG] Received request" st)) (VRef b)
                = true).
  { rewrite heap_logged. unfold is_dict. by rewrite (as_dict_lookup _ _ _ Hb). }
  rewrite (bind_step _ _ _ _ _ (keys_of_run _ _ Hb1)) in Hrun.
  rewrite (bind_step _ _ _ _ _ (log_run _ _)) in Hrun.
  set (s0 := logged _ (logged _ st)) in *.
  assert (Hh0 : heap s0 = heap st) by (unfold s0; by rewrite !heap_logged).
  assert (Hm0 : model_names s0 = model_names st)
    by (unfold s0; by rewrite !model_names_logged).
  assert (Ht0 : chat_traces s0 = chat_traces st)
    by (unfold s0; by rewrite !chat_traces_logged).
  assert (Hb0 : heap s0 !! b = Some (ODict d)) by (by rewrite Hh0).
  destruct (extract_metadata_run s0 b d Hb0 Hmeta)
    as (s1 & md1 & Hex & Hn1 & Hold1 & Hc1 & _).
  rewrite Hchat, Hsid in Hc1. simpl in Hc1. rewrite Hts in Hc1.
  simpl in Hc1. rewrite Hh0 in Hn1, Hold1.
  change (temporary_session _ (VStr s))
    with (VStr ("temporary-session-" +:+ s)) in Hc1.
  rewrite (bind_step _ _ _ _ _ Hex) in Hrun. rewrite Hh0 in Hrun.
  derive same_registries Hex. destruct Hr as [Ht1 Hm1].
  set (n := length (heap st)) in *.
  assert (Hbn : b < n) by (by eapply lookup_lt_Some).
  assert (Hb1' : heap s1 !! b = Some (ODict d)).
  { exact (eq_trans (Hold1 b Hbn) Hb). }
  unfold Defensive.inlet_rest in Hrun.
  rewrite (bind_step _ _ _ _ _
             (get_or_run _ _ _ _ _ (as_dict_lookup _ _ _ Hn1))) in Hrun.
  rewrite Hc1 in Hrun. simpl default in Hrun.
  rewrite (bind_step _ _ _ _ _ (setitem_run _ _ _ _ _ Hb1')) in Hrun.
  set (s2 := set_heap _ s1) in *.
  assert (Hn2 : heap s2 !! n = Some (ODict md1)).
  { unfold s2. simpl. rewrite list_lookup_insert_ne by lia. exact Hn1. }
  assert (Hb2 : is_dict (heap s2) (VRef b) = true).
  { unfold s2, is_dict, as_dict. simpl.
    rewrite list_lookup_insert_eq; [done | by eapply lookup_lt_Some]. }
  assert (Hd2 : is_dict (heap s2) (VRef n) = true).
  { unfold is_dict. by rewrite (as_dict_lookup _ _ _ Hn2). }
  destruct (defensive_store_model_total (VRef b) (VRef n)
              (VStr ("temporary-session-" +:+ s)) k s2 Hb2 Hd2 eq_refl)
    as (id & name & s3 & Hsm).
  rewrite (bind_step _ _ _ _ _ Hsm) in Hrun. cbv beta iota zeta in Hrun.
  destruct (defensive_store_model_inv _ _ _ _ _ _ _ _ Hsm)
    as (d3 & md3 & r3 & _ & _ & _ & Hr3 & _ & _ & _ & _ & Hoth3 & Hh3 & Htr3
        & _).
  assert (Hn3 : heap s3 !! n = Some (ODict md1)) by (by rewrite Hh3).
  derive models_fixed Hrun. rename Hr into Hmf.
  derive (traces_same_but k) Hrun. rename Hr into Htf.
  derive (keeps n "chat_id") Hrun. rename Hr into Hkc.
  destruct (Hkc _ Hn3) as (md & Hmd & Hcid).
  split; [exists md; split; [done | by rewrite Hcid] |].
  split; [rewrite Hmf, Hr3; by eexists |].
  split.
  - intros k' Hk'. rewrite Hmf, (Hoth3 k' Hk'). unfold s2. simpl.
    by rewrite Hm1, Hm0.
  - intros k' Hk'. rewrite (Htf k' Hk'), Htr3. unfold s2. simpl.
    by rewrite Ht1, Ht0.
Qed.

End DefensivePlaceholder.

(** A response whose metadata carries the placeholder and the session
    token: [{"messages": [], "metadata": {"chat_id": "local",
    "session_id": "s1"}}] at location 0. *)
Definition local_in_metadata : list obj :=
  [ ODict [("messages", VRef 1); ("metadata", VRef 2)];
    OList [];
    ODict [("chat_id", VStr "local"); ("session_id", VStr "s1")] ].

(** C3 (amended).  Strict variant: the id resolved by the inlet and by the
    outlet is never "local", and "local" is never a key of the trace store
    or of the model registry; a "local" chat id is replaced by
    "temporary-session-" followed by the session token (the metadata's on
    the inlet, the body's on the outlet), or by a fresh uuid when there is
    none.  Defensive variant: the rewrite of lines 131-134 and 297-300 is
    made when a non-empty session token is found.  The inlet, on a body
    without a metadata entry whose chat id is "local" and whose session id
    is a non-empty string, puts the rewritten id in the new metadata
    object, files the model record under it, and leaves both registries as
    they were at every other key, "local" included.  The outlet rewrites a
    "local" id found at the top level of the body or, failing that, in its
    metadata, with a token found the same way; it looks for the trace under
    the rewritten id, so that without one nothing is recorded, whatever is
    registered under "local".  Rewritten identities of two different string
    tokens differ, and every rewritten identity begins with
    "temporary-session-", so it is not "local". *)
Theorem placeholder_rewritten {E : env} :
  (forall body st m c st',
      Strict.resolve body st = (Ok (m, c), st') -> c <> VStr "local") /\
  (forall body st c m t st',
      Strict.outlet_resolve body st = (Ok (c, m, t), st') ->
      c <> VStr "local") /\
  (forall st,
      reachable Strict.inlet Strict.outlet st ->
      chat_traces st !! KStr "local" = None /\
      model_names st !! KStr "local" = None) /\
  (forall b d lm md st,
      heap st !! b = Some (ODict d) ->
      dict_get d "metadata" = Some (VRef lm) ->
      heap st !! lm = Some (ODict md) ->
      dict_get md "chat_id" = Some (VStr "local") ->
      exists st',
        Strict.resolve (VRef b) st =
          (Ok (VRef lm,
               temporary_session (heap st)
                 (default (VStr (uuid4 (Datatypes.S (uuids st))))
                    (dict_get md "session_id"))), st')) /\
  (forall b d st c m t st',
      heap st !! b = Some (ODict d) ->
      dict_get d "chat_id" = Some (VStr "local") ->
      Strict.outlet_resolve (VRef b) st = (Ok (c, m, t), st') ->
      c = temporary_session (heap st)
            (default (VStr (uuid4 (uuids st))) (dict_get d "session_id"))) /\
  (forall b d sid st,
      heap st !! b = Some (ODict d) ->
      dict_get d "session_id" = Some sid ->
      truthy (heap st) sid = true ->
      Defensive.rewrite_local (VRef b) (VStr "local") st =
        (Ok (temporary_session (heap st) sid), st)) /\
  (forall b d s user st r st',
      heap st !! b = Some (ODict d) ->
      dict_get d "metadata" = None ->
      dict_get d "chat_id" = Some (VStr "local") ->
      dict_get d "session_id" = Some (VStr s) ->
      s <> "" ->
      Defensive.inlet (VRef b) user st = (r, st') ->
      let k := KStr ("temporary-session-" +:+ s) in
      (exists md, heap st' !! length (heap st) = Some (ODict md) /\
         dict_get md "chat_id" = Some (VStr ("temporary-session-" +:+ s))) /\
      is_Some (model_names st' !! k) /\
      (forall k', k' <> k -> model_names st' !! k' = model_names st !! k') /\
      (forall k', k' <> k -> chat_traces st' !! k' = chat_traces st !! k')) /\
  (forall b d s st,
      heap st !! b = Some (ODict d) ->
      found_in (heap st) d "chat_id" (VStr "local") ->
      found_in (heap st) d "session_id" (VStr s) ->
      Defensive.outlet_chat_id (VRef b) st
      = (Ok (VStr ("temporary-session-" +:+ s)), st)) /\
  (forall b d s user st,
      heap st !! b = Some (ODict d) ->
      found_in (heap st) d "chat_id" (VStr "local") ->
      found_in (heap st) d "session_id" (VStr s) ->
      chat_traces st !! KStr ("temporary-session-" +:+ s) = None ->
      exists st',
        Defensive.outlet (VRef b) user st = (Ok (VRef b), st') /\
        chat_traces st' = chat_traces st /\
        model_names st' = model_names st /\
        if langfuse st
        then exists ok, backend st' = backend st ++ [(CFlush, ok)]
        else backend st' = backend st) /\
  (forall h s1 s2,
      temporary_session h (VStr s1) = temporary_session h (VStr s2) ->
      s1 = s2) /\
  (forall h sid c,
      temporary_session h sid = VStr c ->
      is_prefix "temporary-session-" c = true /\ c <> "local").
Proof.
  split.
  { intros body st m c st' H. apply str_is_false_neq.
    exact (strict_resolve_not_local body st (m, c) st' H). }
  split.
  { intros body st c m t st' H. apply str_is_false_neq.
    exact (strict_outlet_resolve_not_local body st (c, m, t) st' H). }
  split; [exact strict_reachable_no_local |].
  split; [exact strict_resolve_local |].
  split; [exact strict_outlet_resolve_local |].
  split; [exact defensive_rewrite_local |].
  split; [exact defensive_inlet_local |].
  split; [exact defensive_outlet_chat_id_local |].
  split; [exact defensive_outlet_local_unmatched |].
  split; [exact temporary_session_inj | exact temporary_session_prefix].
Qed.

Lemma placeholder_rewritten_witness :
  (exists st',
      @Strict.resolve calm (VRef 2) (init two_chats true) =
        (Ok (VRef 3, VStr "temporary-session-s1"), st')) /\
  chat_traces (@Strict.inlet calm (VRef 2) VNone (init two_chats true)).2
    !! KStr "local" = None /\
  (let st' := (@Defensive.inlet calm (VRef 0) VNone (init bare_body true)).2 in
   is_Some (model_names st' !! KStr "temporary-session-s1") /\
   model_names st' !! KStr "local" = None) /\
  (let st := set_chat_traces {[ KStr "local" := 0 ]}
               (init local_in_metadata true) in
   exists st' ok,
     @Defensive.outlet calm (VRef 0) VNone st = (Ok (VRef 0), st') /\
     backend st' = [(CFlush, ok)]).
Proof.
  destruct (@placeholder_rewritten calm)
    as (_ & _ & Hreach & Hlocal & _ & _ & Hin & _ & Hout & _).
  split; [| split; [| split]].
  - apply (Hlocal 2
             [("model", VStr "gpt-4"); ("messages", VRef 4); ("metadata", VRef 3)]
             3 [("chat_id", VStr "local"); ("session_id", VStr "s1")]
             (init two_chats true)); reflexivity.
  - apply Hreach. apply reach_inlet, reach_init.
  - intros st'.
    destruct (Hin 0
                [("chat_id", VStr "local"); ("session_id", VStr "s1");
                 ("user_id", VStr "u1"); ("model", VStr "gpt-4");
                 ("messages", VRef 1)]
                "s1" VNone (init bare_body true)
                (@Defensive.inlet calm (VRef 0) VNone (init bare_body true)).1
                st' eq_refl eq_refl eq_refl eq_refl ltac:(discriminate)
                ltac:(apply surjective_pairing))
      as (_ & Hreg & Hoth & _).
    split; [exact Hreg |]. apply (Hoth (KStr "local")). discriminate.
  - intros st.
    destruct (Hout 0 [("messages", VRef 1); ("metadata", VRef 2)] "s1" VNone st
                eq_refl)
      as (st' & Hrun & _ & _ & ok & Hb).
    + split; [reflexivity |]. right. split; [reflexivity |].
      by exists 2, [("chat_id", VStr "local"); ("session_id", VStr "s1")].
    + split; [reflexivity |]. right. split; [reflexivity |].
      by exists 2, [("chat_id", VStr "local"); ("session_id", VStr "s1")].
    + reflexivity.
    + by exists st', ok.
Defined.

(** * The strict outlet without a trace *)

(** The calls of an inlet: the opening of a trace, the tag update of a
    trace that is reused, and the start record (a generation with a name,
    or an event).  The output update of a trace, the nameless generation
    that the outlet ends, its end and the flush are not among them. *)
Definition inlet_call (c : call) : bool :=
  match c with
  | CTrace _ | CEvent _ _ => true
  | CUpdate _ p =>
      match kw_get p "output" with None => true | Some _ => false end
  | CGeneration _ p =>
      match kw_get p "name" with Some _ => true | None => false end
  | CEnd _ _ | CFlush => false
  end.

Definition from_inlet (c : call * bool) : Prop := inlet_call c.1 = true.

(** The registries are left as they are at every key but [k]. *)
Definition models_same_but (k : key) (st st' : state) : Prop :=
  forall k', k' <> k -> model_names st' !! k' = model_names st !! k'.

#[global] Instance models_same_but_preorder k : PreOrder (models_same_but k).
Proof.
  split; [by intros st k' | ].
  intros x y z H1 H2 k' Hk. by rewrite (H2 k' Hk), (H1 k' Hk).
Qed.
#[global] Instance models_same_but_heap k : TolHeap (models_same_but k).
Proof. by intros st h k'. Qed.
#[global] Instance models_same_but_out k : TolOut (models_same_but k).
Proof. by intros st s k'. Qed.
#[global] Instance models_same_but_uuids k : TolUuids (models_same_but k).
Proof. by intros st n k'. Qed.
#[global] Instance models_same_but_traces k : TolTraces (models_same_but k).
Proof. by intros st m k'. Qed.
#[global] Instance models_same_but_call k c : TolCall (models_same_but k) c.
Proof. by intros st ok k'. Qed.
#[global] Instance models_same_but_at k : TolModelsAt (models_same_but k) k.
Proof. intros st r k' Hk. simpl. by rewrite lookup_insert_ne. Qed.

Section StrictUnmatched.

Context {E : env}.

(** Lines 219-223 of the strict outlet, as a function of the body [d] in
    the store [h] when [n] uuids have been drawn: the chat id of the body
    (or [None]); when that is "local", the temporary id made of the session
    id of the body, or else of the uuid drawn as its default. *)
Definition strict_outlet_chat_id (h : list obj) (n : nat) (d : dict) : val :=
  let chat_id := default VNone (dict_get d "chat_id") in
  if str_is chat_id "local"
  then temporary_session h (default (VStr (uuid4 n)) (dict_get d "session_id"))
  else chat_id.

(** The number of uuids drawn once the outlet has resolved its id. *)
Definition strict_outlet_uuids (n : nat) (d : dict) : nat :=
  if str_is (default VNone (dict_get d "chat_id")) "local"
  then Datatypes.S n else n.

#[local] Hint Extern 1 (Admits from_inlet _) =>
  intros ?; unfold from_inlet; simpl;
  first [ reflexivity | destruct (build_tags _); reflexivity ]
  : typeclass_instances.

Lemma strict_inlet_calls body user :
  preserves (appends from_inlet) (Strict.inlet body user).
Proof. unfold_strict. pres. Qed.

(** Lines 216-229 on a dict body whose metadata entry is absent or a
    dict. *)
Lemma strict_outlet_resolve_run b d st :
  heap st !! b = Some (ODict d) ->
  match dict_get d "metadata" with
  | Some m => is_dict (heap st) m = true
  | None => True
  end ->
  exists m task st1,
    Strict.outlet_resolve (VRef b) st
    = (Ok (strict_outlet_chat_id (heap st) (uuids st) d, m, task), st1) /\
    backend st1 = backend st /\ chat_traces st1 = chat_traces st /\
    model_names st1 = model_names st /\ langfuse st1 = langfuse st /\
    uuids st1 = strict_outlet_uuids (uuids st) d /\
    (forall l, l < length (heap st) -> heap st1 !! l = heap st !! l) /\
    (dict_get d "metadata" <> None -> heap st1 = heap st).
Proof.
  intros Hb Hm. unfold Strict.outlet_resolve. run_log. run_log.
  set (s0 := logged "User" (logged "Outlet called with body" st)).
  assert (Hh0 : heap s0 = heap st) by (unfold s0; by rewrite !heap_logged).
  assert (Hu0 : uuids s0 = uuids st) by (unfold s0; by rewrite !uuids_logged).
  assert (Hb0 : as_dict (heap s0) (VRef b) = Some d).
  { rewrite Hh0. by apply as_dict_lookup. }
  run (get_or_run (VRef b) "chat_id" VNone d s0 Hb0).
  assert (Hif : exists s1,
    (if str_is (default VNone (dict_get d "chat_id")) "local"
     then session_id <- get_or_uuid (VRef b) "session_id" ;;
          h <- get_heap ;;
          log "Generated temporary chat_id" ;;
          ret (temporary_session h session_id)
     else ret (default VNone (dict_get d "chat_id"))) s0
    = (Ok (strict_outlet_chat_id (heap st) (uuids st) d), s1) /\
    heap s1 = heap st /\ uuids s1 = strict_outlet_uuids (uuids st) d /\
    quiet s0 s1 /\ model_names s1 = model_names s0).
  { unfold strict_outlet_chat_id, strict_outlet_uuids.
    destruct (str_is (default VNone (dict_get d "chat_id")) "local").
    - run (get_or_uuid_run (VRef b) "session_id" d s0 Hb0).
      unfold get_heap at 1. unfold bind at 1. run_log.
      eexists. split; [unfold ret; simpl; by rewrite Hh0, Hu0 |].
      rewrite heap_logged, uuids_logged, model_names_logged. simpl.
      split; [done |]. split; [done |]. split; [| done].
      unfold quiet.
      by rewrite backend_logged, chat_traces_logged, langfuse_logged.
    - exists s0. by repeat split. }
  destruct Hif as (s1 & Hif & Hh1 & Hu1 & (Hq1 & Hq2 & Hq3) & Hn1). run Hif.
  assert (Hb1 : as_dict (heap s1) (VRef b) = Some d).
  { rewrite Hh1. by apply as_dict_lookup. }
  run (attr_get_run (VRef b) "metadata" d s1 Hb1).
  assert (H0 : forall h, h = heap st \/
                 (dict_get d "metadata" = None /\
                  exists o, h = heap st ++ [o]) ->
               (forall l, l < length (heap st) -> h !! l = heap st !! l)
               /\ (dict_get d "metadata" <> None -> h = heap st)).
  { intros h [-> | (Hnone & o & ->)].
    - by split.
    - split; [intros l Hl; by rewrite lookup_app_l | done]. }
  destruct (dict_get d "metadata") as [m |] eqn:Hmeta.
  - rewrite ret_run. apply is_dict_as_dict in Hm as (md & Hmd).
    rewrite <- Hh1 in Hmd.
    run (get_or_run m "task" (VStr "llm_response") md s1 Hmd).
    run_log. run_log. eexists _, _, _. split; [reflexivity |].
    rewrite !backend_logged, !chat_traces_logged, !model_names_logged,
      !langfuse_logged, !uuids_logged, !heap_logged.
    unfold s0 in Hq1, Hq2, Hq3, Hn1.
    rewrite !backend_logged in Hq1. rewrite !chat_traces_logged in Hq2.
    rewrite !langfuse_logged in Hq3. rewrite !model_names_logged in Hn1.
    split; [done |]. split; [done |]. split; [done |]. split; [done |].
    split; [done |]. apply (H0 (heap s1)). by left.
  - run (alloc_run (ODict []) s1).
    match goal with
    | |- context [bind (get_or ?v _ _) _ ?s] =>
        assert (Hmd : as_dict (heap s) v = Some [])
    end.
    { simpl. apply as_dict_lookup. by rewrite list_lookup_middle. }
    run (get_or_run _ "task" (VStr "llm_response") [] _ Hmd).
    run_log. run_log. eexists _, _, _. split; [reflexivity |].
    rewrite !backend_logged, !chat_traces_logged, !model_names_logged,
      !langfuse_logged, !uuids_logged, !heap_logged. simpl.
    unfold s0 in Hq1, Hq2, Hq3, Hn1.
    rewrite !backend_logged in Hq1. rewrite !chat_traces_logged in Hq2.
    rewrite !langfuse_logged in Hq3. rewrite !model_names_logged in Hn1.
    split; [done |]. split; [done |]. split; [done |]. split; [done |].
    split; [done |]. apply (H0 (heap s1 ++ [ODict []])).
    right. split; [done |]. rewrite Hh1. by eexists.
Qed.

(** The strict inlet changes the registries at no key but that of the id it
    resolves, whatever its outcome; when it returns, it returns the body
    and a trace is registered under that id. *)
Lemma strict_inlet_rest_touches body user m c ki :
  to_key c = Some ki ->
  preserves (fun st st' => traces_same_but ki st st' /\
                           models_same_but ki st st')
    (Strict.inlet_rest body user m c).
Proof.
  intros Hk st r st' H. split.
  - revert st r st' H.
    change (preserves (traces_same_but ki) (Strict.inlet_rest body user m c)).
    unfold Strict.inlet_rest.
    assert (Hsm : preserves (traces_same_but ki)
                    (Strict.store_model body m c))
      by (unfold_strict; pres).
    apply (preserves_bind_with _ _ _ _ Hsm (strict_store_model_key _ _ _)).
    intros k Hk'. assert (k = ki) as -> by congruence.
    unfold_strict. pres.
  - revert st r st' H.
    change (preserves (models_same_but ki) (Strict.inlet_rest body user m c)).
    unfold Strict.inlet_rest, Strict.store_model.
    repeat first
      [ apply (preserves_bind_with _ _ _ _ (preserves_hash_key _ _)
                 (returns_hash_key _));
        intros k Hk'; assert (k = ki) as -> by congruence
      | pres_step ].
    all: unfold_strict; pres.
Qed.

Lemma strict_inlet_rest_registers body user m c ki st v st' :
  to_key c = Some ki ->
  Strict.inlet_rest body user m c st = (Ok v, st') ->
  v = body /\ is_Some (chat_traces st' !! ki) /\
  is_Some (model_names st' !! ki).
Proof.
  intros Hk H. unfold Strict.inlet_rest in H.
  apply bind_ok in H as (k & s2 & Hsm & H).
  pose proof (strict_store_model_key _ _ _ _ _ _ Hsm) as Hk'.
  assert (k = ki) as -> by congruence.
  pose proof (strict_store_model_registers _ _ _ _ _ _ Hsm ki Hk) as Hreg.
  derive models_grow H. rename Hr into Hmodels.
  do 5 (apply bind_ok in H as (? & ? & _ & H)).
  apply bind_ok in H as (trace & s8 & Hopen & H).
  pose proof (strict_open_registers _ _ _ _ _ _ _ _ _ Hopen) as Htr.
  derive traces_grow H. rename Hr into Htraces.
  do 2 (apply bind_ok in H as (? & ? & _ & H)). injection H as <- <-.
  split; [done |]. split; [by apply Htraces | by apply Hmodels].
Qed.

Lemma strict_chat_id_nil h h' n :
  strict_chat_id h n [] = strict_chat_id h' n [].
Proof.
  unfold strict_chat_id. simpl. by destruct (str_is (VStr (uuid4 n)) "local").
Qed.

(** The strict inlet on a dict body whose metadata entry is the dict [md0],
    or is absent (and then [md0] is empty): the registries change at no key
    but that of the id of lines 110-116, whatever the outcome; when the
    inlet returns, it returns the body, and a trace and a model record are
    on file under that id. *)
Lemma strict_inlet_touches b d md0 user st r st' ki :
  heap st !! b = Some (ODict d) ->
  match dict_get d "metadata" with
  | Some m => as_dict (heap st) m = Some md0
  | None => md0 = []
  end ->
  to_key (strict_chat_id (heap st) (uuids st) md0) = Some ki ->
  Strict.inlet (VRef b) user st = (r, st') ->
  (forall k', k' <> ki ->
     chat_traces st' !! k' = chat_traces st !! k' /\
     model_names st' !! k' = model_names st !! k') /\
  (forall v, r = Ok v ->
     v = VRef b /\ is_Some (chat_traces st' !! ki) /\
     is_Some (model_names st' !! ki)).
Proof.
  intros Hb Hm Hk Hrun. unfold Strict.inlet in Hrun.
  do 2 rewrite (bind_step _ _ _ _ _ (log_run _ _)) in Hrun.
  set (s0 := logged "User" (logged "Inlet called with body" st)) in *.
  assert (Hh0 : heap s0 = heap st) by (unfold s0; by rewrite !heap_logged).
  assert (Hu0 : uuids s0 = uuids st) by (unfold s0; by rewrite !uuids_logged).
  assert (Hn0 : model_names s0 = model_names st)
    by (unfold s0; by rewrite !model_names_logged).
  assert (Ht0 : chat_traces s0 = chat_traces st)
    by (unfold s0; by rewrite !chat_traces_logged).
  assert (Hcases : exists lm,
            dict_get d "metadata" = Some (VRef lm) /\
            heap s0 !! lm = Some (ODict md0)
            \/ dict_get d "metadata" = None /\ lm = length (heap s0) /\
               md0 = []).
  { destruct (dict_get d "metadata") as [m |].
    - apply as_dict_ref in Hm as (lm & -> & Hlm). exists lm. left.
      by rewrite Hh0.
    - exists (length (heap s0)). by right. }
  destruct Hcases as (lm & Hcases).
  destruct (strict_resolve_run b d lm md0 s0) as
    (st1 & d1 & md1 & Hres & _); [by rewrite Hh0 | done |].
  rewrite Hh0, Hu0 in Hres.
  rewrite (bind_step _ _ _ _ _ Hres) in Hrun. cbn [fst snd] in Hrun.
  derive same_registries Hres. destruct Hr as [Ht1 Hn1].
  destruct (strict_inlet_rest_touches _ _ _ _ ki Hk _ _ _ Hrun) as [Ht Hn].
  split.
  - intros k' Hk'. rewrite (Ht k' Hk'), (Hn k' Hk'). split; congruence.
  - intros v ->. by eapply strict_inlet_rest_registers.
Qed.

(** The strict outlet from a state with no trace for the id [k] it
    resolves, on a dict body whose metadata entry is the dict [md0], or is
    absent (and then [md0] is empty). *)
Lemma strict_outlet_unmatched b d md0 user st k :
  heap st !! b = Some (ODict d) ->
  match dict_get d "metadata" with
  | Some m => as_dict (heap st) m = Some md0
  | None => md0 = []
  end ->
  to_key (strict_outlet_chat_id (heap st) (uuids st) d) = Some k ->
  chat_traces st !! k = None ->
  exists st1,
    Strict.outlet (VRef b) user st = Strict.inlet (VRef b) user st1 /\
    backend st1 = backend st /\ chat_traces st1 = chat_traces st /\
    model_names st1 = model_names st /\ langfuse st1 = langfuse st /\
    forall r st',
      Strict.outlet (VRef b) user st = (r, st') ->
      (exists calls,
          backend st' = backend st ++ calls /\ Forall from_inlet calls) /\
      forall ki,
        to_key (strict_chat_id (heap st)
                  (strict_outlet_uuids (uuids st) d) md0) = Some ki ->
        (forall k', k' <> ki ->
           chat_traces st' !! k' = chat_traces st !! k' /\
           model_names st' !! k' = model_names st !! k') /\
        (forall v, r = Ok v ->
           v = VRef b /\ is_Some (chat_traces st' !! ki) /\
           is_Some (model_names st' !! ki)).
Proof.
  intros Hb Hm Hk Hnone.
  destruct (strict_outlet_resolve_run b d st Hb) as
    (m & task & st1 & Hres & Hq1 & Hq2 & Hq3 & Hq4 & Hu1 & Hold & Hsame).
  { destruct (dict_get d "metadata"); [| done].
    unfold is_dict. by rewrite Hm. }
  set (s2 := logged "[WARNING] No matching trace for chat_id, re-running inlet"
               st1).
  assert (Heq : Strict.outlet (VRef b) user st = Strict.inlet (VRef b) user s2).
  { unfold Strict.outlet. run Hres. cbv beta iota zeta.
    run (hash_key_run _ k st1 Hk).
    unfold traces_get at 1. unfold bind at 1. rewrite Hq2, Hnone.
    by run_log. }
  exists s2. split; [exact Heq |]. unfold s2.
  rewrite backend_logged, chat_traces_logged, model_names_logged,
    langfuse_logged.
  split; [done |]. split; [done |]. split; [done |]. split; [done |].
  intros r st' Hrun. rewrite Heq in Hrun. split.
  - destruct (strict_inlet_calls _ _ _ _ _ Hrun) as (_ & calls & Hcalls & Hall).
    exists calls. split; [| done].
    by rewrite Hcalls; unfold s2; rewrite backend_logged, Hq1.
  - intros ki Hki.
    assert (Hb2 : heap s2 !! b = Some (ODict d)).
    { unfold s2. rewrite heap_logged, Hold; [done |].
      by eapply lookup_lt_Some. }
    assert (Hm2 : match dict_get d "metadata" with
                  | Some m => as_dict (heap s2) m = Some md0
                  | None => md0 = []
                  end).
    { destruct (dict_get d "metadata") as [m0 |] eqn:Hmeta; [| done].
      unfold s2. rewrite heap_logged, Hsame; done. }
    assert (Hki2 : to_key (strict_chat_id (heap s2) (uuids s2) md0) = Some ki).
    { unfold s2. rewrite uuids_logged, Hu1, heap_logged.
      destruct (dict_get d "metadata") as [m0 |] eqn:Hmeta.
      - by rewrite Hsame.
      - subst md0. by rewrite (strict_chat_id_nil _ (heap st)). }
    destruct (strict_inlet_touches b d md0 user s2 r st' ki Hb2 Hm2 Hki2 Hrun)
      as [Htouch Hok].
    split; [| exact Hok].
    intros k' Hk'. destruct (Htouch k' Hk') as [-> ->].
    unfold s2. by rewrite chat_traces_logged, model_names_logged, Hq2, Hq3.
Qed.

End StrictUnmatched.

(** A response whose own chat id is not the chat id of its metadata:
    [{"chat_id": "c2", "model": "gpt-4", "messages": [],
      "metadata": {"chat_id": "c1"}}] at location 0. *)
Definition turn_c2_c1 : list obj :=
  [ ODict [("chat_id", VStr "c2"); ("model", VStr "gpt-4");
           ("messages", VRef 1); ("metadata", VRef 2)];
    OList [];
    ODict [("chat_id", VStr "c1")] ].



(** * The values that the inlets leave in the metadata object *)

Section StrictValues.

Context {E : env}.

(** Lines 170-210, when they end normally: the type, the interface and, on
    a generation task, the model id and name found in the registry. *)
Lemma strict_record_start_values b lm d1 mdx task k trace tags r mv st st' :
  lm <> b ->
  heap st !! b = Some (ODict d1) ->
  dict_get d1 "model" = Some mv ->
  heap st !! lm = Some (ODict mdx) ->
  model_names st !! k = Some r ->
  dict_get r "id" = Some mv ->
  Strict.record_start (VRef b) (VRef lm) task k trace tags st = (Ok tt, st') ->
  heap st' !! lm
  = Some (ODict
      (let md2 := dict_set (dict_set mdx "type" task) "interface"
                    (VStr "open-webui") in
       if str_is task "llm_response"
       then dict_set (dict_set md2 "model_id" mv) "model_name"
              (default (VStr "unknown") (dict_get r "name"))
       else md2)) /\
  model_names st' = model_names st.
Proof.
  intros Hne Hb Hmv Hlm Hr Hid H. unfold Strict.record_start in H.
  rewrite (bind_step _ _ _ _ _ (setitem_run _ _ _ _ _ Hlm)) in H.
  set (s1 := set_heap _ st) in H.
  assert (Hlen : lm < length (heap st)) by (by eapply lookup_lt_Some).
  assert (Hlm1 : heap s1 !! lm = Some (ODict (dict_set mdx "type" task))).
  { unfold s1. simpl. by rewrite list_lookup_insert_eq. }
  rewrite (bind_step _ _ _ _ _ (setitem_run _ _ _ _ _ Hlm1)) in H.
  set (s2 := set_heap _ s1) in H.
  set (md2 := dict_set (dict_set mdx "type" task) "interface"
                (VStr "open-webui")) in *.
  assert (Hlm2 : heap s2 !! lm = Some (ODict md2)).
  { unfold s2. simpl. rewrite list_lookup_insert_eq; [done |].
    by rewrite length_insert. }
  assert (Hb2 : heap s2 !! b = Some (ODict d1)).
  { unfold s2, s1. simpl. by rewrite !list_lookup_insert_ne. }
  assert (Hr2 : model_names s2 !! k = Some r) by exact Hr.
  assert (Hn2 : model_names s2 = model_names st) by reflexivity.
  clearbody s2. clear s1 Hlm1.
  apply bind_ok in H as (g & s3 & Hg & H).
  pose proof (returns_in_generation_tasks _ _ _ _ Hg) as ->.
  assert (s3 = s2) as ->.
  { unfold in_generation_tasks in Hg.
    apply bind_ok in Hg as (kt & s & Hh & Hg).
    apply hash_key_inv in Hh as (_ & ->). by injection Hg as <-. }
  cbv zeta. destruct (str_is task "llm_response").
  - rewrite (bind_step _ _ _ _ _ (getitem_run _ _ _ _ _ Hb2 Hmv)) in H.
    assert (Hf1 : registry_field k "id" mv s2 = (Ok mv, s2)).
    { unfold registry_field, bind, registry_get. rewrite Hr2. simpl.
      by rewrite Hid. }
    rewrite (bind_step _ _ _ _ _ Hf1) in H.
    assert (Hf2 : registry_field k "name" (VStr "unknown") s2
                  = (Ok (default (VStr "unknown") (dict_get r "name")), s2)).
    { unfold registry_field, bind, registry_get. by rewrite Hr2. }
    rewrite (bind_step _ _ _ _ _ Hf2) in H. cbv zeta in H.
    rewrite (bind_step _ _ _ _ _ (setitem_run _ _ _ _ _ Hlm2)) in H.
    set (s4 := set_heap _ s2) in H.
    assert (Hlm4 : heap s4 !! lm = Some (ODict (dict_set md2 "model_id" mv))).
    { unfold s4. simpl. rewrite list_lookup_insert_eq; [done |].
      by eapply lookup_lt_Some. }
    rewrite (bind_step _ _ _ _ _ (setitem_run _ _ _ _ _ Hlm4)) in H.
    set (s5 := set_heap _ s4) in H.
    assert (Hlm5 : heap s5 !! lm
                   = Some (ODict (dict_set (dict_set md2 "model_id" mv)
                                    "model_name"
                                    (default (VStr "unknown")
                                       (dict_get r "name"))))).
    { unfold s5. simpl. rewrite list_lookup_insert_eq; [done |].
      by eapply lookup_lt_Some. }
    assert (Hn5 : model_names s5 = model_names s2) by reflexivity.
    clearbody s5.
    derive same_heap H. derive models_fixed H.
    unfold same_heap in Hr0. unfold models_fixed in Hr1.
    split; [by rewrite Hr0 | congruence].
  - derive same_heap H. derive models_fixed H.
    unfold same_heap in Hr0. unfold models_fixed in Hr1.
    split; [by rewrite Hr0 | congruence].
Qed.

Lemma strict_validate_ok b dB st st' :
  heap st !! b = Some (ODict dB) ->
  Strict.validate (VRef b) st = (Ok tt, st') ->
  st' = st /\ exists mv, dict_get dB "model" = Some mv.
Proof.
  intros Hb H. unfold Strict.validate in H.
  rewrite (bind_step _ _ _ _ _ (contains_run _ _ _ _ Hb)) in H.
  rewrite (bind_step _ _ _ _ _ (contains_run _ _ _ _ Hb)) in H.
  unfold dict_has in H. destruct (dict_get dB "model") as [mv |].
  - destruct (dict_get dB "messages"); simpl in H.
    + injection H as <-. split; [done | by exists mv].
    + rewrite (bind_step _ _ _ _ _ (log_run _ _)) in H. discriminate H.
  - simpl in H. rewrite (bind_step _ _ _ _ _ (log_run _ _)) in H.
    discriminate H.
Qed.

(** The metadata object after a strict inlet that returned, on a dict body
    whose metadata entry is the dict [md0] at [lm], or is absent (and then
    [lm] is the new object and [md0] is empty). *)
Lemma strict_inlet_values b d lm md0 user st v st' :
  heap st !! b = Some (ODict d) ->
  (dict_get d "metadata" = Some (VRef lm) /\ heap st !! lm = Some (ODict md0))
  \/ (dict_get d "metadata" = None /\ lm = length (heap st) /\ md0 = []) ->
  lm <> b ->
  Strict.inlet (VRef b) user st = (Ok v, st') ->
  let c := strict_chat_id (heap st) (uuids st) md0 in
  let task := default (VStr "user_response") (dict_get md0 "task") in
  exists md k r mv,
    heap st' !! lm = Some (ODict md) /\
    dict_get md "chat_id" = Some c /\
    to_key c = Some k /\
    model_names st' !! k = Some r /\
    dict_get d "model" = Some mv /\
    dict_get r "id" = Some mv /\
    ((forall l, dict_get md0 "model" = Some (VRef l) -> l <> b /\ l <> lm) ->
     dict_get r "name"
     = match model_info_name (heap st) md0 with
       | Some name => Some name
       | None => model_names st !! k ≫= (fun r0 => dict_get r0 "name")
       end) /\
    dict_get md "type" = Some task /\
    dict_get md "interface" = Some (VStr "open-webui") /\
    (str_is task "llm_response" = true ->
     dict_get md "model_id" = Some mv /\
     dict_get md "model_name"
     = Some (default (VStr "unknown") (dict_get r "name"))) /\
    (forall K, K <> "chat_id" -> K <> "type" -> K <> "interface" ->
       K <> "model_id" -> K <> "model_name" ->
       dict_get md K = dict_get md0 K) /\
    exists d', heap st' !! b = Some (ODict d') /\
      dict_get d' "metadata" = Some (VRef lm).
Proof.
  intros Hb Hm Hlmb H c task. unfold Strict.inlet in H.
  do 2 rewrite (bind_step _ _ _ _ _ (log_run _ _)) in H.
  set (s0 := logged "User" (logged "Inlet called with body" st)) in *.
  assert (Hh0 : heap s0 = heap st) by (unfold s0; by rewrite !heap_logged).
  assert (Hu0 : uuids s0 = uuids st) by (unfold s0; by rewrite !uuids_logged).
  assert (Hn0 : model_names s0 = model_names st)
    by (unfold s0; by rewrite !model_names_logged).
  destruct (strict_resolve_run b d lm md0 s0) as
    (s1 & d1 & md1 & Hres & Hb1 & _ & Hlm1 & _ & _ & Hexact & Hoth1);
    [by rewrite Hh0 | by rewrite Hh0 |].
  destruct (Hexact Hlmb) as [-> ->]. clear Hexact.
  rewrite Hh0, Hu0 in Hres, Hlm1. rewrite Hh0 in Hoth1.
  fold c in Hres, Hlm1.
  rewrite (bind_step _ _ _ _ _ Hres) in H. cbn [fst snd] in H.
  derive same_registries Hres. destruct Hr as [_ Hn1].
  derive (keeps b "metadata") H. rename Hr into Hkeep.
  destruct (Hkeep _ Hb1) as (d' & Hd' & Hmeta').
  rewrite dict_get_set_eq in Hmeta'. clear Hkeep.
  unfold Strict.inlet_rest in H.
  apply bind_ok in H as (k & s2 & Hsm & H).
  destruct (strict_store_model_inv _ _ _ _ _ _ Hsm)
    as (dB & mdB & r & HdB & HmdB & Hk & Hr & Hid & Hname & _ & _ & Hh2 & _).
  rewrite (as_dict_lookup _ _ _ Hb1) in HdB. injection HdB as <-.
  rewrite (as_dict_lookup _ _ _ Hlm1) in HmdB. injection HmdB as <-.
  rewrite dict_get_set_ne in Hid by done.
  apply bind_ok in H as ([] & s3 & Hval & H).
  apply strict_validate_ok with (dB := dict_set d "metadata" (VRef lm))
    in Hval as (-> & mv & Hmv); [| by rewrite Hh2].
  rewrite dict_get_set_ne in Hmv by done. rewrite Hmv in Hid. simpl in Hid.
  apply bind_ok in H as (user_email & s4 & Hue & H).
  derive same_heap Hue. rename Hr0 into Hh4.
  derive models_fixed Hue. rename Hr0 into Hn4. clear Hue.
  unfold same_heap in Hh4. unfold models_fixed in Hn4.
  apply bind_ok in H as (task_name & s5 & Htask & H).
  apply get_or_inv in Htask as (mdt & Hmdt & -> & ->).
  rewrite Hh4, Hh2, (as_dict_lookup _ _ _ Hlm1) in Hmdt.
  injection Hmdt as <-. rewrite dict_get_set_ne in H by done. fold task in H.
  do 2 (apply bind_ok in H as ([] & ? & Hlog & H);
        rewrite log_run in Hlog; injection Hlog as <-).
  apply bind_ok in H as (trace & s8 & Hopen & H).
  derive same_heap Hopen. rename Hr0 into Hh8.
  derive models_fixed Hopen. rename Hr0 into Hn8. clear Hopen.
  unfold same_heap in Hh8. unfold models_fixed in Hn8.
  rewrite !heap_logged in Hh8. rewrite !model_names_logged in Hn8.
  apply bind_ok in H as ([] & s9 & Hrec & H).
  assert (Hb8 : heap s8 !! b = Some (ODict (dict_set d "metadata" (VRef lm))))
    by (by rewrite Hh8, Hh4, Hh2).
  assert (Hlm8 : heap s8 !! lm = Some (ODict (dict_set md0 "chat_id" c)))
    by (by rewrite Hh8, Hh4, Hh2).
  assert (Hr8 : model_names s8 !! k = Some r) by (by rewrite Hn8, Hn4).
  assert (Hmv8 : dict_get (dict_set d "metadata" (VRef lm)) "model" = Some mv)
    by (by rewrite dict_get_set_ne).
  destruct (strict_record_start_values b lm _ _ task k trace _ r mv s8 s9
              Hlmb Hb8 Hmv8 Hlm8 Hr8 Hid Hrec) as (Hlm9 & Hn9).
  apply bind_ok in H as ([] & s10 & Hlog & H).
  rewrite log_run in Hlog. injection Hlog as <-. injection H as _ <-.
  rewrite heap_logged in Hd'. rewrite heap_logged, model_names_logged.
  eexists _, k, r, mv. split; [exact Hlm9 |]. cbv zeta.
  split.
  { destruct (str_is task "llm_response"); by dict_simpl. }
  split; [done |].
  split; [by rewrite Hn9, Hn8, Hn4 |].
  split; [done |]. split; [done |].
  split.
  { intros Hguard. rewrite Hname, Hn1, Hn0.
    assert (Hmi : model_info_name (heap s1) (dict_set md0 "chat_id" c)
                  = model_info_name (heap st) md0).
    { unfold model_info_name. rewrite dict_get_set_ne by done.
      destruct (dict_get md0 "model") as [mi |] eqn:Hmodel; [| done].
      destruct mi as [| | | | l]; try done.
      destruct (Hguard l eq_refl) as [Hl1 Hl2].
      unfold as_dict, deref. by rewrite Hoth1. }
    by rewrite Hmi. }
  split.
  { destruct (str_is task "llm_response"); by dict_simpl. }
  split.
  { destruct (str_is task "llm_response"); by dict_simpl. }
  split.
  { intros ->. by dict_simpl. }
  split; [| by exists d'].
  intros K H1 H2 H3 H4 H5.
  destruct (str_is task "llm_response"); by dict_simpl.
Qed.

End StrictValues.

Section DefensiveValues.

Context {E : env}.

(** Lines 242-283, when they end normally (as they always do): the type,
    the interface and, on a generation task, the model id and name that
    the registry block returned. *)
Lemma defensive_record_start_values body lm mdx task id name trace tags
    st st' :
  heap st !! lm = Some (ODict mdx) ->
  Defensive.record_start body (VRef lm) task id name trace tags st
  = (Ok tt, st') ->
  exists md,
    heap st' !! lm = Some (ODict md) /\
    dict_get md "type" = Some task /\
    dict_get md "interface"
    = Some (default (VStr "open-webui") (dict_get mdx "interface")) /\
    (str_is task "llm_response" = true ->
     dict_get md "model_id" = Some id /\ dict_get md "model_name" = Some name)
    /\
    (forall K, K <> "type" -> K <> "interface" -> K <> "model_id" ->
       K <> "model_name" -> dict_get md K = dict_get mdx K) /\
    model_names st' = model_names st.
Proof.
  intros Hlm H. derive models_fixed H. rename Hr into Hmodels.
  unfold Defensive.record_start in H.
  rewrite (bind_step _ _ _ _ _ (setitem_run _ _ _ _ _ Hlm)) in H.
  set (s1 := set_heap _ st) in H.
  assert (Hlen : lm < length (heap st)) by (by eapply lookup_lt_Some).
  assert (Hlm1 : heap s1 !! lm = Some (ODict (dict_set mdx "type" task))).
  { unfold s1. simpl. by rewrite list_lookup_insert_eq. }
  rewrite (bind_step _ _ _ _ _
             (get_or_run _ _ _ _ _ (as_dict_lookup _ _ _ Hlm1))) in H.
  rewrite dict_get_set_ne in H by done.
  set (interface := default (VStr "open-webui") (dict_get mdx "interface"))
    in *.
  rewrite (bind_step _ _ _ _ _ (setitem_run _ _ _ _ _ Hlm1)) in H.
  set (s3 := set_heap _ s1) in H.
  set (md3 := dict_set (dict_set mdx "type" task) "interface" interface).
  assert (Hlm3 : heap s3 !! lm = Some (ODict md3)).
  { unfold s3. simpl. rewrite list_lookup_insert_eq; [done |].
    by rewrite length_insert. }
  clearbody s3. clear s1 Hlm1.
  apply try_except_run in H as (r1 & s4 & Hin & H).
  assert (Hlast : heap st' = heap s4).
  { destruct r1 as [a | e]; [by destruct H as [_ ->] |].
    rewrite log_run in H. injection H as <-. apply heap_logged. }
  clear H. rewrite Hlast. clear Hlast.
  destruct (str_is task "llm_response") eqn:Hgen.
  - apply str_is_eq in Hgen as ->.
    rewrite (bind_step _ _ _ _ _
               (eq_refl : in_generation_tasks (VStr "llm_response") s3
                          = (Ok true, s3))) in Hin.
    cbv zeta in Hin.
    rewrite (bind_step _ _ _ _ _ (setitem_run _ _ _ _ _ Hlm3)) in Hin.
    set (s5 := set_heap _ s3) in Hin.
    assert (Hlm5 : heap s5 !! lm = Some (ODict (dict_set md3 "model_id" id))).
    { unfold s5. simpl. rewrite list_lookup_insert_eq; [done |].
      by eapply lookup_lt_Some. }
    rewrite (bind_step _ _ _ _ _ (setitem_run _ _ _ _ _ Hlm5)) in Hin.
    set (s6 := set_heap _ s5) in Hin.
    set (md6 := dict_set (dict_set md3 "model_id" id) "model_name" name).
    assert (Hlm6 : heap s6 !! lm = Some (ODict md6)).
    { unfold s6. simpl. rewrite list_lookup_insert_eq; [done |].
      by eapply lookup_lt_Some. }
    clearbody s6.
    derive (fixed lm md6) Hin. exists md6. split; [by apply Hr |].
    unfold md6, md3.
    split; [by dict_simpl |]. split; [by dict_simpl |].
    split; [intros _; by dict_simpl |].
    split; [intros K H1 H2 H3 H4; by dict_simpl | done].
  - assert (Hkeep : heap s4 !! lm = Some (ODict md3)).
    { apply bind_run in Hin as [(g & s & Hg & Hin) | (e & Hg & _)].
      - pose proof (returns_in_generation_tasks _ _ _ _ Hg) as ->.
        rewrite Hgen in Hin. derive (fixed lm md3) Hg.
        derive (fixed lm md3) Hin. by apply Hr0, Hr.
      - derive (fixed lm md3) Hg. by apply Hr. }
    exists md3. split; [done |]. unfold md3.
    split; [by dict_simpl |]. split; [by dict_simpl |].
    split; [done |].
    split; [intros K H1 H2 H3 H4; by dict_simpl | done].
Qed.

Lemma as_dict_set_metadata h b d x v :
  h !! b = Some (ODict d) ->
  as_dict (<[b := ODict (dict_set d "metadata" x)]> h) v
  = if decide (v = VRef b) then Some (dict_set d "metadata" x)
    else as_dict h v.
Proof.
  intros Hb. unfold as_dict, deref. destruct v as [| | | | l]; try done.
  destruct (decide (VRef l = VRef b)) as [[= ->] | Hne].
  - rewrite list_lookup_insert_eq; [done | by eapply lookup_lt_Some].
  - rewrite list_lookup_insert_ne; [done | congruence].
Qed.

(** An entry other than "metadata" of a dict value is read alike before
    and after [body["metadata"] = x]. *)
Lemma entry_set_metadata h b d x v K :
  h !! b = Some (ODict d) -> K <> "metadata" ->
  (as_dict (<[b := ODict (dict_set d "metadata" x)]> h) v
     ≫= fun dm => Some (dict_get dm K))
  = (as_dict h v ≫= fun dm => Some (dict_get dm K)).
Proof.
  intros Hb HK. rewrite (as_dict_set_metadata _ _ _ _ _ Hb).
  destruct (decide (v = VRef b)) as [-> | Hne]; [| done].
  rewrite (as_dict_lookup _ _ _ Hb). simpl. by rewrite dict_get_set_ne.
Qed.

(** The id and the name that lines 172-193 find for the body [d] and the
    metadata [md] in the store [h]. *)
Definition model_found (h : list obj) (d md : dict) (id name : val) : Prop :=
  let model := default VNone (dict_get d "model") in
  match as_dict h model with
  | Some dm =>
      id = default (VStr "unknown") (dict_get dm "id") /\
      name = default (VStr "unknown") (dict_get dm "name")
  | None =>
      if is_str model
      then id = model /\
           name = default (VStr "unknown") (model_info_name h md)
      else id = VStr "unknown" /\ name = VStr "unknown"
  end.

Lemma model_found_set_metadata h b d x md id name :
  h !! b = Some (ODict d) ->
  model_found (<[b := ODict (dict_set d "metadata" x)]> h)
    (dict_set d "metadata" x) md id name ->
  model_found h d md id name.
Proof.
  intros Hb. unfold model_found. rewrite dict_get_set_ne by done.
  set (model := default VNone (dict_get d "model")).
  pose proof (entry_set_metadata h b d x model "id" Hb ltac:(done)) as Hid.
  pose proof (entry_set_metadata h b d x model "name" Hb ltac:(done)) as Hnm.
  assert (Hinfo : model_info_name (<[b := ODict (dict_set d "metadata" x)]> h)
                    md = model_info_name h md).
  { unfold model_info_name. destruct (dict_get md "model") as [mi |]; [| done].
    pose proof (entry_set_metadata h b d x mi "name" Hb ltac:(done)) as Hmi.
    destruct (as_dict _ mi), (as_dict h mi); simpl in Hmi; congruence. }
  rewrite Hinfo.
  destruct (as_dict (<[b := _]> h) model) as [dm' |],
    (as_dict h model) as [dm |]; simpl in Hid, Hnm; try done.
  injection Hid as ->. injection Hnm as ->. done.
Qed.

(** Lines 167-285 on the metadata object [lm], which holds [md1] and is
    not the body, when they return. *)
Lemma defensive_inlet_rest_values b d lm md1 user st v st' :
  heap st !! b = Some (ODict d) ->
  heap st !! lm = Some (ODict md1) ->
  lm <> b ->
  Defensive.inlet_rest (VRef b) user (VRef lm) st = (Ok v, st') ->
  let task := default (default (VStr "user_response") (dict_get md1 "type"))
                (dict_get md1 "task") in
  exists md k id name r,
    heap st' !! lm = Some (ODict md) /\
    dict_get md "chat_id" = dict_get md1 "chat_id" /\
    to_key (default VNone (dict_get md1 "chat_id")) = Some k /\
    model_names st' !! k = Some r /\
    dict_get r "id" = Some id /\ dict_get r "name" = Some name /\
    model_found (heap st) d md1 id name /\
    (is_Some (chat_traces st' !! k) ->
     dict_get md "type" = Some task /\
     dict_get md "interface"
     = Some (default (VStr "open-webui") (dict_get md1 "interface")) /\
     (str_is task "llm_response" = true ->
      dict_get md "model_id" = Some id /\
      dict_get md "model_name" = Some name)) /\
    exists d', heap st' !! b = Some (ODict d') /\
      dict_get d' "metadata" = Some (VRef lm).
Proof.
  intros Hb Hlm Hne H task. unfold Defensive.inlet_rest in H.
  rewrite (bind_step _ _ _ _ _
             (get_or_run _ _ _ _ _ (as_dict_lookup _ _ _ Hlm))) in H.
  rewrite (bind_step _ _ _ _ _ (setitem_run _ _ _ _ _ Hb)) in H.
  set (s2 := set_heap _ st) in H.
  assert (Hb2 : heap s2 !! b = Some (ODict (dict_set d "metadata" (VRef lm)))).
  { unfold s2. simpl. rewrite list_lookup_insert_eq; [done |].
    by eapply lookup_lt_Some. }
  assert (Hlm2 : heap s2 !! lm = Some (ODict md1)).
  { unfold s2. simpl. by rewrite list_lookup_insert_ne. }
  assert (Hn2 : model_names s2 = model_names st) by reflexivity.
  assert (Hbody : exists d', heap st' !! b = Some (ODict d') /\
            dict_get d' "metadata" = Some (VRef lm)).
  { derive (keeps b "metadata") H. destruct (Hr _ Hb2) as (d' & Hd' & Hmeta').
    rewrite dict_get_set_eq in Hmeta'. by exists d'. }
  apply bind_ok in H as ([[k id] name] & s3 & Hsm & H). cbv beta iota in H.
  destruct (defensive_store_model_inv _ _ _ _ _ _ _ _ Hsm)
    as (dB & mdB & r & HdB & HmdB & Hk & Hr & Hid & Hname & Hfound & _ & _
        & Hh3 & _).
  rewrite (as_dict_lookup _ _ _ Hb2) in HdB. injection HdB as <-.
  rewrite (as_dict_lookup _ _ _ Hlm2) in HmdB. injection HmdB as <-.
  apply (model_found_set_metadata (heap st) b d (VRef lm) md1 id name Hb)
    in Hfound.
  assert (Hlm3 : heap s3 !! lm = Some (ODict md1)) by (by rewrite Hh3).
  clear Hsm.
  apply bind_ok in H as ([] & s4 & Hens & H).
  derive (fixed lm md1) Hens. rename Hr0 into Hf4.
  derive models_fixed Hens. rename Hr0 into Hn4. clear Hens.
  apply bind_ok in H as (other & s5 & Hoth & H).
  apply get_or_inv in Hoth as (? & _ & _ & ->).
  apply bind_ok in H as (user_email & s6 & Hue & H).
  derive (fixed lm md1) Hue. rename Hr0 into Hf6.
  derive models_fixed Hue. rename Hr0 into Hn6. clear Hue.
  assert (Hlm6 : heap s6 !! lm = Some (ODict md1)) by (by apply Hf6, Hf4).
  rewrite (bind_step _ _ _ _ _
             (get_or_run _ _ _ _ _ (as_dict_lookup _ _ _ Hlm6))) in H.
  rewrite (bind_step _ _ _ _ _
             (get_or_run _ _ _ _ _ (as_dict_lookup _ _ _ Hlm6))) in H.
  fold task in H. cbv zeta in H.
  apply bind_ok in H as (t & s9 & Hopen & H).
  derive (fixed lm md1) Hopen. rename Hr0 into Hf9.
  derive models_fixed Hopen. rename Hr0 into Hn9.
  assert (Hlm9 : heap s9 !! lm = Some (ODict md1)) by (by apply Hf9).
  assert (Hr9 : model_names s9 !! k = Some r).
  { unfold models_fixed in *. by rewrite Hn9, Hn6, Hn4. }
  destruct t as [trace |].
  - apply bind_ok in H as ([] & s10 & Hrec & H). injection H as _ <-.
    destruct (defensive_record_start_values _ _ _ _ _ _ _ _ _ _ Hlm9 Hrec)
      as (md & Hmd & Htype & Hint & Hgen & Hframe & Hn10).
    exists md, k, id, name, r. split; [done |].
    split; [by apply Hframe |]. split; [done |].
    split; [by rewrite Hn10 |]. split; [done |]. split; [done |].
    split; [done |]. split; [| exact Hbody].
    intros _. split; [done |]. split; [done | exact Hgen].
  - injection H as _ <-. apply defensive_open_none in Hopen.
    exists md1, k, id, name, r. split; [done |]. split; [done |].
    split; [done |]. split; [done |]. split; [done |]. split; [done |].
    split; [done |]. split; [| exact Hbody].
    intros Hsome. rewrite Hopen in Hsome. by destruct Hsome.
Qed.

(** [_extract_metadata] never writes a "task" entry. *)
Lemma extract_metadata_no_task b d st m st' md :
  heap st !! b = Some (ODict d) ->
  dict_get d "metadata" = None ->
  Defensive.extract_metadata (VRef b) st = (Ok m, st') ->
  heap st' !! length (heap st) = Some (ODict md) ->
  dict_get md "task" = None.
Proof.
  intros Hb Hm H Hmd. unfold Defensive.extract_metadata in H.
  rewrite (bind_step _ _ _ _ _ (contains_run _ _ _ _ Hb)) in H.
  unfold dict_has at 1 in H. rewrite Hm in H.
  rewrite (bind_step _ _ _ _ _ (alloc_run _ _)) in H.
  set (n := length (heap st)) in *.
  derive (keeps n "task") H.
  destruct (Hr []) as (md' & Hmd' & Htask).
  { simpl. by apply list_lookup_middle. }
  pose proof (eq_trans (eq_sym Hmd) Hmd') as Heq. by injection Heq as ->.
Qed.

(** The defensive inlet that returned, on a dict body whose metadata entry
    is the dict [md0] at [lm], not the body itself. *)
Lemma defensive_inlet_values_present b d lm md0 user st v st' :
  heap st !! b = Some (ODict d) ->
  dict_get d "metadata" = Some (VRef lm) ->
  heap st !! lm = Some (ODict md0) ->
  lm <> b ->
  Defensive.inlet (VRef b) user st = (Ok v, st') ->
  let task := default (default (VStr "user_response") (dict_get md0 "type"))
                (dict_get md0 "task") in
  exists md k id name r,
    heap st' !! lm = Some (ODict md) /\
    dict_get md "chat_id" = dict_get md0 "chat_id" /\
    to_key (default VNone (dict_get md0 "chat_id")) = Some k /\
    model_names st' !! k = Some r /\
    dict_get r "id" = Some id /\ dict_get r "name" = Some name /\
    model_found (heap st) d md0 id name /\
    (is_Some (chat_traces st' !! k) ->
     dict_get md "type" = Some task /\
     dict_get md "interface"
     = Some (default (VStr "open-webui") (dict_get md0 "interface")) /\
     (str_is task "llm_response" = true ->
      dict_get md "model_id" = Some id /\
      dict_get md "model_name" = Some name)) /\
    exists d', heap st' !! b = Some (ODict d') /\
      dict_get d' "metadata" = Some (VRef lm).
Proof.
  intros Hb Hmeta Hlm Hne H task. unfold Defensive.inlet in H.
  change (when (debug cfg) (print "[DEBUG] Received request"))
    with (log "[DEBUG] Received request") in H.
  rewrite (bind_step _ _ _ _ _ (log_run _ _)) in H.
  assert (Hb1 : is_dict (heap (logged "[DEBUG] Received request" st)) (VRef b)
                = true).
  { rewrite heap_logged. unfold is_dict. by rewrite (as_dict_lookup _ _ _ Hb). }
  rewrite (bind_step _ _ _ _ _ (keys_of_run _ _ Hb1)) in H.
  rewrite (bind_step _ _ _ _ _ (log_run _ _)) in H.
  set (s0 := logged _ (logged _ st)) in *.
  assert (Hh0 : heap s0 = heap st) by (unfold s0; by rewrite !heap_logged).
  assert (Hb0 : heap s0 !! b = Some (ODict d)) by (by rewrite Hh0).
  assert (Hlm0 : heap s0 !! lm = Some (ODict md0)) by (by rewrite Hh0).
  assert (Hex : Defensive.extract_metadata (VRef b) s0 = (Ok (VRef lm), s0)).
  { unfold Defensive.extract_metadata.
    rewrite (bind_step _ _ _ _ _ (contains_run _ _ _ _ Hb0)).
    unfold dict_has. rewrite Hmeta. by apply getitem_run with d. }
  rewrite (bind_step _ _ _ _ _ Hex) in H.
  destruct (defensive_inlet_rest_values b d lm md0 user s0 v st'
              Hb0 Hlm0 Hne H) as (md & k & id & name & r & Hrest).
  rewrite Hh0 in Hrest. by exists md, k, id, name, r.
Qed.

(** The defensive inlet that returned, on a dict body without a metadata
    entry whose model entry, if it is an object, is in the store. *)
Lemma defensive_inlet_values_absent b d user st v st' :
  heap st !! b = Some (ODict d) ->
  dict_get d "metadata" = None ->
  Defensive.inlet (VRef b) user st = (Ok v, st') ->
  let lm := length (heap st) in
  let h := heap st ++ [ODict []] in
  let a := default VNone (dict_get d "chat_id") in
  let c := if truthy h a then a else VStr (uuid4 (uuids st)) in
  let sid := default VNone (dict_get d "session_id") in
  let chat_id := if str_is c "local" && truthy h sid
                 then temporary_session h sid else c in
  let task := default (VStr "user_response") (dict_get d "type") in
  let model := default VNone (dict_get d "model") in
  exists md k id name r,
    heap st' !! lm = Some (ODict md) /\
    dict_get md "chat_id" = Some chat_id /\
    to_key chat_id = Some k /\
    model_names st' !! k = Some r /\
    dict_get r "id" = Some id /\ dict_get r "name" = Some name /\
    ((forall l, dict_get d "model" = Some (VRef l) -> l < length (heap st)) ->
     match as_dict (heap st) model with
     | Some dm =>
         id = default (VStr "unknown") (dict_get dm "id") /\
         name = default (VStr "unknown") (dict_get dm "name")
     | None =>
         (if is_str model then id = model else id = VStr "unknown") /\
         name = VStr "unknown"
     end) /\
    (is_Some (chat_traces st' !! k) ->
     dict_get md "type" = Some task /\
     dict_get md "interface"
     = Some (default (VStr "open-webui") (dict_get d "interface")) /\
     (str_is task "llm_response" = true ->
      dict_get md "model_id" = Some id /\
      dict_get md "model_name" = Some name)) /\
    exists d', heap st' !! b = Some (ODict d') /\
      dict_get d' "metadata" = Some (VRef lm).
Proof.
  intros Hb Hmeta H lm h a c sid chat_id task model.
  unfold Defensive.inlet in H.
  change (when (debug cfg) (print "[DEBUG] Received request"))
    with (log "[DEBUG] Received request") in H.
  rewrite (bind_step _ _ _ _ _ (log_run _ _)) in H.
  assert (Hb1 : is_dict (heap (logged "[DEBUG] Received request" st)) (VRef b)
                = true).
  { rewrite heap_logged. unfold is_dict. by rewrite (as_dict_lookup _ _ _ Hb). }
  rewrite (bind_step _ _ _ _ _ (keys_of_run _ _ Hb1)) in H.
  rewrite (bind_step _ _ _ _ _ (log_run _ _)) in H.
  set (s0 := logged _ (logged _ st)) in *.
  assert (Hh0 : heap s0 = heap st) by (unfold s0; by rewrite !heap_logged).
  assert (Hu0 : uuids s0 = uuids st) by (unfold s0; by rewrite !uuids_logged).
  assert (Hb0 : heap s0 !! b = Some (ODict d)) by (by rewrite Hh0).
  destruct (extract_metadata_run s0 b d Hb0 Hmeta)
    as (s1 & md1 & Hex & Hn1 & Hold1 & Hc1 & Hcopied & Hmodel).
  pose proof (extract_metadata_no_task b d s0 _ s1 md1 Hb0 Hmeta Hex Hn1)
    as Hnotask.
  rewrite Hh0 in Hn1, Hold1, Hmodel, Hex. rewrite Hh0, Hu0 in Hc1.
  fold lm in Hn1, Hold1, Hex. fold h a c sid chat_id in Hc1.
  fold h in Hmodel.
  rewrite (bind_step _ _ _ _ _ Hex) in H.
  assert (Hlt : b < lm) by (by eapply lookup_lt_Some).
  assert (Hb1' : heap s1 !! b = Some (ODict d))
    by exact (eq_trans (Hold1 b Hlt) Hb).
  destruct (defensive_inlet_rest_values b d lm md1 user s1 v st'
              Hb1' Hn1 ltac:(lia) H)
    as (md & k & id & name & r & Hmd & Hchat & Hk & Hr & Hid & Hname
        & Hfound & Htail & Hbody).
  rewrite Hc1 in Hchat, Hk. simpl in Hk.
  rewrite (Hcopied "type"), (Hcopied "interface"), Hnotask in Htail;
    [| simpl; tauto | simpl; tauto].
  exists md, k, id, name, r.
  split; [done |]. split; [done |]. split; [done |]. split; [done |].
  split; [done |]. split; [done |]. split; [| by split].
  intros Hin.
  unfold model_found in Hfound. subst model. cbv zeta in Hfound.
  destruct (dict_get d "model") as [mv |] eqn:Hmv; simpl in *; [| done].
  assert (Hsame : as_dict (heap s1) mv = as_dict (heap st) mv).
  { unfold as_dict, deref. destruct mv as [| | | | l]; try done.
    pose proof (Hold1 l (Hin l eq_refl)) as Hl.
    unfold loc in *. by rewrite Hl. }
  rewrite Hsame in Hfound.
  destruct (as_dict (heap st) mv) as [dm |] eqn:Hdm; [done |].
  assert (Hnd : is_dict h mv = false).
  { unfold is_dict.
    assert (as_dict h mv = as_dict (heap st) mv) as ->; [| by rewrite Hdm].
    unfold as_dict, deref. destruct mv as [| | | | l]; try done.
    unfold h. by rewrite lookup_app_l by (by apply Hin). }
  rewrite Hnd in Hmodel.
  destruct (is_str mv); [| done].
  destruct Hmodel as (lw & Hlw & Hw). destruct Hfound as [-> ->].
  split; [done |]. unfold model_info_name. rewrite Hlw.
  by rewrite (as_dict_lookup _ _ _ Hw).
Qed.

End DefensiveValues.

Section Coverage.

Context {E : env}.

(** An inlet that returns has found a dict for the metadata. *)
Lemma strict_inlet_metadata_dict b d x user st v st' :
  heap st !! b = Some (ODict d) ->
  dict_get d "metadata" = Some x ->
  Strict.inlet (VRef b) user st = (Ok v, st') ->
  exists lm md0, x = VRef lm /\ heap st !! lm = Some (ODict md0).
Proof.
  intros Hb Hx H. unfold Strict.inlet in H.
  do 2 rewrite (bind_step _ _ _ _ _ (log_run _ _)) in H.
  set (s0 := logged "User" (logged "Inlet called with body" st)) in *.
  assert (Hh0 : heap s0 = heap st) by (unfold s0; by rewrite !heap_logged).
  assert (Hb0 : as_dict (heap s0) (VRef b) = Some d).
  { rewrite Hh0. by apply as_dict_lookup. }
  apply bind_ok in H as (mc & s1 & Hres & _). unfold Strict.resolve in Hres.
  rewrite (bind_step _ _ _ _ _ (attr_get_run _ "metadata" _ _ Hb0)) in Hres.
  rewrite Hx, ret_run in Hres.
  apply bind_ok in Hres as (c & s2 & Hget & _).
  apply get_or_uuid_inv in Hget as (md0 & Hmd0 & _).
  rewrite Hh0 in Hmd0.
  apply as_dict_ref in Hmd0 as (lm & -> & Hlm). by exists lm, md0.
Qed.

Lemma defensive_inlet_metadata_dict b d x user st v st' :
  heap st !! b = Some (ODict d) ->
  dict_get d "metadata" = Some x ->
  Defensive.inlet (VRef b) user st = (Ok v, st') ->
  exists lm md0, x = VRef lm /\ heap st !! lm = Some (ODict md0).
Proof.
  intros Hb Hx H. unfold Defensive.inlet in H.
  change (when (debug cfg) (print "[DEBUG] Received request"))
    with (log "[DEBUG] Received request") in H.
  rewrite (bind_step _ _ _ _ _ (log_run _ _)) in H.
  assert (Hb1 : is_dict (heap (logged "[DEBUG] Received request" st)) (VRef b)
                = true).
  { rewrite heap_logged. unfold is_dict. by rewrite (as_dict_lookup _ _ _ Hb). }
  rewrite (bind_step _ _ _ _ _ (keys_of_run _ _ Hb1)) in H.
  rewrite (bind_step _ _ _ _ _ (log_run _ _)) in H.
  set (s0 := logged _ (logged _ st)) in *.
  assert (Hh0 : heap s0 = heap st) by (unfold s0; by rewrite !heap_logged).
  assert (Hb0 : heap s0 !! b = Some (ODict d)) by (by rewrite Hh0).
  assert (Hex : Defensive.extract_metadata (VRef b) s0 = (Ok x, s0)).
  { unfold Defensive.extract_metadata.
    rewrite (bind_step _ _ _ _ _ (contains_run _ _ _ _ Hb0)).
    unfold dict_has. rewrite Hx. by apply getitem_run with d. }
  rewrite (bind_step _ _ _ _ _ Hex) in H. unfold Defensive.inlet_rest in H.
  apply bind_ok in H as (c & s2 & Hget & _).
  apply get_or_inv in Hget as (md0 & Hmd0 & _). rewrite Hh0 in Hmd0.
  apply as_dict_ref in Hmd0 as (lm & -> & Hlm). by exists lm, md0.
Qed.

End Coverage.

(** A generation request whose metadata names the model:
    [{"model": "gpt-4", "messages": [{"role": "user", "content": "hi"}],
      "metadata": {"chat_id": "c1", "task": "llm_response",
                   "model": {"name": "GPT-4"}}}] at location 0. *)
Definition request_named : list obj :=
  [ ODict [("model", VStr "gpt-4"); ("messages", VRef 1); ("metadata", VRef 3)];
    OList [VRef 2];
    ODict [("role", VStr "user"); ("content", VStr "hi")];
    ODict [("chat_id", VStr "c1"); ("task", VStr "llm_response");
           ("model", VRef 4)];
    ODict [("name", VStr "GPT-4")] ].

(** C10.  Let the body be the dict [d] at location [b], whose metadata entry
    is not the body itself.  An inlet that returns on a body with a
    metadata entry has found a dict there.

    (1) Strict inlet, on a body whose metadata entry is the dict [md0] at
    [lm], or is absent (then [lm] is the new object and [md0] is empty):
    when it returns, it returns the body, whose metadata entry is the
    object [lm] and whose other entries are as they were.  That object
    holds the conversation id of lines 110-116 (the metadata's own, or a
    uuid, rewritten when it is "local": never "local"), which keys the
    trace store and the model registry; the type, which is the metadata's
    task or "user_response"; the interface "open-webui"; and on a
    generation task the model id, which is the body's model as on record,
    and the model name on record (or "unknown"), which is the name of the
    metadata's model when that has one and the name on record before
    otherwise.  Its other entries are as they were.

    (2) Defensive inlet, when it returns: it returns the body, whose
    metadata entry is the metadata object and whose entries other than
    metadata and messages are as they were (messages too when the body had
    messages or input).  With a metadata dict [md0] in the body, the
    object keeps its chat id; without one, the new object holds the body's
    chat id, or a uuid, rewritten when it is "local" and the body has a
    true session id.  That id keys the model registry, whose record holds
    the id and the name found for the model (lines 172-185).  When a trace
    is registered for it, the object holds the type (the task, or the type,
    or "user_response"), the interface (its own, or "open-webui") and, on
    a generation task, that model id and name.

    (3) The defensive outlet, on a body whose metadata entry is the object
    [lm], for a conversation with an open trace and a task that is not a
    generation task, when a usage record is extracted from the messages:
    it returns the body, whose entries are all as they were, and the
    metadata object holds the usage record. *)
Theorem metadata_enrichment_visible {E : env} b d user st :
  heap st !! b = Some (ODict d) ->
  dict_get d "metadata" <> Some (VRef b) ->
  (forall x v st',
      dict_get d "metadata" = Some x ->
      Strict.inlet (VRef b) user st = (Ok v, st') \/
      Defensive.inlet (VRef b) user st = (Ok v, st') ->
      exists lm md0, x = VRef lm /\ heap st !! lm = Some (ODict md0)) /\
  (forall lm md0 v st',
      (dict_get d "metadata" = Some (VRef lm) /\
       heap st !! lm = Some (ODict md0)
       \/ dict_get d "metadata" = None /\ lm = length (heap st) /\
          md0 = []) ->
      Strict.inlet (VRef b) user st = (Ok v, st') ->
      let c := strict_chat_id (heap st) (uuids st) md0 in
      let task := default (VStr "user_response") (dict_get md0 "task") in
      v = VRef b /\
      exists d' md k r mv,
        heap st' !! b = Some (ODict d') /\
        dict_get d' "metadata" = Some (VRef lm) /\
        (forall K, K <> "metadata" -> dict_get d' K = dict_get d K) /\
        heap st' !! lm = Some (ODict md) /\
        dict_get md "chat_id" = Some c /\ str_is c "local" = false /\
        to_key c = Some k /\
        model_names st' !! k = Some r /\ is_Some (chat_traces st' !! k) /\
        dict_get d "model" = Some mv /\ dict_get r "id" = Some mv /\
        ((forall l, dict_get md0 "model" = Some (VRef l) ->
            l <> b /\ l <> lm) ->
         dict_get r "name"
         = match model_info_name (heap st) md0 with
           | Some name => Some name
           | None => model_names st !! k ≫= (fun r0 => dict_get r0 "name")
           end) /\
        dict_get md "type" = Some task /\
        dict_get md "interface" = Some (VStr "open-webui") /\
        (str_is task "llm_response" = true ->
         dict_get md "model_id" = Some mv /\
         dict_get md "model_name"
         = Some (default (VStr "unknown") (dict_get r "name"))) /\
        (forall K, K <> "chat_id" -> K <> "type" -> K <> "interface" ->
           K <> "model_id" -> K <> "model_name" ->
           dict_get md K = dict_get md0 K)) /\
  (forall lm md0 v st',
      dict_get d "metadata" = Some (VRef lm) ->
      heap st !! lm = Some (ODict md0) ->
      Defensive.inlet (VRef b) user st = (Ok v, st') ->
      let task :=
        default (default (VStr "user_response") (dict_get md0 "type"))
          (dict_get md0 "task") in
      v = VRef b /\
      exists d' md k id name r,
        heap st' !! b = Some (ODict d') /\
        dict_get d' "metadata" = Some (VRef lm) /\
        (forall K, K <> "metadata" -> K <> "messages" ->
           dict_get d' K = dict_get d K) /\
        (dict_has d "messages" || dict_has d "input" = true ->
           dict_get d' "messages" = dict_get d "messages") /\
        heap st' !! lm = Some (ODict md) /\
        dict_get md "chat_id" = dict_get md0 "chat_id" /\
        to_key (default VNone (dict_get md0 "chat_id")) = Some k /\
        model_names st' !! k = Some r /\
        dict_get r "id" = Some id /\ dict_get r "name" = Some name /\
        model_found (heap st) d md0 id name /\
        (is_Some (chat_traces st' !! k) ->
         dict_get md "type" = Some task /\
         dict_get md "interface"
         = Some (default (VStr "open-webui") (dict_get md0 "interface")) /\
         (str_is task "llm_response" = true ->
          dict_get md "model_id" = Some id /\
          dict_get md "model_name" = Some name))) /\
  (forall v st',
      dict_get d "metadata" = None ->
      Defensive.inlet (VRef b) user st = (Ok v, st') ->
      let lm := length (heap st) in
      let h := heap st ++ [ODict []] in
      let a := default VNone (dict_get d "chat_id") in
      let c := if truthy h a then a else VStr (uuid4 (uuids st)) in
      let sid := default VNone (dict_get d "session_id") in
      let chat_id := if str_is c "local" && truthy h sid
                     then temporary_session h sid else c in
      let task := default (VStr "user_response") (dict_get d "type") in
      let model := default VNone (dict_get d "model") in
      v = VRef b /\
      exists d' md k id name r,
        heap st' !! b = Some (ODict d') /\
        dict_get d' "metadata" = Some (VRef lm) /\
        (forall K, K <> "metadata" -> K <> "messages" ->
           dict_get d' K = dict_get d K) /\
        (dict_has d "messages" || dict_has d "input" = true ->
           dict_get d' "messages" = dict_get d "messages") /\
        heap st' !! lm = Some (ODict md) /\
        dict_get md "chat_id" = Some chat_id /\
        to_key chat_id = Some k /\
        model_names st' !! k = Some r /\
        dict_get r "id" = Some id /\ dict_get r "name" = Some name /\
        ((forall l, dict_get d "model" = Some (VRef l) ->
            l < length (heap st)) ->
         match as_dict (heap st) model with
         | Some dm =>
             id = default (VStr "unknown") (dict_get dm "id") /\
             name = default (VStr "unknown") (dict_get dm "name")
         | None =>
             (if is_str model then id = model else id = VStr "unknown") /\
             name = VStr "unknown"
         end) /\
        (is_Some (chat_traces st' !! k) ->
         dict_get md "type" = Some task /\
         dict_get md "interface"
         = Some (default (VStr "open-webui") (dict_get d "interface")) /\
         (str_is task "llm_response" = true ->
          dict_get md "model_id" = Some id /\
          dict_get md "model_name" = Some name))) /\
  (forall lm md chat_id k trace kt messages assistant_message usage s1,
      dict_get d "metadata" = Some (VRef lm) ->
      heap st !! lm = Some (ODict md) ->
      (Defensive.outlet_chat_id (VRef b) st).1 = Ok chat_id ->
      truthy (heap st) chat_id = true ->
      to_key chat_id = Some k ->
      chat_traces st !! k = Some trace ->
      to_key (default (default (VStr "llm_response") (dict_get md "type"))
                (dict_get md "task")) = Some kt ->
      str_is (default (default (VStr "llm_response") (dict_get md "type"))
                (dict_get md "task")) "llm_response" = false ->
      Defensive.gather (VRef b)
        (logged "Outlet function called with body keys" st)
        = (Ok (messages, assistant_message, usage), s1) ->
      truthy (heap s1) usage = true ->
      exists st' md',
        Defensive.outlet (VRef b) user st = (Ok (VRef b), st') /\
        heap st' !! b = Some (ODict d) /\
        heap st' !! lm = Some (ODict md') /\
        dict_get md' "usage" = Some usage /\
        dict_get md' "type" =
          Some (default (default (VStr "llm_response") (dict_get md "type"))
                  (dict_get md "task"))).
Proof.
  intros Hb Hne. split; [| split; [| split; [| split]]].
  - intros x v st' Hx [H | H].
    + by eapply strict_inlet_metadata_dict.
    + by eapply defensive_inlet_metadata_dict.
  - intros lm md0 v st' Hm H c task.
    assert (Hlmb : lm <> b).
    { destruct Hm as [(Hmeta & _) | (_ & -> & _)]; [congruence |].
      apply lookup_lt_Some in Hb. lia. }
    destruct (strict_inlet_enriches b d user st v st' Hb Hne H)
      as (-> & d1 & lm1 & mdx & c1 & k1 & Hd1 & Hmeta1 & Hframe & _ & Hmdx
          & _ & _ & Hk1 & _ & Htr & _).
    destruct (strict_inlet_values b d lm md0 user st (VRef b) st' Hb Hm Hlmb H)
      as (md & k & r & mv & Hmd & Hc & Hk & Hr & Hmv & Hid & Hname & Htype
          & Hint & Hgen & Hother & d2 & Hd2 & Hmeta2).
    rewrite Hd1 in Hd2. injection Hd2 as <-.
    rewrite Hmeta1 in Hmeta2. injection Hmeta2 as ->.
    rewrite Hmd in Hmdx. injection Hmdx as <-.
    split; [reflexivity |]. exists d1, md, k, r, mv.
    split; [exact Hd1 |]. split; [exact Hmeta1 |]. split; [exact Hframe |].
    split; [exact Hmd |].
    split; [exact Hc |]. split; [apply strict_chat_id_not_local |].
    split; [exact Hk |]. split; [exact Hr |].
    split.
    { destruct (strict_inlet_touches b d md0 user st (Ok (VRef b)) st' k Hb)
        as (_ & Hok); try done.
      - destruct Hm as [(-> & Hlm) | (-> & _ & ->)]; [| done].
        by apply as_dict_lookup.
      - by destruct (Hok (VRef b) eq_refl) as (_ & Htrace & _). }
    split; [exact Hmv |]. split; [exact Hid |]. split; [exact Hname |].
    split; [exact Htype |]. split; [exact Hint |]. split; [exact Hgen |].
    exact Hother.
  - intros lm md0 v st' Hmeta Hlm H task.
    assert (Hlmb : lm <> b) by congruence.
    destruct (defensive_inlet_enriches b d user st v st' Hb Hne H)
      as (-> & d1 & lm1 & mdx & k1 & Hd1 & Hmeta1 & Hframe & Hmsgs & _ & Hmdx
          & _).
    destruct (defensive_inlet_values_present b d lm md0 user st (VRef b) st'
                Hb Hmeta Hlm Hlmb H)
      as (md & k & id & name & r & Hmd & Hc & Hk & Hr & Hid & Hname & Hfound
          & Htail & d2 & Hd2 & Hmeta2).
    rewrite Hd1 in Hd2. injection Hd2 as <-.
    rewrite Hmeta1 in Hmeta2. injection Hmeta2 as ->.
    split; [reflexivity |]. exists d1, md, k, id, name, r.
    split; [exact Hd1 |]. split; [exact Hmeta1 |]. split; [exact Hframe |].
    split; [exact Hmsgs |]. split; [exact Hmd |]. split; [exact Hc |].
    split; [exact Hk |]. split; [exact Hr |]. split; [exact Hid |].
    split; [exact Hname |]. split; [exact Hfound | exact Htail].
  - intros v st' Hmeta H lm h a c sid chat_id task model.
    destruct (defensive_inlet_enriches b d user st v st' Hb Hne H)
      as (-> & d1 & lm1 & mdx & k1 & Hd1 & Hmeta1 & Hframe & Hmsgs & _ & Hmdx
          & _).
    destruct (defensive_inlet_values_absent b d user st (VRef b) st'
                Hb Hmeta H)
      as (md & k & id & name & r & Hmd & Hc & Hk & Hr & Hid & Hname & Hfound
          & Htail & d2 & Hd2 & Hmeta2).
    rewrite Hd1 in Hd2. injection Hd2 as <-.
    rewrite Hmeta1 in Hmeta2. injection Hmeta2 as ->.
    split; [reflexivity |]. exists d1, md, k, id, name, r.
    split; [exact Hd1 |]. split; [exact Hmeta1 |]. split; [exact Hframe |].
    split; [exact Hmsgs |]. split; [exact Hmd |]. split; [exact Hc |].
    split; [exact Hk |]. split; [exact Hr |]. split; [exact Hid |].
    split; [exact Hname |]. split; [exact Hfound | exact Htail].
  - intros lm md chat_id k trace kt messages assistant_message usage s1
      Hmeta Hlm. eapply defensive_outlet_usage; try done. congruence.
Qed.

Lemma metadata_enrichment_visible_witness :
  (exists st' md,
      @Strict.inlet calm (VRef 0) VNone (init request_named true)
        = (Ok (VRef 0), st') /\
      heap st' !! 3 = Some (ODict md) /\
      dict_get md "chat_id" = Some (VStr "c1") /\
      dict_get md "type" = Some (VStr "llm_response") /\
      dict_get md "model_id" = Some (VStr "gpt-4") /\
      dict_get md "model_name" = Some (VStr "GPT-4")) /\
  (exists st' md,
      @Defensive.inlet calm (VRef 0) VNone (init request_named true)
        = (Ok (VRef 0), st') /\
      heap st' !! 3 = Some (ODict md) /\
      dict_get md "chat_id" = Some (VStr "c1") /\
      dict_get md "type" = Some (VStr "llm_response") /\
      dict_get md "model_id" = Some (VStr "gpt-4") /\
      dict_get md "model_name" = Some (VStr "GPT-4")) /\
  (exists st' md,
      @Defensive.inlet calm (VRef 0) VNone (init bare_body true)
        = (Ok (VRef 0), st') /\
      heap st' !! 2 = Some (ODict md) /\
      dict_get md "chat_id" = Some (VStr "temporary-session-s1") /\
      dict_get md "type" = Some (VStr "user_response")) /\
  (let st := (@Defensive.inlet calm (VRef 0) VNone (init title_turn true)).2 in
   exists st' md,
     @Defensive.outlet calm (VRef 0) VNone st = (Ok (VRef 0), st') /\
     heap st' !! 5 = Some (ODict md) /\
     dict_get md "usage" = Some (VRef 6)).
Proof.
  split; [| split; [| split]].
  - pose (st := init request_named true).
    destruct (@metadata_enrichment_visible calm 0
                [("model", VStr "gpt-4"); ("messages", VRef 1);
                 ("metadata", VRef 3)] VNone st eq_refl ltac:(done))
      as (_ & Hs & _).
    destruct (Hs 3 [("chat_id", VStr "c1"); ("task", VStr "llm_response");
                    ("model", VRef 4)]
                (VRef 0) (@Strict.inlet calm (VRef 0) VNone st).2
                (or_introl (conj eq_refl eq_refl))
                ltac:(vm_compute; reflexivity))
      as (_ & d' & md & k & r & mv & _ & _ & _ & Hmd & Hc & _ & _ & _ & _
          & Hmv & _ & Hname & Htype & _ & Hgen & _).
    injection Hmv as <-.
    destruct (Hgen eq_refl) as [Hid Hnm].
    rewrite Hname in Hnm.
    2: { intros l [= <-]. split; discriminate. }
    exists (@Strict.inlet calm (VRef 0) VNone st).2, md.
    split; [vm_compute; reflexivity |]. split; [exact Hmd |].
    split; [exact Hc |]. split; [exact Htype |]. split; [exact Hid |].
    exact Hnm.
  - pose (st := init request_named true).
    destruct (@metadata_enrichment_visible calm 0
                [("model", VStr "gpt-4"); ("messages", VRef 1);
                 ("metadata", VRef 3)] VNone st eq_refl ltac:(done))
      as (_ & _ & Hp & _).
    destruct (Hp 3 [("chat_id", VStr "c1"); ("task", VStr "llm_response");
                    ("model", VRef 4)]
                (VRef 0) (@Defensive.inlet calm (VRef 0) VNone st).2
                eq_refl eq_refl ltac:(vm_compute; reflexivity))
      as (_ & d' & md & k & id & name & r & _ & _ & _ & _ & Hmd & Hc & Hk
          & _ & _ & _ & Hfound & Htail).
    injection Hk as <-. destruct Hfound as [-> ->].
    destruct Htail as (Htype & _ & Hgen).
    { vm_compute. by eexists. }
    destruct (Hgen eq_refl) as [Hid Hnm].
    exists (@Defensive.inlet calm (VRef 0) VNone st).2, md.
    split; [vm_compute; reflexivity |]. split; [exact Hmd |].
    split; [exact Hc |]. split; [exact Htype |]. split; [exact Hid |].
    exact Hnm.
  - pose (st := init bare_body true).
    destruct (@metadata_enrichment_visible calm 0
                [("chat_id", VStr "local"); ("session_id", VStr "s1");
                 ("user_id", VStr "u1"); ("model", VStr "gpt-4");
                 ("messages", VRef 1)] VNone st eq_refl ltac:(done))
      as (_ & _ & _ & Ha & _).
    destruct (Ha (VRef 0) (@Defensive.inlet calm (VRef 0) VNone st).2
                eq_refl ltac:(vm_compute; reflexivity))
      as (_ & d' & md & k & id & name & r & _ & _ & _ & _ & Hmd & Hc & Hk
          & _ & _ & _ & _ & Htail).
    injection Hk as <-.
    destruct Htail as (Htype & _).
    { vm_compute. by eexists. }
    exists (@Defensive.inlet calm (VRef 0) VNone st).2, md.
    split; [vm_compute; reflexivity |]. split; [exact Hmd |].
    split; [exact Hc | exact Htype].
  - intros st.
    destruct (@metadata_enrichment_visible calm 0
                [("chat_id", VStr "c1"); ("messages", VRef 1);
                 ("metadata", VRef 5)] VNone st
                ltac:(vm_compute; reflexivity) ltac:(done))
      as (_ & _ & _ & _ & Ho).
    destruct (Ho 5
                [("chat_id", VStr "c1"); ("task", VStr "title_generation");
                 ("type", VStr "title_generation");
                 ("interface", VStr "open-webui")]
                (VStr "c1") (KStr "c1") 0 (KStr "title_generation")
                (VRef 1) (VStr "hello") (VRef 6)
                (@Defensive.gather calm (VRef 0)
                   (@logged calm "Outlet function called with body keys"
                      st)).2)
      as (st' & md' & Hrun & _ & Hmd' & Hu & _);
      try (vm_compute; reflexivity).
    by exists st', md'.
Defined.
